(** * Strategy schedulers of the trading bot: grid and TWAP order managers

    A shallow embedding of [src/advanced/grid_orders.py],
    [src/advanced/twap.py] and the validators of [src/validators.py].

    Conventions of the embedding.
    - A Python [float] is a real number ([R]): rounding, overflow and NaN
      are not modelled, so every equation below is an equation of exact
      arithmetic.  A Python [int] is a [Z].  A Python [str] is a string of
      ASCII characters.
    - A Python exception is a value of [exn]; a function that may raise
      returns a [result].  Division raises [ZeroDivisionError] on a zero
      divisor, as [/] does in Python.
    - The exchange is an abstract world [W] with one transition [api] that
      receives an order request and either acknowledges it or raises.
    - The calls to the logger that match its signatures ([log_order_placed],
      [log_error], [info] with a message only) have no effect on the values
      computed and are left out.  [BotLogger.info] takes a message and
      nothing else: the calls [self.logger.info(..., extra_data=...)] of the
      strategies raise a [TypeError] and are part of the embedding.
    - [time.sleep] has no effect on the values computed and is left out.
      The one exception is a sleep of negative length, which raises: the
      module [TWAPPauses] has the two TWAP entry points with their pauses.
    - The order managers of [src/market_orders_module.py],
      [src/limit_orders_module.py], [src/advanced/stop_limit_orders.py] and
      [src/advanced/oco.py] are embedded in the module [OrderManagers], over
      an exchange that quotes prices and receives orders. *)

From Stdlib Require Import Reals Lra Lia ZArith List String Ascii Bool Arith.
From Stdlib Require Import Permutation.
Import ListNotations.

Open Scope string_scope.
Open Scope list_scope.
Open Scope Z_scope.
Open Scope R_scope.

(** ** Exceptions and results *)

Inductive exn : Type :=
| ValidationError (msg : string)
| ZeroDivisionError
| ValueError (msg : string)
| TypeError (msg : string)
| ComplexPower
| ApiError (msg : string).

(** [str(e)] as stored in the failed-order records: the message of the
    exception. *)
Definition str_exn (e : exn) : string :=
  match e with
  | ValidationError msg => msg
  | ZeroDivisionError => "float division by zero"
  | ValueError msg => msg
  | TypeError msg => msg
  | ComplexPower => "complex power"
  | ApiError msg => msg
  end.

Inductive result (A : Type) : Type :=
| Ok (a : A)
| Raise (e : exn).
Arguments Ok {A} a.
Arguments Raise {A} e.

Definition bind {A B} (m : result A) (k : A -> result B) : result B :=
  match m with
  | Ok a => k a
  | Raise e => Raise e
  end.

Notation "x <- m ;; k" := (bind m (fun x => k))
  (at level 61, m at next level, right associativity).

(** [[f(x) for x in xs]] where [f] may raise: the first exception aborts the
    comprehension. *)
Fixpoint comprehension {A B} (f : A -> result B) (xs : list A) : result (list B) :=
  match xs with
  | [] => Ok []
  | x :: rest =>
      y <- f x ;;
      ys <- comprehension f rest ;;
      Ok (y :: ys)
  end.

(** ** Python arithmetic *)

(** [x / y] on floats. *)
Definition pydiv (x y : R) : result R :=
  if Req_dec_T y 0 then Raise ZeroDivisionError else Ok (x / y).

(** [x ** y] on floats: the real power of a positive base; 0 to a positive
    power is 0, to the power 0 is 1, and to a negative power raises; a
    negative base has a real power for an integral exponent only, the
    complex results of the other exponents have no value in this model
    ([ComplexPower]).  The price calculator is only called after
    [validate_price] on both bounds, so that its bases are positive. *)
Definition pypow (x y : R) : result R :=
  if Rlt_dec 0 x then Ok (Rpower x y)
  else if Req_dec_T x 0 then
    (if Rlt_dec 0 y then Ok 0
     else if Req_dec_T y 0 then Ok 1
     else Raise ZeroDivisionError)
  else
    let k := (up y - 1)%Z in
    if Req_dec_T y (IZR k)
    then Ok ((if Z.even k then 1 else -1) * Rpower (- x) y)
    else Raise ComplexPower.

(** [range(n)] *)
Definition range (n : Z) : list Z :=
  map Z.of_nat (seq 0 (Z.to_nat n)).

(** [sum(xs)]: left to right from 0. *)
Definition pysum (xs : list R) : R := fold_left Rplus xs 0.

(** [enumerate(xs)] *)
Fixpoint enumerate_from {A} (i : Z) (xs : list A) : list (Z * A) :=
  match xs with
  | [] => []
  | x :: rest => (i, x) :: enumerate_from (i + 1)%Z rest
  end.
Definition enumerate {A} (xs : list A) : list (Z * A) := enumerate_from 0%Z xs.

(** [zip(xs, ys)] is [List.combine]. *)
Definition zip {A B} (xs : list A) (ys : list B) : list (A * B) := combine xs ys.

(** [[x] * n] *)
Definition replicate {A} (x : A) (n : Z) : list A := repeat x (Z.to_nat n).

(** ** Python strings (ASCII) *)

Definition is_space (c : ascii) : bool :=
  let n := nat_of_ascii c in
  ((9 <=? n)%nat && (n <=? 13)%nat) || ((28 <=? n)%nat && (n <=? 32)%nat).

Definition upper_ascii (c : ascii) : ascii :=
  let n := nat_of_ascii c in
  if ((97 <=? n)%nat && (n <=? 122)%nat) then ascii_of_nat (n - 32) else c.

Fixpoint upper (s : string) : string :=
  match s with
  | EmptyString => EmptyString
  | String c rest => String (upper_ascii c) (upper rest)
  end.

Fixpoint lstrip (s : string) : string :=
  match s with
  | EmptyString => EmptyString
  | String c rest => if is_space c then lstrip rest else s
  end.

Definition string_rev (s : string) : string :=
  string_of_list_ascii (rev (list_ascii_of_string s)).

Definition strip (s : string) : string :=
  string_rev (lstrip (string_rev (lstrip s))).

(** [s in xs] for a list of strings. *)
Definition str_in (s : string) (xs : list string) : bool :=
  existsb (String.eqb s) xs.

(** ** validators.py: TradingValidator *)

Module TradingValidator.

Definition supported_symbols : list string :=
  [ "BTCUSDT"; "ETHUSDT"; "BNBUSDT"; "ADAUSDT"; "XRPUSDT";
    "SOLUSDT"; "DOTUSDT"; "DOGEUSDT"; "AVAXUSDT"; "MATICUSDT";
    "LINKUSDT"; "LTCUSDT"; "BCHUSDT"; "UNIUSDT"; "ATOMUSDT" ].

Definition min_quantity : R := 1 / 1000.
Definition max_quantity : R := 1000000.
Definition min_price : R := 1 / 10000.
Definition max_price : R := 1000000.
Definition supported_sides : list string := [ "BUY"; "SELL" ].

Definition validate_symbol (symbol : string) : result string :=
  if String.eqb symbol "" then Raise (ValidationError "Symbol cannot be empty")
  else
    let symbol := strip (upper symbol) in
    if negb (str_in symbol supported_symbols) then
      Raise (ValidationError
               ("Symbol " ++ symbol ++ " is not supported. Supported symbols: "
                  ++ String.concat ", " supported_symbols)%string)
    else Ok symbol.

Definition validate_quantity (quantity : R) : result R :=
  if Rle_dec quantity 0 then Raise (ValidationError "Quantity must be positive")
  else if Rlt_dec quantity min_quantity then
    Raise (ValidationError "Quantity must be at least 0.001")
  else if Rgt_dec quantity max_quantity then
    Raise (ValidationError "Quantity cannot exceed 1000000")
  else Ok quantity.

Definition validate_price (price : R) : result R :=
  if Rle_dec price 0 then Raise (ValidationError "Price must be positive")
  else if Rlt_dec price min_price then
    Raise (ValidationError "Price must be at least 0.0001")
  else if Rgt_dec price max_price then
    Raise (ValidationError "Price cannot exceed 1000000")
  else Ok price.

Definition validate_side (side : string) : result string :=
  if String.eqb side "" then Raise (ValidationError "Side cannot be empty")
  else
    let side := strip (upper side) in
    if negb (str_in side supported_sides) then
      Raise (ValidationError
               ("Side " ++ side ++ " is not supported. Supported sides: "
                  ++ String.concat ", " supported_sides)%string)
    else Ok side.

(** The other validators of the class. *)

Definition supported_order_types : list string :=
  [ "MARKET"; "LIMIT"; "STOP_MARKET"; "STOP_LIMIT";
    "TAKE_PROFIT_MARKET"; "TAKE_PROFIT_LIMIT" ].

Definition valid_tif : list string := [ "GTC"; "IOC"; "FOK"; "GTX" ].

Definition validate_order_type (order_type : string) : result string :=
  if String.eqb order_type "" then
    Raise (ValidationError "Order type cannot be empty")
  else
    let order_type := strip (upper order_type) in
    if negb (str_in order_type supported_order_types) then
      Raise (ValidationError
               ("Order type " ++ order_type
                  ++ " is not supported. Supported types: "
                  ++ String.concat ", " supported_order_types)%string)
    else Ok order_type.

(** [validate_leverage] on an [int]: [int(leverage)] is the identity. *)
Definition validate_leverage (leverage : Z) : result Z :=
  if ((leverage <? 1)%Z || (leverage >? 125)%Z)%bool then
    Raise (ValidationError "Leverage must be between 1 and 125")
  else Ok leverage.

Definition validate_time_in_force (time_in_force : string) : result string :=
  if String.eqb time_in_force "" then Ok "GTC"
  else
    let time_in_force := strip (upper time_in_force) in
    if negb (str_in time_in_force valid_tif) then
      Raise (ValidationError
               ("Time in force " ++ time_in_force
                  ++ " is not valid. Valid options: "
                  ++ String.concat ", " valid_tif)%string)
    else Ok time_in_force.

Definition validate_stop_price (stop_price : R) (side : string)
           (current_price : R) : result R :=
  stop_price <- validate_price stop_price ;;
  if (String.eqb side "BUY"
      && (if Rle_dec stop_price current_price then true else false))%bool then
    Raise (ValidationError
             "Stop price for BUY orders must be above current price")
  else if (String.eqb side "SELL"
           && (if Rge_dec stop_price current_price then true else false))%bool
  then
    Raise (ValidationError
             "Stop price for SELL orders must be below current price")
  else Ok stop_price.

Definition validate_take_profit_stop_loss (take_profit stop_loss : R)
           (side : string) (entry_price : R) : result (R * R) :=
  take_profit <- validate_price take_profit ;;
  stop_loss <- validate_price stop_loss ;;
  if String.eqb side "BUY" then
    if Rle_dec take_profit entry_price then
      Raise (ValidationError
               "Take profit for BUY orders must be above entry price")
    else if Rge_dec stop_loss entry_price then
      Raise (ValidationError
               "Stop loss for BUY orders must be below entry price")
    else Ok (take_profit, stop_loss)
  else if String.eqb side "SELL" then
    if Rge_dec take_profit entry_price then
      Raise (ValidationError
               "Take profit for SELL orders must be below entry price")
    else if Rle_dec stop_loss entry_price then
      Raise (ValidationError
               "Stop loss for SELL orders must be above entry price")
    else Ok (take_profit, stop_loss)
  else Ok (take_profit, stop_loss).

Definition validate_grid_parameters (upper_price lower_price : R)
           (grid_number : Z) (quantity : R) : result (R * R * Z * R) :=
  upper_price <- validate_price upper_price ;;
  lower_price <- validate_price lower_price ;;
  if Rle_dec upper_price lower_price then
    Raise (ValidationError "Upper price must be greater than lower price")
  else if ((grid_number <? 2)%Z || (grid_number >? 100)%Z)%bool then
    Raise (ValidationError "Grid number must be between 2 and 100")
  else
    quantity <- validate_quantity quantity ;;
    Ok (upper_price, lower_price, grid_number, quantity).

Definition validate_twap_parameters (total_quantity : R)
           (duration_minutes chunks : Z) : result (R * Z * Z) :=
  total_quantity <- validate_quantity total_quantity ;;
  if ((duration_minutes <? 1)%Z || (duration_minutes >? 1440)%Z)%bool then
    Raise (ValidationError "Duration must be between 1 and 1440 minutes")
  else if ((chunks <? 2)%Z || (chunks >? 100)%Z)%bool then
    Raise (ValidationError "Number of chunks must be between 2 and 100")
  else Ok (total_quantity, duration_minutes, chunks).

(** The dictionaries of validated parameters; their values are computed in
    the order of the keys. *)
Record market_params : Type := mk_market_params {
  mp_symbol : string;
  mp_side : string;
  mp_quantity : R
}.

Record limit_params : Type := mk_limit_params {
  lp_symbol : string;
  lp_side : string;
  lp_quantity : R;
  lp_price : R;
  lp_time_in_force : string
}.

Definition validate_market_order_params (symbol side : string) (quantity : R)
  : result market_params :=
  symbol <- validate_symbol symbol ;;
  side <- validate_side side ;;
  quantity <- validate_quantity quantity ;;
  Ok {| mp_symbol := symbol; mp_side := side; mp_quantity := quantity |}.

Definition validate_limit_order_params (symbol side : string)
           (quantity price : R) (time_in_force : string) : result limit_params :=
  symbol <- validate_symbol symbol ;;
  side <- validate_side side ;;
  quantity <- validate_quantity quantity ;;
  price <- validate_price price ;;
  time_in_force <- validate_time_in_force time_in_force ;;
  Ok {| lp_symbol := symbol; lp_side := side; lp_quantity := quantity;
        lp_price := price; lp_time_in_force := time_in_force |}.

End TradingValidator.

(** ** The exchange: api_client.py as seen by the strategies *)

(** The parameters of [place_limit_order] and [place_market_order]. *)
Inductive request : Type :=
| LimitOrder (symbol side : string) (quantity : R) (price : option R)
             (time_in_force : string)
| MarketOrder (symbol side : string) (quantity : R).

(** A value found under a key of the response dictionary that [float(...)]
    is applied to: missing, a number, or a string [float] rejects, given as
    [repr] prints it, quotes included. *)
Inductive field : Type :=
| Absent
| Num (r : R)
| Unparsable (repr : string).

Record response : Type := mk_response {
  orderId : option Z;
  status : option string;
  executedQty : field;
  cummulativeQuoteQty : field
}.

(** [float(d.get(key, 0))]; the message of the [ValueError] quotes the
    string. *)
Definition float_get (f : field) : result R :=
  match f with
  | Absent => Ok 0
  | Num r => Ok r
  | Unparsable repr =>
      Raise (ValueError ("could not convert string to float: " ++ repr))
  end.

(** ** logger.py: BotLogger as the strategies call it

    [def info(self, message: str)] (line 168) has one parameter.  The
    strategies call it with a keyword,
    [self.logger.info(message, extra_data=...)]: once its arguments are
    evaluated the call raises a [TypeError], and nothing is logged.  (The
    message is the one of CPython 3.10 and later, which names the class.) *)
Module BotLogger.

Definition unexpected_keyword : string :=
  "BotLogger.info() got an unexpected keyword argument 'extra_data'".

(** [self.logger.info(message, extra_data=...)] *)
Definition info_extra_data : result unit :=
  Raise (TypeError unexpected_keyword).

End BotLogger.

(** The last two statements of a strategy's entry point:
    [self.logger.info("... completed", extra_data=result)] and
    [return result], applied to the outcome of what comes before them.  The
    [except] block around the body of the entry point logs the exception
    and raises it again. *)
Definition log_and_return {W A} (r : result A * W) : result A * W :=
  let '(result, w) := r in
  (result <- result ;;
   _ <- BotLogger.info_extra_data ;;
   Ok result,
   w).

(** ** The loop shared by every strategy

    [for leg in legs: try: body except Exception as e: handler].  The state
    [S] holds the lists (and totals) the loop appends to.  A body returns
    the state as it has left it, and whether it ended or raised: what a body
    has appended before it raises stays appended.  The exception goes to the
    handler, and the loop goes on with the next leg in both cases. *)
Section Executor.
Context {W L S : Type}.
Variable body : L -> S -> W -> S * result unit * W.
Variable handler : L -> exn -> S -> S.

Fixpoint for_try_except (legs : list L) (s : S) (w : W) : S * W :=
  match legs with
  | [] => (s, w)
  | leg :: rest =>
      match body leg s w with
      | (s', Ok _, w') => for_try_except rest s' w'
      | (s', Raise e, w') => for_try_except rest (handler leg e s') w'
      end
  end.
End Executor.

(** [if cond: raise ValidationError(msg)] *)
Definition raise_if (cond : bool) (msg : string) : result unit :=
  if cond then Raise (ValidationError msg) else Ok tt.

Definition Rle_b (x y : R) : bool := if Rle_dec x y then true else false.
Definition Rlt_b (x y : R) : bool := if Rlt_dec x y then true else false.

(** ** advanced/grid_orders.py: GridOrderManager

    [place_grid_order] (lines 23-175), [place_martingale_grid] (177-325),
    [place_dca_grid] (327-473), [_calculate_grid_prices] (475-500) and
    [_calculate_grid_quantities] (502-519).  An entry point is split into
    what it does before its placement loop ([..._prepare]: the validation
    and the schedule), the loop and the result dictionary ([..._result]),
    and the last two statements: the call of the logger and [return]. *)

Module GridOrderManager.
Import TradingValidator.

Record placed_order : Type := mk_placed {
  po_grid_index : Z;
  po_price : R;
  po_quantity : R;
  po_usdt_amount : option R;   (* key present in the DCA grid only *)
  po_side : string;
  po_order_id : option Z;
  po_status : option string
}.

Record failed_order : Type := mk_failed {
  fo_grid_index : Z;
  fo_price : R;
  fo_quantity : R;
  fo_error : string
}.

(** The result dictionaries; the keys shared by the three strategies come
    first, [rep_extra] holds the strategy's own keys. *)
Inductive extra : Type :=
| GridExtra (total_quantity : R)
| MartingaleExtra (base_quantity total_quantity multiplier : R)
| DcaExtra (total_usdt total_quantity usdt_per_grid : R).

Record report : Type := mk_report {
  rep_symbol : string;
  rep_side : string;
  rep_upper_price : R;
  rep_lower_price : R;
  rep_num_grids : Z;
  rep_grid_type : string;
  rep_placed_orders : list placed_order;
  rep_failed_orders : list failed_order;
  rep_success_rate : R;
  rep_grid_prices : list R;
  rep_grid_quantities : list R;
  rep_extra : extra
}.

Definition _calculate_grid_prices (lower_price upper_price : R)
           (num_grids : Z) (grid_type : string) : result (list R) :=
  if String.eqb grid_type "ARITHMETIC" then
    price_step <- pydiv (upper_price - lower_price) (IZR (num_grids - 1)) ;;
    Ok (map (fun i => lower_price + IZR i * price_step) (range num_grids))
  else if String.eqb grid_type "GEOMETRIC" then
    quotient <- pydiv upper_price lower_price ;;
    exponent <- pydiv 1 (IZR (num_grids - 1)) ;;
    ratio <- pypow quotient exponent ;;
    comprehension (fun i => p <- pypow ratio (IZR i) ;; Ok (lower_price * p))
                  (range num_grids)
  else
    comprehension
      (fun i =>
         d <- pydiv (IZR i * (upper_price - lower_price)) (IZR (num_grids - 1)) ;;
         Ok (lower_price + d))
      (range num_grids).

Definition _calculate_grid_quantities (total_quantity : R) (num_grids : Z)
           (side : string) : result (list R) :=
  if String.eqb side "BOTH" then
    q <- pydiv total_quantity (IZR num_grids) ;; Ok (replicate q num_grids)
  else
    q <- pydiv total_quantity (IZR num_grids) ;; Ok (replicate q num_grids).

(** The Martingale quantity loop: append, then multiply. *)
Fixpoint martingale_loop (multiplier : R) (indices : list Z)
         (grid_quantities : list R) (current_quantity : R) : list R :=
  match indices with
  | [] => grid_quantities
  | _ :: rest =>
      martingale_loop multiplier rest (grid_quantities ++ [current_quantity])
                      (current_quantity * multiplier)
  end.

Definition martingale_quantities (base_quantity multiplier : R) (num_grids : Z)
  : list R :=
  martingale_loop multiplier (range num_grids) [] base_quantity.

(** [len(placed_orders) / num_grids * 100] *)
Definition success_rate {A} (placed : list A) (n : Z) : result R :=
  r <- pydiv (IZR (Z.of_nat (List.length placed))) (IZR n) ;; Ok (r * 100).

(** The logger calls that end the [try] block of a leg.  Their [extra_data]
    is a dictionary of values already at hand, except in the Martingale
    grid, where it holds [multiplier ** i]. *)
Definition log_leg_placed (i : Z) : result unit :=
  BotLogger.info_extra_data.

Definition log_martingale_leg_placed (multiplier : R) (i : Z) : result unit :=
  _ <- pypow multiplier (IZR i) ;;
  BotLogger.info_extra_data.

Section WithApi.
Variable W : Type.
Variable api : request -> W -> result response * W.

Definition loop_state : Type := (list placed_order * list failed_order)%type.
Definition leg : Type := (Z * (R * R))%type.

(** The [try] block of the placement loops: [side_of i] is the side of
    leg [i], [usdt] the optional [usdt_amount] key, [log] the logger call
    that follows [placed_orders.append].  When the order call raises, the
    lists are as they were; when it returns, the record is appended before
    the logger is called. *)
Definition place_leg (symbol : string) (side_of : Z -> string)
           (time_in_force : string) (usdt : option R) (log : Z -> result unit)
           (l : leg) (s : loop_state) (w : W) : loop_state * result unit * W :=
  let '(i, (price, quantity)) := l in
  let '(placed_orders, failed_orders) := s in
  let grid_side := side_of i in
  match api (LimitOrder symbol grid_side quantity (Some price) time_in_force) w with
  | (Ok order_result, w') =>
      ((placed_orders ++
          [ {| po_grid_index := i + 1; po_price := price;
               po_quantity := quantity; po_usdt_amount := usdt;
               po_side := grid_side;
               po_order_id := orderId order_result;
               po_status := status order_result |} ],
        failed_orders),
       log i, w')
  | (Raise e, w') => (s, Raise e, w')
  end.

(** The [except] block of the placement loops. *)
Definition record_failure (l : leg) (e : exn) (s : loop_state) : loop_state :=
  let '(i, (price, quantity)) := l in
  let '(placed_orders, failed_orders) := s in
  (placed_orders,
   failed_orders ++
     [ {| fo_grid_index := i + 1; fo_price := price;
          fo_quantity := quantity; fo_error := str_exn e |} ]).

Definition place_legs (symbol : string) (side_of : Z -> string)
           (time_in_force : string) (usdt : option R) (log : Z -> result unit)
           (grid_prices grid_quantities : list R) (w : W) : loop_state * W :=
  for_try_except (place_leg symbol side_of time_in_force usdt log) record_failure
                 (enumerate (zip grid_prices grid_quantities)) ([], []) w.

(** Side of leg [i] in [place_grid_order]. *)
Definition grid_side_of (side : string) (i : Z) : string :=
  if String.eqb side "BOTH" then
    (if Z.eqb (i mod 2) 0 then "BUY" else "SELL")
  else side.

(** What [place_grid_order] does before the placement loop: validation,
    then the schedule. *)
Definition grid_prepare (symbol side : string)
           (total_quantity upper_price lower_price : R) (num_grids : Z)
           (grid_type : string)
  : result (string * string * R * R * R * list R * list R) :=
  symbol <- validate_symbol symbol ;;
  side <- validate_side side ;;
  total_quantity <- validate_quantity total_quantity ;;
  upper_price <- validate_price upper_price ;;
  lower_price <- validate_price lower_price ;;
  _ <- raise_if (Rle_b upper_price lower_price)
         "Upper price must be greater than lower price" ;;
  _ <- raise_if (num_grids <? 2)%Z "Number of grids must be at least 2" ;;
  _ <- raise_if (num_grids >? 50)%Z "Number of grids cannot exceed 50" ;;
  _ <- raise_if (negb (str_in grid_type ["ARITHMETIC"; "GEOMETRIC"]))
         ("Invalid grid type: " ++ grid_type
            ++ ". Must be 'ARITHMETIC' or 'GEOMETRIC'")%string ;;
  grid_prices <- _calculate_grid_prices lower_price upper_price num_grids grid_type ;;
  grid_quantities <- _calculate_grid_quantities total_quantity num_grids side ;;
  Ok (symbol, side, total_quantity, upper_price, lower_price,
      grid_prices, grid_quantities).

(** [place_grid_order] down to the dictionary [result] (line 157). *)
Definition grid_order_result (symbol side : string)
           (total_quantity upper_price lower_price : R) (num_grids : Z)
           (grid_type time_in_force : string) (w : W) : result report * W :=
  match grid_prepare symbol side total_quantity upper_price lower_price
                     num_grids grid_type with
  | Raise e => (Raise e, w)
  | Ok (symbol, side, total_quantity, upper_price, lower_price,
        grid_prices, grid_quantities) =>
      let '((placed_orders, failed_orders), w') :=
        place_legs symbol (grid_side_of side) time_in_force None
                   log_leg_placed grid_prices grid_quantities w in
      (rate <- success_rate placed_orders num_grids ;;
       Ok {| rep_symbol := symbol; rep_side := side;
             rep_upper_price := upper_price; rep_lower_price := lower_price;
             rep_num_grids := num_grids; rep_grid_type := grid_type;
             rep_placed_orders := placed_orders;
             rep_failed_orders := failed_orders;
             rep_success_rate := rate;
             rep_grid_prices := grid_prices;
             rep_grid_quantities := grid_quantities;
             rep_extra := GridExtra total_quantity |},
       w')
  end.

Definition place_grid_order (symbol side : string)
           (total_quantity upper_price lower_price : R) (num_grids : Z)
           (grid_type time_in_force : string) (w : W) : result report * W :=
  log_and_return
    (grid_order_result symbol side total_quantity upper_price lower_price
                       num_grids grid_type time_in_force w).

Definition martingale_prepare (symbol side : string)
           (base_quantity upper_price lower_price : R) (num_grids : Z)
           (multiplier : R) (grid_type : string)
  : result (string * string * R * R * R * list R * list R) :=
  symbol <- validate_symbol symbol ;;
  side <- validate_side side ;;
  base_quantity <- validate_quantity base_quantity ;;
  upper_price <- validate_price upper_price ;;
  lower_price <- validate_price lower_price ;;
  _ <- raise_if (Rle_b upper_price lower_price)
         "Upper price must be greater than lower price" ;;
  _ <- raise_if (Rle_b multiplier 1) "Multiplier must be greater than 1.0" ;;
  _ <- raise_if (num_grids <? 2)%Z "Number of grids must be at least 2" ;;
  grid_prices <- _calculate_grid_prices lower_price upper_price num_grids grid_type ;;
  Ok (symbol, side, base_quantity, upper_price, lower_price,
      grid_prices, martingale_quantities base_quantity multiplier num_grids).

(** [place_martingale_grid] down to the dictionary [result] (line 309). *)
Definition martingale_grid_result (symbol side : string)
           (base_quantity upper_price lower_price : R) (num_grids : Z)
           (multiplier : R) (grid_type : string) (w : W) : result report * W :=
  match martingale_prepare symbol side base_quantity upper_price lower_price
                           num_grids multiplier grid_type with
  | Raise e => (Raise e, w)
  | Ok (symbol, side, base_quantity, upper_price, lower_price,
        grid_prices, grid_quantities) =>
      let '((placed_orders, failed_orders), w') :=
        place_legs symbol (fun _ => side) "GTC" None
                   (log_martingale_leg_placed multiplier)
                   grid_prices grid_quantities w in
      (rate <- success_rate placed_orders num_grids ;;
       Ok {| rep_symbol := symbol; rep_side := side;
             rep_upper_price := upper_price; rep_lower_price := lower_price;
             rep_num_grids := num_grids; rep_grid_type := grid_type;
             rep_placed_orders := placed_orders;
             rep_failed_orders := failed_orders;
             rep_success_rate := rate;
             rep_grid_prices := grid_prices;
             rep_grid_quantities := grid_quantities;
             rep_extra := MartingaleExtra base_quantity
                            (pysum grid_quantities) multiplier |},
       w')
  end.

Definition place_martingale_grid (symbol side : string)
           (base_quantity upper_price lower_price : R) (num_grids : Z)
           (multiplier : R) (grid_type : string) (w : W) : result report * W :=
  log_and_return
    (martingale_grid_result symbol side base_quantity upper_price lower_price
                            num_grids multiplier grid_type w).

Definition dca_prepare (symbol side : string)
           (total_usdt upper_price lower_price : R) (num_grids : Z)
           (grid_type : string)
  : result (string * string * R * R * R * list R * list R) :=
  symbol <- validate_symbol symbol ;;
  side <- validate_side side ;;
  _ <- raise_if (Rle_b total_usdt 0) "Total USDT amount must be positive" ;;
  upper_price <- validate_price upper_price ;;
  lower_price <- validate_price lower_price ;;
  _ <- raise_if (Rle_b upper_price lower_price)
         "Upper price must be greater than lower price" ;;
  grid_prices <- _calculate_grid_prices lower_price upper_price num_grids grid_type ;;
  usdt_per_grid <- pydiv total_usdt (IZR num_grids) ;;
  grid_quantities <- comprehension (fun price => pydiv usdt_per_grid price)
                                   grid_prices ;;
  Ok (symbol, side, usdt_per_grid, upper_price, lower_price,
      grid_prices, grid_quantities).

(** [place_dca_grid] down to the dictionary [result] (line 458). *)
Definition dca_grid_result (symbol side : string)
           (total_usdt upper_price lower_price : R) (num_grids : Z)
           (grid_type : string) (w : W) : result report * W :=
  match dca_prepare symbol side total_usdt upper_price lower_price
                    num_grids grid_type with
  | Raise e => (Raise e, w)
  | Ok (symbol, side, usdt_per_grid, upper_price, lower_price,
        grid_prices, grid_quantities) =>
      let '((placed_orders, failed_orders), w') :=
        place_legs symbol (fun _ => side) "GTC" (Some usdt_per_grid)
                   log_leg_placed grid_prices grid_quantities w in
      (rate <- success_rate placed_orders num_grids ;;
       Ok {| rep_symbol := symbol; rep_side := side;
             rep_upper_price := upper_price; rep_lower_price := lower_price;
             rep_num_grids := num_grids; rep_grid_type := grid_type;
             rep_placed_orders := placed_orders;
             rep_failed_orders := failed_orders;
             rep_success_rate := rate;
             rep_grid_prices := grid_prices;
             rep_grid_quantities := grid_quantities;
             rep_extra := DcaExtra total_usdt (pysum grid_quantities)
                            usdt_per_grid |},
       w')
  end.

Definition place_dca_grid (symbol side : string)
           (total_usdt upper_price lower_price : R) (num_grids : Z)
           (grid_type : string) (w : W) : result report * W :=
  log_and_return
    (dca_grid_result symbol side total_usdt upper_price lower_price
                     num_grids grid_type w).
End WithApi.

End GridOrderManager.

(** ** advanced/twap.py: TWAPOrderManager

    [place_twap_order] (lines 23-188), [place_twap_with_volume_profile]
    (190-334) and [_calculate_volume_profile] (336-375).  An entry point is
    split into what it does before its loop ([..._prepare]), the loop and
    the result dictionary ([..._result]), and the last two statements: the
    call of the logger and [return]. *)

Module TWAPOrderManager.
Import TradingValidator.

Record executed_chunk : Type := mk_executed {
  ec_chunk_index : Z;
  ec_quantity : R;
  ec_order_id : option Z;
  ec_status : option string;
  ec_executed_qty : R;
  ec_cummulative_quote_qty : R
}.

Record failed_chunk : Type := mk_failed_chunk {
  fc_chunk_index : Z;
  fc_quantity : R;
  fc_error : string
}.

Record twap_report : Type := mk_twap_report {
  tw_symbol : string;
  tw_side : string;
  tw_total_quantity : R;
  tw_duration_minutes : Z;
  tw_num_chunks : Z;
  tw_volume_profile : option string;  (* key of the volume-profile run only *)
  tw_order_type : string;
  tw_price : option R;
  tw_total_executed : R;
  tw_total_cost : R;
  tw_average_price : R;
  tw_executed_chunks : list executed_chunk;
  tw_failed_chunks : list failed_chunk;
  tw_success_rate : R
}.

(** [total_quantity * w / total_weight for w in weights] *)
Definition renormalize (total_quantity : R) (weights : list R) : result (list R) :=
  let total_weight := pysum weights in
  comprehension (fun w => pydiv (total_quantity * w) total_weight) weights.

Definition front_loaded_weight (num_chunks i : Z) : result R :=
  d <- pydiv (5 / 10 * IZR i) (IZR (num_chunks - 1)) ;; Ok (15 / 10 - d).

Definition back_loaded_weight (num_chunks i : Z) : result R :=
  d <- pydiv (5 / 10 * IZR i) (IZR (num_chunks - 1)) ;; Ok (5 / 10 + d).

Definition middle_loaded_weight (num_chunks i : Z) : result R :=
  let mid_point := IZR (num_chunks - 1) / 2 in
  let distance := Rabs (IZR i - mid_point) in
  d <- pydiv distance mid_point ;;
  let weight := 15 / 10 - d in
  Ok (Rmax (5 / 10) weight).

Definition _calculate_volume_profile (total_quantity : R) (num_chunks : Z)
           (profile : string) : result (list R) :=
  if String.eqb profile "UNIFORM" then
    q <- pydiv total_quantity (IZR num_chunks) ;; Ok (replicate q num_chunks)
  else if String.eqb profile "FRONT_LOADED" then
    weights <- comprehension (front_loaded_weight num_chunks) (range num_chunks) ;;
    renormalize total_quantity weights
  else if String.eqb profile "BACK_LOADED" then
    weights <- comprehension (back_loaded_weight num_chunks) (range num_chunks) ;;
    renormalize total_quantity weights
  else if String.eqb profile "MIDDLE_LOADED" then
    weights <- comprehension (middle_loaded_weight num_chunks) (range num_chunks) ;;
    renormalize total_quantity weights
  else
    q <- pydiv total_quantity (IZR num_chunks) ;; Ok (replicate q num_chunks).

(** [total_cost / total_executed if total_executed > 0 else 0] *)
Definition average_price (total_cost total_executed : R) : result R :=
  if Rlt_b 0 total_executed then pydiv total_cost total_executed else Ok 0.

(** [len(executed_chunks) / num_chunks * 100] *)
Definition chunk_success_rate {A} (executed : list A) (n : Z) : result R :=
  r <- pydiv (IZR (Z.of_nat (List.length executed))) (IZR n) ;; Ok (r * 100).

(** [validate_price] on an optional price: [float(None)] is rejected. *)
Definition validate_price_opt (price : option R) : result R :=
  match price with
  | Some p => validate_price p
  | None => Raise (ValidationError "Price must be a valid number")
  end.

Definition is_none {A} (o : option A) : bool :=
  match o with None => true | Some _ => false end.

Section WithApi.
Variable W : Type.
Variable api : request -> W -> result response * W.

(** executed_chunks, failed_chunks, total_executed, total_cost *)
Definition chunk_state : Type :=
  (list executed_chunk * list failed_chunk * R * R)%type.

(** The order of one chunk: market, or else limit. *)
Definition chunk_request (symbol side order_type : string) (price : option R)
           (time_in_force : string) (quantity : R) : request :=
  if String.eqb order_type "MARKET" then MarketOrder symbol side quantity
  else LimitOrder symbol side quantity price time_in_force.

(** The logger call that ends the [try] block of [place_twap_order]; the
    [try] block of [place_twap_with_volume_profile] has none. *)
Definition log_chunk_executed : result unit := BotLogger.info_extra_data.

(** [float(chunk_result.get('executedQty', 0))] and
    [float(chunk_result.get('cummulativeQuoteQty', 0))], evaluated for the
    dictionary that [executed_chunks.append] receives. *)
Definition executed_amounts (chunk_result : response) : result (R * R) :=
  executed_qty <- float_get (executedQty chunk_result) ;;
  quote_qty <- float_get (cummulativeQuoteQty chunk_result) ;;
  Ok (executed_qty, quote_qty).

(** From the order call to the end of the [try] block; [log] is what
    follows the update of the totals.  When the order call or a conversion
    raises, lists and totals are as they were; otherwise the record is
    appended and the totals are updated before [log]. *)
Definition execute_chunk (req : request) (i : Z) (quantity : R)
           (log : result unit) (s : chunk_state) (w : W)
  : chunk_state * result unit * W :=
  let '(executed_chunks, failed_chunks, total_executed, total_cost) := s in
  match api req w with
  | (Ok chunk_result, w') =>
      match executed_amounts chunk_result with
      | Ok (executed_qty, quote_qty) =>
          ((executed_chunks ++
              [ {| ec_chunk_index := i + 1; ec_quantity := quantity;
                   ec_order_id := orderId chunk_result;
                   ec_status := status chunk_result;
                   ec_executed_qty := executed_qty;
                   ec_cummulative_quote_qty := quote_qty |} ],
            failed_chunks,
            total_executed + executed_qty,
            total_cost + quote_qty),
           log, w')
      | Raise e => (s, Raise e, w')
      end
  | (Raise e, w') => (s, Raise e, w')
  end.

(** The [except] block of both loops. *)
Definition record_failed_chunk (i : Z) (quantity : R) (e : exn) (s : chunk_state)
  : chunk_state :=
  let '(executed_chunks, failed_chunks, total_executed, total_cost) := s in
  (executed_chunks,
   failed_chunks ++
     [ {| fc_chunk_index := i + 1; fc_quantity := quantity;
          fc_error := str_exn e |} ],
   total_executed, total_cost).

Definition initial_state : chunk_state := ([], [], 0, 0).

(** From the average price to the result dictionary. *)
Definition finish (symbol side : string) (total_quantity : R)
           (duration_minutes num_chunks : Z) (volume_profile : option string)
           (order_type : string) (price : option R)
           (s : chunk_state) : result twap_report :=
  let '(executed_chunks, failed_chunks, total_executed, total_cost) := s in
  avg_price <- average_price total_cost total_executed ;;
  rate <- chunk_success_rate executed_chunks num_chunks ;;
  Ok {| tw_symbol := symbol; tw_side := side;
        tw_total_quantity := total_quantity;
        tw_duration_minutes := duration_minutes;
        tw_num_chunks := num_chunks;
        tw_volume_profile := volume_profile;
        tw_order_type := order_type; tw_price := price;
        tw_total_executed := total_executed;
        tw_total_cost := total_cost;
        tw_average_price := avg_price;
        tw_executed_chunks := executed_chunks;
        tw_failed_chunks := failed_chunks;
        tw_success_rate := rate |}.

(** What [place_twap_order] does before the loop. *)
Definition twap_prepare (symbol side : string) (total_quantity : R)
           (duration_minutes num_chunks : Z) (order_type : string)
           (price : option R)
  : result (string * string * R * option R * R) :=
  symbol <- validate_symbol symbol ;;
  side <- validate_side side ;;
  total_quantity <- validate_quantity total_quantity ;;
  _ <- raise_if (negb (str_in order_type ["MARKET"; "LIMIT"]))
         ("Invalid order type: " ++ order_type
            ++ ". Must be 'MARKET' or 'LIMIT'")%string ;;
  _ <- raise_if (String.eqb order_type "LIMIT" && is_none price)
         "Price is required for LIMIT orders" ;;
  price <- (if String.eqb order_type "LIMIT"
            then p <- validate_price_opt price ;; Ok (Some p)
            else Ok price) ;;
  _ <- raise_if (duration_minutes <? 1)%Z "Duration must be at least 1 minute" ;;
  _ <- raise_if (num_chunks <? 2)%Z "Number of chunks must be at least 2" ;;
  _ <- raise_if (num_chunks >? 100)%Z "Number of chunks cannot exceed 100" ;;
  chunk_quantity <- pydiv total_quantity (IZR num_chunks) ;;
  interval_seconds <- pydiv (IZR (duration_minutes * 60)) (IZR (num_chunks - 1)) ;;
  chunk_quantity <- validate_quantity chunk_quantity ;;
  Ok (symbol, side, total_quantity, price, chunk_quantity).

(** The [try] block of [place_twap_order]. *)
Definition twap_chunk (symbol side order_type : string) (price : option R)
           (time_in_force : string) (chunk_quantity : R) (i : Z)
  : chunk_state -> W -> chunk_state * result unit * W :=
  execute_chunk (chunk_request symbol side order_type price time_in_force
                               chunk_quantity)
                i chunk_quantity log_chunk_executed.

(** [place_twap_order] down to the dictionary [result] (line 171). *)
Definition twap_order_result (symbol side : string) (total_quantity : R)
           (duration_minutes num_chunks : Z) (order_type : string)
           (price : option R) (time_in_force : string) (w : W)
  : result twap_report * W :=
  match twap_prepare symbol side total_quantity duration_minutes num_chunks
                     order_type price with
  | Raise e => (Raise e, w)
  | Ok (symbol, side, total_quantity, price, chunk_quantity) =>
      let '(s, w') :=
        for_try_except
          (twap_chunk symbol side order_type price time_in_force chunk_quantity)
          (fun i => record_failed_chunk i chunk_quantity)
          (range num_chunks) initial_state w in
      (finish symbol side total_quantity duration_minutes num_chunks None
              order_type price s, w')
  end.

Definition place_twap_order (symbol side : string) (total_quantity : R)
           (duration_minutes num_chunks : Z) (order_type : string)
           (price : option R) (time_in_force : string) (w : W)
  : result twap_report * W :=
  log_and_return
    (twap_order_result symbol side total_quantity duration_minutes num_chunks
                       order_type price time_in_force w).

(** What [place_twap_with_volume_profile] does before the loop;
    [num_chunks] is the constant 10. *)
Definition profile_prepare (symbol side : string) (total_quantity : R)
           (duration_minutes : Z) (volume_profile : string)
  : result (string * string * R * Z * list R) :=
  symbol <- validate_symbol symbol ;;
  side <- validate_side side ;;
  total_quantity <- validate_quantity total_quantity ;;
  _ <- raise_if (negb (str_in volume_profile
                         ["UNIFORM"; "FRONT_LOADED"; "BACK_LOADED"; "MIDDLE_LOADED"]))
         ("Invalid volume profile: " ++ volume_profile)%string ;;
  let num_chunks := 10%Z in
  chunk_quantities <- _calculate_volume_profile total_quantity num_chunks
                                                volume_profile ;;
  interval_seconds <- pydiv (IZR (duration_minutes * 60)) (IZR (num_chunks - 1)) ;;
  Ok (symbol, side, total_quantity, num_chunks, chunk_quantities).

(** The [try] block of [place_twap_with_volume_profile]. *)
Definition profile_chunk (symbol side order_type : string) (price : option R)
           (l : Z * R) (s : chunk_state) (w : W)
  : chunk_state * result unit * W :=
  let '(i, chunk_qty) := l in
  match validate_quantity chunk_qty with
  | Raise e => (s, Raise e, w)
  | Ok chunk_qty =>
      execute_chunk (chunk_request symbol side order_type price "GTC" chunk_qty)
                    i chunk_qty (Ok tt) s w
  end.

(** [place_twap_with_volume_profile] down to the dictionary [result]
    (line 318). *)
Definition volume_profile_result (symbol side : string)
           (total_quantity : R) (duration_minutes : Z)
           (volume_profile order_type : string) (price : option R) (w : W)
  : result twap_report * W :=
  match profile_prepare symbol side total_quantity duration_minutes
                        volume_profile with
  | Raise e => (Raise e, w)
  | Ok (symbol, side, total_quantity, num_chunks, chunk_quantities) =>
      let '(s, w') :=
        for_try_except
          (profile_chunk symbol side order_type price)
          (fun '(i, chunk_qty) => record_failed_chunk i chunk_qty)
          (enumerate chunk_quantities) initial_state w in
      (finish symbol side total_quantity duration_minutes num_chunks
              (Some volume_profile) order_type price s, w')
  end.

Definition place_twap_with_volume_profile (symbol side : string)
           (total_quantity : R) (duration_minutes : Z)
           (volume_profile order_type : string) (price : option R) (w : W)
  : result twap_report * W :=
  log_and_return
    (volume_profile_result symbol side total_quantity duration_minutes
                           volume_profile order_type price w).
End WithApi.

End TWAPOrderManager.

(** ** The pause between two chunks

    [time.sleep(interval_seconds)] follows every chunk but the last.  A
    pause changes none of the values computed, but [time.sleep] raises a
    [ValueError] when its argument is negative, and the pause stands outside
    the [try] block of the chunk: the error ends the run.  The definitions
    below are the two TWAP entry points with their pauses. *)

Module TWAPPauses.
Import TradingValidator TWAPOrderManager.

(** [time.sleep(seconds)]: a negative length is a [ValueError]; the upper
    limit of the platform's clock is not modelled. *)
Definition sleep (seconds : R) : result unit :=
  if Rlt_b seconds 0
  then Raise (ValueError "sleep length must be non-negative")
  else Ok tt.

Section Loop.
Context {W L S : Type}.
Variable body : L -> S -> W -> S * result unit * W.
Variable handler : L -> exn -> S -> S.
Variable pause : L -> result unit.

(** [for leg in legs: try: body except Exception as e: handler] followed,
    in the loop, by [pause]. *)
Fixpoint for_try_except_pause (legs : list L) (s : S) (w : W) : result S * W :=
  match legs with
  | [] => (Ok s, w)
  | leg :: rest =>
      let '(s1, w1) :=
        match body leg s w with
        | (s', Ok _, w') => (s', w')
        | (s', Raise e, w') => (handler leg e s', w')
        end in
      match pause leg with
      | Ok _ => for_try_except_pause rest s1 w1
      | Raise e => (Raise e, w1)
      end
  end.
End Loop.

(** [if i < num_chunks - 1: time.sleep(interval_seconds)] *)
Definition pause_after (num_chunks : Z) (interval_seconds : R) (i : Z)
  : result unit :=
  if (i <? num_chunks - 1)%Z then sleep interval_seconds else Ok tt.

Section WithApi.
Variable W : Type.
Variable api : request -> W -> result response * W.

(** [place_twap_order] down to the dictionary [result], with its pauses. *)
Definition twap_order_result_timed (symbol side : string) (total_quantity : R)
           (duration_minutes num_chunks : Z) (order_type : string)
           (price : option R) (time_in_force : string) (w : W)
  : result twap_report * W :=
  match twap_prepare symbol side total_quantity duration_minutes num_chunks
                     order_type price with
  | Raise e => (Raise e, w)
  | Ok (symbol, side, total_quantity, price, chunk_quantity) =>
      match pydiv (IZR (duration_minutes * 60)) (IZR (num_chunks - 1)) with
      | Raise e => (Raise e, w)
      | Ok interval_seconds =>
          match
            for_try_except_pause
              (twap_chunk W api symbol side order_type price time_in_force
                          chunk_quantity)
              (fun i => record_failed_chunk i chunk_quantity)
              (pause_after num_chunks interval_seconds)
              (range num_chunks) initial_state w
          with
          | (Raise e, w') => (Raise e, w')
          | (Ok s, w') =>
              (finish symbol side total_quantity duration_minutes num_chunks
                      None order_type price s, w')
          end
      end
  end.

Definition place_twap_order_timed (symbol side : string) (total_quantity : R)
           (duration_minutes num_chunks : Z) (order_type : string)
           (price : option R) (time_in_force : string) (w : W)
  : result twap_report * W :=
  log_and_return
    (twap_order_result_timed symbol side total_quantity duration_minutes
                             num_chunks order_type price time_in_force w).

(** [place_twap_with_volume_profile] down to the dictionary [result], with
    its pauses. *)
Definition volume_profile_result_timed (symbol side : string)
           (total_quantity : R) (duration_minutes : Z)
           (volume_profile order_type : string) (price : option R) (w : W)
  : result twap_report * W :=
  match profile_prepare symbol side total_quantity duration_minutes
                        volume_profile with
  | Raise e => (Raise e, w)
  | Ok (symbol, side, total_quantity, num_chunks, chunk_quantities) =>
      match pydiv (IZR (duration_minutes * 60)) (IZR (num_chunks - 1)) with
      | Raise e => (Raise e, w)
      | Ok interval_seconds =>
          match
            for_try_except_pause
              (profile_chunk W api symbol side order_type price)
              (fun '(i, chunk_qty) => record_failed_chunk i chunk_qty)
              (fun '(i, _) => pause_after num_chunks interval_seconds i)
              (enumerate chunk_quantities) initial_state w
          with
          | (Raise e, w') => (Raise e, w')
          | (Ok s, w') =>
              (finish symbol side total_quantity duration_minutes num_chunks
                      (Some volume_profile) order_type price s, w')
          end
      end
  end.

Definition place_twap_with_volume_profile_timed (symbol side : string)
           (total_quantity : R) (duration_minutes : Z)
           (volume_profile order_type : string) (price : option R) (w : W)
  : result twap_report * W :=
  log_and_return
    (volume_profile_result_timed symbol side total_quantity duration_minutes
                                 volume_profile order_type price w).
End WithApi.

End TWAPPauses.

(** ** The order managers

    [market_orders_module.py], [limit_orders_module.py],
    [advanced/stop_limit_orders.py] and [advanced/oco.py].  A manager
    validates, asks the exchange for the current price and submits one
    order.  Its [try ... except ...: log; raise] blocks hand every exception
    on unchanged and are left out with the logger.

    The exchange as the managers use it has two transitions:
    [get_ticker_price symbol] stands for
    [float(self.api_client.get_ticker_price(symbol)['price'])], the price
    read from the ticker, which raises when the request, the key or the
    conversion fails; [submit] receives an order, one constructor of [order]
    for each order method of [BinanceAPIClient]. *)

Inductive order : Type :=
| PlaceMarketOrder (symbol side : string) (quantity : R) (reduce_only : bool)
| PlaceLimitOrder (symbol side : string) (quantity price : R)
                  (time_in_force : string) (reduce_only : bool)
| PlaceStopMarketOrder (symbol side : string) (quantity stop_price : R)
                       (reduce_only : bool)
| PlaceStopLimitOrder (symbol side : string) (quantity price stop_price : R)
                      (time_in_force : string) (reduce_only : bool)
| PlaceTakeProfitMarketOrder (symbol side : string) (quantity stop_price : R)
                             (reduce_only : bool)
| PlaceTakeProfitLimitOrder (symbol side : string)
                            (quantity price stop_price : R)
                            (time_in_force : string) (reduce_only : bool)
| PlaceOcoOrder (symbol side : string)
                (quantity price stop_price stop_limit_price : R)
                (stop_limit_time_in_force : string).

(** The dictionary [calculate_quantity_from_usdt] returns. *)
Record usdt_quantity : Type := mk_usdt_quantity {
  uq_quantity : R;
  uq_price : R;
  uq_usdt_amount : R
}.

(** What a caller hands over as a quantity: a number, or the dictionary
    above. *)
Inductive quantity_arg : Type :=
| Number (x : R)
| Mapping (d : usdt_quantity).

(** A computation that talks to the exchange: it may raise, and it leaves
    the exchange in a new state in both cases. *)
Definition action (W A : Type) : Type := W -> result A * W.

Definition ret {W A} (a : A) : action W A := fun w => (Ok a, w).

(** A computation that does not talk to the exchange. *)
Definition pure {W A} (r : result A) : action W A := fun w => (r, w).

Definition and_then {W A B} (m : action W A) (k : A -> action W B)
  : action W B :=
  fun w =>
    match m w with
    | (Ok a, w1) => k a w1
    | (Raise e, w1) => (Raise e, w1)
    end.

Notation "x <~ m ;; k" := (and_then m (fun x => k))
  (at level 61, m at next level, right associativity).

Module OrderManagers.
Import TradingValidator.

(** [validate_quantity] on whatever the caller hands over: [float(quantity)]
    raises a [TypeError] on a dictionary, which the validator turns into its
    own error. *)
Definition validate_quantity_arg (quantity : quantity_arg) : result R :=
  match quantity with
  | Number x => validate_quantity x
  | Mapping _ => Raise (ValidationError "Quantity must be a valid number")
  end.

Definition validate_market_order_params_arg (symbol side : string)
           (quantity : quantity_arg) : result market_params :=
  symbol <- validate_symbol symbol ;;
  side <- validate_side side ;;
  quantity <- validate_quantity_arg quantity ;;
  Ok {| mp_symbol := symbol; mp_side := side; mp_quantity := quantity |}.

Section WithExchange.
Variable W : Type.
Variable get_ticker_price : string -> action W R.
Variable submit : order -> action W response.

(** *** market_orders_module.py: MarketOrderManager *)

Definition place_market_order (symbol side : string) (quantity : quantity_arg)
           (reduce_only : bool) : action W response :=
  validated_params <~ pure (validate_market_order_params_arg symbol side
                                                             quantity) ;;
  current_price <~ get_ticker_price (mp_symbol validated_params) ;;
  submit (PlaceMarketOrder (mp_symbol validated_params)
                           (mp_side validated_params)
                           (mp_quantity validated_params) reduce_only).

Definition place_market_buy (symbol : string) (quantity : R)
           (reduce_only : bool) : action W response :=
  place_market_order symbol "BUY" (Number quantity) reduce_only.

Definition place_market_sell (symbol : string) (quantity : R)
           (reduce_only : bool) : action W response :=
  place_market_order symbol "SELL" (Number quantity) reduce_only.

Definition close_position_market (symbol side : string) (quantity : R)
  : action W response :=
  place_market_order symbol side (Number quantity) true.

Definition calculate_quantity_from_usdt (symbol : string) (usdt_amount : R)
  : action W usdt_quantity :=
  current_price <~ get_ticker_price symbol ;;
  quantity <~ pure (pydiv usdt_amount current_price) ;;
  validated_quantity <~ pure (validate_quantity quantity) ;;
  ret {| uq_quantity := validated_quantity; uq_price := current_price;
         uq_usdt_amount := usdt_amount |}.

Definition place_market_order_with_usdt (symbol side : string)
           (usdt_amount : R) (reduce_only : bool) : action W response :=
  quantity <~ calculate_quantity_from_usdt symbol usdt_amount ;;
  place_market_order symbol side (Mapping quantity) reduce_only.

(** *** limit_orders_module.py: LimitOrderManager *)

Definition place_limit_order (symbol side : string) (quantity price : R)
           (time_in_force : string) (reduce_only : bool) : action W response :=
  validated_params <~ pure (validate_limit_order_params symbol side quantity
                                                        price time_in_force) ;;
  current_price <~ get_ticker_price (lp_symbol validated_params) ;;
  submit (PlaceLimitOrder (lp_symbol validated_params)
                          (lp_side validated_params)
                          (lp_quantity validated_params)
                          (lp_price validated_params)
                          (lp_time_in_force validated_params) reduce_only).

Definition place_limit_buy (symbol : string) (quantity price : R)
           (time_in_force : string) (reduce_only : bool) : action W response :=
  place_limit_order symbol "BUY" quantity price time_in_force reduce_only.

Definition place_limit_sell (symbol : string) (quantity price : R)
           (time_in_force : string) (reduce_only : bool) : action W response :=
  place_limit_order symbol "SELL" quantity price time_in_force reduce_only.

Definition place_buy_below_market (symbol : string)
           (quantity price_offset_percent : R) : action W response :=
  current_price <~ get_ticker_price symbol ;;
  let buy_price := current_price * (1 - price_offset_percent / 100) in
  place_limit_buy symbol quantity buy_price "GTC" false.

Definition place_sell_above_market (symbol : string)
           (quantity price_offset_percent : R) : action W response :=
  current_price <~ get_ticker_price symbol ;;
  let sell_price := current_price * (1 + price_offset_percent / 100) in
  place_limit_sell symbol quantity sell_price "GTC" false.

Definition place_limit_order_with_usdt (symbol side : string)
           (usdt_amount price : R) (time_in_force : string)
           (reduce_only : bool) : action W response :=
  quantity <~ pure (pydiv usdt_amount price) ;;
  validated_quantity <~ pure (validate_quantity quantity) ;;
  place_limit_order symbol side validated_quantity price time_in_force
                    reduce_only.

(** *** advanced/stop_limit_orders.py: StopLimitOrderManager *)

Definition place_stop_limit_order (symbol side : string)
           (quantity price stop_price : R) (time_in_force : string)
           (reduce_only : bool) : action W response :=
  validated_params <~ pure (validate_limit_order_params symbol side quantity
                                                        price time_in_force) ;;
  current_price <~ get_ticker_price (lp_symbol validated_params) ;;
  validated_stop_price <~
    pure (validate_stop_price stop_price (lp_side validated_params)
                              current_price) ;;
  submit (PlaceStopLimitOrder (lp_symbol validated_params)
                              (lp_side validated_params)
                              (lp_quantity validated_params)
                              (lp_price validated_params)
                              validated_stop_price
                              (lp_time_in_force validated_params)
                              reduce_only).

Definition place_stop_loss_limit (symbol side : string)
           (quantity stop_price limit_price : R) (reduce_only : bool)
  : action W response :=
  place_stop_limit_order symbol side quantity limit_price stop_price "GTC"
                         reduce_only.

Definition place_take_profit_limit (symbol side : string)
           (quantity stop_price limit_price : R) (reduce_only : bool)
  : action W response :=
  place_stop_limit_order symbol side quantity limit_price stop_price "GTC"
                         reduce_only.

Definition place_stop_market_order (symbol side : string)
           (quantity stop_price : R) (reduce_only : bool)
  : action W response :=
  validated_params <~ pure (validate_market_order_params symbol side
                                                         quantity) ;;
  current_price <~ get_ticker_price (mp_symbol validated_params) ;;
  validated_stop_price <~
    pure (validate_stop_price stop_price (mp_side validated_params)
                              current_price) ;;
  submit (PlaceStopMarketOrder (mp_symbol validated_params)
                               (mp_side validated_params)
                               (mp_quantity validated_params)
                               validated_stop_price reduce_only).

Definition place_take_profit_market_order (symbol side : string)
           (quantity stop_price : R) (reduce_only : bool)
  : action W response :=
  validated_params <~ pure (validate_market_order_params symbol side
                                                         quantity) ;;
  current_price <~ get_ticker_price (mp_symbol validated_params) ;;
  validated_stop_price <~
    pure (validate_stop_price stop_price (mp_side validated_params)
                              current_price) ;;
  submit (PlaceTakeProfitMarketOrder (mp_symbol validated_params)
                                     (mp_side validated_params)
                                     (mp_quantity validated_params)
                                     validated_stop_price reduce_only).

Definition place_take_profit_limit_order (symbol side : string)
           (quantity price stop_price : R) (time_in_force : string)
           (reduce_only : bool) : action W response :=
  validated_params <~ pure (validate_limit_order_params symbol side quantity
                                                        price time_in_force) ;;
  current_price <~ get_ticker_price (lp_symbol validated_params) ;;
  validated_stop_price <~
    pure (validate_stop_price stop_price (lp_side validated_params)
                              current_price) ;;
  submit (PlaceTakeProfitLimitOrder (lp_symbol validated_params)
                                    (lp_side validated_params)
                                    (lp_quantity validated_params)
                                    (lp_price validated_params)
                                    validated_stop_price
                                    (lp_time_in_force validated_params)
                                    reduce_only).

(** *** advanced/oco.py: OCOOrderManager

    The comparisons of [place_oco_order] with the current price only write
    warnings to the log. *)

Definition place_oco_order (symbol side : string)
           (quantity price stop_price stop_limit_price : R)
           (stop_limit_time_in_force : string) : action W response :=
  validated_params <~ pure (validate_limit_order_params symbol side quantity
                                                        price "GTC") ;;
  current_price <~ get_ticker_price (lp_symbol validated_params) ;;
  validated_stop_price <~ pure (validate_price stop_price) ;;
  validated_stop_limit_price <~ pure (validate_price stop_limit_price) ;;
  validated_time_in_force <~
    pure (validate_time_in_force stop_limit_time_in_force) ;;
  submit (PlaceOcoOrder (lp_symbol validated_params)
                        (lp_side validated_params)
                        (lp_quantity validated_params)
                        (lp_price validated_params)
                        validated_stop_price validated_stop_limit_price
                        validated_time_in_force).

Definition place_oco_buy (symbol : string)
           (quantity take_profit_price stop_loss_price stop_limit_price : R)
           (stop_limit_time_in_force : string) : action W response :=
  place_oco_order symbol "BUY" quantity take_profit_price stop_loss_price
                  stop_limit_price stop_limit_time_in_force.

Definition place_oco_sell (symbol : string)
           (quantity take_profit_price stop_loss_price stop_limit_price : R)
           (stop_limit_time_in_force : string) : action W response :=
  place_oco_order symbol "SELL" quantity take_profit_price stop_loss_price
                  stop_limit_price stop_limit_time_in_force.

(** The three prices of [place_oco_with_percentages]: take profit, stop
    loss, stop limit. *)
Definition percentage_prices (side : string) (current_price : R)
           (take_profit_percent stop_loss_percent stop_limit_offset_percent : R)
  : R * R * R :=
  if String.eqb side "BUY" then
    let take_profit_price := current_price * (1 + take_profit_percent / 100) in
    let stop_loss_price := current_price * (1 - stop_loss_percent / 100) in
    let stop_limit_price :=
      stop_loss_price * (1 - stop_limit_offset_percent / 100) in
    (take_profit_price, stop_loss_price, stop_limit_price)
  else
    let take_profit_price := current_price * (1 - take_profit_percent / 100) in
    let stop_loss_price := current_price * (1 + stop_loss_percent / 100) in
    let stop_limit_price :=
      stop_loss_price * (1 + stop_limit_offset_percent / 100) in
    (take_profit_price, stop_loss_price, stop_limit_price).

Definition place_oco_with_percentages (symbol side : string) (quantity : R)
           (take_profit_percent stop_loss_percent stop_limit_offset_percent : R)
  : action W response :=
  current_price <~ get_ticker_price symbol ;;
  let '(take_profit_price, stop_loss_price, stop_limit_price) :=
    percentage_prices side current_price take_profit_percent
                      stop_loss_percent stop_limit_offset_percent in
  validated_take_profit <~ pure (validate_price take_profit_price) ;;
  validated_stop_loss <~ pure (validate_price stop_loss_price) ;;
  validated_stop_limit <~ pure (validate_price stop_limit_price) ;;
  place_oco_order symbol side quantity validated_take_profit
                  validated_stop_loss validated_stop_limit "GTC".

Definition place_oco_buy_with_percentages (symbol : string) (quantity : R)
           (take_profit_percent stop_loss_percent stop_limit_offset_percent : R)
  : action W response :=
  place_oco_with_percentages symbol "BUY" quantity take_profit_percent
                             stop_loss_percent stop_limit_offset_percent.

Definition place_oco_sell_with_percentages (symbol : string) (quantity : R)
           (take_profit_percent stop_loss_percent stop_limit_offset_percent : R)
  : action W response :=
  place_oco_with_percentages symbol "SELL" quantity take_profit_percent
                             stop_loss_percent stop_limit_offset_percent.
End WithExchange.

End OrderManagers.

(** * Vocabulary of the statements *)

Import GridOrderManager TWAPOrderManager.

(** The value at index [i] of a schedule. *)
Definition at_index (xs : list R) (i : Z) : R := nth (Z.to_nat i) xs 0.

(** The closed form of the arithmetic schedule. *)
Definition arithmetic_price (lower upper : R) (n i : Z) : R :=
  lower + IZR i * (upper - lower) / IZR (n - 1).

(** The closed form of the geometric schedule. *)
Definition geometric_ratio (lower upper : R) (n : Z) : R :=
  Rpower (upper / lower) (1 / IZR (n - 1)).

Definition geometric_price (lower upper : R) (n i : Z) : R :=
  lower * Rpower (geometric_ratio lower upper n) (IZR i).

(** A scripted exchange for the examples: the world is the log of the
    requests received so far; the request number [k] (from 0) is rejected
    when [fails k], and acknowledged with [ack] otherwise. *)
Definition scripted (fails : nat -> bool) (ack : response)
  : request -> list request -> result response * list request :=
  fun req log =>
    (if fails (List.length log) then Raise (ApiError "rejected") else Ok ack,
     log ++ [req]).

Definition filled (qty quote : R) : response :=
  {| orderId := Some 1%Z; status := Some "FILLED";
     executedQty := Num qty; cummulativeQuoteQty := Num quote |}.

(** ** What it means to attempt every leg once, in order

    [send_all api reqs w] hands the requests to the exchange one after the
    other, whatever the answers are, and returns the answers and the final
    world. *)
Section Attempts.
Context {W : Type}.
Variable api : request -> W -> result response * W.

Fixpoint send_all (reqs : list request) (w : W) : list (result response) * W :=
  match reqs with
  | [] => ([], w)
  | req :: rest =>
      let '(out, w1) := api req w in
      let '(outs, w2) := send_all rest w1 in
      (out :: outs, w2)
  end.
End Attempts.

Fixpoint collect {A B} (f : A -> option B) (xs : list A) : list B :=
  match xs with
  | [] => []
  | x :: rest =>
      match f x with
      | Some y => y :: collect f rest
      | None => collect f rest
      end
  end.

(** The legs of a grid schedule, the request of a leg, and the record a leg
    leaves in the report according to the answer it got. *)
Definition grid_legs (grid_prices grid_quantities : list R) : list leg :=
  enumerate (zip grid_prices grid_quantities).

Definition leg_request (symbol : string) (side_of : Z -> string)
           (time_in_force : string) (l : leg) : request :=
  LimitOrder symbol (side_of (fst l)) (snd (snd l)) (Some (fst (snd l)))
             time_in_force.

(** The limit orders of a grid schedule, leg by leg. *)
Definition grid_orders (symbol : string) (side_of : Z -> string)
           (time_in_force : string) (grid_prices grid_quantities : list R)
  : list request :=
  map (leg_request symbol side_of time_in_force)
      (grid_legs grid_prices grid_quantities).

Definition placed_of (side_of : Z -> string) (usdt : option R)
           (a : leg * result response) : option placed_order :=
  match snd a with
  | Ok r =>
      Some {| po_grid_index := fst (fst a) + 1; po_price := fst (snd (fst a));
              po_quantity := snd (snd (fst a)); po_usdt_amount := usdt;
              po_side := side_of (fst (fst a));
              po_order_id := orderId r; po_status := status r |}
  | Raise _ => None
  end.

(** The exception that ends the [try] block of a leg: the one of the order
    when the exchange rejects it, and the one of the logger call that
    follows [placed_orders.append] when the exchange acknowledges it. *)
Definition leg_exception {A} (out : result A) : exn :=
  match out with
  | Ok _ => TypeError BotLogger.unexpected_keyword
  | Raise e => e
  end.

(** The record the [except] block appends for a leg. *)
Definition failed_of (a : leg * result response) : failed_order :=
  {| fo_grid_index := fst (fst a) + 1; fo_price := fst (snd (fst a));
     fo_quantity := snd (snd (fst a));
     fo_error := str_exn (leg_exception (snd a)) |}.

(** The leg numbers 1..n of a run over n legs. *)
Definition leg_numbers (n : nat) : list Z := map (fun k => Z.of_nat k + 1)%Z (seq 0 n).

(** The answer to a chunk order as the TWAP loops read it: the response and
    its two amounts, or the exception of the order or of [float]. *)
Definition chunk_parse (out : result response) : result (response * R * R) :=
  r <- out ;;
  executed_qty <- float_get (executedQty r) ;;
  quote_qty <- float_get (cummulativeQuoteQty r) ;;
  Ok (r, executed_qty, quote_qty).

Definition executed_of (quantity : R) (a : Z * result response)
  : option executed_chunk :=
  match chunk_parse (snd a) with
  | Ok (r, executed_qty, quote_qty) =>
      Some {| ec_chunk_index := fst a + 1; ec_quantity := quantity;
              ec_order_id := orderId r; ec_status := status r;
              ec_executed_qty := executed_qty;
              ec_cummulative_quote_qty := quote_qty |}
  | Raise _ => None
  end.

(** The record the [except] block of [place_twap_order] appends for a
    chunk: every chunk has one, since the logger call ends the [try] block
    of a chunk that was executed. *)
Definition chunk_failure_of (quantity : R) (a : Z * result response)
  : failed_chunk :=
  {| fc_chunk_index := fst a + 1; fc_quantity := quantity;
     fc_error := str_exn (leg_exception (chunk_parse (snd a))) |}.

(** The record the [except] block of [place_twap_with_volume_profile]
    appends: its [try] block has no logger call, and only a chunk whose order
    or whose amounts raised has one. *)
Definition chunk_failed_of (quantity : R) (a : Z * result response)
  : option failed_chunk :=
  match chunk_parse (snd a) with
  | Ok _ => None
  | Raise e =>
      Some {| fc_chunk_index := fst a + 1; fc_quantity := quantity;
              fc_error := str_exn e |}
  end.

Definition request_side (req : request) : string :=
  match req with
  | LimitOrder _ side _ _ _ => side
  | MarketOrder _ side _ => side
  end.

(** The weights of the volume profiles, as the spec words them. *)
Definition profile_weight (profile : string) (n i : Z) : R :=
  if String.eqb profile "FRONT_LOADED" then
    15 / 10 - 5 / 10 * IZR i / IZR (n - 1)
  else if String.eqb profile "BACK_LOADED" then
    5 / 10 + 5 / 10 * IZR i / IZR (n - 1)
  else if String.eqb profile "MIDDLE_LOADED" then
    let mid := IZR (n - 1) / 2 in
    Rmax (5 / 10) (15 / 10 - Rabs (IZR i - mid) / mid)
  else 1.

(** The quote amount a schedule spends: the sum of quantity[i] * price[i]. *)
Definition spent (quantities prices : list R) : R :=
  pysum (map (fun qp => fst qp * snd qp) (zip quantities prices)).

(** The [usdt_amount] key of the placed orders of a report. *)
Definition usdt_key (rep : report) : option R :=
  match rep_extra rep with
  | DcaExtra _ _ usdt_per_grid => Some usdt_per_grid
  | _ => None
  end.

(** What the placement loop of a grid strategy leaves in the dictionary
    [rep], for a run over [n] legs that started in the world [w] and ended
    in [w']: the legs are numbered 0..n-1 in order; the exchange has
    received the request of every leg, once and in that order, whatever it
    answered; the placed orders are the legs it acknowledged; the failed
    orders are all the legs, the acknowledged ones with the message of the
    logger's [TypeError]; the success rate is placed / n * 100. *)
Definition grid_execution {W} (api : request -> W -> result response * W)
           (side_of : Z -> string) (time_in_force : string) (n : Z)
           (rep : report) (w w' : W) : Prop :=
  let legs := grid_legs (rep_grid_prices rep) (rep_grid_quantities rep) in
  let reqs := map (leg_request (rep_symbol rep) side_of time_in_force) legs in
  let outs := fst (send_all api reqs w) in
  map fst legs = range n /\
  w' = snd (send_all api reqs w) /\
  rep_placed_orders rep
  = collect (placed_of side_of (usdt_key rep)) (combine legs outs) /\
  rep_failed_orders rep = map failed_of (combine legs outs) /\
  map fo_grid_index (rep_failed_orders rep) = leg_numbers (Z.to_nat n) /\
  incl (map po_grid_index (rep_placed_orders rep))
       (map fo_grid_index (rep_failed_orders rep)) /\
  (List.length (rep_placed_orders rep) + List.length (rep_failed_orders rep))%nat
  = (List.length (rep_placed_orders rep) + Z.to_nat n)%nat /\
  rep_success_rate rep
  = INR (List.length (rep_placed_orders rep)) / IZR n * 100.

(** The same for the loop of [place_twap_order]: every chunk sends the same
    request. *)
Definition twap_execution {W} (api : request -> W -> result response * W)
           (time_in_force : string) (rep : twap_report) (w w' : W) : Prop :=
  let n := tw_num_chunks rep in
  let quantity := tw_total_quantity rep / IZR n in
  let req := chunk_request (tw_symbol rep) (tw_side rep) (tw_order_type rep)
                           (tw_price rep) time_in_force quantity in
  let reqs := map (fun _ => req) (range n) in
  let outs := fst (send_all api reqs w) in
  w' = snd (send_all api reqs w) /\
  tw_executed_chunks rep
  = collect (executed_of quantity) (combine (range n) outs) /\
  tw_failed_chunks rep
  = map (chunk_failure_of quantity) (combine (range n) outs) /\
  map fc_chunk_index (tw_failed_chunks rep) = leg_numbers (Z.to_nat n) /\
  incl (map ec_chunk_index (tw_executed_chunks rep))
       (map fc_chunk_index (tw_failed_chunks rep)) /\
  (List.length (tw_executed_chunks rep) + List.length (tw_failed_chunks rep))%nat
  = (List.length (tw_executed_chunks rep) + Z.to_nat n)%nat /\
  tw_success_rate rep
  = INR (List.length (tw_executed_chunks rep)) / IZR n * 100.

(** The totals and the average price of a TWAP report: the totals sum the
    amounts of the executed chunks only, and the average price is their
    quotient when something was executed, 0 when nothing was. *)
Definition average_price_guarded (rep : twap_report) : Prop :=
  tw_total_executed rep = pysum (map ec_executed_qty (tw_executed_chunks rep)) /\
  tw_total_cost rep
  = pysum (map ec_cummulative_quote_qty (tw_executed_chunks rep)) /\
  (0 < tw_total_executed rep ->
   tw_average_price rep = tw_total_cost rep / tw_total_executed rep) /\
  (tw_total_executed rep = 0 -> tw_average_price rep = 0) /\
  (tw_executed_chunks rep = [] -> tw_average_price rep = 0).

(** The loop invariant behind it. *)
Definition totals_consistent (s : chunk_state) : Prop :=
  let '(executed_chunks, _, total_executed, total_cost) := s in
  total_executed = pysum (map ec_executed_qty executed_chunks) /\
  total_cost = pysum (map ec_cummulative_quote_qty executed_chunks).

(** The script of the spec's example: the second request is rejected. *)
Definition fails_second (k : nat) : bool := Nat.eqb k 1.

(** The volume-profile run validates the quantity of a chunk before it
    sends its order: a chunk whose quantity is rejected is answered by the
    validator and the exchange does not see it. *)
Section GuardedAttempts.
Context {W : Type}.
Variable api : request -> W -> result response * W.
Variable order_of : R -> request.

Definition guarded_send (quantity : R) (w : W) : result response * W :=
  match TradingValidator.validate_quantity quantity with
  | Raise e => (Raise e, w)
  | Ok quantity => api (order_of quantity) w
  end.

Fixpoint guarded_send_all (quantities : list R) (w : W)
  : list (result response) * W :=
  match quantities with
  | [] => ([], w)
  | q :: rest =>
      let '(out, w1) := guarded_send q w in
      let '(outs, w2) := guarded_send_all rest w1 in
      (out :: outs, w2)
  end.
End GuardedAttempts.

Definition profile_executed_of (a : (Z * R) * result response)
  : option executed_chunk :=
  executed_of (snd (fst a)) (fst (fst a), snd a).

Definition profile_failed_of (a : (Z * R) * result response)
  : option failed_chunk :=
  chunk_failed_of (snd (fst a)) (fst (fst a), snd a).

(** What the loop of [place_twap_with_volume_profile] leaves in the
    dictionary [rep]: its ten chunks carry the quantities of the profile,
    the exchange has received the order of every chunk whose quantity is
    valid, and every chunk is in exactly one of the two lists. *)
Definition profile_execution {W} (api : request -> W -> result response * W)
           (rep : twap_report) (w w' : W) : Prop :=
  exists profile quantities,
    tw_volume_profile rep = Some profile /\
    tw_num_chunks rep = 10%Z /\
    _calculate_volume_profile (tw_total_quantity rep) 10 profile
    = Ok quantities /\
    let legs := enumerate quantities in
    let order_of := chunk_request (tw_symbol rep) (tw_side rep)
                                  (tw_order_type rep) (tw_price rep) "GTC" in
    let outs := fst (guarded_send_all api order_of quantities w) in
    map fst legs = range 10 /\
    w' = snd (guarded_send_all api order_of quantities w) /\
    tw_executed_chunks rep = collect profile_executed_of (combine legs outs) /\
    tw_failed_chunks rep = collect profile_failed_of (combine legs outs) /\
    Permutation (map ec_chunk_index (tw_executed_chunks rep)
                   ++ map fc_chunk_index (tw_failed_chunks rep))
                (leg_numbers 10) /\
    (List.length (tw_executed_chunks rep)
     + List.length (tw_failed_chunks rep))%nat = 10%nat /\
    tw_success_rate rep
    = INR (List.length (tw_executed_chunks rep)) / 10 * 100.

(** A recording exchange for the examples of the order managers: the world
    is the log of the calls; every price query is answered with [price] and
    every order acknowledged with [ack]. *)
Inductive call : Type :=
| AskPrice (symbol : string)
| Send (o : order).

Definition quoting (price : R) : string -> action (list call) R :=
  fun symbol log => (Ok price, log ++ [AskPrice symbol]).

Definition accepting (ack : response) : order -> action (list call) response :=
  fun o log => (Ok ack, log ++ [Send o]).

(** The orders of a log. *)
Definition orders_of (log : list call) : list order :=
  collect (fun c => match c with Send o => Some o | AskPrice _ => None end) log.

(** What a success rate says of a run: it is the percentage of the
    attempts that succeeded. *)
Definition rate_reflects (rate : R) (succeeded attempts : nat) : Prop :=
  rate = INR succeeded / INR attempts * 100 /\
  0 <= rate <= 100 /\
  (rate = 100 <-> succeeded = attempts) /\
  (rate = 0 <-> succeeded = 0%nat).

(** * Properties *)

(** ** Basic facts on the Python helpers *)

Lemma pydiv_ok (x y : R) : y <> 0 -> pydiv x y = Ok (x / y).
Proof.
  intros Hy. unfold pydiv. destruct (Req_dec_T y 0); [contradiction | reflexivity].
Qed.

Lemma pydiv_zero (x : R) : pydiv x 0 = Raise ZeroDivisionError.
Proof.
  unfold pydiv. destruct (Req_dec_T 0 0); [reflexivity | contradiction].
Qed.

Lemma pypow_ok (x y : R) : 0 < x -> pypow x y = Ok (Rpower x y).
Proof.
  intros Hx. unfold pypow. destruct (Rlt_dec 0 x); [reflexivity | contradiction].
Qed.

Lemma Rpower_pos (x y : R) : 0 < Rpower x y.
Proof. unfold Rpower. apply exp_pos. Qed.

Lemma Rle_b_false (x y : R) : y < x -> Rle_b x y = false.
Proof. intros H. unfold Rle_b. destruct (Rle_dec x y); [lra | reflexivity]. Qed.

Lemma length_range (n : Z) : List.length (range n) = Z.to_nat n.
Proof. unfold range. now rewrite length_map, length_seq. Qed.

Lemma nth_range (n i : Z) :
  (0 <= i < n)%Z -> nth (Z.to_nat i) (range n) 0%Z = i.
Proof.
  intros Hi. unfold range.
  change 0%Z with (Z.of_nat 0). rewrite map_nth, seq_nth by lia. simpl. lia.
Qed.

Lemma in_range (n i : Z) : In i (range n) <-> (0 <= i < n)%Z.
Proof.
  unfold range. rewrite in_map_iff. split.
  - intros (k & <- & Hk). apply in_seq in Hk. lia.
  - intros Hi. exists (Z.to_nat i). split; [lia | apply in_seq; lia].
Qed.

Lemma comprehension_ok {A B} (f : A -> result B) (g : A -> B) (xs : list A) :
  (forall x, In x xs -> f x = Ok (g x)) ->
  comprehension f xs = Ok (map g xs).
Proof.
  induction xs as [| x rest IH]; intros Hf; simpl; [reflexivity |].
  rewrite (Hf x) by (now left). simpl.
  rewrite IH by (intros y Hy; apply Hf; now right). reflexivity.
Qed.

Lemma IZR_pred_nonzero (n : Z) : (2 <= n)%Z -> IZR (n - 1) <> 0.
Proof. intros Hn. apply not_0_IZR. lia. Qed.

Lemma IZR_pred_pos (n : Z) : (2 <= n)%Z -> 0 < IZR (n - 1).
Proof. intros Hn. apply (IZR_lt 0). lia. Qed.

(** [nth] of a mapped range, with the default of the target type. *)
Lemma nth_map_range (g : Z -> R) (n i : Z) :
  (0 <= i < n)%Z -> nth (Z.to_nat i) (map g (range n)) 0 = g i.
Proof.
  intros Hi.
  rewrite (nth_indep _ 0 (g 0%Z)) by (rewrite length_map, length_range; lia).
  rewrite map_nth, nth_range by assumption. reflexivity.
Qed.

(** ** The price calculator *)

Lemma arithmetic_prices_eq (lower upper : R) (n : Z) :
  (2 <= n)%Z ->
  _calculate_grid_prices lower upper n "ARITHMETIC"
  = Ok (map (arithmetic_price lower upper n) (range n)).
Proof.
  intros Hn. unfold _calculate_grid_prices. simpl String.eqb. cbv iota.
  rewrite pydiv_ok by (now apply IZR_pred_nonzero). simpl.
  f_equal. apply map_ext. intros i. unfold arithmetic_price, Rdiv. ring.
Qed.

(** The [else] branch computes the same list as the arithmetic branch, and
    raises where it raises. *)
Lemma fallback_is_arithmetic (lower upper : R) (n : Z) (grid_type : string) :
  String.eqb grid_type "GEOMETRIC" = false ->
  _calculate_grid_prices lower upper n grid_type
  = _calculate_grid_prices lower upper n "ARITHMETIC".
Proof.
  intros Hg. unfold _calculate_grid_prices. simpl (String.eqb "ARITHMETIC" _).
  cbv iota. destruct (String.eqb grid_type "ARITHMETIC"); [reflexivity |].
  rewrite Hg.
  destruct (Req_dec_T (IZR (n - 1)) 0) as [Hz | Hnz].
  - (* n = 1: one index, and the division raises in both branches *)
    apply eq_IZR_R0 in Hz. replace n with 1%Z by lia.
    change (range 1) with [0%Z]. change (IZR (1 - 1)) with 0.
    simpl comprehension. rewrite !pydiv_zero. reflexivity.
  - rewrite pydiv_ok by assumption. simpl.
    rewrite (comprehension_ok _
               (fun i => lower + IZR i * ((upper - lower) / IZR (n - 1)))).
    + reflexivity.
    + intros i _. rewrite pydiv_ok by assumption. simpl. f_equal. f_equal.
      unfold Rdiv. ring.
Qed.

(** C4. Arithmetic grid prices: for upper > lower > 0 and n >= 2 the
    ARITHMETIC schedule is computed without error, has exactly n prices,
    price[i] = lower + i * (upper - lower) / (n - 1), is strictly increasing,
    starts at lower and ends at upper. *)
Theorem arithmetic_grid_prices (lower upper : R) (n : Z) :
  0 < lower < upper -> (2 <= n)%Z ->
  exists prices,
    _calculate_grid_prices lower upper n "ARITHMETIC" = Ok prices /\
    List.length prices = Z.to_nat n /\
    (forall i, (0 <= i < n)%Z ->
       at_index prices i = lower + IZR i * (upper - lower) / IZR (n - 1)) /\
    (forall i, (0 <= i)%Z -> (i + 1 < n)%Z ->
       at_index prices i < at_index prices (i + 1)) /\
    at_index prices 0 = lower /\
    at_index prices (n - 1) = upper.
Proof.
  intros Hb Hn.
  pose proof (IZR_pred_pos n Hn) as Hpos.
  exists (map (arithmetic_price lower upper n) (range n)).
  assert (Hat : forall i, (0 <= i < n)%Z ->
            at_index (map (arithmetic_price lower upper n) (range n)) i
            = arithmetic_price lower upper n i).
  { intros i Hi. unfold at_index. now apply nth_map_range. }
  split; [now apply arithmetic_prices_eq |].
  split; [now rewrite length_map, length_range |].
  split; [exact Hat |].
  split; [| split].
  - intros i Hi0 Hi1. rewrite !Hat by lia. unfold arithmetic_price.
    rewrite plus_IZR. unfold Rdiv.
    assert (0 < (upper - lower) * / IZR (n - 1)).
    { apply Rmult_lt_0_compat; [lra | now apply Rinv_0_lt_compat]. }
    lra.
  - rewrite Hat by lia. unfold arithmetic_price. unfold Rdiv. ring.
  - rewrite Hat by lia. unfold arithmetic_price. field. lra.
Qed.

(** The schedule of the spec's example: five prices from 100 to 200. *)
Lemma arithmetic_grid_prices_witness :
  _calculate_grid_prices 100 200 5 "ARITHMETIC" = Ok [100; 125; 150; 175; 200].
Proof.
  destruct (arithmetic_grid_prices 100 200 5) as (prices & Heq & Hlen & Hat & _);
    [lra | lia |].
  rewrite Heq. f_equal.
  pose proof (Hat 0%Z ltac:(lia)) as H0. pose proof (Hat 1%Z ltac:(lia)) as H1.
  pose proof (Hat 2%Z ltac:(lia)) as H2. pose proof (Hat 3%Z ltac:(lia)) as H3.
  pose proof (Hat 4%Z ltac:(lia)) as H4.
  do 5 (destruct prices as [| ? prices]; [discriminate Hlen |]).
  destruct prices; [| discriminate Hlen].
  unfold at_index in *. simpl in H0, H1, H2, H3, H4.
  repeat f_equal; lra.
Defined.

Lemma geometric_prices_eq (lower upper : R) (n : Z) :
  0 < lower -> 0 < upper -> (2 <= n)%Z ->
  _calculate_grid_prices lower upper n "GEOMETRIC"
  = Ok (map (geometric_price lower upper n) (range n)).
Proof.
  intros Hl Hu Hn. unfold _calculate_grid_prices.
  simpl String.eqb. cbv iota.
  rewrite pydiv_ok by lra. simpl.
  rewrite pydiv_ok by (now apply IZR_pred_nonzero). simpl.
  rewrite pypow_ok by (apply Rdiv_lt_0_compat; lra). simpl.
  apply comprehension_ok. intros i _.
  rewrite pypow_ok by apply Rpower_pos. reflexivity.
Qed.

Lemma Rpower_nat (x : R) (i : Z) :
  0 < x -> (0 <= i)%Z -> Rpower x (IZR i) = x ^ Z.to_nat i.
Proof.
  intros Hx Hi. rewrite <- Rpower_pow by assumption.
  rewrite INR_IZR_INZ, Z2Nat.id by assumption. reflexivity.
Qed.

(** C5. Geometric grid prices: for upper > lower > 0 and n >= 2 the
    GEOMETRIC schedule is computed without error, has exactly n prices,
    price[i] = lower * ratio^i where ratio = (upper/lower)^(1/(n-1)), so that
    ratio^(n-1) = upper/lower; the quotient of consecutive prices is the
    constant ratio, price[0] = lower and price[n-1] = upper. *)
Theorem geometric_grid_prices (lower upper : R) (n : Z) :
  0 < lower < upper -> (2 <= n)%Z ->
  let ratio := Rpower (upper / lower) (1 / IZR (n - 1)) in
  exists prices,
    _calculate_grid_prices lower upper n "GEOMETRIC" = Ok prices /\
    List.length prices = Z.to_nat n /\
    ratio ^ Z.to_nat (n - 1) = upper / lower /\
    (forall i, (0 <= i < n)%Z ->
       at_index prices i = lower * ratio ^ Z.to_nat i) /\
    (forall i, (0 <= i)%Z -> (i + 1 < n)%Z ->
       at_index prices (i + 1) / at_index prices i = ratio) /\
    at_index prices 0 = lower /\
    at_index prices (n - 1) = upper.
Proof.
  intros Hb Hn ratio.
  pose proof (IZR_pred_nonzero n Hn) as Hnz.
  assert (Hq : 0 < upper / lower) by (apply Rdiv_lt_0_compat; lra).
  assert (Hr : 0 < ratio) by apply Rpower_pos.
  assert (Hroot : ratio ^ Z.to_nat (n - 1) = upper / lower).
  { rewrite <- Rpower_nat by (assumption || lia). unfold ratio.
    rewrite Rpower_mult. replace (1 / IZR (n - 1) * IZR (n - 1)) with 1
      by (field; assumption).
    now apply Rpower_1. }
  exists (map (geometric_price lower upper n) (range n)).
  assert (Hat : forall i, (0 <= i < n)%Z ->
            at_index (map (geometric_price lower upper n) (range n)) i
            = lower * ratio ^ Z.to_nat i).
  { intros i Hi. unfold at_index. rewrite nth_map_range by assumption.
    unfold geometric_price. fold ratio. f_equal.
    apply Rpower_nat; [assumption | lia]. }
  split; [apply geometric_prices_eq; (lra || assumption) |].
  split; [now rewrite length_map, length_range |].
  split; [exact Hroot |].
  split; [exact Hat |].
  split; [| split].
  - intros i Hi0 Hi1. rewrite !Hat by lia.
    replace (Z.to_nat (i + 1)) with (S (Z.to_nat i)) by lia. simpl.
    field. split; [apply pow_nonzero |]; lra.
  - rewrite Hat by lia. simpl. ring.
  - rewrite Hat by lia. rewrite Hroot. field. lra.
Qed.

(** The spec's example: three prices from 100 to 200, the ratio being the
    square root of 2. *)
Lemma geometric_grid_prices_witness :
  exists prices,
    _calculate_grid_prices 100 200 3 "GEOMETRIC" = Ok prices /\
    List.length prices = 3%nat /\
    at_index prices 0 = 100 /\
    at_index prices 1 * at_index prices 1 = 100 * 200 /\
    at_index prices 2 = 200.
Proof.
  destruct (geometric_grid_prices 100 200 3) as
    (prices & Heq & Hlen & Hroot & Hat & _ & H0 & H2); [lra | lia |].
  exists prices. split; [exact Heq |]. split; [exact Hlen |].
  split; [exact H0 |]. split; [| exact H2].
  rewrite (Hat 1%Z) by lia.
  change (Z.to_nat (3 - 1)) with 2%nat in Hroot.
  change (Z.to_nat 1) with 1%nat.
  set (r := Rpower (200 / 100) (1 / IZR (3 - 1))) in *.
  simpl in Hroot |- *. 
  replace (100 * (r * 1) * (100 * (r * 1))) with (100 * 100 * (r * (r * 1))) by ring.
  rewrite Hroot. lra.
Defined.

(** ** The grid type of the Martingale and DCA grids *)

Lemma bind_ext {A B} (m : result A) (k k' : A -> result B) :
  (forall a, k a = k' a) -> bind m k = bind m k'.
Proof. intros H. destruct m; simpl; [apply H | reflexivity]. Qed.

Lemma martingale_prepare_fallback symbol side base upper lower n mult grid_type :
  String.eqb grid_type "GEOMETRIC" = false ->
  martingale_prepare symbol side base upper lower n mult grid_type
  = martingale_prepare symbol side base upper lower n mult "ARITHMETIC".
Proof.
  intros Hg. unfold martingale_prepare.
  repeat (apply bind_ext; intros ?).
  now rewrite fallback_is_arithmetic.
Qed.

Lemma dca_prepare_fallback symbol side total upper lower n grid_type :
  String.eqb grid_type "GEOMETRIC" = false ->
  dca_prepare symbol side total upper lower n grid_type
  = dca_prepare symbol side total upper lower n "ARITHMETIC".
Proof.
  intros Hg. unfold dca_prepare.
  repeat (apply bind_ext; intros ?).
  now rewrite fallback_is_arithmetic.
Qed.

(** ** The logger calls of the strategies *)

Lemma log_and_return_ok {W A} (a : A) (w : W) :
  log_and_return (Ok a, w)
  = (Raise (TypeError BotLogger.unexpected_keyword), w).
Proof. reflexivity. Qed.

Lemma log_and_return_raise {W A} (e : exn) (w : W) :
  @log_and_return W A (Raise e, w) = (Raise e, w).
Proof. reflexivity. Qed.

(** No entry point returns what it has built. *)
Lemma log_and_return_never {W A} (r : result A * W) (a : A) (w : W) :
  log_and_return r <> (Ok a, w).
Proof. destruct r as [[a' | e] w']; discriminate. Qed.

(** What [log_and_return] raises is the logger's exception, or else what
    came before it. *)
Lemma log_and_return_inv {W A} (r : result A * W) (e : exn) (w : W) :
  log_and_return r = (Raise e, w) ->
  (exists a, r = (Ok a, w) /\ e = TypeError BotLogger.unexpected_keyword)
  \/ r = (Raise e, w).
Proof.
  destruct r as [[a | e'] w']; cbn; intros [= <- <-]; eauto.
Qed.

Lemma log_martingale_leg_placed_raises (multiplier : R) (i : Z) :
  1 < multiplier ->
  log_martingale_leg_placed multiplier i
  = Raise (TypeError BotLogger.unexpected_keyword).
Proof.
  intros Hm. unfold log_martingale_leg_placed.
  rewrite pypow_ok by lra. reflexivity.
Qed.

(** ** The placement loop of the grid strategies *)

Section GridLoop.
Variable W : Type.
Variable api : request -> W -> result response * W.
Variables (symbol : string) (side_of : Z -> string) (time_in_force : string)
          (usdt : option R) (log : Z -> result unit).
Hypothesis log_raises :
  forall i, log i = Raise (TypeError BotLogger.unexpected_keyword).

Lemma place_legs_from (legs : list leg) (placed : list placed_order)
      (failed : list failed_order) (w : W) :
  for_try_except (place_leg W api symbol side_of time_in_force usdt log)
                 record_failure legs (placed, failed) w
  = let '(outs, w') :=
      send_all api (map (leg_request symbol side_of time_in_force) legs) w in
    ((placed ++ collect (placed_of side_of usdt) (combine legs outs),
      failed ++ map failed_of (combine legs outs)), w').
Proof.
  revert placed failed w.
  induction legs as [| [i [price quantity]] rest IH]; intros placed failed w.
  - simpl. now rewrite !app_nil_r.
  - simpl. unfold leg_request at 1. simpl.
    destruct (api _ w) as [[resp | e] w1]; [rewrite log_raises |];
      simpl; rewrite IH;
      destruct (send_all api _ w1) as [outs w2]; simpl;
      unfold placed_of at 2, failed_of at 2; simpl;
      now rewrite <- !app_assoc.
Qed.

Lemma place_legs_spec (grid_prices grid_quantities : list R) (w : W) :
  place_legs W api symbol side_of time_in_force usdt log
             grid_prices grid_quantities w
  = let legs := grid_legs grid_prices grid_quantities in
    let '(outs, w') :=
      send_all api (map (leg_request symbol side_of time_in_force) legs) w in
    ((collect (placed_of side_of usdt) (combine legs outs),
      map failed_of (combine legs outs)), w').
Proof.
  unfold place_legs. rewrite place_legs_from. reflexivity.
Qed.
End GridLoop.

(** ** Inversion of the validation chains *)

Lemma bind_inv {A B} (m : result A) (k : A -> result B) (b : B) :
  bind m k = Ok b -> exists a, m = Ok a /\ k a = Ok b.
Proof. destruct m as [a | e]; simpl; [eauto | discriminate]. Qed.

Lemma raise_if_inv (c : bool) (msg : string) (u : unit) :
  raise_if c msg = Ok u -> c = false.
Proof. destruct c; simpl; [discriminate | reflexivity]. Qed.

Lemma Rle_b_inv (x y : R) : Rle_b x y = false -> y < x.
Proof. unfold Rle_b. destruct (Rle_dec x y); [discriminate | lra]. Qed.

Import TradingValidator.

Lemma validate_price_inv (p p' : R) :
  validate_price p = Ok p' -> p' = p /\ min_price <= p <= max_price.
Proof.
  unfold validate_price.
  destruct (Rle_dec p 0); [discriminate |].
  destruct (Rlt_dec p min_price); [discriminate |].
  destruct (Rgt_dec p max_price); [discriminate |].
  intros [= <-]. lra.
Qed.

Lemma validate_price_ok (p : R) :
  min_price <= p <= max_price -> validate_price p = Ok p.
Proof.
  unfold validate_price, min_price, max_price. intros Hp.
  destruct (Rle_dec p 0); [lra |].
  destruct (Rlt_dec p (1 / 10000)); [lra |].
  destruct (Rgt_dec p 1000000); [lra | reflexivity].
Qed.

Lemma validate_quantity_inv (q q' : R) :
  validate_quantity q = Ok q' -> q' = q /\ min_quantity <= q <= max_quantity.
Proof.
  unfold validate_quantity.
  destruct (Rle_dec q 0); [discriminate |].
  destruct (Rlt_dec q min_quantity); [discriminate |].
  destruct (Rgt_dec q max_quantity); [discriminate |].
  intros [= <-]. lra.
Qed.

Lemma validate_quantity_ok (q : R) :
  min_quantity <= q <= max_quantity -> validate_quantity q = Ok q.
Proof.
  unfold validate_quantity, min_quantity, max_quantity. intros Hq.
  destruct (Rle_dec q 0); [lra |].
  destruct (Rlt_dec q (1 / 1000)); [lra |].
  destruct (Rgt_dec q 1000000); [lra | reflexivity].
Qed.

(** The validators raise nothing but [ValidationError]. *)
Lemma validate_symbol_raises (s : string) (e : exn) :
  validate_symbol s = Raise e -> exists msg, e = ValidationError msg.
Proof.
  unfold validate_symbol. destruct (String.eqb s ""); [intros [= <-]; eauto |].
  destruct (negb _); [intros [= <-]; eauto | discriminate].
Qed.

Lemma validate_side_raises (s : string) (e : exn) :
  validate_side s = Raise e -> exists msg, e = ValidationError msg.
Proof.
  unfold validate_side. destruct (String.eqb s ""); [intros [= <-]; eauto |].
  destruct (negb _); [intros [= <-]; eauto | discriminate].
Qed.

Lemma validate_quantity_raises (q : R) (e : exn) :
  validate_quantity q = Raise e -> exists msg, e = ValidationError msg.
Proof.
  unfold validate_quantity.
  destruct (Rle_dec q 0); [intros [= <-]; eauto |].
  destruct (Rlt_dec q min_quantity); [intros [= <-]; eauto |].
  destruct (Rgt_dec q max_quantity); [intros [= <-]; eauto | discriminate].
Qed.

Lemma validate_price_raises (p : R) (e : exn) :
  validate_price p = Raise e -> exists msg, e = ValidationError msg.
Proof.
  unfold validate_price.
  destruct (Rle_dec p 0); [intros [= <-]; eauto |].
  destruct (Rlt_dec p min_price); [intros [= <-]; eauto |].
  destruct (Rgt_dec p max_price); [intros [= <-]; eauto | discriminate].
Qed.

Lemma raise_if_raises (c : bool) (msg : string) (e : exn) :
  raise_if c msg = Raise e -> e = ValidationError msg.
Proof. destruct c; simpl; [now intros [= <-] | discriminate]. Qed.

(** The sides the validator lets through. *)
Lemma validate_side_range (side side' : string) :
  validate_side side = Ok side' -> side' = "BUY" \/ side' = "SELL".
Proof.
  unfold validate_side. destruct (String.eqb side ""); [discriminate |].
  destruct (str_in (strip (upper side)) supported_sides) eqn:Hin; simpl;
    [| discriminate].
  intros [= <-]. unfold str_in, supported_sides in Hin. simpl in Hin.
  rewrite orb_false_r in Hin. apply orb_prop in Hin.
  destruct Hin as [H | H]; apply String.eqb_eq in H; auto.
Qed.

(** ** Lengths of the schedules *)

Lemma comprehension_length {A B} (f : A -> result B) (xs : list A) (ys : list B) :
  comprehension f xs = Ok ys -> List.length ys = List.length xs.
Proof.
  revert ys. induction xs as [| x rest IH]; simpl; intros ys H.
  - now inversion H.
  - apply bind_inv in H. destruct H as (y & _ & H).
    apply bind_inv in H. destruct H as (ys' & Hys & H).
    inversion H; subst. simpl. f_equal. now apply IH.
Qed.

Lemma calculate_grid_prices_length lower upper n grid_type prices :
  _calculate_grid_prices lower upper n grid_type = Ok prices ->
  List.length prices = Z.to_nat n.
Proof.
  unfold _calculate_grid_prices.
  destruct (String.eqb grid_type "ARITHMETIC").
  - intros H. apply bind_inv in H. destruct H as (step & _ & H).
    inversion H. now rewrite length_map, length_range.
  - destruct (String.eqb grid_type "GEOMETRIC").
    + intros H. apply bind_inv in H. destruct H as (q & _ & H).
      apply bind_inv in H. destruct H as (e & _ & H).
      apply bind_inv in H. destruct H as (r & _ & H).
      apply comprehension_length in H. now rewrite H, length_range.
    + intros H. apply comprehension_length in H. now rewrite H, length_range.
Qed.

Lemma calculate_grid_quantities_inv total n side quantities :
  _calculate_grid_quantities total n side = Ok quantities ->
  quantities = replicate (total / IZR n) n /\ IZR n <> 0.
Proof.
  unfold _calculate_grid_quantities, pydiv.
  destruct (String.eqb side "BOTH"); destruct (Req_dec_T (IZR n) 0);
    simpl; intros H; inversion H; auto.
Qed.

Lemma length_replicate {A} (x : A) (n : Z) :
  List.length (replicate x n) = Z.to_nat n.
Proof. apply repeat_length. Qed.

Lemma martingale_loop_spec (m : R) (indices : list Z) (acc : list R) (q : R) :
  martingale_loop m indices acc q
  = acc ++ map (fun k => q * m ^ k) (seq 0 (List.length indices)).
Proof.
  revert acc q. induction indices as [| i rest IH]; intros acc q; simpl.
  - now rewrite app_nil_r.
  - rewrite IH, <- app_assoc. simpl. f_equal. f_equal; [ring |].
    rewrite <- seq_shift, map_map. apply map_ext. intros k. simpl. ring.
Qed.

Lemma martingale_quantities_spec (base m : R) (n : Z) :
  martingale_quantities base m n
  = map (fun k => base * m ^ k) (seq 0 (Z.to_nat n)).
Proof.
  unfold martingale_quantities. rewrite martingale_loop_spec, length_range.
  reflexivity.
Qed.

Lemma map_fst_enumerate_from {A} (k : Z) (xs : list A) :
  map fst (enumerate_from k xs)
  = map (fun j => k + Z.of_nat j)%Z (seq 0 (List.length xs)).
Proof.
  revert k. induction xs as [| x rest IH]; intros k; simpl; [reflexivity |].
  f_equal; [lia |]. rewrite IH, <- seq_shift, map_map.
  apply map_ext. intros j. lia.
Qed.

Lemma grid_legs_indices (prices quantities : list R) (n : Z) :
  List.length prices = Z.to_nat n -> List.length quantities = Z.to_nat n ->
  map fst (grid_legs prices quantities) = range n.
Proof.
  intros Hp Hq. unfold grid_legs, enumerate, zip, range.
  rewrite map_fst_enumerate_from, length_combine, Hp, Hq, Nat.min_id.
  apply map_ext. intros j. lia.
Qed.

(** ** The two lists of a placement loop *)

Lemma send_all_length {W} (api : request -> W -> result response * W)
      (reqs : list request) (w : W) :
  List.length (fst (send_all api reqs w)) = List.length reqs.
Proof.
  revert w. induction reqs as [| req rest IH]; intros w; simpl; [reflexivity |].
  destruct (api req w) as [out w1]. specialize (IH w1).
  destruct (send_all api rest w1) as [outs w2]. simpl in *. now rewrite IH.
Qed.

Lemma map_fst_combine_same {A B} (xs : list A) (ys : list B) :
  List.length ys = List.length xs -> map fst (combine xs ys) = xs.
Proof.
  revert ys. induction xs as [| x rest IH]; intros [| y ys]; simpl;
    try discriminate; try reflexivity.
  intros [= H]. f_equal. now apply IH.
Qed.

Lemma collect_partition {A P F} (f : A -> option P) (g : A -> option F)
      (ip : P -> Z) (ig : F -> Z) (h : A -> Z) (xs : list A) :
  (forall a, (exists p, f a = Some p /\ g a = None /\ ip p = h a)
             \/ (exists q, f a = None /\ g a = Some q /\ ig q = h a)) ->
  Permutation (map ip (collect f xs) ++ map ig (collect g xs)) (map h xs)
  /\ (List.length (collect f xs) + List.length (collect g xs))%nat
     = List.length xs.
Proof.
  intros Hfg. induction xs as [| a rest [IHp IHl]]; simpl.
  - split; [constructor | reflexivity].
  - destruct (Hfg a) as [(p & -> & -> & <-) | (q & -> & -> & <-)]; simpl.
    + split; [now constructor | lia].
    + split; [| lia].
      apply Permutation_sym, Permutation_cons_app, Permutation_sym, IHp.
Qed.

Lemma leg_numbers_range (n : Z) :
  map (fun i => i + 1)%Z (range n) = leg_numbers (Z.to_nat n).
Proof. unfold range, leg_numbers. now rewrite map_map. Qed.

Lemma success_rate_inv {A} (placed : list A) (n : Z) (rate : R) :
  GridOrderManager.success_rate placed n = Ok rate ->
  rate = INR (List.length placed) / IZR n * 100.
Proof.
  unfold GridOrderManager.success_rate, pydiv.
  destruct (Req_dec_T (IZR n) 0); simpl; [discriminate |].
  intros [= <-]. now rewrite INR_IZR_INZ.
Qed.

Lemma success_rate_ok {A} (placed : list A) (n : Z) :
  IZR n <> 0 ->
  GridOrderManager.success_rate placed n
  = Ok (INR (List.length placed) / IZR n * 100).
Proof.
  intros Hn. unfold GridOrderManager.success_rate.
  rewrite pydiv_ok by assumption. simpl. now rewrite INR_IZR_INZ.
Qed.

Lemma collect_in {A B} (f : A -> option B) (xs : list A) (b : B) :
  In b (collect f xs) -> exists a, In a xs /\ f a = Some b.
Proof.
  induction xs as [| x rest IH]; simpl; [contradiction |].
  destruct (f x) as [y |] eqn:Hfx.
  - intros [<- | Hin]; [eauto |].
    destruct (IH Hin) as (a & Ha & Hfa). eauto.
  - intros Hin. destruct (IH Hin) as (a & Ha & Hfa). eauto.
Qed.

Lemma collect_length_le {A B} (f : A -> option B) (xs : list A) :
  (List.length (collect f xs) <= List.length xs)%nat.
Proof.
  induction xs as [| x rest IH]; simpl; [lia |].
  destruct (f x); simpl; lia.
Qed.

(** The leg numbers of the records of a loop over [legs]. *)
Lemma leg_numbers_of_legs {A} (legs : list (Z * A)) (outs : list (result response))
      (n : Z) :
  map fst legs = range n -> List.length outs = List.length legs ->
  map (fun a : (Z * A) * result response => (fst (fst a) + 1)%Z)
      (combine legs outs)
  = leg_numbers (Z.to_nat n).
Proof.
  intros Hidx Hlen. rewrite <- leg_numbers_range, <- Hidx.
  transitivity (map (fun i => i + 1)%Z (map fst (map fst (combine legs outs))));
    [now rewrite !map_map | now rewrite map_fst_combine_same].
Qed.

(** The facts of [grid_execution] for the placement loop of any of the
    three grid strategies: every leg leaves a failed order. *)
Lemma place_legs_execution {W} (api : request -> W -> result response * W)
      (symbol : string) (side_of : Z -> string) (tif : string) (usdt : option R)
      (log : Z -> result unit)
      (n : Z) (prices quantities : list R) (w : W) :
  (forall i, log i = Raise (TypeError BotLogger.unexpected_keyword)) ->
  List.length prices = Z.to_nat n -> List.length quantities = Z.to_nat n ->
  let legs := grid_legs prices quantities in
  let reqs := map (leg_request symbol side_of tif) legs in
  let outs := fst (send_all api reqs w) in
  let placed := collect (placed_of side_of usdt) (combine legs outs) in
  let failed := map failed_of (combine legs outs) in
  place_legs W api symbol side_of tif usdt log prices quantities w
  = ((placed, failed), snd (send_all api reqs w)) /\
  map fst legs = range n /\
  map fo_grid_index failed = leg_numbers (Z.to_nat n) /\
  incl (map po_grid_index placed) (map fo_grid_index failed) /\
  (List.length placed + List.length failed)%nat
  = (List.length placed + Z.to_nat n)%nat.
Proof.
  intros Hlog Hp Hq legs reqs outs placed failed.
  assert (Hidx : map fst legs = range n) by now apply grid_legs_indices.
  assert (Hlen : List.length outs = List.length legs).
  { unfold outs. rewrite send_all_length. unfold reqs. apply length_map. }
  assert (Hfailed : map fo_grid_index failed = leg_numbers (Z.to_nat n)).
  { unfold failed. rewrite map_map. simpl.
    now apply (leg_numbers_of_legs legs outs n). }
  split; [| split; [exact Hidx | split; [exact Hfailed | split]]].
  - rewrite place_legs_spec by assumption. fold legs.
    unfold placed, failed, outs, reqs. now destruct (send_all api _ w).
  - intros k Hk. apply in_map_iff in Hk. destruct Hk as (p & <- & Hp').
    apply collect_in in Hp'. destruct Hp' as (a & Ha & Hfa).
    unfold failed. rewrite map_map. apply in_map_iff. exists a.
    split; [| exact Ha].
    unfold placed_of in Hfa. destruct (snd a); [| discriminate].
    now inversion Hfa.
  - f_equal. rewrite <- (length_map fo_grid_index), Hfailed.
    unfold leg_numbers. now rewrite length_map, length_seq.
Qed.

(** ** What an accepted run has checked and computed *)

Ltac bind_inv H x Hx := apply bind_inv in H; destruct H as (x & Hx & H).

Lemma grid_prepare_inv symbol side total upper lower n grid_type
      s sd tq u l ps qs :
  grid_prepare symbol side total upper lower n grid_type
  = Ok (s, sd, tq, u, l, ps, qs) ->
  validate_symbol symbol = Ok s /\ validate_side side = Ok sd /\
  tq = total /\ u = upper /\ l = lower /\
  min_quantity <= total <= max_quantity /\
  min_price <= lower /\ lower < upper /\ upper <= max_price /\
  (2 <= n <= 50)%Z /\
  str_in grid_type ["ARITHMETIC"; "GEOMETRIC"] = true /\
  _calculate_grid_prices lower upper n grid_type = Ok ps /\
  qs = replicate (total / IZR n) n.
Proof.
  intros H. unfold grid_prepare in H.
  bind_inv H s' Hs. bind_inv H sd' Hsd. bind_inv H tq' Htq.
  bind_inv H u' Hu. bind_inv H l' Hl. bind_inv H t1 Hb. bind_inv H t2 Hn2.
  bind_inv H t3 Hn50. bind_inv H t4 Hgt. bind_inv H ps' Hps.
  bind_inv H qs' Hqs. inversion H; subst; clear H.
  apply validate_quantity_inv in Htq. destruct Htq as [-> Htq].
  apply validate_price_inv in Hu. destruct Hu as [-> Hu].
  apply validate_price_inv in Hl. destruct Hl as [-> Hl].
  apply raise_if_inv, Rle_b_inv in Hb.
  apply raise_if_inv in Hn2. apply raise_if_inv in Hn50.
  apply raise_if_inv in Hgt. apply negb_false_iff in Hgt.
  apply calculate_grid_quantities_inv in Hqs. destruct Hqs as [-> _].
  repeat split; try assumption; try lra; lia.
Qed.

Lemma martingale_prepare_inv symbol side base upper lower n mult grid_type
      s sd bq u l ps qs :
  martingale_prepare symbol side base upper lower n mult grid_type
  = Ok (s, sd, bq, u, l, ps, qs) ->
  validate_symbol symbol = Ok s /\ validate_side side = Ok sd /\
  bq = base /\ u = upper /\ l = lower /\
  min_quantity <= base <= max_quantity /\
  min_price <= lower /\ lower < upper /\ upper <= max_price /\
  1 < mult /\ (2 <= n)%Z /\
  _calculate_grid_prices lower upper n grid_type = Ok ps /\
  qs = martingale_quantities base mult n.
Proof.
  intros H. unfold martingale_prepare in H.
  bind_inv H s' Hs. bind_inv H sd' Hsd. bind_inv H bq' Hbq.
  bind_inv H u' Hu. bind_inv H l' Hl. bind_inv H t1 Hb. bind_inv H t2 Hm.
  bind_inv H t3 Hn2. bind_inv H ps' Hps. inversion H; subst; clear H.
  apply validate_quantity_inv in Hbq. destruct Hbq as [-> Hbq].
  apply validate_price_inv in Hu. destruct Hu as [-> Hu].
  apply validate_price_inv in Hl. destruct Hl as [-> Hl].
  apply raise_if_inv, Rle_b_inv in Hb. apply raise_if_inv, Rle_b_inv in Hm.
  apply raise_if_inv in Hn2.
  repeat split; try assumption; try lra; lia.
Qed.

Lemma dca_prepare_inv symbol side total upper lower n grid_type
      s sd per u l ps qs :
  dca_prepare symbol side total upper lower n grid_type
  = Ok (s, sd, per, u, l, ps, qs) ->
  validate_symbol symbol = Ok s /\ validate_side side = Ok sd /\
  per = total / IZR n /\ u = upper /\ l = lower /\
  0 < total /\
  min_price <= lower /\ lower < upper /\ upper <= max_price /\
  IZR n <> 0 /\
  _calculate_grid_prices lower upper n grid_type = Ok ps /\
  comprehension (fun price => pydiv (total / IZR n) price) ps = Ok qs.
Proof.
  intros H. unfold dca_prepare in H.
  bind_inv H s' Hs. bind_inv H sd' Hsd. bind_inv H t1 Ht.
  bind_inv H u' Hu. bind_inv H l' Hl. bind_inv H t2 Hb.
  bind_inv H ps' Hps. bind_inv H per' Hper. bind_inv H qs' Hqs.
  inversion H; subst; clear H.
  apply validate_price_inv in Hu. destruct Hu as [-> Hu].
  apply validate_price_inv in Hl. destruct Hl as [-> Hl].
  apply raise_if_inv, Rle_b_inv in Ht. apply raise_if_inv, Rle_b_inv in Hb.
  unfold pydiv in Hper. destruct (Req_dec_T (IZR n) 0); [discriminate |].
  inversion Hper; subst.
  repeat split; try assumption; lra.
Qed.

(** ** The placement loops of the three grid strategies

    Once the validation has passed, a grid strategy builds its dictionary
    and raises the [TypeError] of the logger: the dictionary is never
    returned. *)

Section GridRuns.
Variable W : Type.
Variable api : request -> W -> result response * W.

Lemma place_grid_order_raises symbol side total upper lower n grid_type
      tif w rep w' :
  grid_order_result W api symbol side total upper lower n grid_type tif w
  = (Ok rep, w') ->
  place_grid_order W api symbol side total upper lower n grid_type tif w
  = (Raise (TypeError BotLogger.unexpected_keyword), w').
Proof. unfold place_grid_order. now intros ->. Qed.

Lemma place_martingale_grid_raises symbol side base upper lower n mult
      grid_type w rep w' :
  martingale_grid_result W api symbol side base upper lower n mult grid_type w
  = (Ok rep, w') ->
  place_martingale_grid W api symbol side base upper lower n mult grid_type w
  = (Raise (TypeError BotLogger.unexpected_keyword), w').
Proof. unfold place_martingale_grid. now intros ->. Qed.

Lemma place_dca_grid_raises symbol side total upper lower n grid_type
      w rep w' :
  dca_grid_result W api symbol side total upper lower n grid_type w
  = (Ok rep, w') ->
  place_dca_grid W api symbol side total upper lower n grid_type w
  = (Raise (TypeError BotLogger.unexpected_keyword), w').
Proof. unfold place_dca_grid. now intros ->. Qed.

Lemma grid_order_result_execution symbol side total upper lower n grid_type
      tif w rep w' :
  grid_order_result W api symbol side total upper lower n grid_type tif w
  = (Ok rep, w') ->
  grid_execution api (grid_side_of (rep_side rep)) tif n rep w w'.
Proof.
  unfold grid_order_result. intros H.
  destruct (grid_prepare _ _ _ _ _ _ _)
    as [[[[[[[s sd] tq] u] l] ps] qs] | e] eqn:Hprep; [| discriminate].
  apply grid_prepare_inv in Hprep.
  destruct Hprep as (_ & _ & _ & _ & _ & _ & _ & _ & _ & _ & _ & Hps & ->).
  apply calculate_grid_prices_length in Hps.
  pose proof (place_legs_execution api s (grid_side_of sd) tif None
                log_leg_placed n ps (replicate (total / IZR n) n) w
                (fun _ => eq_refl) Hps (length_replicate _ _))
    as (Hrun & Hidx & Hfailed & Hincl & Hcount).
  rewrite Hrun in H.
  destruct (GridOrderManager.success_rate _ n) as [rate | e] eqn:Hrate;
    [| discriminate].
  apply success_rate_inv in Hrate. simpl in H. inversion H; subst; clear H.
  unfold grid_execution. simpl. repeat split; assumption.
Qed.

Lemma martingale_grid_result_execution symbol side base upper lower n mult
      grid_type w rep w' :
  martingale_grid_result W api symbol side base upper lower n mult grid_type w
  = (Ok rep, w') ->
  grid_execution api (fun _ => rep_side rep) "GTC" n rep w w'.
Proof.
  unfold martingale_grid_result. intros H.
  destruct (martingale_prepare _ _ _ _ _ _ _ _)
    as [[[[[[[s sd] bq] u] l] ps] qs] | e] eqn:Hprep; [| discriminate].
  apply martingale_prepare_inv in Hprep.
  destruct Hprep as (_ & _ & _ & _ & _ & _ & _ & _ & _ & Hm & _ & Hps & ->).
  apply calculate_grid_prices_length in Hps.
  assert (Hqs : List.length (martingale_quantities base mult n) = Z.to_nat n).
  { now rewrite martingale_quantities_spec, length_map, length_seq. }
  pose proof (place_legs_execution api s (fun _ => sd) "GTC" None
                (log_martingale_leg_placed mult) n ps _ w
                (fun i => log_martingale_leg_placed_raises mult i Hm) Hps Hqs)
    as (Hrun & Hidx & Hfailed & Hincl & Hcount).
  rewrite Hrun in H.
  destruct (GridOrderManager.success_rate _ n) as [rate | e] eqn:Hrate;
    [| discriminate].
  apply success_rate_inv in Hrate. simpl in H. inversion H; subst; clear H.
  unfold grid_execution. simpl. repeat split; assumption.
Qed.

Lemma dca_grid_result_execution symbol side total upper lower n grid_type
      w rep w' :
  dca_grid_result W api symbol side total upper lower n grid_type w
  = (Ok rep, w') ->
  grid_execution api (fun _ => rep_side rep) "GTC" n rep w w'.
Proof.
  unfold dca_grid_result. intros H.
  destruct (dca_prepare _ _ _ _ _ _ _)
    as [[[[[[[s sd] per] u] l] ps] qs] | e] eqn:Hprep; [| discriminate].
  apply dca_prepare_inv in Hprep.
  destruct Hprep as (_ & _ & _ & _ & _ & _ & _ & _ & _ & _ & Hps & Hqs).
  apply comprehension_length in Hqs.
  apply calculate_grid_prices_length in Hps. rewrite Hps in Hqs.
  pose proof (place_legs_execution api s (fun _ => sd) "GTC" (Some per)
                log_leg_placed n ps qs w (fun _ => eq_refl) Hps Hqs)
    as (Hrun & Hidx & Hfailed & Hincl & Hcount).
  rewrite Hrun in H.
  destruct (GridOrderManager.success_rate _ n) as [rate | e] eqn:Hrate;
    [| discriminate].
  apply success_rate_inv in Hrate. simpl in H. inversion H; subst; clear H.
  unfold grid_execution. simpl. repeat split; assumption.
Qed.

(** Once the validation has passed, the dictionary is built. *)
Lemma grid_order_result_built symbol side total upper lower n grid_type tif w
      s sd tq u l ps qs :
  grid_prepare symbol side total upper lower n grid_type
  = Ok (s, sd, tq, u, l, ps, qs) ->
  exists rep w',
    grid_order_result W api symbol side total upper lower n grid_type tif w
    = (Ok rep, w') /\
    rep_symbol rep = s /\ rep_side rep = sd /\
    rep_grid_prices rep = ps /\ rep_grid_quantities rep = qs /\
    rep_extra rep = GridExtra tq.
Proof.
  intros Hprep. unfold grid_order_result. rewrite Hprep.
  apply grid_prepare_inv in Hprep.
  destruct Hprep as (_ & _ & _ & _ & _ & _ & _ & _ & _ & Hn & _).
  destruct (place_legs _ _ _ _ _ _ _ _ _ _) as [[placed failed] w'].
  rewrite success_rate_ok by (apply not_0_IZR; lia). simpl.
  eexists _, w'. repeat split.
Qed.

Lemma martingale_grid_result_built symbol side base upper lower n mult
      grid_type w s sd bq u l ps qs :
  martingale_prepare symbol side base upper lower n mult grid_type
  = Ok (s, sd, bq, u, l, ps, qs) ->
  exists rep w',
    martingale_grid_result W api symbol side base upper lower n mult
                           grid_type w
    = (Ok rep, w') /\
    rep_symbol rep = s /\ rep_side rep = sd /\
    rep_grid_prices rep = ps /\ rep_grid_quantities rep = qs /\
    rep_extra rep = MartingaleExtra bq (pysum qs) mult.
Proof.
  intros Hprep. unfold martingale_grid_result. rewrite Hprep.
  apply martingale_prepare_inv in Hprep.
  destruct Hprep as (_ & _ & _ & _ & _ & _ & _ & _ & _ & _ & Hn & _).
  destruct (place_legs _ _ _ _ _ _ _ _ _ _) as [[placed failed] w'].
  rewrite success_rate_ok by (apply not_0_IZR; lia). simpl.
  eexists _, w'. repeat split.
Qed.

Lemma dca_grid_result_built symbol side total upper lower n grid_type w
      s sd per u l ps qs :
  dca_prepare symbol side total upper lower n grid_type
  = Ok (s, sd, per, u, l, ps, qs) ->
  exists rep w',
    dca_grid_result W api symbol side total upper lower n grid_type w
    = (Ok rep, w') /\
    rep_symbol rep = s /\ rep_side rep = sd /\
    rep_grid_prices rep = ps /\ rep_grid_quantities rep = qs /\
    rep_extra rep = DcaExtra total (pysum qs) per.
Proof.
  intros Hprep. unfold dca_grid_result. rewrite Hprep.
  apply dca_prepare_inv in Hprep.
  destruct Hprep as (_ & _ & _ & _ & _ & _ & _ & _ & _ & Hn & _).
  destruct (place_legs _ _ _ _ _ _ _ _ _ _) as [[placed failed] w'].
  rewrite success_rate_ok by assumption. simpl.
  eexists _, w'. repeat split.
Qed.
End GridRuns.

(** ** The TWAP loops *)

Lemma pysum_snoc (xs : list R) (x : R) : pysum (xs ++ [x]) = pysum xs + x.
Proof. unfold pysum. now rewrite fold_left_app. Qed.

Lemma for_try_except_invariant {W L S}
      (body : L -> S -> W -> S * result unit * W)
      (handler : L -> exn -> S -> S) (P : S -> Prop) :
  (forall l s w s' r w', P s -> body l s w = (s', r, w') -> P s') ->
  (forall l e s, P s -> P (handler l e s)) ->
  forall legs s w, P s -> P (fst (for_try_except body handler legs s w)).
Proof.
  intros Hbody Hhandler. induction legs as [| l rest IH]; intros s w Hs; simpl;
    [assumption |].
  destruct (body l s w) as [[s' [u | e]] w1] eqn:Hb; apply IH; eauto.
Qed.

Lemma executed_of_ok q i out r eq cq :
  chunk_parse out = Ok (r, eq, cq) ->
  executed_of q (i, out)
  = Some {| ec_chunk_index := i + 1; ec_quantity := q;
            ec_order_id := orderId r; ec_status := status r;
            ec_executed_qty := eq; ec_cummulative_quote_qty := cq |}.
Proof. intros H. unfold executed_of. simpl. now rewrite H. Qed.

Lemma failed_of_ok q i out r eq cq :
  chunk_parse out = Ok (r, eq, cq) -> chunk_failed_of q (i, out) = None.
Proof. intros H. unfold chunk_failed_of. simpl. now rewrite H. Qed.

Lemma chunk_failure_of_ok q i out r eq cq :
  chunk_parse out = Ok (r, eq, cq) ->
  chunk_failure_of q (i, out)
  = {| fc_chunk_index := i + 1; fc_quantity := q;
       fc_error := BotLogger.unexpected_keyword |}.
Proof. intros H. unfold chunk_failure_of. simpl. now rewrite H. Qed.

Lemma chunk_failure_of_raise q i out e :
  chunk_parse out = Raise e ->
  chunk_failure_of q (i, out)
  = {| fc_chunk_index := i + 1; fc_quantity := q; fc_error := str_exn e |}.
Proof. intros H. unfold chunk_failure_of. simpl. now rewrite H. Qed.

Lemma executed_of_raise q i out e :
  chunk_parse out = Raise e -> executed_of q (i, out) = None.
Proof. intros H. unfold executed_of. simpl. now rewrite H. Qed.

Lemma failed_of_raise q i out e :
  chunk_parse out = Raise e ->
  chunk_failed_of q (i, out)
  = Some {| fc_chunk_index := i + 1; fc_quantity := q; fc_error := str_exn e |}.
Proof. intros H. unfold chunk_failed_of. simpl. now rewrite H. Qed.

Section TwapLoop.
Variable W : Type.
Variable api : request -> W -> result response * W.

Lemma execute_chunk_consistent req i q log s w s' r w' :
  totals_consistent s ->
  execute_chunk W api req i q log s w = (s', r, w') ->
  totals_consistent s'.
Proof.
  destruct s as [[[ex fl] te] tc]. unfold execute_chunk, executed_amounts.
  intros Hs H.
  destruct (api req w) as [[resp | e] w1];
    [| inversion H; subst; exact Hs].
  destruct (float_get (executedQty resp)) as [eq | e];
    [| inversion H; subst; exact Hs].
  destruct (float_get (cummulativeQuoteQty resp)) as [cq | e];
    [| inversion H; subst; exact Hs].
  simpl in H. inversion H; subst; clear H. destruct Hs as [Hte Htc].
  unfold totals_consistent.
  rewrite !map_app. simpl. rewrite !pysum_snoc. split; congruence.
Qed.

Lemma record_failed_chunk_consistent i q e s :
  totals_consistent s -> totals_consistent (record_failed_chunk i q e s).
Proof. destruct s as [[[ex fl] te] tc]. simpl. auto. Qed.

(** One chunk, read through [chunk_parse]. *)
Lemma execute_chunk_step req i q log ex fl te tc w :
  execute_chunk W api req i q log (ex, fl, te, tc) w
  = (match chunk_parse (fst (api req w)) with
     | Ok (r, executed_qty, quote_qty) =>
         ((ex ++ [ {| ec_chunk_index := i + 1; ec_quantity := q;
                      ec_order_id := orderId r; ec_status := status r;
                      ec_executed_qty := executed_qty;
                      ec_cummulative_quote_qty := quote_qty |} ],
           fl, te + executed_qty, tc + quote_qty), log)
     | Raise e => ((ex, fl, te, tc), Raise e)
     end, snd (api req w)).
Proof.
  unfold execute_chunk, chunk_parse, executed_amounts.
  destruct (api req w) as [[r | e] w1]; simpl; [| reflexivity].
  destruct (float_get (executedQty r)); simpl; [| reflexivity].
  destruct (float_get (cummulativeQuoteQty r)); reflexivity.
Qed.

(** The loop of [place_twap_order], from any state: every chunk leaves a
    failed chunk. *)
Lemma twap_loop_from (symbol side order_type : string) (price : option R)
      (tif : string) (q : R) (indices : list Z)
      (ex : list executed_chunk) (fl : list failed_chunk) (te tc : R) (w : W) :
  let req := chunk_request symbol side order_type price tif q in
  exists te' tc',
    for_try_except (twap_chunk W api symbol side order_type price tif q)
                   (fun i => record_failed_chunk i q)
                   indices (ex, fl, te, tc) w
    = let outs := fst (send_all api (map (fun _ => req) indices) w) in
      ((ex ++ collect (executed_of q) (combine indices outs),
        fl ++ map (chunk_failure_of q) (combine indices outs),
        te', tc'),
       snd (send_all api (map (fun _ => req) indices) w)).
Proof.
  intros req. revert ex fl te tc w.
  induction indices as [| i rest IH]; intros ex fl te tc w.
  - exists te, tc. simpl. now rewrite !app_nil_r.
  - cbn [for_try_except map send_all]. unfold twap_chunk at 1.
    rewrite execute_chunk_step. fold req.
    destruct (api req w) as [out w1]. cbn [fst snd].
    destruct (chunk_parse out) as [[[r eq] cq] | e] eqn:Hparse;
      unfold log_chunk_executed, BotLogger.info_extra_data;
      cbn [record_failed_chunk];
      match goal with
      | |- context [for_try_except _ _ rest (?a, ?b, ?c, ?d) w1] =>
          destruct (IH a b c d w1) as (te' & tc' & ->)
      end;
      exists te', tc'; destruct (send_all api _ w1) as [outs w2];
      cbn [fst snd combine collect map];
      [ rewrite (executed_of_ok q i out r eq cq Hparse),
                (chunk_failure_of_ok q i out r eq cq Hparse)
      | rewrite (executed_of_raise q i out e Hparse),
                (chunk_failure_of_raise q i out e Hparse) ];
      now rewrite <- !app_assoc.
Qed.
End TwapLoop.

Lemma twap_prepare_inv symbol side total duration n order_type price
      s sd tq pr cq :
  twap_prepare symbol side total duration n order_type price
  = Ok (s, sd, tq, pr, cq) ->
  validate_symbol symbol = Ok s /\ validate_side side = Ok sd /\
  tq = total /\ cq = total / IZR n /\
  min_quantity <= total <= max_quantity /\
  min_quantity <= total / IZR n /\
  (1 <= duration)%Z /\ (2 <= n <= 100)%Z /\
  str_in order_type ["MARKET"; "LIMIT"] = true /\
  (String.eqb order_type "LIMIT" = false -> pr = price).
Proof.
  intros H. unfold twap_prepare in H.
  bind_inv H s' Hs. bind_inv H sd' Hsd. bind_inv H tq' Htq.
  bind_inv H t1 Hot. bind_inv H t2 Hreq. bind_inv H pr' Hpr.
  bind_inv H t3 Hd. bind_inv H t4 Hn2. bind_inv H t5 Hn100.
  bind_inv H cq' Hcq. bind_inv H iv Hiv. bind_inv H cq'' Hcq'.
  inversion H; subst; clear H.
  apply validate_quantity_inv in Htq. destruct Htq as [-> Htq].
  apply raise_if_inv in Hot. apply negb_false_iff in Hot.
  apply raise_if_inv in Hd. apply raise_if_inv in Hn2.
  apply raise_if_inv in Hn100.
  unfold pydiv in Hcq. destruct (Req_dec_T (IZR n) 0); [discriminate |].
  inversion Hcq; subst; clear Hcq.
  apply validate_quantity_inv in Hcq'. destruct Hcq' as [-> Hcq'].
  repeat split; try assumption; try lra; try lia.
  intros Hlim. rewrite Hlim in Hpr. now inversion Hpr.
Qed.

Lemma average_price_inv (cost executed avg : R) :
  average_price cost executed = Ok avg ->
  (0 < executed -> avg = cost / executed) /\ (executed <= 0 -> avg = 0).
Proof.
  unfold average_price, Rlt_b, pydiv.
  destruct (Rlt_dec 0 executed) as [Hpos | Hneg].
  - destruct (Req_dec_T executed 0); [lra |]. intros [= <-]. split; [auto | lra].
  - intros [= <-]. split; [lra | auto].
Qed.

(** The average price is never an error. *)
Lemma average_price_total (cost executed : R) :
  exists avg, average_price cost executed = Ok avg.
Proof.
  unfold average_price, Rlt_b, pydiv.
  destruct (Rlt_dec 0 executed) as [Hpos | Hneg]; [| eauto].
  destruct (Req_dec_T executed 0); [lra | eauto].
Qed.

Lemma chunk_success_rate_inv {A} (executed : list A) (n : Z) (rate : R) :
  chunk_success_rate executed n = Ok rate ->
  rate = INR (List.length executed) / IZR n * 100.
Proof.
  unfold chunk_success_rate, pydiv.
  destruct (Req_dec_T (IZR n) 0); simpl; [discriminate |].
  intros [= <-]. now rewrite INR_IZR_INZ.
Qed.

Lemma finish_inv s sd tq duration n vp ot pr ex fl te tc rep :
  finish s sd tq duration n vp ot pr (ex, fl, te, tc) = Ok rep ->
  exists avg,
    average_price tc te = Ok avg /\
    rep = {| tw_symbol := s; tw_side := sd; tw_total_quantity := tq;
             tw_duration_minutes := duration; tw_num_chunks := n;
             tw_volume_profile := vp; tw_order_type := ot; tw_price := pr;
             tw_total_executed := te; tw_total_cost := tc;
             tw_average_price := avg;
             tw_executed_chunks := ex; tw_failed_chunks := fl;
             tw_success_rate := INR (List.length ex) / IZR n * 100 |}.
Proof.
  unfold finish. intros H. bind_inv H avg Havg. bind_inv H rate Hrate.
  apply chunk_success_rate_inv in Hrate. inversion H; subst. eauto.
Qed.

Lemma finish_guarded s sd tq duration n vp ot pr st rep :
  totals_consistent st ->
  finish s sd tq duration n vp ot pr st = Ok rep ->
  average_price_guarded rep.
Proof.
  destruct st as [[[ex fl] te] tc]. intros [Hte Htc] H.
  apply finish_inv in H. destruct H as (avg & Havg & ->).
  apply average_price_inv in Havg. destruct Havg as [Hpos Hzero].
  unfold average_price_guarded. simpl.
  repeat split; try assumption.
  - intros H0. apply Hzero. lra.
  - intros ->. apply Hzero. rewrite Hte. unfold pysum. simpl. lra.
Qed.

Lemma chunk_success_rate_ok {A} (executed : list A) (n : Z) :
  IZR n <> 0 ->
  chunk_success_rate executed n
  = Ok (INR (List.length executed) / IZR n * 100).
Proof.
  intros Hn. unfold chunk_success_rate.
  rewrite pydiv_ok by assumption. simpl. now rewrite INR_IZR_INZ.
Qed.

(** The dictionary of a TWAP run is built whatever the loop has left. *)
Lemma finish_total s sd tq duration n vp ot pr st :
  IZR n <> 0 ->
  exists rep, finish s sd tq duration n vp ot pr st = Ok rep.
Proof.
  intros Hn. destruct st as [[[ex fl] te] tc]. unfold finish.
  destruct (average_price_total tc te) as (avg & ->). cbn [bind].
  rewrite chunk_success_rate_ok by assumption. cbn [bind]. eauto.
Qed.

Section TwapRuns.
Variable W : Type.
Variable api : request -> W -> result response * W.

Lemma place_twap_order_raises symbol side total duration n order_type
      price tif w rep w' :
  twap_order_result W api symbol side total duration n order_type price tif w
  = (Ok rep, w') ->
  place_twap_order W api symbol side total duration n order_type price tif w
  = (Raise (TypeError BotLogger.unexpected_keyword), w').
Proof. unfold place_twap_order. now intros ->. Qed.

Lemma place_twap_with_volume_profile_raises symbol side total duration
      profile order_type price w rep w' :
  volume_profile_result W api symbol side total duration profile order_type
                        price w
  = (Ok rep, w') ->
  place_twap_with_volume_profile W api symbol side total duration profile
                                 order_type price w
  = (Raise (TypeError BotLogger.unexpected_keyword), w').
Proof. unfold place_twap_with_volume_profile. now intros ->. Qed.

Lemma twap_order_result_execution symbol side total duration n order_type
      price tif w rep w' :
  twap_order_result W api symbol side total duration n order_type price tif w
  = (Ok rep, w') ->
  tw_num_chunks rep = n /\ twap_execution api tif rep w w'.
Proof.
  unfold twap_order_result. intros H.
  destruct (twap_prepare _ _ _ _ _ _ _)
    as [[[[[s sd] tq] pr] cq] | e] eqn:Hprep; [| discriminate].
  apply twap_prepare_inv in Hprep.
  destruct Hprep as (_ & _ & -> & -> & _ & _ & _ & Hn & _ & _).
  destruct (twap_loop_from W api s sd order_type pr tif (total / IZR n)
              (range n) [] [] 0 0 w) as (te & tc & Hloop).
  unfold initial_state in H. rewrite Hloop in H. cbv zeta in H.
  inversion H as [[Hfin Hw]]; clear H.
  apply finish_inv in Hfin. destruct Hfin as (avg & _ & ->).
  split; [reflexivity |]. unfold twap_execution. cbn -[send_all range INR].
  set (reqs := map _ (range n)).
  set (outs := fst (send_all api reqs w)).
  assert (Hlen : List.length outs = List.length (range n)).
  { unfold outs. rewrite send_all_length. unfold reqs. apply length_map. }
  assert (Hfailed : map fc_chunk_index
                        (map (chunk_failure_of (total / IZR n))
                             (combine (range n) outs))
                    = leg_numbers (Z.to_nat n)).
  { rewrite map_map. simpl. rewrite <- leg_numbers_range.
    rewrite <- (map_fst_combine_same (range n) outs Hlen) at 2.
    now rewrite map_map. }
  repeat split; try reflexivity.
  - exact Hfailed.
  - intros k Hk. apply in_map_iff in Hk. destruct Hk as (c & <- & Hc).
    apply collect_in in Hc. destruct Hc as ([i out] & Ha & Hfa).
    rewrite map_map. apply in_map_iff. exists (i, out). split; [| exact Ha].
    unfold executed_of in Hfa. simpl in Hfa.
    destruct (chunk_parse out) as [[[r eq] cq] |]; [| discriminate].
    now inversion Hfa.
  - f_equal. rewrite <- (length_map fc_chunk_index), Hfailed.
    unfold leg_numbers. now rewrite length_map, length_seq.
Qed.

Lemma twap_order_result_guarded symbol side total duration n order_type
      price tif w rep w' :
  twap_order_result W api symbol side total duration n order_type price tif w
  = (Ok rep, w') ->
  average_price_guarded rep.
Proof.
  unfold twap_order_result. intros H.
  destruct (twap_prepare _ _ _ _ _ _ _)
    as [[[[[s sd] tq] pr] cq] | e]; [| discriminate].
  match type of H with
  | context [for_try_except ?b ?h ?l ?s0 w] =>
      pose proof (for_try_except_invariant b h totals_consistent) as Hinv;
      specialize (Hinv (fun i s1 w1 s2 r w2 Hs Hb =>
                          execute_chunk_consistent W api _ i _ _ s1 w1 s2 r w2
                                                   Hs Hb));
      specialize (Hinv (fun i e s1 Hs =>
                          record_failed_chunk_consistent i _ e s1 Hs));
      specialize (Hinv l s0 w);
      destruct (for_try_except b h l s0 w) as [st w1]
  end.
  inversion H as [[Hfin Hw]]; clear H.
  eapply finish_guarded; [| exact Hfin].
  apply Hinv. unfold initial_state, totals_consistent, pysum. simpl. auto.
Qed.



(** Once the validation has passed, the dictionary is built. *)
Lemma twap_order_result_built symbol side total duration n order_type price
      tif w s sd tq pr cq :
  twap_prepare symbol side total duration n order_type price
  = Ok (s, sd, tq, pr, cq) ->
  exists rep w',
    twap_order_result W api symbol side total duration n order_type price
                      tif w
    = (Ok rep, w').
Proof.
  intros Hprep. unfold twap_order_result. rewrite Hprep.
  apply twap_prepare_inv in Hprep.
  destruct Hprep as (_ & _ & _ & _ & _ & _ & _ & Hn & _).
  destruct (for_try_except _ _ _ _ _) as [st w'].
  destruct (finish_total s sd tq duration n None order_type pr st) as (rep & ->);
    [apply not_0_IZR; lia | eauto].
Qed.
End TwapRuns.
(** ** The loop of the volume-profile run *)

Lemma volume_profile_length total n profile quantities :
  _calculate_volume_profile total n profile = Ok quantities ->
  List.length quantities = Z.to_nat n.
Proof.
  assert (Huniform : forall qs,
             (q <- pydiv total (IZR n) ;; Ok (replicate q n)) = Ok qs ->
             List.length qs = Z.to_nat n).
  { intros qs H. bind_inv H q Hq. inversion H. apply length_replicate. }
  assert (Hweighted : forall weight qs,
             (weights <- comprehension (weight n) (range n) ;;
              renormalize total weights) = Ok qs ->
             List.length qs = Z.to_nat n).
  { intros weight qs H. bind_inv H ws Hws. unfold renormalize in H.
    apply comprehension_length in H. apply comprehension_length in Hws.
    now rewrite H, Hws, length_range. }
  unfold _calculate_volume_profile.
  destruct (String.eqb profile "UNIFORM"); [apply Huniform |].
  destruct (String.eqb profile "FRONT_LOADED"); [apply Hweighted |].
  destruct (String.eqb profile "BACK_LOADED"); [apply Hweighted |].
  destruct (String.eqb profile "MIDDLE_LOADED"); [apply Hweighted |].
  apply Huniform.
Qed.

Lemma profile_prepare_inv symbol side total duration profile s sd tq n qs :
  profile_prepare symbol side total duration profile = Ok (s, sd, tq, n, qs) ->
  validate_symbol symbol = Ok s /\ validate_side side = Ok sd /\
  tq = total /\ n = 10%Z /\
  _calculate_volume_profile total 10 profile = Ok qs.
Proof.
  intros H. unfold profile_prepare in H.
  bind_inv H s' Hs. bind_inv H sd' Hsd. bind_inv H tq' Htq.
  bind_inv H t1 Hp. bind_inv H qs' Hqs. bind_inv H iv Hiv.
  inversion H; subst; clear H.
  apply validate_quantity_inv in Htq. destruct Htq as [-> _]. auto.
Qed.

Section ProfileLoop.
Variable W : Type.
Variable api : request -> W -> result response * W.
Variables (symbol side order_type : string) (price : option R).

Let order_of : R -> request :=
  chunk_request symbol side order_type price "GTC".

Let handler : Z * R -> exn -> chunk_state -> chunk_state :=
  fun '(i, chunk_qty) => record_failed_chunk i chunk_qty.

Lemma profile_chunk_step i q ex fl te tc w :
  profile_chunk W api symbol side order_type price (i, q) (ex, fl, te, tc) w
  = (match chunk_parse (fst (guarded_send api order_of q w)) with
     | Ok (r, executed_qty, quote_qty) =>
         ((ex ++ [ {| ec_chunk_index := i + 1; ec_quantity := q;
                      ec_order_id := orderId r; ec_status := status r;
                      ec_executed_qty := executed_qty;
                      ec_cummulative_quote_qty := quote_qty |} ],
           fl, te + executed_qty, tc + quote_qty), Ok tt)
     | Raise e => ((ex, fl, te, tc), Raise e)
     end, snd (guarded_send api order_of q w)).
Proof.
  unfold profile_chunk, guarded_send.
  destruct (validate_quantity q) as [q' | e] eqn:Hq; [| reflexivity].
  apply validate_quantity_inv in Hq. destruct Hq as [-> _].
  apply execute_chunk_step.
Qed.

Lemma profile_loop_from (legs : list (Z * R))
      (ex : list executed_chunk) (fl : list failed_chunk) (te tc : R) (w : W) :
  exists te' tc',
    for_try_except (profile_chunk W api symbol side order_type price) handler
                   legs (ex, fl, te, tc) w
    = let outs := fst (guarded_send_all api order_of (map snd legs) w) in
      ((ex ++ collect profile_executed_of (combine legs outs),
        fl ++ collect profile_failed_of (combine legs outs),
        te', tc'),
       snd (guarded_send_all api order_of (map snd legs) w)).
Proof.
  revert ex fl te tc w.
  induction legs as [| [i q] rest IH]; intros ex fl te tc w.
  - exists te, tc. simpl. now rewrite !app_nil_r.
  - cbn [for_try_except map guarded_send_all snd]. rewrite profile_chunk_step.
    destruct (guarded_send api order_of q w) as [out w1]. cbn [fst snd].
    destruct (chunk_parse out) as [[[r eq] cq] | e] eqn:Hparse;
      cbn [handler record_failed_chunk];
      match goal with
      | |- context [for_try_except _ _ rest (?a, ?b, ?c, ?d) w1] =>
          destruct (IH a b c d w1) as (te' & tc' & ->)
      end;
      exists te', tc'; destruct (guarded_send_all api _ _ w1) as [outs w2];
      cbn [fst snd combine collect];
      change (profile_executed_of (i, q, out)) with (executed_of q (i, out));
      change (profile_failed_of (i, q, out)) with (chunk_failed_of q (i, out));
      [ rewrite (executed_of_ok q i out r eq cq Hparse),
                (failed_of_ok q i out r eq cq Hparse)
      | rewrite (executed_of_raise q i out e Hparse),
                (failed_of_raise q i out e Hparse) ];
      now rewrite <- app_assoc.
Qed.
End ProfileLoop.

Lemma guarded_send_all_length {W} (api : request -> W -> result response * W)
      (order_of : R -> request) (qs : list R) (w : W) :
  List.length (fst (guarded_send_all api order_of qs w)) = List.length qs.
Proof.
  revert w. induction qs as [| q rest IH]; intros w; [reflexivity |].
  cbn [guarded_send_all]. destruct (guarded_send api order_of q w) as [out w1].
  specialize (IH w1). destruct (guarded_send_all api order_of rest w1).
  simpl in *. now rewrite IH.
Qed.

Lemma map_snd_enumerate_from {A} (k : Z) (xs : list A) :
  map snd (enumerate_from k xs) = xs.
Proof.
  revert k. induction xs as [| x rest IH]; intros k; simpl; [reflexivity |].
  now rewrite IH.
Qed.

Lemma enumerate_indices {A} (xs : list A) (n : Z) :
  List.length xs = Z.to_nat n -> map fst (enumerate xs) = range n.
Proof.
  intros Hlen. unfold enumerate, range. rewrite map_fst_enumerate_from, Hlen.
  apply map_ext. intros j. lia.
Qed.

Lemma volume_profile_result_execution (W : Type)
      (api : request -> W -> result response * W)
      symbol side total duration profile order_type price w rep w' :
  volume_profile_result W api symbol side total duration profile
                        order_type price w
  = (Ok rep, w') ->
  profile_execution api rep w w'.
Proof.
  unfold volume_profile_result. intros H.
  destruct (profile_prepare _ _ _ _ _)
    as [[[[[s sd] tq] n] qs] | e] eqn:Hprep; [| discriminate].
  apply profile_prepare_inv in Hprep.
  destruct Hprep as (_ & _ & -> & -> & Hqs).
  pose proof (volume_profile_length _ _ _ _ Hqs) as Hlen.
  destruct (profile_loop_from W api s sd order_type price
              (enumerate qs) [] [] 0 0 w) as (te & tc & Hloop).
  unfold initial_state in H.
  rewrite Hloop in H. cbv zeta in H.
  inversion H as [[Hfin Hw]]; clear H.
  apply finish_inv in Hfin. destruct Hfin as (avg & _ & ->).
  unfold profile_execution. exists profile, qs.
  cbn -[guarded_send_all range INR enumerate leg_numbers
        _calculate_volume_profile].
  unfold enumerate in *. rewrite map_snd_enumerate_from.
  set (order_of := chunk_request s sd order_type price "GTC").
  set (legs := enumerate_from 0 qs).
  set (outs := fst (guarded_send_all api order_of qs w)).
  assert (Hidx : map fst legs = range 10) by now apply enumerate_indices.
  assert (Hlen' : List.length outs = List.length legs).
  { transitivity (List.length qs).
    - apply guarded_send_all_length.
    - rewrite <- (map_snd_enumerate_from 0 qs) at 1. apply length_map. }
  destruct (collect_partition profile_executed_of profile_failed_of
              ec_chunk_index fc_chunk_index (fun a => fst (fst a) + 1)%Z
              (combine legs outs)) as [Hperm Hcount].
  { intros [[i q] out]. unfold profile_executed_of, profile_failed_of.
    cbn [fst snd].
    destruct (chunk_parse out) as [[[r eq] cq] | e] eqn:Hparse; [left | right];
      eexists;
      [ rewrite (executed_of_ok _ i out r eq cq Hparse),
                (failed_of_ok _ i out r eq cq Hparse)
      | rewrite (executed_of_raise _ i out e Hparse),
                (failed_of_raise _ i out e Hparse) ];
      auto. }
  repeat split; try reflexivity; try assumption.
  - change (leg_numbers 10) with (leg_numbers (Z.to_nat 10)).
    rewrite <- (leg_numbers_of_legs legs outs 10 Hidx Hlen'). exact Hperm.
  - rewrite Hcount, length_combine, Hlen', Nat.min_id.
    transitivity (List.length (map fst legs));
      [symmetry; apply length_map | now rewrite Hidx].
Qed.


(** ** Valid parameters pass the validation *)

Lemma ltb_2_false (n : Z) : (2 <= n)%Z -> (n <? 2)%Z = false.
Proof. intros H. apply Z.ltb_ge. lia. Qed.

Lemma gtb_false (n m : Z) : (n <= m)%Z -> (n >? m)%Z = false.
Proof. intros H. rewrite Z.gtb_ltb. apply Z.ltb_ge. lia. Qed.

Lemma IZR_nonzero_of_ge2 (n : Z) : (2 <= n)%Z -> IZR n <> 0.
Proof. intros H. apply not_0_IZR. lia. Qed.

Lemma grid_prepare_ok symbol side s sd total upper lower n grid_type ps :
  validate_symbol symbol = Ok s -> validate_side side = Ok sd ->
  min_quantity <= total <= max_quantity ->
  min_price <= lower -> lower < upper -> upper <= max_price ->
  (2 <= n <= 50)%Z ->
  str_in grid_type ["ARITHMETIC"; "GEOMETRIC"] = true ->
  _calculate_grid_prices lower upper n grid_type = Ok ps ->
  grid_prepare symbol side total upper lower n grid_type
  = Ok (s, sd, total, upper, lower, ps, replicate (total / IZR n) n).
Proof.
  intros Hs Hsd Ht Hl Hlu Hu Hn Hgt Hps. unfold grid_prepare.
  rewrite Hs, Hsd. cbn [bind].
  rewrite validate_quantity_ok by assumption. cbn [bind].
  rewrite !validate_price_ok by lra. cbn [bind].
  rewrite Rle_b_false by assumption.
  rewrite ltb_2_false, gtb_false by lia. rewrite Hgt, Hps.
  cbn [bind raise_if negb].
  unfold _calculate_grid_quantities.
  rewrite pydiv_ok by (apply IZR_nonzero_of_ge2; lia).
  now destruct (String.eqb sd "BOTH").
Qed.

Lemma martingale_prepare_ok symbol side s sd base upper lower n mult
      grid_type ps :
  validate_symbol symbol = Ok s -> validate_side side = Ok sd ->
  min_quantity <= base <= max_quantity ->
  min_price <= lower -> lower < upper -> upper <= max_price ->
  1 < mult -> (2 <= n)%Z ->
  _calculate_grid_prices lower upper n grid_type = Ok ps ->
  martingale_prepare symbol side base upper lower n mult grid_type
  = Ok (s, sd, base, upper, lower, ps, martingale_quantities base mult n).
Proof.
  intros Hs Hsd Hb Hl Hlu Hu Hm Hn Hps. unfold martingale_prepare.
  rewrite Hs, Hsd. cbn [bind].
  rewrite validate_quantity_ok by assumption. cbn [bind].
  rewrite !validate_price_ok by lra. cbn [bind].
  rewrite !Rle_b_false by assumption.
  rewrite ltb_2_false by lia. rewrite Hps. reflexivity.
Qed.

Lemma twap_prepare_market_ok symbol side s sd total duration n price :
  validate_symbol symbol = Ok s -> validate_side side = Ok sd ->
  min_quantity <= total <= max_quantity ->
  min_quantity <= total / IZR n ->
  (1 <= duration)%Z -> (2 <= n <= 100)%Z ->
  twap_prepare symbol side total duration n "MARKET" price
  = Ok (s, sd, total, price, total / IZR n).
Proof.
  intros Hs Hsd Ht Hq Hd Hn. unfold twap_prepare.
  rewrite Hs, Hsd. cbn [bind].
  rewrite validate_quantity_ok by assumption.
  cbn [bind raise_if negb str_in existsb String.eqb Ascii.eqb Bool.eqb orb andb].
  replace (duration <? 1)%Z with false by (symmetry; apply Z.ltb_ge; lia).
  rewrite ltb_2_false, gtb_false by lia. cbn [bind raise_if].
  rewrite pydiv_ok by (apply IZR_nonzero_of_ge2; lia). cbn [bind].
  rewrite pydiv_ok by (apply IZR_pred_nonzero; lia). cbn [bind].
  rewrite validate_quantity_ok; [reflexivity |].
  split; [assumption |].
  assert (0 < IZR n) by (apply (IZR_lt 0); lia).
  assert (1 <= IZR n) by (apply (IZR_le 1); lia).
  unfold max_quantity in *. apply Rle_trans with total; [| lra].
  unfold min_quantity in *.
  apply Rmult_le_reg_r with (IZR n); [assumption |].
  unfold Rdiv. rewrite Rmult_assoc, Rinv_l by lra. nra.
Qed.

Lemma validate_symbol_btcusdt : validate_symbol "BTCUSDT" = Ok "BTCUSDT".
Proof. reflexivity. Qed.

Lemma validate_side_buy : validate_side "BUY" = Ok "BUY".
Proof. reflexivity. Qed.

(** ** The outcome of an entry point

    An entry point either raises what its validation raises, with the
    exchange as it was, or sends the orders of all its legs and raises the
    [TypeError] of the logger.  It never returns. *)

Section Outcomes.
Variable W : Type.
Variable api : request -> W -> result response * W.

Lemma place_grid_order_outcome symbol side total upper lower n grid_type tif w :
  place_grid_order W api symbol side total upper lower n grid_type tif w
  = match grid_prepare symbol side total upper lower n grid_type with
    | Ok (s, sd, _, _, _, ps, qs) =>
        (Raise (TypeError BotLogger.unexpected_keyword),
         snd (send_all api (grid_orders s (grid_side_of sd) tif ps qs) w))
    | Raise e => (Raise e, w)
    end.
Proof.
  destruct (grid_prepare _ _ _ _ _ _ _)
    as [[[[[[[s sd] tq] u] l] ps] qs] | e] eqn:Hprep.
  - destruct (grid_order_result_built W api _ _ _ _ _ _ _ tif w _ _ _ _ _ _ _
                Hprep) as (rep & w' & Hrun & Hs & Hsd & Hps & Hqs & _).
    rewrite (place_grid_order_raises W api _ _ _ _ _ _ _ _ _ _ _ Hrun).
    apply grid_order_result_execution in Hrun.
    destruct Hrun as (_ & Hw & _). rewrite Hs, Hsd, Hps, Hqs in Hw.
    unfold grid_orders. now rewrite Hw.
  - unfold place_grid_order, grid_order_result. now rewrite Hprep.
Qed.

Lemma place_martingale_grid_outcome symbol side base upper lower n mult
      grid_type w :
  place_martingale_grid W api symbol side base upper lower n mult grid_type w
  = match martingale_prepare symbol side base upper lower n mult grid_type with
    | Ok (s, sd, _, _, _, ps, qs) =>
        (Raise (TypeError BotLogger.unexpected_keyword),
         snd (send_all api (grid_orders s (fun _ => sd) "GTC" ps qs) w))
    | Raise e => (Raise e, w)
    end.
Proof.
  destruct (martingale_prepare _ _ _ _ _ _ _ _)
    as [[[[[[[s sd] bq] u] l] ps] qs] | e] eqn:Hprep.
  - destruct (martingale_grid_result_built W api _ _ _ _ _ _ _ _ w
                _ _ _ _ _ _ _ Hprep)
      as (rep & w' & Hrun & Hs & Hsd & Hps & Hqs & _).
    rewrite (place_martingale_grid_raises W api _ _ _ _ _ _ _ _ _ _ _ Hrun).
    apply martingale_grid_result_execution in Hrun.
    destruct Hrun as (_ & Hw & _). rewrite Hs, Hsd, Hps, Hqs in Hw.
    unfold grid_orders. now rewrite Hw.
  - unfold place_martingale_grid, martingale_grid_result. now rewrite Hprep.
Qed.

Lemma place_dca_grid_outcome symbol side total upper lower n grid_type w :
  place_dca_grid W api symbol side total upper lower n grid_type w
  = match dca_prepare symbol side total upper lower n grid_type with
    | Ok (s, sd, _, _, _, ps, qs) =>
        (Raise (TypeError BotLogger.unexpected_keyword),
         snd (send_all api (grid_orders s (fun _ => sd) "GTC" ps qs) w))
    | Raise e => (Raise e, w)
    end.
Proof.
  destruct (dca_prepare _ _ _ _ _ _ _)
    as [[[[[[[s sd] per] u] l] ps] qs] | e] eqn:Hprep.
  - destruct (dca_grid_result_built W api _ _ _ _ _ _ _ w _ _ _ _ _ _ _ Hprep)
      as (rep & w' & Hrun & Hs & Hsd & Hps & Hqs & _).
    rewrite (place_dca_grid_raises W api _ _ _ _ _ _ _ _ _ _ Hrun).
    apply dca_grid_result_execution in Hrun.
    destruct Hrun as (_ & Hw & _). rewrite Hs, Hsd, Hps, Hqs in Hw.
    unfold grid_orders. now rewrite Hw.
  - unfold place_dca_grid, dca_grid_result. now rewrite Hprep.
Qed.

Lemma place_twap_order_outcome symbol side total duration n order_type price
      tif w :
  place_twap_order W api symbol side total duration n order_type price tif w
  = match twap_prepare symbol side total duration n order_type price with
    | Ok (s, sd, _, pr, cq) =>
        (Raise (TypeError BotLogger.unexpected_keyword),
         snd (send_all api
                (map (fun _ => chunk_request s sd order_type pr tif cq)
                     (range n)) w))
    | Raise e => (Raise e, w)
    end.
Proof.
  unfold place_twap_order, twap_order_result.
  destruct (twap_prepare _ _ _ _ _ _ _)
    as [[[[[s sd] tq] pr] cq] | e] eqn:Hprep; [| reflexivity].
  apply twap_prepare_inv in Hprep.
  destruct Hprep as (_ & _ & _ & _ & _ & _ & _ & Hn & _).
  destruct (twap_loop_from W api s sd order_type pr tif cq (range n)
              [] [] 0 0 w) as (te & tc & Hloop).
  unfold initial_state. rewrite Hloop. cbv beta iota zeta.
  match goal with
  | |- context [finish ?a ?b ?c ?d ?e ?f ?g ?h ?st] =>
      destruct (finish_total a b c d e f g h st) as (rep & ->);
        [apply not_0_IZR; lia | reflexivity]
  end.
Qed.

Lemma place_twap_with_volume_profile_outcome symbol side total duration
      profile order_type price w :
  place_twap_with_volume_profile W api symbol side total duration profile
                                 order_type price w
  = match profile_prepare symbol side total duration profile with
    | Ok (s, sd, _, _, qs) =>
        (Raise (TypeError BotLogger.unexpected_keyword),
         snd (guarded_send_all api
                (chunk_request s sd order_type price "GTC") qs w))
    | Raise e => (Raise e, w)
    end.
Proof.
  unfold place_twap_with_volume_profile, volume_profile_result.
  destruct (profile_prepare _ _ _ _ _)
    as [[[[[s sd] tq] n] qs] | e] eqn:Hprep; [| reflexivity].
  apply profile_prepare_inv in Hprep.
  destruct Hprep as (_ & _ & _ & -> & _).
  destruct (profile_loop_from W api s sd order_type price (enumerate qs)
              [] [] 0 0 w) as (te & tc & Hloop).
  unfold initial_state. rewrite Hloop. cbv beta iota zeta.
  unfold enumerate. rewrite map_snd_enumerate_from.
  match goal with
  | |- context [finish ?a ?b ?c ?d ?e ?f ?g ?h ?st] =>
      destruct (finish_total a b c d e f g h st) as (rep & ->);
        [apply not_0_IZR; lia | reflexivity]
  end.
Qed.
End Outcomes.

(** ** The neutral grid *)

Lemma validate_side_both :
  validate_side "BOTH"
  = Raise (ValidationError "Side BOTH is not supported. Supported sides: BUY, SELL").
Proof. reflexivity. Qed.

(** C3. Neutral-grid side alternation fails on the code: place_grid_order
    with side 'BOTH' is never accepted.  Whatever the other arguments and
    the exchange, the call raises a ValidationError and no order is
    submitted; with a supported symbol the error is that of validate_side,
    'Side BOTH is not supported'. *)
Theorem neutral_grid_rejected (W : Type)
        (api : request -> W -> result response * W) :
  (forall symbol total upper lower n grid_type tif w,
      exists msg,
        place_grid_order W api symbol "BOTH" total upper lower n grid_type tif w
        = (Raise (ValidationError msg), w)) /\
  (forall total upper lower n grid_type tif w,
      place_grid_order W api "BTCUSDT" "BOTH" total upper lower n grid_type tif w
      = (Raise (ValidationError
                  "Side BOTH is not supported. Supported sides: BUY, SELL"), w)).
Proof.
  split.
  - intros. unfold place_grid_order, grid_order_result, grid_prepare.
    destruct (validate_symbol symbol) as [s | e] eqn:Hs.
    + cbn [bind]. rewrite validate_side_both. cbn [bind].
      eexists. reflexivity.
    + apply validate_symbol_raises in Hs. destruct Hs as (msg & ->).
      exists msg. reflexivity.
  - intros. unfold place_grid_order, grid_order_result, grid_prepare.
    rewrite validate_symbol_btcusdt. cbn [bind].
    rewrite validate_side_both. reflexivity.
Qed.

(** Once the validation of [place_grid_order] has passed, the side is BUY
    or SELL, and every leg is submitted with it: the alternating branch is
    never taken. *)
Lemma grid_side_never_alternates symbol side total upper lower n grid_type
      s sd tq u l ps qs :
  grid_prepare symbol side total upper lower n grid_type
  = Ok (s, sd, tq, u, l, ps, qs) ->
  (sd = "BUY" \/ sd = "SELL") /\ forall i, grid_side_of sd i = sd.
Proof.
  intros Hprep.
  apply grid_prepare_inv in Hprep. destruct Hprep as (_ & Hsd & _).
  apply validate_side_range in Hsd. split; [exact Hsd |].
  intros i. unfold grid_side_of. now destruct Hsd as [-> | ->].
Qed.

(** ** Leg-count preconditions *)

Lemma bind_raise_inv {A B} (m : result A) (k : A -> result B) (e : exn) :
  bind m k = Raise e -> m = Raise e \/ exists a, m = Ok a /\ k a = Raise e.
Proof. destruct m as [a | e']; simpl; [eauto | intros [= ->]; auto]. Qed.

Ltac validation_raises H :=
  first [ apply validate_symbol_raises in H
        | apply validate_side_raises in H
        | apply validate_quantity_raises in H
        | apply validate_price_raises in H
        | apply raise_if_raises in H; eexists ];
  eassumption.

Ltac bind_raise H :=
  apply bind_raise_inv in H;
  destruct H as [H | (? & ? & H)]; [validation_raises H |].

(** [place_grid_order] rejects a leg count below 2 or above 50. *)
Lemma place_grid_order_leg_count (W : Type)
      (api : request -> W -> result response * W)
      symbol side total upper lower n grid_type tif w :
  (n < 2 \/ 50 < n)%Z ->
  exists msg,
    place_grid_order W api symbol side total upper lower n grid_type tif w
    = (Raise (ValidationError msg), w).
Proof.
  intros Hn. unfold place_grid_order, grid_order_result.
  destruct (grid_prepare _ _ _ _ _ _ _)
    as [[[[[[[s sd] tq] u] l] ps] qs] | e] eqn:Hprep.
  - apply grid_prepare_inv in Hprep. lia.
  - enough (exists msg, e = ValidationError msg) as (msg & ->)
      by (eexists; reflexivity).
    unfold grid_prepare in Hprep.
    do 6 bind_raise Hprep.
    apply bind_raise_inv in Hprep.
    destruct Hprep as [Hprep | (? & Hn2 & Hprep)]; [validation_raises Hprep |].
    apply bind_raise_inv in Hprep.
    destruct Hprep as [Hprep | (? & Hn50 & Hprep)]; [validation_raises Hprep |].
    apply raise_if_inv in Hn2. apply raise_if_inv in Hn50.
    apply Z.ltb_ge in Hn2. rewrite Z.gtb_ltb in Hn50. apply Z.ltb_ge in Hn50.
    lia.
Qed.

(** [place_martingale_grid] rejects a leg count below 2. *)
Lemma place_martingale_grid_leg_count (W : Type)
      (api : request -> W -> result response * W)
      symbol side base upper lower n mult grid_type w :
  (n < 2)%Z ->
  exists msg,
    place_martingale_grid W api symbol side base upper lower n mult grid_type w
    = (Raise (ValidationError msg), w).
Proof.
  intros Hn. unfold place_martingale_grid, martingale_grid_result.
  destruct (martingale_prepare _ _ _ _ _ _ _ _)
    as [[[[[[[s sd] bq] u] l] ps] qs] | e] eqn:Hprep.
  - apply martingale_prepare_inv in Hprep. lia.
  - enough (exists msg, e = ValidationError msg) as (msg & ->)
      by (eexists; reflexivity).
    unfold martingale_prepare in Hprep.
    do 7 bind_raise Hprep.
    apply bind_raise_inv in Hprep.
    destruct Hprep as [Hprep | (? & Hn2 & Hprep)]; [validation_raises Hprep |].
    apply raise_if_inv in Hn2. apply Z.ltb_ge in Hn2. lia.
Qed.

Lemma validate_price_opt_raises (p : option R) (e : exn) :
  validate_price_opt p = Raise e -> exists msg, e = ValidationError msg.
Proof.
  destruct p as [p |]; simpl; [apply validate_price_raises |].
  intros [= <-]. eauto.
Qed.

(** [place_twap_order] rejects a chunk count below 2 or above 100. *)
Lemma place_twap_order_leg_count (W : Type)
      (api : request -> W -> result response * W)
      symbol side total duration n order_type price tif w :
  (n < 2 \/ 100 < n)%Z ->
  exists msg,
    place_twap_order W api symbol side total duration n order_type price tif w
    = (Raise (ValidationError msg), w).
Proof.
  intros Hn. unfold place_twap_order, twap_order_result.
  destruct (twap_prepare _ _ _ _ _ _ _)
    as [[[[[s sd] tq] pr] cq] | e] eqn:Hprep.
  - apply twap_prepare_inv in Hprep. lia.
  - enough (exists msg, e = ValidationError msg) as (msg & ->)
      by (eexists; reflexivity).
    unfold twap_prepare in Hprep.
    do 5 bind_raise Hprep.
    apply bind_raise_inv in Hprep.
    destruct Hprep as [Hprep | (? & _ & Hprep)].
    { destruct (String.eqb order_type "LIMIT"); [| discriminate].
      apply bind_raise_inv in Hprep.
      destruct Hprep as [Hprep | (? & _ & Hprep)]; [| discriminate].
      now apply validate_price_opt_raises in Hprep. }
    bind_raise Hprep.
    apply bind_raise_inv in Hprep.
    destruct Hprep as [Hprep | (? & Hn2 & Hprep)]; [validation_raises Hprep |].
    apply bind_raise_inv in Hprep.
    destruct Hprep as [Hprep | (? & Hn100 & Hprep)]; [validation_raises Hprep |].
    apply raise_if_inv in Hn2. apply raise_if_inv in Hn100.
    apply Z.ltb_ge in Hn2. rewrite Z.gtb_ltb in Hn100. apply Z.ltb_ge in Hn100.
    lia.
Qed.

Lemma one_leg_prices_raise :
  _calculate_grid_prices 100 200 1 "ARITHMETIC" = Raise ZeroDivisionError.
Proof.
  unfold _calculate_grid_prices. simpl String.eqb. cbv iota.
  change (IZR (1 - 1)) with 0. now rewrite pydiv_zero.
Qed.

Lemma dca_one_leg_raises (W : Type)
      (api : request -> W -> result response * W) (w : W) :
  place_dca_grid W api "BTCUSDT" "BUY" 100 200 100 1 "ARITHMETIC" w
  = (Raise ZeroDivisionError, w).
Proof.
  unfold place_dca_grid, dca_grid_result, dca_prepare.
  rewrite validate_symbol_btcusdt, validate_side_buy. cbn [bind].
  rewrite Rle_b_false by lra. cbn [bind raise_if].
  rewrite !validate_price_ok by (unfold min_price, max_price; lra).
  cbn [bind]. rewrite Rle_b_false by lra. cbn [bind raise_if].
  now rewrite one_leg_prices_raise.
Qed.

(** C2. Leg-count preconditions fail on the code for the DCA grid:
    place_dca_grid checks no leg count, so that with one leg the run reaches
    the price calculator, which divides by n - 1 = 0: the caller gets a
    ZeroDivisionError and not a ValidationError. *)
Theorem dca_leg_count_unchecked (W : Type)
        (api : request -> W -> result response * W) (w : W) :
  place_dca_grid W api "BTCUSDT" "BUY" 100 200 100 1 "ARITHMETIC" w
  = (Raise ZeroDivisionError, w)
  /\ _calculate_grid_prices 100 200 1 "ARITHMETIC" = Raise ZeroDivisionError.
Proof.
  split; [apply dca_one_leg_raises | apply one_leg_prices_raise].
Qed.

(** ** The schedules *)

Lemma calculate_grid_prices_ok lower upper n grid_type :
  0 < lower -> 0 < upper -> (2 <= n)%Z ->
  exists prices, _calculate_grid_prices lower upper n grid_type = Ok prices.
Proof.
  intros Hl Hu Hn. destruct (String.eqb grid_type "GEOMETRIC") eqn:Hg.
  - apply String.eqb_eq in Hg. subst. eexists.
    now apply geometric_prices_eq.
  - rewrite fallback_is_arithmetic by assumption. eexists.
    now apply arithmetic_prices_eq.
Qed.

Lemma at_index_map_seq (f : nat -> R) (N : nat) (i : Z) :
  (0 <= i)%Z -> (Z.to_nat i < N)%nat ->
  at_index (map f (seq 0 N)) i = f (Z.to_nat i).
Proof.
  intros Hi HN. unfold at_index.
  rewrite (nth_indep _ 0 (f 0%nat)) by (now rewrite length_map, length_seq).
  rewrite map_nth, seq_nth by assumption. reflexivity.
Qed.

Lemma leg_request_side symbol sd tif (legs : list leg) :
  Forall (fun req => request_side req = sd)
         (map (leg_request symbol (fun _ => sd) tif) legs).
Proof.
  apply Forall_forall. intros req Hin. apply in_map_iff in Hin.
  destruct Hin as (l & <- & _). reflexivity.
Qed.

(** ** Volume profiles *)

Lemma fold_left_Rplus_acc (xs : list R) (a : R) :
  fold_left Rplus xs a = a + pysum xs.
Proof.
  unfold pysum. revert a. induction xs as [| x rest IH]; intros a; simpl.
  - ring.
  - rewrite IH, (IH (0 + x)). ring.
Qed.

Lemma pysum_cons (x : R) (xs : list R) : pysum (x :: xs) = x + pysum xs.
Proof. unfold pysum at 1. simpl. rewrite fold_left_Rplus_acc. ring. Qed.

Lemma pysum_nil : pysum [] = 0.
Proof. reflexivity. Qed.

Lemma pysum_map_scale {A} (c d : R) (f : A -> R) (xs : list A) :
  pysum (map (fun x => c * f x / d) xs) = c * pysum (map f xs) / d.
Proof.
  induction xs as [| x rest IH]; simpl.
  - rewrite pysum_nil. unfold Rdiv. ring.
  - rewrite !pysum_cons, IH. unfold Rdiv. ring.
Qed.

Lemma pysum_lower_bound {A} (b : R) (f : A -> R) (xs : list A) :
  (forall x, In x xs -> b <= f x) ->
  INR (List.length xs) * b <= pysum (map f xs).
Proof.
  induction xs as [| x rest IH]; intros Hb.
  - simpl. rewrite pysum_nil. lra.
  - cbn [map List.length]. rewrite pysum_cons, S_INR.
    specialize (IH (fun y Hy => Hb y (or_intror Hy))).
    specialize (Hb x (or_introl eq_refl)). lra.
Qed.

Lemma repeat_as_map {A} (x : A) (n : Z) :
  replicate x n = map (fun _ => x) (range n).
Proof.
  unfold replicate, range. rewrite map_map.
  generalize (Z.to_nat n) as N. intros N. generalize 0%nat as k.
  induction N as [| N IH]; intros k; simpl; [reflexivity |].
  f_equal. apply IH.
Qed.

Lemma pysum_const_range (n : Z) :
  (0 <= n)%Z -> pysum (map (fun _ : Z => 1) (range n)) = IZR n.
Proof.
  intros Hn. unfold range. rewrite map_map.
  rewrite <- (Z2Nat.id n) at 2 by assumption. rewrite <- INR_IZR_INZ.
  generalize (Z.to_nat n) as N. intros N. generalize 0%nat as k.
  induction N as [| N IH]; intros k.
  - simpl. apply pysum_nil.
  - cbn [seq map]. rewrite pysum_cons, IH, S_INR. ring.
Qed.

Lemma renormalize_ok {A} (total : R) (f : A -> R) (xs : list A) :
  pysum (map f xs) <> 0 ->
  renormalize total (map f xs)
  = Ok (map (fun x => total * f x / pysum (map f xs)) xs).
Proof.
  intros Hs. unfold renormalize.
  rewrite (comprehension_ok _ (fun w => total * w / pysum (map f xs)))
    by (intros w _; now apply pydiv_ok).
  now rewrite map_map.
Qed.

Lemma ratio_le_one (n i : Z) :
  (2 <= n)%Z -> (0 <= i < n)%Z -> 0 <= IZR i / IZR (n - 1) <= 1.
Proof.
  intros Hn Hi. pose proof (IZR_pred_pos n Hn) as Hpos.
  assert (0 <= IZR i) by (apply (IZR_le 0); lia).
  assert (IZR i <= IZR (n - 1)) by (apply IZR_le; lia).
  split.
  - apply Rmult_le_pos; [assumption |]. left. now apply Rinv_0_lt_compat.
  - apply Rmult_le_reg_r with (IZR (n - 1)); [assumption |].
    unfold Rdiv. rewrite Rmult_assoc, Rinv_l by lra. lra.
Qed.

(** Every weight is at least one half. *)
Lemma profile_weight_bound (profile : string) (n i : Z) :
  (2 <= n)%Z -> (0 <= i < n)%Z -> 5 / 10 <= profile_weight profile n i.
Proof.
  intros Hn Hi. unfold profile_weight.
  pose proof (ratio_le_one n i Hn Hi) as Hr. unfold Rdiv in *.
  destruct (String.eqb profile "FRONT_LOADED").
  { rewrite Rmult_assoc. lra. }
  destruct (String.eqb profile "BACK_LOADED").
  { rewrite Rmult_assoc. lra. }
  destruct (String.eqb profile "MIDDLE_LOADED"); [apply Rmax_l | lra].
Qed.

Lemma profile_weights_positive (profile : string) (n : Z) :
  (2 <= n)%Z -> 0 < pysum (map (profile_weight profile n) (range n)).
Proof.
  intros Hn.
  pose proof (pysum_lower_bound (5 / 10) (profile_weight profile n) (range n))
    as Hb.
  rewrite length_range in Hb.
  assert (Hlen : 2 <= INR (Z.to_nat n)).
  { rewrite INR_IZR_INZ, Z2Nat.id by lia. apply (IZR_le 2). assumption. }
  apply Rlt_le_trans with (INR (Z.to_nat n) * (5 / 10)); [lra |].
  apply Hb. intros i Hi. apply in_range in Hi.
  now apply profile_weight_bound.
Qed.

Lemma weights_ok (weight : Z -> Z -> result R) (profile : string) (n : Z) :
  (forall i, weight n i = Ok (profile_weight profile n i)) ->
  comprehension (weight n) (range n)
  = Ok (map (profile_weight profile n) (range n)).
Proof. intros Hw. apply comprehension_ok. intros i _. apply Hw. Qed.

Lemma volume_profile_eq (total : R) (n : Z) (profile : string) :
  (2 <= n)%Z ->
  In profile ["UNIFORM"; "FRONT_LOADED"; "BACK_LOADED"; "MIDDLE_LOADED"] ->
  _calculate_volume_profile total n profile
  = Ok (map (fun i => total * profile_weight profile n i
                      / pysum (map (profile_weight profile n) (range n)))
            (range n)).
Proof.
  intros Hn Hin.
  pose proof (profile_weights_positive profile n Hn) as Hpos.
  pose proof (IZR_pred_nonzero n Hn) as Hnz.
  unfold _calculate_volume_profile.
  destruct Hin as [<- | [<- | [<- | [<- | []]]]]; simpl String.eqb; cbv iota.
  - rewrite pydiv_ok by (apply IZR_nonzero_of_ge2; lia). cbn [bind].
    rewrite repeat_as_map. f_equal. apply map_ext. intros i.
    change (profile_weight "UNIFORM" n) with (fun _ : Z => 1).
    rewrite pysum_const_range by lia. unfold Rdiv. ring.
  - rewrite (weights_ok front_loaded_weight "FRONT_LOADED").
    + cbn [bind]. apply renormalize_ok. lra.
    + intros i. unfold front_loaded_weight. now rewrite pydiv_ok.
  - rewrite (weights_ok back_loaded_weight "BACK_LOADED").
    + cbn [bind]. apply renormalize_ok. lra.
    + intros i. unfold back_loaded_weight. now rewrite pydiv_ok.
  - rewrite (weights_ok middle_loaded_weight "MIDDLE_LOADED").
    + cbn [bind]. apply renormalize_ok. lra.
    + intros i. unfold middle_loaded_weight.
      rewrite pydiv_ok; [reflexivity |].
      pose proof (IZR_pred_pos n Hn). lra.
Qed.

(** C6. TWAP volume-profile renormalization: for n >= 2 and each of the four
    profiles the chunk quantities are computed without error, there are n of
    them, quantity[i] = total * weight[i] / sum of the weights with the
    weights of the profile (1 for UNIFORM), the sum of the weights is
    positive, and the quantities sum to the total quantity. *)
Theorem volume_profile_renormalized (total : R) (n : Z) (profile : string) :
  (2 <= n)%Z ->
  In profile ["UNIFORM"; "FRONT_LOADED"; "BACK_LOADED"; "MIDDLE_LOADED"] ->
  let total_weight := pysum (map (profile_weight profile n) (range n)) in
  exists quantities,
    _calculate_volume_profile total n profile = Ok quantities /\
    List.length quantities = Z.to_nat n /\
    0 < total_weight /\
    (forall i, (0 <= i < n)%Z ->
       at_index quantities i
       = total * profile_weight profile n i / total_weight) /\
    pysum quantities = total.
Proof.
  intros Hn Hin total_weight.
  pose proof (profile_weights_positive profile n Hn) as Hpos.
  fold total_weight in Hpos.
  eexists. split; [now apply volume_profile_eq |].
  fold total_weight.
  split; [now rewrite length_map, length_range |].
  split; [exact Hpos |].
  split.
  - intros i Hi. unfold at_index.
    now rewrite (nth_map_range
                   (fun i => total * profile_weight profile n i / total_weight)).
  - rewrite pysum_map_scale. fold total_weight. field. lra.
Qed.

(** A front-loaded split of 10 units into 10 chunks (the chunk count of
    place_twap_with_volume_profile). *)
Lemma volume_profile_renormalized_witness :
  exists quantities,
    _calculate_volume_profile 10 10 "FRONT_LOADED" = Ok quantities /\
    List.length quantities = 10%nat /\
    pysum quantities = 10.
Proof.
  destruct (volume_profile_renormalized 10 10 "FRONT_LOADED")
    as (quantities & Heq & Hlen & _ & _ & Hsum).
  - lia.
  - simpl. auto.
  - exists quantities. auto.
Defined.

(** ** The DCA schedule *)

Lemma calculate_grid_prices_positive lower upper n grid_type prices :
  0 < lower -> lower < upper -> (2 <= n)%Z ->
  _calculate_grid_prices lower upper n grid_type = Ok prices ->
  Forall (fun p => 0 < p) prices.
Proof.
  intros Hl Hlu Hn Hps. apply Forall_forall. intros p Hp.
  destruct (String.eqb grid_type "GEOMETRIC") eqn:Hg.
  - apply String.eqb_eq in Hg. subst grid_type.
    rewrite geometric_prices_eq in Hps by (lra || assumption).
    inversion Hps; subst. apply in_map_iff in Hp. destruct Hp as (i & <- & _).
    unfold geometric_price. apply Rmult_lt_0_compat; [assumption |].
    apply Rpower_pos.
  - rewrite fallback_is_arithmetic, arithmetic_prices_eq in Hps by assumption.
    inversion Hps; subst. apply in_map_iff in Hp. destruct Hp as (i & <- & Hi).
    apply in_range in Hi. unfold arithmetic_price.
    pose proof (ratio_le_one n i Hn Hi) as Hr.
    replace (IZR i * (upper - lower) / IZR (n - 1))
      with ((upper - lower) * (IZR i / IZR (n - 1)))
      by (unfold Rdiv; ring).
    assert (0 <= (upper - lower) * (IZR i / IZR (n - 1)))
      by (apply Rmult_le_pos; lra).
    lra.
Qed.

Lemma dca_quantities_ok (per : R) (prices : list R) :
  Forall (fun p => 0 < p) prices ->
  comprehension (fun price => pydiv per price) prices
  = Ok (map (fun p => per / p) prices).
Proof.
  intros Hpos. apply comprehension_ok. intros p Hp.
  rewrite Forall_forall in Hpos. specialize (Hpos p Hp).
  apply pydiv_ok. lra.
Qed.

Lemma spent_dca (per : R) (prices : list R) :
  Forall (fun p => 0 < p) prices ->
  spent (map (fun p => per / p) prices) prices
  = INR (List.length prices) * per.
Proof.
  unfold spent, zip. induction 1 as [| p rest Hp Hrest IH].
  - simpl. rewrite pysum_nil. ring.
  - cbn [map combine List.length]. rewrite pysum_cons, IH, S_INR.
    cbn [fst snd]. field. lra.
Qed.

Lemma at_index_map (g : R -> R) (xs : list R) (i : Z) :
  (Z.to_nat i < List.length xs)%nat ->
  at_index (map g xs) i = g (at_index xs i).
Proof.
  intros Hi. unfold at_index.
  rewrite (nth_indep _ 0 (g 0)) by (now rewrite length_map).
  apply map_nth.
Qed.

Lemma at_index_positive (xs : list R) (i : Z) :
  Forall (fun p => 0 < p) xs -> (Z.to_nat i < List.length xs)%nat ->
  0 < at_index xs i.
Proof.
  intros Hpos Hi. rewrite Forall_forall in Hpos. apply Hpos.
  unfold at_index. now apply nth_In.
Qed.

(** * Further properties of the validators *)

Lemma str_in_In (s : string) (xs : list string) :
  str_in s xs = true <-> In s xs.
Proof.
  unfold str_in. rewrite existsb_exists. split.
  - intros (x & Hx & Heq). apply String.eqb_eq in Heq. now subst.
  - intros Hin. exists s. split; [assumption | apply String.eqb_refl].
Qed.

Lemma string_nonempty (s : string) : String.eqb s "" = false <-> s <> "".
Proof. apply String.eqb_neq. Qed.

(** The shape shared by [validate_symbol], [validate_side] and
    [validate_order_type]. *)
Lemma normalising_validator (supported : list string) (msg0 : string)
      (msg : string -> string) (s s' : string) :
  (if String.eqb s "" then Raise (ValidationError msg0)
   else
     let t := strip (upper s) in
     if negb (str_in t supported) then Raise (ValidationError (msg t))
     else Ok t) = Ok s'
  <-> s <> "" /\ strip (upper s) = s' /\ In s' supported.
Proof.
  destruct (String.eqb s "") eqn:He.
  - apply String.eqb_eq in He. split; [discriminate | intros (H & _); contradiction].
  - apply string_nonempty in He. cbv zeta.
    destruct (str_in (strip (upper s)) supported) eqn:Hin; simpl.
    + apply str_in_In in Hin. split.
      * intros [= <-]. auto.
      * intros (_ & <- & _). reflexivity.
    + split; [discriminate |]. intros (_ & <- & Hs').
      apply str_in_In in Hs'. congruence.
Qed.

Lemma validate_symbol_iff (s s' : string) :
  validate_symbol s = Ok s'
  <-> s <> "" /\ strip (upper s) = s' /\ In s' supported_symbols.
Proof.
  exact (normalising_validator supported_symbols "Symbol cannot be empty"
           (fun t => ("Symbol " ++ t
                        ++ " is not supported. Supported symbols: "
                        ++ String.concat ", " supported_symbols)%string)
           s s').
Qed.

Lemma validate_side_iff (s s' : string) :
  validate_side s = Ok s'
  <-> s <> "" /\ strip (upper s) = s' /\ In s' supported_sides.
Proof.
  exact (normalising_validator supported_sides "Side cannot be empty"
           (fun t => ("Side " ++ t
                        ++ " is not supported. Supported sides: "
                        ++ String.concat ", " supported_sides)%string)
           s s').
Qed.

Lemma validate_order_type_iff (s s' : string) :
  validate_order_type s = Ok s'
  <-> s <> "" /\ strip (upper s) = s' /\ In s' supported_order_types.
Proof.
  exact (normalising_validator supported_order_types
           "Order type cannot be empty"
           (fun t => ("Order type " ++ t
                        ++ " is not supported. Supported types: "
                        ++ String.concat ", " supported_order_types)%string)
           s s').
Qed.

Lemma validate_symbol_normal (s s' : string) :
  validate_symbol s = Ok s' ->
  In s' supported_symbols /\ validate_symbol s' = Ok s'.
Proof.
  intros H. apply validate_symbol_iff in H. destruct H as (_ & _ & Hin).
  split; [exact Hin |]. unfold supported_symbols in Hin. simpl in Hin.
  repeat (destruct Hin as [<- | Hin]; [reflexivity |]). contradiction.
Qed.

Lemma validate_side_normal (s s' : string) :
  validate_side s = Ok s' -> In s' supported_sides /\ validate_side s' = Ok s'.
Proof.
  intros H. apply validate_side_iff in H. destruct H as (_ & _ & Hin).
  split; [exact Hin |]. unfold supported_sides in Hin. simpl in Hin.
  repeat (destruct Hin as [<- | Hin]; [reflexivity |]). contradiction.
Qed.

Lemma validate_order_type_normal (s s' : string) :
  validate_order_type s = Ok s' ->
  In s' supported_order_types /\ validate_order_type s' = Ok s'.
Proof.
  intros H. apply validate_order_type_iff in H. destruct H as (_ & _ & Hin).
  split; [exact Hin |]. unfold supported_order_types in Hin. simpl in Hin.
  repeat (destruct Hin as [<- | Hin]; [reflexivity |]). contradiction.
Qed.

Lemma validate_time_in_force_iff (s s' : string) :
  validate_time_in_force s = Ok s'
  <-> (s = "" /\ s' = "GTC")
      \/ (s <> "" /\ strip (upper s) = s' /\ In s' valid_tif).
Proof.
  unfold validate_time_in_force.
  destruct (String.eqb s "") eqn:He.
  - apply String.eqb_eq in He. subst s. split.
    + intros [= <-]. now left.
    + intros [[_ ->] | (H & _)]; [reflexivity | contradiction].
  - pose proof He as Hne. apply string_nonempty in Hne. cbv zeta.
    destruct (str_in (strip (upper s)) valid_tif) eqn:Hin; cbn [negb].
    + apply str_in_In in Hin. split.
      * intros [= <-]. right. auto.
      * intros [[H _] | (_ & <- & _)]; [contradiction | reflexivity].
    + split; [discriminate |].
      intros [[H _] | (_ & <- & Hs')]; [contradiction |].
      apply str_in_In in Hs'. congruence.
Qed.

Lemma validate_time_in_force_normal (s s' : string) :
  validate_time_in_force s = Ok s' ->
  In s' valid_tif /\ validate_time_in_force s' = Ok s'.
Proof.
  intros H. apply validate_time_in_force_iff in H.
  assert (Hin : In s' valid_tif).
  { destruct H as [[_ ->] | (_ & _ & Hin)]; [simpl; auto | exact Hin]. }
  split; [exact Hin |].
  unfold valid_tif in Hin. simpl in Hin.
  repeat (destruct Hin as [<- | Hin]; [reflexivity |]). contradiction.
Qed.

(** X1. validate_quantity and validate_price return their argument
    unchanged exactly when it lies within the bounds of the validator, both
    bounds included ([0.001, 1000000] for a quantity, [0.0001, 1000000] for a
    price), and raise a ValidationError for every other number. *)
Theorem numeric_validators_range (x : R) :
  (min_quantity <= x <= max_quantity -> validate_quantity x = Ok x) /\
  (forall y, validate_quantity x = Ok y ->
             y = x /\ min_quantity <= x <= max_quantity) /\
  (forall e, validate_quantity x = Raise e ->
             (exists msg, e = ValidationError msg) /\
             (x < min_quantity \/ max_quantity < x)) /\
  (min_price <= x <= max_price -> validate_price x = Ok x) /\
  (forall y, validate_price x = Ok y -> y = x /\ min_price <= x <= max_price) /\
  (forall e, validate_price x = Raise e ->
             (exists msg, e = ValidationError msg) /\
             (x < min_price \/ max_price < x)).
Proof.
  split; [apply validate_quantity_ok |].
  split; [intros y H; apply validate_quantity_inv in H; tauto |].
  split.
  { intros e H. split; [now apply validate_quantity_raises in H |].
    destruct (Rlt_dec x min_quantity) as [Hlo | Hlo]; [now left |].
    destruct (Rlt_dec max_quantity x) as [Hhi | Hhi]; [now right |].
    rewrite validate_quantity_ok in H by lra. discriminate. }
  split; [apply validate_price_ok |].
  split; [intros y H; apply validate_price_inv in H; tauto |].
  intros e H. split; [now apply validate_price_raises in H |].
  destruct (Rlt_dec x min_price) as [Hlo | Hlo]; [now left |].
  destruct (Rlt_dec max_price x) as [Hhi | Hhi]; [now right |].
  rewrite validate_price_ok in H by lra. discriminate.
Qed.

(** The upper bound itself is a valid quantity and a valid price. *)
Lemma numeric_validators_range_witness :
  validate_quantity 1000000 = Ok 1000000 /\ validate_price 1000000 = Ok 1000000.
Proof.
  destruct (numeric_validators_range 1000000) as (Hq & _ & _ & Hp & _).
  split; [apply Hq | apply Hp];
    unfold min_quantity, max_quantity, min_price, max_price; lra.
Defined.

(** X2. validate_symbol, validate_side and validate_order_type accept a
    string exactly when it is not empty and, upper-cased and stripped of
    surrounding white space, it is one of the supported values; the result
    is that normal form, and validating a result again returns it
    unchanged. *)
Theorem string_validators_normalise (s s' : string) :
  (validate_symbol s = Ok s'
   <-> s <> "" /\ strip (upper s) = s' /\ In s' supported_symbols) /\
  (validate_side s = Ok s'
   <-> s <> "" /\ strip (upper s) = s' /\ In s' supported_sides) /\
  (validate_order_type s = Ok s'
   <-> s <> "" /\ strip (upper s) = s' /\ In s' supported_order_types) /\
  (validate_symbol s = Ok s' -> validate_symbol s' = Ok s') /\
  (validate_side s = Ok s' -> validate_side s' = Ok s') /\
  (validate_order_type s = Ok s' -> validate_order_type s' = Ok s').
Proof.
  split; [apply validate_symbol_iff |].
  split; [apply validate_side_iff |].
  split; [apply validate_order_type_iff |].
  split; [intros H; now apply validate_symbol_normal in H |].
  split; [intros H; now apply validate_side_normal in H |].
  intros H; now apply validate_order_type_normal in H.
Qed.

(** A symbol in lower case between spaces. *)
Lemma string_validators_normalise_witness :
  validate_symbol " btcusdt " = Ok "BTCUSDT"
  /\ validate_symbol "BTCUSDT" = Ok "BTCUSDT".
Proof.
  destruct (string_validators_normalise " btcusdt " "BTCUSDT")
    as (Hsym & _ & _ & Hidem & _).
  assert (H : validate_symbol " btcusdt " = Ok "BTCUSDT").
  { apply Hsym. split; [discriminate |]. split; [reflexivity |].
    simpl. auto. }
  split; [exact H | exact (Hidem H)].
Defined.

(** X3. validate_time_in_force never rejects the empty string: it answers
    the default 'GTC'.  A non-empty string is accepted exactly when its
    normal form (upper case, stripped) is GTC, IOC, FOK or GTX, and that
    normal form is the result; every result is one of the four and is its
    own validation. *)
Theorem time_in_force_default (s s' : string) :
  validate_time_in_force "" = Ok "GTC" /\
  (validate_time_in_force s = Ok s'
   <-> (s = "" /\ s' = "GTC")
       \/ (s <> "" /\ strip (upper s) = s' /\ In s' valid_tif)) /\
  (validate_time_in_force s = Ok s' ->
   In s' valid_tif /\ validate_time_in_force s' = Ok s').
Proof.
  split; [reflexivity |].
  split; [apply validate_time_in_force_iff |].
  apply validate_time_in_force_normal.
Qed.

(** 'ioc' is accepted as IOC. *)
Lemma time_in_force_default_witness :
  validate_time_in_force "ioc" = Ok "IOC" /\ In "IOC" valid_tif.
Proof.
  destruct (time_in_force_default "ioc" "IOC") as (_ & Hiff & Hin).
  assert (H : validate_time_in_force "ioc" = Ok "IOC").
  { apply Hiff. right. split; [discriminate |]. split; [reflexivity |].
    simpl. auto. }
  split; [exact H | exact (proj1 (Hin H))].
Defined.

(** X4. validate_stop_price accepts a stop price exactly when it is a valid
    price that lies strictly above the current price for side 'BUY' and
    strictly below it for side 'SELL'; the side is compared as it is given,
    so that for any other side only the range of the price is checked.  The
    accepted price is returned unchanged, every rejection is a
    ValidationError. *)
Theorem stop_price_direction (stop_price : R) (side : string)
        (current_price : R) :
  (forall p, validate_stop_price stop_price side current_price = Ok p
             <-> p = stop_price /\ min_price <= stop_price <= max_price /\
                 (side = "BUY" -> current_price < stop_price) /\
                 (side = "SELL" -> stop_price < current_price)) /\
  (forall e, validate_stop_price stop_price side current_price = Raise e ->
             exists msg, e = ValidationError msg).
Proof.
  unfold validate_stop_price. split.
  - intros p. destruct (validate_price stop_price) as [sp | e] eqn:Hp; cbn [bind].
    + apply validate_price_inv in Hp. destruct Hp as [-> Hp].
      destruct (String.eqb side "BUY") eqn:Hb; cbn [andb].
      * apply String.eqb_eq in Hb. subst side.
        destruct (Rle_dec stop_price current_price) as [Hle | Hgt].
        -- split; [discriminate |]. intros (_ & _ & H & _).
           specialize (H eq_refl). lra.
        -- simpl. split.
           ++ intros [= <-]. repeat split; try lra. discriminate.
           ++ intros (-> & _). reflexivity.
      * apply String.eqb_neq in Hb.
        destruct (String.eqb side "SELL") eqn:Hs; cbn [andb].
        -- apply String.eqb_eq in Hs. subst side.
           destruct (Rge_dec stop_price current_price) as [Hge | Hlt].
           ++ split; [discriminate |]. intros (_ & _ & _ & H).
              specialize (H eq_refl). lra.
           ++ split.
              ** intros [= <-]. repeat split; try lra. discriminate.
              ** intros (-> & _). reflexivity.
        -- apply String.eqb_neq in Hs. split.
           ++ intros [= <-]. repeat split; try lra; intros; contradiction.
           ++ intros (-> & _). reflexivity.
    + split; [discriminate |]. intros (_ & Hr & _).
      rewrite validate_price_ok in Hp by assumption. discriminate.
  - intros e. destruct (validate_price stop_price) as [sp | e'] eqn:Hp; cbn [bind].
    + destruct (_ && _)%bool; [intros [= <-]; eauto |].
      destruct (_ && _)%bool; [intros [= <-]; eauto | discriminate].
    + intros [= <-]. now apply validate_price_raises in Hp.
Qed.

(** A buy stop at 110 with the market at 100 is accepted, one at 90 is not. *)
Lemma stop_price_direction_witness :
  validate_stop_price 110 "BUY" 100 = Ok 110
  /\ exists msg, validate_stop_price 90 "BUY" 100 = Raise (ValidationError msg).
Proof.
  split.
  - apply (proj1 (stop_price_direction 110 "BUY" 100)).
    unfold min_price, max_price.
    repeat split; try lra. discriminate.
  - destruct (validate_stop_price 90 "BUY" 100) as [p | e] eqn:H.
    + apply (proj1 (stop_price_direction 90 "BUY" 100)) in H.
      destruct H as (_ & _ & Hb & _). specialize (Hb eq_refl). lra.
    + apply (proj2 (stop_price_direction 90 "BUY" 100)) in H.
      destruct H as (msg & ->). eauto.
Defined.

(** X5. validate_take_profit_stop_loss accepts exactly the valid prices that
    bracket the entry price: stop_loss < entry < take_profit for side 'BUY'
    and take_profit < entry < stop_loss for side 'SELL'; for any other side
    the two prices only have to be valid.  The prices are returned
    unchanged. *)
Theorem take_profit_stop_loss_bracket (take_profit stop_loss : R)
        (side : string) (entry_price : R) (tp sl : R) :
  validate_take_profit_stop_loss take_profit stop_loss side entry_price
  = Ok (tp, sl)
  <-> tp = take_profit /\ sl = stop_loss /\
      min_price <= take_profit <= max_price /\
      min_price <= stop_loss <= max_price /\
      (side = "BUY" -> stop_loss < entry_price < take_profit) /\
      (side = "SELL" -> take_profit < entry_price < stop_loss).
Proof.
  unfold validate_take_profit_stop_loss.
  destruct (validate_price take_profit) as [tp' | e] eqn:Htp; cbn [bind].
  2:{ split; [discriminate |]. intros (_ & _ & Hr & _).
      rewrite validate_price_ok in Htp by assumption. discriminate. }
  apply validate_price_inv in Htp. destruct Htp as [-> Htp].
  destruct (validate_price stop_loss) as [sl' | e] eqn:Hsl; cbn [bind].
  2:{ split; [discriminate |]. intros (_ & _ & _ & Hr & _).
      rewrite validate_price_ok in Hsl by assumption. discriminate. }
  apply validate_price_inv in Hsl. destruct Hsl as [-> Hsl].
  destruct (String.eqb side "BUY") eqn:Hb.
  - apply String.eqb_eq in Hb. subst side.
    destruct (Rle_dec take_profit entry_price).
    { split; [discriminate |]. intros (_ & _ & _ & _ & H & _).
      specialize (H eq_refl). lra. }
    destruct (Rge_dec stop_loss entry_price).
    { split; [discriminate |]. intros (_ & _ & _ & _ & H & _).
      specialize (H eq_refl). lra. }
    split.
    + intros [= <- <-]. repeat split; try lra; discriminate.
    + intros (-> & -> & _). reflexivity.
  - apply String.eqb_neq in Hb.
    destruct (String.eqb side "SELL") eqn:Hs.
    + apply String.eqb_eq in Hs. subst side.
      destruct (Rge_dec take_profit entry_price).
      { split; [discriminate |]. intros (_ & _ & _ & _ & _ & H).
        specialize (H eq_refl). lra. }
      destruct (Rle_dec stop_loss entry_price).
      { split; [discriminate |]. intros (_ & _ & _ & _ & _ & H).
        specialize (H eq_refl). lra. }
      split.
      * intros [= <- <-]. repeat split; try lra; discriminate.
      * intros (-> & -> & _). reflexivity.
    + apply String.eqb_neq in Hs. split.
      * intros [= <- <-]. repeat split; try lra; intros; contradiction.
      * intros (-> & -> & _). reflexivity.
Qed.

(** A long position entered at 100 with a target of 120 and a stop of 90. *)
Lemma take_profit_stop_loss_bracket_witness :
  validate_take_profit_stop_loss 120 90 "BUY" 100 = Ok (120, 90).
Proof.
  apply (proj2 (take_profit_stop_loss_bracket 120 90 "BUY" 100 120 90)).
  unfold min_price, max_price.
  repeat split; try lra; discriminate.
Defined.

(** X6. The parameters validate_limit_order_params returns are valid and in
    normal form: the symbol and the side are supported, the quantity and the
    price are within their bounds, the time in force is one of the four valid
    ones, and validating the returned parameters again returns them
    unchanged. *)
Theorem limit_order_params_fixed_point (symbol side : string)
        (quantity price : R) (time_in_force : string) (p : limit_params) :
  validate_limit_order_params symbol side quantity price time_in_force = Ok p ->
  In (lp_symbol p) supported_symbols /\
  In (lp_side p) supported_sides /\
  lp_quantity p = quantity /\ min_quantity <= quantity <= max_quantity /\
  lp_price p = price /\ min_price <= price <= max_price /\
  In (lp_time_in_force p) valid_tif /\
  validate_limit_order_params (lp_symbol p) (lp_side p) (lp_quantity p)
                              (lp_price p) (lp_time_in_force p) = Ok p.
Proof.
  intros H. unfold validate_limit_order_params in H.
  bind_inv H s Hs. bind_inv H sd Hsd. bind_inv H q Hq. bind_inv H pr Hpr.
  bind_inv H tif Htif. inversion H; subst p; clear H. cbn.
  pose proof (validate_symbol_normal symbol s Hs) as [Hs1 Hs2].
  pose proof (validate_side_normal side sd Hsd) as [Hsd1 Hsd2].
  pose proof (validate_time_in_force_normal time_in_force tif Htif) as [Ht1 Ht2].
  apply validate_quantity_inv in Hq. destruct Hq as [-> Hq].
  apply validate_price_inv in Hpr. destruct Hpr as [-> Hpr].
  repeat split; try assumption; try lra.
  unfold validate_limit_order_params.
  rewrite Hs2, Hsd2. cbn [bind].
  rewrite validate_quantity_ok, validate_price_ok by assumption. cbn [bind].
  rewrite Ht2. reflexivity.
Qed.

(** 'ethusdt', 'sell' and an empty time in force. *)
Lemma limit_order_params_fixed_point_witness :
  exists p,
    validate_limit_order_params "ethusdt" "sell" 2 1500 "" = Ok p /\
    lp_symbol p = "ETHUSDT" /\ lp_side p = "SELL" /\
    lp_time_in_force p = "GTC" /\
    validate_limit_order_params (lp_symbol p) (lp_side p) (lp_quantity p)
                                (lp_price p) (lp_time_in_force p) = Ok p.
Proof.
  assert (H : validate_limit_order_params "ethusdt" "sell" 2 1500 ""
              = Ok {| lp_symbol := "ETHUSDT"; lp_side := "SELL";
                      lp_quantity := 2; lp_price := 1500;
                      lp_time_in_force := "GTC" |}).
  { unfold validate_limit_order_params.
    change (validate_symbol "ethusdt") with (@Ok string "ETHUSDT").
    change (validate_side "sell") with (@Ok string "SELL").
    cbn [bind].
    rewrite validate_quantity_ok, validate_price_ok
      by (unfold min_quantity, max_quantity, min_price, max_price; lra).
    reflexivity. }
  eexists. split; [exact H |].
  apply limit_order_params_fixed_point in H.
  destruct H as (_ & _ & _ & _ & _ & _ & _ & Hfix).
  repeat split; try reflexivity. exact Hfix.
Defined.

(** * The strategies from validation to the last order *)

(** ** What the validation raises *)

Lemma calculate_grid_quantities_ok (total : R) (n : Z) (side : string) :
  IZR n <> 0 ->
  _calculate_grid_quantities total n side = Ok (replicate (total / IZR n) n).
Proof.
  intros Hn. unfold _calculate_grid_quantities. rewrite pydiv_ok by assumption.
  now destruct (String.eqb side "BOTH").
Qed.

(** Without legs the price calculator returns the empty schedule. *)
Lemma calculate_grid_prices_no_leg lower upper n grid_type :
  0 < lower -> 0 < upper -> (n <= 0)%Z ->
  _calculate_grid_prices lower upper n grid_type = Ok [].
Proof.
  intros Hl Hu Hn.
  assert (Hr : range n = []).
  { unfold range. replace (Z.to_nat n) with 0%nat by lia. reflexivity. }
  assert (Hnz : IZR (n - 1) <> 0) by (apply not_0_IZR; lia).
  unfold _calculate_grid_prices. rewrite Hr.
  destruct (String.eqb grid_type "ARITHMETIC").
  - now rewrite pydiv_ok.
  - destruct (String.eqb grid_type "GEOMETRIC"); [| reflexivity].
    rewrite pydiv_ok by lra. cbn [bind]. rewrite pydiv_ok by assumption.
    cbn [bind]. rewrite pypow_ok by (apply Rdiv_lt_0_compat; lra).
    reflexivity.
Qed.

(** With one leg it divides by zero, whatever the grid type. *)
Lemma calculate_grid_prices_one_leg lower upper grid_type :
  0 < lower ->
  _calculate_grid_prices lower upper 1 grid_type = Raise ZeroDivisionError.
Proof.
  intros Hl. unfold _calculate_grid_prices.
  change (IZR (1 - 1)) with 0. change (range 1) with [0%Z].
  destruct (String.eqb grid_type "ARITHMETIC").
  - now rewrite pydiv_zero.
  - destruct (String.eqb grid_type "GEOMETRIC").
    + rewrite pydiv_ok by lra. cbn [bind]. now rewrite pydiv_zero.
    + cbn [comprehension]. now rewrite pydiv_zero.
Qed.

(** The price calculator on positive bounds raises for one leg only. *)
Lemma calculate_grid_prices_raises lower upper n grid_type e :
  0 < lower -> 0 < upper ->
  _calculate_grid_prices lower upper n grid_type = Raise e ->
  n = 1%Z /\ e = ZeroDivisionError.
Proof.
  intros Hl Hu H.
  destruct (Z.le_gt_cases n 0) as [Hn | Hn].
  - rewrite calculate_grid_prices_no_leg in H by assumption. discriminate.
  - destruct (Z.eq_dec n 1) as [-> | Hn1].
    + rewrite calculate_grid_prices_one_leg in H by assumption.
      inversion H. auto.
    + destruct (calculate_grid_prices_ok lower upper n grid_type) as (ps & Hps);
        try assumption; try lia.
      rewrite Hps in H. discriminate.
Qed.

Lemma grid_prepare_raises symbol side total upper lower n grid_type e :
  grid_prepare symbol side total upper lower n grid_type = Raise e ->
  exists msg, e = ValidationError msg.
Proof.
  intros H. unfold grid_prepare in H.
  do 3 bind_raise H.
  apply bind_raise_inv in H. destruct H as [H | (u & Hu & H)];
    [validation_raises H |].
  apply bind_raise_inv in H. destruct H as [H | (l & Hl & H)];
    [validation_raises H |].
  bind_raise H.
  apply bind_raise_inv in H. destruct H as [H | (t2 & Hn2 & H)];
    [validation_raises H |].
  do 2 bind_raise H.
  apply validate_price_inv in Hu. destruct Hu as [-> Hu].
  apply validate_price_inv in Hl. destruct Hl as [-> Hl].
  apply raise_if_inv, Z.ltb_ge in Hn2. unfold min_price in *.
  apply bind_raise_inv in H. destruct H as [H | (ps & Hps & H)].
  { apply calculate_grid_prices_raises in H; [lia | lra | lra]. }
  apply bind_raise_inv in H. destruct H as [H | (qs & Hqs & H)];
    [| discriminate].
  rewrite calculate_grid_quantities_ok in H
    by (apply IZR_nonzero_of_ge2; lia).
  discriminate.
Qed.

Lemma martingale_prepare_raises symbol side base upper lower n mult grid_type e :
  martingale_prepare symbol side base upper lower n mult grid_type = Raise e ->
  exists msg, e = ValidationError msg.
Proof.
  intros H. unfold martingale_prepare in H.
  do 3 bind_raise H.
  apply bind_raise_inv in H. destruct H as [H | (u & Hu & H)];
    [validation_raises H |].
  apply bind_raise_inv in H. destruct H as [H | (l & Hl & H)];
    [validation_raises H |].
  do 2 bind_raise H.
  apply bind_raise_inv in H. destruct H as [H | (t2 & Hn2 & H)];
    [validation_raises H |].
  apply validate_price_inv in Hu. destruct Hu as [-> Hu].
  apply validate_price_inv in Hl. destruct Hl as [-> Hl].
  apply raise_if_inv, Z.ltb_ge in Hn2. unfold min_price in *.
  apply bind_raise_inv in H. destruct H as [H | (ps & Hps & H)];
    [| discriminate].
  apply calculate_grid_prices_raises in H; [lia | lra | lra].
Qed.

Lemma dca_prepare_raises symbol side total upper lower n grid_type e :
  dca_prepare symbol side total upper lower n grid_type = Raise e ->
  (exists msg, e = ValidationError msg)
  \/ (e = ZeroDivisionError /\ (n = 0 \/ n = 1)%Z).
Proof.
  intros H. unfold dca_prepare in H.
  apply bind_raise_inv in H. destruct H as [H | (? & _ & H)];
    [left; validation_raises H |].
  apply bind_raise_inv in H. destruct H as [H | (? & _ & H)];
    [left; validation_raises H |].
  apply bind_raise_inv in H. destruct H as [H | (? & _ & H)];
    [left; validation_raises H |].
  apply bind_raise_inv in H. destruct H as [H | (u & Hu & H)];
    [left; validation_raises H |].
  apply bind_raise_inv in H. destruct H as [H | (l & Hl & H)];
    [left; validation_raises H |].
  apply bind_raise_inv in H. destruct H as [H | (? & Hb & H)];
    [left; validation_raises H |].
  apply validate_price_inv in Hu. destruct Hu as [-> Hu].
  apply validate_price_inv in Hl. destruct Hl as [-> Hl].
  apply raise_if_inv, Rle_b_inv in Hb. unfold min_price in *.
  apply bind_raise_inv in H. destruct H as [H | (ps & Hps & H)].
  { apply calculate_grid_prices_raises in H; [| lra | lra].
    right. destruct H as [-> ->]. auto. }
  apply bind_raise_inv in H. destruct H as [H | (per & Hper & H)].
  { unfold pydiv in H. destruct (Req_dec_T (IZR n) 0) as [Hz | Hnz];
      [| discriminate].
    apply eq_IZR_R0 in Hz. inversion H. right. auto. }
  apply bind_raise_inv in H. destruct H as [H | (qs & Hqs & H)];
    [| discriminate].
  exfalso.
  assert (Hpos : Forall (fun p => 0 < p) ps).
  { destruct (Z.le_gt_cases n 0) as [Hn | Hn].
    - rewrite calculate_grid_prices_no_leg in Hps by (lra || assumption).
      inversion Hps. constructor.
    - assert (n <> 1%Z).
      { intros ->. rewrite calculate_grid_prices_one_leg in Hps by lra.
        discriminate. }
      eapply calculate_grid_prices_positive; try eassumption; try lra. lia. }
  rewrite dca_quantities_ok in H by assumption. discriminate.
Qed.

Lemma twap_prepare_raises symbol side total duration n order_type price e :
  twap_prepare symbol side total duration n order_type price = Raise e ->
  exists msg, e = ValidationError msg.
Proof.
  intros H. unfold twap_prepare in H.
  do 5 bind_raise H.
  apply bind_raise_inv in H. destruct H as [H | (? & _ & H)].
  { destruct (String.eqb order_type "LIMIT"); [| discriminate].
    apply bind_raise_inv in H.
    destruct H as [H | (? & _ & H)]; [| discriminate].
    now apply validate_price_opt_raises in H. }
  bind_raise H.
  apply bind_raise_inv in H. destruct H as [H | (? & Hn2 & H)];
    [validation_raises H |].
  bind_raise H.
  apply raise_if_inv, Z.ltb_ge in Hn2.
  apply bind_raise_inv in H. destruct H as [H | (cq & _ & H)].
  { rewrite pydiv_ok in H by (apply IZR_nonzero_of_ge2; lia). discriminate. }
  apply bind_raise_inv in H. destruct H as [H | (iv & _ & H)].
  { rewrite pydiv_ok in H by (apply IZR_pred_nonzero; lia). discriminate. }
  apply bind_raise_inv in H. destruct H as [H | (? & _ & H)];
    [validation_raises H | discriminate].
Qed.

Lemma profile_prepare_raises symbol side total duration profile e :
  profile_prepare symbol side total duration profile = Raise e ->
  exists msg, e = ValidationError msg.
Proof.
  intros H. unfold profile_prepare in H.
  do 3 bind_raise H.
  apply bind_raise_inv in H. destruct H as [H | (? & Hp & H)];
    [validation_raises H |].
  apply raise_if_inv, negb_false_iff, str_in_In in Hp. cbv zeta in H.
  apply bind_raise_inv in H. destruct H as [H | (qs & _ & H)].
  { rewrite volume_profile_eq in H by (lia || assumption). discriminate. }
  apply bind_raise_inv in H. destruct H as [H | (iv & _ & H)];
    [| discriminate].
  rewrite pydiv_ok in H by (apply IZR_pred_nonzero; lia). discriminate.
Qed.

Lemma validated_iff_supported (validate : string -> result string)
      (supported : list string) (s : string) :
  (forall s', validate s = Ok s'
              <-> s <> "" /\ strip (upper s) = s' /\ In s' supported) ->
  (exists s', validate s = Ok s')
  <-> s <> "" /\ In (strip (upper s)) supported.
Proof.
  intros Hiff. split.
  - intros (s' & H). apply Hiff in H. destruct H as (Hne & <- & Hin). auto.
  - intros (Hne & Hin). exists (strip (upper s)). apply Hiff. auto.
Qed.

Lemma grid_type_checked (grid_type : string) :
  str_in grid_type ["ARITHMETIC"; "GEOMETRIC"] = true
  <-> grid_type = "ARITHMETIC" \/ grid_type = "GEOMETRIC".
Proof. rewrite str_in_In. simpl. intuition congruence. Qed.

Lemma dca_prepare_ok symbol side s sd total upper_price lower_price n grid_type ps :
  validate_symbol symbol = Ok s -> validate_side side = Ok sd ->
  0 < total ->
  min_price <= lower_price -> lower_price < upper_price ->
  upper_price <= max_price ->
  IZR n <> 0 ->
  _calculate_grid_prices lower_price upper_price n grid_type = Ok ps ->
  Forall (fun p => 0 < p) ps ->
  dca_prepare symbol side total upper_price lower_price n grid_type
  = Ok (s, sd, total / IZR n, upper_price, lower_price, ps,
        map (fun p => total / IZR n / p) ps).
Proof.
  intros Hs Hsd Ht Hl Hlu Hu Hn Hps Hpos. unfold dca_prepare.
  rewrite Hs, Hsd. cbn [bind].
  rewrite Rle_b_false by assumption. cbn [bind raise_if].
  rewrite !validate_price_ok by lra. cbn [bind].
  rewrite Rle_b_false by assumption. cbn [bind raise_if].
  rewrite Hps. cbn [bind]. rewrite pydiv_ok by assumption. cbn [bind].
  rewrite dca_quantities_ok by assumption. reflexivity.
Qed.

(** The order type and the price that place_twap_order accepts. *)
Lemma twap_prepare_order_type symbol side total duration n order_type price
      s sd tq pr cq :
  twap_prepare symbol side total duration n order_type price
  = Ok (s, sd, tq, pr, cq) ->
  pr = price /\
  (order_type = "MARKET"
   \/ (order_type = "LIMIT" /\
       exists p, price = Some p /\ min_price <= p <= max_price)).
Proof.
  intros H. unfold twap_prepare in H.
  bind_inv H s' Hs. bind_inv H sd' Hsd. bind_inv H tq' Htq.
  bind_inv H t1 Hot. bind_inv H t2 Hreq. bind_inv H pr' Hpr.
  bind_inv H t3 Hd. bind_inv H t4 Hn2. bind_inv H t5 Hn100.
  bind_inv H cq' Hcq. bind_inv H iv Hiv. bind_inv H cq'' Hcq'.
  inversion H; subst; clear H.
  apply raise_if_inv in Hot. apply negb_false_iff in Hot.
  apply str_in_In in Hot. simpl in Hot.
  destruct Hot as [<- | [<- | []]].
  - cbn in Hpr. inversion Hpr. auto.
  - cbn [String.eqb Ascii.eqb Bool.eqb] in Hpr.
    bind_inv Hpr p Hp. inversion Hpr; subst; clear Hpr.
    destruct price as [p0 |]; [| discriminate].
    cbn [validate_price_opt] in Hp. apply validate_price_inv in Hp.
    destruct Hp as [-> Hp]. split; [reflexivity |]. right.
    split; [reflexivity |]. exists p0. auto.
Qed.

Lemma twap_prepare_ok symbol side s sd total duration n order_type price :
  validate_symbol symbol = Ok s -> validate_side side = Ok sd ->
  min_quantity <= total <= max_quantity ->
  (order_type = "MARKET"
   \/ (order_type = "LIMIT" /\
       exists p, price = Some p /\ min_price <= p <= max_price)) ->
  (1 <= duration)%Z -> (2 <= n <= 100)%Z ->
  min_quantity <= total / IZR n ->
  twap_prepare symbol side total duration n order_type price
  = Ok (s, sd, total, price, total / IZR n).
Proof.
  intros Hs Hsd Ht Hot Hd Hn Hq.
  assert (Hchunk : validate_quantity (total / IZR n) = Ok (total / IZR n)).
  { apply validate_quantity_ok. split; [assumption |].
    assert (0 < IZR n) by (apply (IZR_lt 0); lia).
    assert (1 <= IZR n) by (apply (IZR_le 1); lia).
    unfold max_quantity in *. apply Rle_trans with total; [| lra].
    unfold min_quantity in *.
    apply Rmult_le_reg_r with (IZR n); [assumption |].
    unfold Rdiv. rewrite Rmult_assoc, Rinv_l by lra. nra. }
  unfold twap_prepare. rewrite Hs, Hsd. cbn [bind].
  rewrite validate_quantity_ok by assumption.
  destruct Hot as [-> | (-> & p & -> & Hp)];
    cbn [bind raise_if negb str_in existsb String.eqb Ascii.eqb Bool.eqb orb
         andb is_none validate_price_opt];
    try rewrite (validate_price_ok p) by assumption; cbn [bind];
    (replace (duration <? 1)%Z with false by (symmetry; apply Z.ltb_ge; lia));
    rewrite ltb_2_false, gtb_false by lia; cbn [bind raise_if];
    rewrite pydiv_ok by (apply IZR_nonzero_of_ge2; lia); cbn [bind];
    rewrite pydiv_ok by (apply IZR_pred_nonzero; lia); cbn [bind];
    rewrite Hchunk; reflexivity.
Qed.

Lemma profile_prepare_checks symbol side total duration profile s sd tq n qs :
  profile_prepare symbol side total duration profile = Ok (s, sd, tq, n, qs) ->
  min_quantity <= total <= max_quantity /\
  In profile ["UNIFORM"; "FRONT_LOADED"; "BACK_LOADED"; "MIDDLE_LOADED"].
Proof.
  intros H. unfold profile_prepare in H.
  bind_inv H s' Hs. bind_inv H sd' Hsd. bind_inv H tq' Htq.
  bind_inv H t1 Hp.
  apply validate_quantity_inv in Htq. destruct Htq as [_ Htq].
  apply raise_if_inv in Hp. apply negb_false_iff in Hp.
  apply str_in_In in Hp. auto.
Qed.

Lemma profile_prepare_ok symbol side s sd total duration profile :
  validate_symbol symbol = Ok s -> validate_side side = Ok sd ->
  min_quantity <= total <= max_quantity ->
  In profile ["UNIFORM"; "FRONT_LOADED"; "BACK_LOADED"; "MIDDLE_LOADED"] ->
  exists qs,
    profile_prepare symbol side total duration profile
    = Ok (s, sd, total, 10%Z, qs).
Proof.
  intros Hs Hsd Ht Hp. unfold profile_prepare.
  rewrite Hs, Hsd. cbn [bind].
  rewrite validate_quantity_ok by assumption. cbn [bind].
  apply str_in_In in Hp as Hp'. rewrite Hp'. cbn [negb raise_if bind].
  rewrite volume_profile_eq by (lia || assumption). cbn [bind].
  rewrite pydiv_ok by (apply IZR_pred_nonzero; lia). cbn [bind].
  eexists. reflexivity.
Qed.

(** ** The orders of a schedule *)

Lemma nth_error_enumerate_from {A} (k : Z) (xs : list A) (j : nat) :
  nth_error (enumerate_from k xs) j
  = option_map (fun x => ((k + Z.of_nat j)%Z, x)) (nth_error xs j).
Proof.
  revert k j. induction xs as [| x rest IH]; intros k j.
  - destruct j; reflexivity.
  - destruct j as [| j]; cbn [enumerate_from nth_error].
    + cbn. f_equal. f_equal. lia.
    + rewrite IH. destruct (nth_error rest j); cbn; [| reflexivity].
      f_equal. f_equal. lia.
Qed.

Lemma nth_error_combine {A B} (xs : list A) (ys : list B) (j : nat) (x : A)
      (y : B) :
  nth_error xs j = Some x -> nth_error ys j = Some y ->
  nth_error (combine xs ys) j = Some (x, y).
Proof.
  revert ys j. induction xs as [| x0 rest IH]; intros ys j Hx Hy.
  - destruct j; discriminate.
  - destruct ys as [| y0 ys]; [destruct j; discriminate |].
    destruct j as [| j]; cbn in *; [congruence | now apply IH].
Qed.

Lemma nth_error_at_index (xs : list R) (i : Z) :
  (Z.to_nat i < List.length xs)%nat ->
  nth_error xs (Z.to_nat i) = Some (at_index xs i).
Proof. intros Hi. unfold at_index. now apply nth_error_nth'. Qed.

Lemma grid_orders_length symbol side_of tif (ps qs : list R) (n : Z) :
  List.length ps = Z.to_nat n -> List.length qs = Z.to_nat n ->
  List.length (grid_orders symbol side_of tif ps qs) = Z.to_nat n.
Proof.
  intros Hp Hq. unfold grid_orders. rewrite length_map.
  transitivity (List.length (map fst (grid_legs ps qs)));
    [symmetry; apply length_map |].
  rewrite (grid_legs_indices ps qs n Hp Hq). apply length_range.
Qed.

(** The order of leg [i]: the quantity and the price of the schedule at
    [i], the side of the leg. *)
Lemma grid_orders_nth symbol side_of tif (ps qs : list R) (n i : Z) :
  List.length ps = Z.to_nat n -> List.length qs = Z.to_nat n ->
  (0 <= i < n)%Z ->
  nth_error (grid_orders symbol side_of tif ps qs) (Z.to_nat i)
  = Some (LimitOrder symbol (side_of i) (at_index qs i)
                     (Some (at_index ps i)) tif).
Proof.
  intros Hp Hq Hi. unfold grid_orders, grid_legs, enumerate, zip.
  rewrite nth_error_map. unfold leg. rewrite nth_error_enumerate_from.
  rewrite (nth_error_combine ps qs _ (at_index ps i) (at_index qs i))
    by (apply nth_error_at_index; lia).
  cbn. unfold leg_request. cbn. do 3 f_equal. lia.
Qed.

Lemma grid_orders_side symbol sd tif (ps qs : list R) :
  Forall (fun req => request_side req = sd)
         (grid_orders symbol (fun _ => sd) tif ps qs).
Proof. apply leg_request_side. Qed.

(** The scripted exchange logs every request it receives. *)
Lemma send_all_scripted (fails : nat -> bool) (ack : response)
      (reqs log : list request) :
  snd (send_all (scripted fails ack) reqs log) = log ++ reqs.
Proof.
  revert log. induction reqs as [| req rest IH]; intros log.
  - cbn. now rewrite app_nil_r.
  - cbn [send_all]. unfold scripted at 1.
    specialize (IH (log ++ [req])).
    destruct (send_all (scripted fails ack) rest (log ++ [req])) as [outs w2].
    cbn [snd] in *. now rewrite IH, <- app_assoc.
Qed.

(** Two lists of orders that differ by arithmetic only. *)
Ltac same_orders :=
  unfold leg_request; cbn [fst snd];
  repeat match goal with
         | |- _ :: _ = _ :: _ => f_equal
         | |- LimitOrder _ _ _ _ _ = LimitOrder _ _ _ _ _ => f_equal
         | |- MarketOrder _ _ _ = MarketOrder _ _ _ => f_equal
         | |- Some _ = Some _ => f_equal
         end;
  try reflexivity; try lra; try (simpl; lra).

(** ** A call that has passed the validation

    The [TypeError] of the logger is the only exception of its kind: a call
    that ends with it has passed the validation and sent its orders. *)

Section Passed.
Variable W : Type.
Variable api : request -> W -> result response * W.

Lemma place_grid_order_passed symbol side total upper lower n grid_type tif w
      msg w' :
  place_grid_order W api symbol side total upper lower n grid_type tif w
  = (Raise (TypeError msg), w') ->
  exists s sd ps qs,
    grid_prepare symbol side total upper lower n grid_type
    = Ok (s, sd, total, upper, lower, ps, qs) /\
    msg = BotLogger.unexpected_keyword /\
    w' = snd (send_all api (grid_orders s (grid_side_of sd) tif ps qs) w).
Proof.
  rewrite place_grid_order_outcome.
  destruct (grid_prepare _ _ _ _ _ _ _)
    as [[[[[[[s sd] tq] u] l] ps] qs] | e] eqn:Hprep.
  - intros [= <- <-]. exists s, sd, ps, qs.
    apply grid_prepare_inv in Hprep as Hinv.
    destruct Hinv as (_ & _ & -> & -> & -> & _). auto.
  - intros [= -> _]. apply grid_prepare_raises in Hprep.
    destruct Hprep as (m & Hm). discriminate.
Qed.

Lemma place_martingale_grid_passed symbol side base upper lower n mult
      grid_type w msg w' :
  place_martingale_grid W api symbol side base upper lower n mult grid_type w
  = (Raise (TypeError msg), w') ->
  exists s sd ps qs,
    martingale_prepare symbol side base upper lower n mult grid_type
    = Ok (s, sd, base, upper, lower, ps, qs) /\
    msg = BotLogger.unexpected_keyword /\
    w' = snd (send_all api (grid_orders s (fun _ => sd) "GTC" ps qs) w).
Proof.
  rewrite place_martingale_grid_outcome.
  destruct (martingale_prepare _ _ _ _ _ _ _ _)
    as [[[[[[[s sd] bq] u] l] ps] qs] | e] eqn:Hprep.
  - intros [= <- <-]. exists s, sd, ps, qs.
    apply martingale_prepare_inv in Hprep as Hinv.
    destruct Hinv as (_ & _ & -> & -> & -> & _). auto.
  - intros [= -> _]. apply martingale_prepare_raises in Hprep.
    destruct Hprep as (m & Hm). discriminate.
Qed.

Lemma place_dca_grid_passed symbol side total upper lower n grid_type w
      msg w' :
  place_dca_grid W api symbol side total upper lower n grid_type w
  = (Raise (TypeError msg), w') ->
  exists s sd ps qs,
    dca_prepare symbol side total upper lower n grid_type
    = Ok (s, sd, total / IZR n, upper, lower, ps, qs) /\
    msg = BotLogger.unexpected_keyword /\
    w' = snd (send_all api (grid_orders s (fun _ => sd) "GTC" ps qs) w).
Proof.
  rewrite place_dca_grid_outcome.
  destruct (dca_prepare _ _ _ _ _ _ _)
    as [[[[[[[s sd] per] u] l] ps] qs] | e] eqn:Hprep.
  - intros [= <- <-]. exists s, sd, ps, qs.
    apply dca_prepare_inv in Hprep as Hinv.
    destruct Hinv as (_ & _ & -> & -> & -> & _). auto.
  - intros [= -> _]. apply dca_prepare_raises in Hprep.
    destruct Hprep as [(m & Hm) | (Hm & _)]; discriminate.
Qed.

Lemma place_twap_order_passed symbol side total duration n order_type price
      tif w msg w' :
  place_twap_order W api symbol side total duration n order_type price tif w
  = (Raise (TypeError msg), w') ->
  exists s sd,
    twap_prepare symbol side total duration n order_type price
    = Ok (s, sd, total, price, total / IZR n) /\
    msg = BotLogger.unexpected_keyword /\
    w' = snd (send_all api
                (map (fun _ => chunk_request s sd order_type price tif
                                             (total / IZR n))
                     (range n)) w).
Proof.
  rewrite place_twap_order_outcome.
  destruct (twap_prepare _ _ _ _ _ _ _)
    as [[[[[s sd] tq] pr] cq] | e] eqn:Hprep.
  - intros [= <- <-]. exists s, sd.
    pose proof (twap_prepare_order_type _ _ _ _ _ _ _ _ _ _ _ _ Hprep)
      as (-> & _).
    apply twap_prepare_inv in Hprep as Hinv.
    destruct Hinv as (_ & _ & -> & -> & _). auto.
  - intros [= -> _]. apply twap_prepare_raises in Hprep.
    destruct Hprep as (m & Hm). discriminate.
Qed.

Lemma place_twap_with_volume_profile_passed symbol side total duration
      profile order_type price w msg w' :
  place_twap_with_volume_profile W api symbol side total duration profile
                                 order_type price w
  = (Raise (TypeError msg), w') ->
  exists s sd qs,
    profile_prepare symbol side total duration profile
    = Ok (s, sd, total, 10%Z, qs) /\
    msg = BotLogger.unexpected_keyword /\
    w' = snd (guarded_send_all api
                (chunk_request s sd order_type price "GTC") qs w).
Proof.
  rewrite place_twap_with_volume_profile_outcome.
  destruct (profile_prepare _ _ _ _ _)
    as [[[[[s sd] tq] n] qs] | e] eqn:Hprep.
  - intros [= <- <-]. exists s, sd, qs.
    apply profile_prepare_inv in Hprep as Hinv.
    destruct Hinv as (_ & _ & -> & -> & _). auto.
  - intros [= -> _]. apply profile_prepare_raises in Hprep.
    destruct Hprep as (m & Hm). discriminate.
Qed.
End Passed.

(** ** The pauses of the TWAP runs *)

Import TWAPPauses.

Lemma sleep_ok (seconds : R) : 0 <= seconds -> sleep seconds = Ok tt.
Proof.
  intros H. unfold sleep, Rlt_b. destruct (Rlt_dec seconds 0); [lra | reflexivity].
Qed.

Lemma sleep_negative (seconds : R) :
  seconds < 0 ->
  sleep seconds = Raise (ValueError "sleep length must be non-negative").
Proof.
  intros H. unfold sleep, Rlt_b. destruct (Rlt_dec seconds 0); [reflexivity | lra].
Qed.

(** A loop whose pauses all return is the loop without pauses. *)
Lemma for_try_except_pause_quiet {W L S}
      (body : L -> S -> W -> S * result unit * W)
      (handler : L -> exn -> S -> S) (pause : L -> result unit)
      (legs : list L) (s : S) (w : W) :
  (forall l, In l legs -> pause l = Ok tt) ->
  for_try_except_pause body handler pause legs s w
  = (Ok (fst (for_try_except body handler legs s w)),
     snd (for_try_except body handler legs s w)).
Proof.
  revert s w. induction legs as [| l rest IH]; intros s w Hquiet.
  - reflexivity.
  - cbn [for_try_except_pause for_try_except].
    rewrite (Hquiet l) by (left; reflexivity).
    destruct (body l s w) as [[s' [u | e]] w']; apply IH;
      intros l' Hl'; apply Hquiet; right; exact Hl'.
Qed.

Lemma pause_after_ok (n : Z) (interval : R) (i : Z) :
  0 <= interval -> pause_after n interval i = Ok tt.
Proof.
  intros H. unfold pause_after. destruct (i <? n - 1)%Z; [| reflexivity].
  now apply sleep_ok.
Qed.

Lemma interval_nonnegative (duration n : Z) :
  (0 <= duration)%Z -> (2 <= n)%Z ->
  0 <= IZR (duration * 60) / IZR (n - 1).
Proof.
  intros Hd Hn. pose proof (IZR_pred_pos n Hn) as Hpos.
  assert (0 <= IZR (duration * 60)) by (apply (IZR_le 0); lia).
  apply Rmult_le_pos; [assumption |]. left. now apply Rinv_0_lt_compat.
Qed.

Lemma place_twap_order_timed_eq (W : Type)
      (api : request -> W -> result response * W)
      symbol side total duration n order_type price tif w :
  place_twap_order_timed W api symbol side total duration n order_type price
                         tif w
  = place_twap_order W api symbol side total duration n order_type price tif w.
Proof.
  unfold place_twap_order_timed, twap_order_result_timed,
    place_twap_order, twap_order_result.
  destruct (twap_prepare _ _ _ _ _ _ _)
    as [[[[[s sd] tq] pr] cq] | e] eqn:Hprep; [| reflexivity].
  apply twap_prepare_inv in Hprep.
  destruct Hprep as (_ & _ & _ & _ & _ & _ & Hd & Hn & _).
  rewrite pydiv_ok by (apply IZR_pred_nonzero; lia).
  rewrite for_try_except_pause_quiet.
  - now destruct (for_try_except _ _ _ _ _) as [st w1].
  - intros i _. apply pause_after_ok. apply interval_nonnegative; lia.
Qed.

Lemma profile_timed_quiet (W : Type)
      (api : request -> W -> result response * W)
      symbol side total duration profile order_type price w :
  (0 <= duration)%Z ->
  place_twap_with_volume_profile_timed W api symbol side total duration
                                       profile order_type price w
  = place_twap_with_volume_profile W api symbol side total duration profile
                                   order_type price w.
Proof.
  intros Hd.
  unfold place_twap_with_volume_profile_timed, volume_profile_result_timed,
    place_twap_with_volume_profile, volume_profile_result.
  destruct (profile_prepare _ _ _ _ _)
    as [[[[[s sd] tq] n] qs] | e] eqn:Hprep; [| reflexivity].
  apply profile_prepare_inv in Hprep. destruct Hprep as (_ & _ & _ & -> & _).
  rewrite pydiv_ok by (apply IZR_pred_nonzero; lia).
  rewrite for_try_except_pause_quiet.
  - now destruct (for_try_except _ _ _ _ _) as [st w1].
  - intros [i q] _. apply pause_after_ok. apply interval_nonnegative; lia.
Qed.

Lemma profile_timed_negative (W : Type)
      (api : request -> W -> result response * W)
      symbol side total duration profile order_type price w s sd tq n qs :
  profile_prepare symbol side total duration profile = Ok (s, sd, tq, n, qs) ->
  (duration < 0)%Z ->
  exists q0 rest,
    qs = q0 :: rest /\
    place_twap_with_volume_profile_timed W api symbol side total duration
                                         profile order_type price w
    = (Raise (ValueError "sleep length must be non-negative"),
       snd (guarded_send api (chunk_request s sd order_type price "GTC") q0 w)).
Proof.
  intros Hprep Hd.
  unfold place_twap_with_volume_profile_timed, volume_profile_result_timed.
  rewrite Hprep. apply profile_prepare_inv in Hprep.
  destruct Hprep as (_ & _ & _ & -> & Hqs).
  apply volume_profile_length in Hqs.
  destruct qs as [| q0 rest]; [discriminate |].
  exists q0, rest. split; [reflexivity |].
  rewrite pydiv_ok by (apply IZR_pred_nonzero; lia).
  assert (Hneg : IZR (duration * 60) / IZR (10 - 1) < 0).
  { assert (IZR (duration * 60) < 0) by (apply (IZR_lt _ 0); lia).
    change (IZR (10 - 1)) with 9. lra. }
  cbn [enumerate enumerate_from for_try_except_pause].
  unfold pause_after. change (0 <? 10 - 1)%Z with true. cbv iota.
  rewrite sleep_negative by assumption.
  unfold guarded_send, profile_chunk.
  destruct (validate_quantity q0) as [q | e]; [| reflexivity].
  unfold execute_chunk, initial_state.
  destruct (api _ w) as [[r | e] w1]; [| reflexivity].
  now destruct (executed_amounts r) as [[eq cq] | e].
Qed.

(** X14. The pauses of place_twap_order never have a negative length: with
    them the run is the run without them, whatever the arguments.  So it is
    for the volume-profile run when the duration is not negative.  With a
    negative duration and otherwise valid arguments the volume-profile run
    attempts its first chunk, raises the ValueError of time.sleep and
    returns no report: the exchange is left as the first attempt left
    it. *)
Theorem twap_pauses (W : Type) (api : request -> W -> result response * W) :
  (forall symbol side total duration n order_type price tif w,
      place_twap_order_timed W api symbol side total duration n order_type
                             price tif w
      = place_twap_order W api symbol side total duration n order_type price
                         tif w) /\
  (forall symbol side total duration profile order_type price w,
      (0 <= duration)%Z ->
      place_twap_with_volume_profile_timed W api symbol side total duration
                                           profile order_type price w
      = place_twap_with_volume_profile W api symbol side total duration
                                       profile order_type price w) /\
  (forall symbol side s sd total duration profile order_type price w,
      validate_symbol symbol = Ok s -> validate_side side = Ok sd ->
      min_quantity <= total <= max_quantity ->
      In profile ["UNIFORM"; "FRONT_LOADED"; "BACK_LOADED"; "MIDDLE_LOADED"] ->
      (duration < 0)%Z ->
      exists q0 rest,
        _calculate_volume_profile total 10 profile = Ok (q0 :: rest) /\
        place_twap_with_volume_profile_timed W api symbol side total duration
                                             profile order_type price w
        = (Raise (ValueError "sleep length must be non-negative"),
           snd (guarded_send api (chunk_request s sd order_type price "GTC")
                             q0 w))).
Proof.
  split; [| split].
  - intros. apply place_twap_order_timed_eq.
  - intros. now apply profile_timed_quiet.
  - intros symbol side s sd total duration profile order_type price w
           Hs Hsd Ht Hp Hd.
    destruct (profile_prepare_ok symbol side s sd total duration profile)
      as (qs & Hprep); try assumption.
    destruct (profile_timed_negative W api symbol side total duration profile
                order_type price w s sd total 10%Z qs Hprep Hd)
      as (q0 & rest & -> & Hrun).
    exists q0, rest. split; [| exact Hrun].
    apply profile_prepare_inv in Hprep. now destruct Hprep as (_ & _ & _ & _ & ?).
Qed.

(** Ten units over minus one minute: one market order reaches the exchange
    and the call raises. *)
Lemma twap_pauses_witness :
  exists q0,
    place_twap_with_volume_profile_timed
      (list request) (scripted (fun _ => false) (filled 0 0))
      "BTCUSDT" "BUY" 10 (-1) "UNIFORM" "MARKET" None []
    = (Raise (ValueError "sleep length must be non-negative"),
       [MarketOrder "BTCUSDT" "BUY" q0]) /\
    min_quantity <= q0 <= max_quantity.
Proof.
  destruct (twap_pauses (list request) (scripted (fun _ => false) (filled 0 0)))
    as (_ & _ & Hneg).
  destruct (Hneg "BTCUSDT" "BUY" "BTCUSDT" "BUY" 10 (-1)%Z "UNIFORM" "MARKET"
              None [] validate_symbol_btcusdt validate_side_buy)
    as (q0 & rest & Hqs & Hrun).
  { unfold min_quantity, max_quantity. lra. }
  { simpl. auto. }
  { lia. }
  exists q0.
  unfold _calculate_volume_profile in Hqs. simpl String.eqb in Hqs.
  cbv iota in Hqs. rewrite pydiv_ok in Hqs by lra. cbn [bind] in Hqs.
  injection Hqs as <- _.
  assert (Hq : min_quantity <= 10 / 10 <= max_quantity)
    by (unfold min_quantity, max_quantity; lra).
  split; [| exact Hq].
  rewrite Hrun. unfold guarded_send.
  rewrite validate_quantity_ok by exact Hq. reflexivity.
Defined.

(** ** Continuation on failure *)

Lemma twap_order_result_fields (W : Type)
      (api : request -> W -> result response * W)
      symbol side total duration n order_type price tif w s sd tq pr cq rep w' :
  twap_prepare symbol side total duration n order_type price
  = Ok (s, sd, tq, pr, cq) ->
  twap_order_result W api symbol side total duration n order_type price tif w
  = (Ok rep, w') ->
  tw_symbol rep = s /\ tw_side rep = sd /\ tw_total_quantity rep = total /\
  tw_duration_minutes rep = duration /\ tw_num_chunks rep = n /\
  tw_volume_profile rep = None /\ tw_order_type rep = order_type /\
  tw_price rep = pr.
Proof.
  intros Hprep H. unfold twap_order_result in H. rewrite Hprep in H.
  apply twap_prepare_inv in Hprep. destruct Hprep as (_ & _ & -> & _).
  destruct (for_try_except _ _ _ _ _) as [[[[ex fl] te] tc] w1].
  inversion H as [[Hfin Hw]]; clear H.
  apply finish_inv in Hfin. destruct Hfin as (avg & _ & ->).
  cbn. auto 10.
Qed.


(** Chunks of valid quantities all reach the exchange. *)
Lemma guarded_send_all_valid {W} (api : request -> W -> result response * W)
      (order_of : R -> request) (qs : list R) (w : W) :
  Forall (fun q => min_quantity <= q <= max_quantity) qs ->
  guarded_send_all api order_of qs w = send_all api (map order_of qs) w.
Proof.
  intros Hqs. revert w. induction Hqs as [| q rest Hq _ IH]; intros w;
    [reflexivity |].
  cbn [guarded_send_all map send_all]. unfold guarded_send.
  rewrite validate_quantity_ok by assumption.
  destruct (api (order_of q) w) as [out w1]. now rewrite IH.
Qed.





(** ** The average price *)



(** ** Martingale sizing *)

Lemma place_martingale_grid_passes (W : Type)
      (api : request -> W -> result response * W)
      symbol side s sd base upper_price lower_price n mult grid_type w :
  validate_symbol symbol = Ok s -> validate_side side = Ok sd ->
  min_quantity <= base <= max_quantity ->
  min_price <= lower_price -> lower_price < upper_price ->
  upper_price <= max_price ->
  1 < mult -> (2 <= n)%Z ->
  exists ps,
    _calculate_grid_prices lower_price upper_price n grid_type = Ok ps /\
    place_martingale_grid W api symbol side base upper_price lower_price n
                          mult grid_type w
    = (Raise (TypeError BotLogger.unexpected_keyword),
       snd (send_all api
              (grid_orders s (fun _ => sd) "GTC" ps
                           (martingale_quantities base mult n)) w)).
Proof.
  intros Hs Hsd Hb Hl Hlu Hu Hm Hn.
  destruct (calculate_grid_prices_ok lower_price upper_price n grid_type)
    as (ps & Hps); try assumption; try (unfold min_price in *; lra).
  exists ps. split; [exact Hps |].
  rewrite place_martingale_grid_outcome.
  now rewrite (martingale_prepare_ok _ _ s sd _ _ _ _ _ _ ps).
Qed.

(** [place_martingale_grid] has no upper bound on the leg count: 51 legs,
    one more than [place_grid_order] allows, pass the validation and are
    sent. *)
Lemma martingale_no_upper_bound (W : Type)
      (api : request -> W -> result response * W) (w : W) :
  place_martingale_grid W api "BTCUSDT" "BUY" 1 200 100 51 2 "ARITHMETIC" w
  = (Raise (TypeError BotLogger.unexpected_keyword),
     snd (send_all api
            (grid_orders "BTCUSDT" (fun _ => "BUY") "GTC"
                         (map (arithmetic_price 100 200 51) (range 51))
                         (martingale_quantities 1 2 51)) w)).
Proof.
  destruct (place_martingale_grid_passes W api "BTCUSDT" "BUY" "BTCUSDT" "BUY"
              1 200 100 51 2 "ARITHMETIC" w) as (ps & Hps & Hrun);
    try reflexivity; try lia;
    try (unfold min_quantity, max_quantity, min_price, max_price; lra).
  rewrite arithmetic_prices_eq in Hps by lia. injection Hps as <-.
  exact Hrun.
Qed.

(** C7. Martingale sizing: place_martingale_grid raises a ValidationError,
    and submits nothing, when multiplier <= 1.0.  Whenever the call passes
    its validation (it then ends in the TypeError of the logger, which is
    the only one it raises), the multiplier is above 1, the n computed leg
    quantities are qty[i] = base * multiplier^i, and the exchange has
    received the n legs in order: leg i is a limit order of the validated
    side, the same for every leg, for the quantity qty[i] at the price of
    the schedule at i.  Valid parameters with a multiplier above 1 and at
    least two legs pass the validation. *)
Theorem martingale_sizing (W : Type)
        (api : request -> W -> result response * W)
        symbol side base upper_price lower_price n mult grid_type w :
  (mult <= 1 ->
   exists msg,
     place_martingale_grid W api symbol side base upper_price lower_price n
                           mult grid_type w
     = (Raise (ValidationError msg), w)) /\
  (forall msg w',
     place_martingale_grid W api symbol side base upper_price lower_price n
                           mult grid_type w
     = (Raise (TypeError msg), w') ->
     1 < mult /\
     exists s sd ps,
       validate_symbol symbol = Ok s /\ validate_side side = Ok sd /\
       _calculate_grid_prices lower_price upper_price n grid_type = Ok ps /\
       let qs := martingale_quantities base mult n in
       let orders := grid_orders s (fun _ => sd) "GTC" ps qs in
       List.length qs = Z.to_nat n /\
       (forall i, (0 <= i < n)%Z -> at_index qs i = base * mult ^ Z.to_nat i) /\
       w' = snd (send_all api orders w) /\
       List.length orders = Z.to_nat n /\
       Forall (fun req => request_side req = sd) orders /\
       (forall i, (0 <= i < n)%Z ->
          nth_error orders (Z.to_nat i)
          = Some (LimitOrder s sd (base * mult ^ Z.to_nat i)
                             (Some (at_index ps i)) "GTC"))) /\
  (forall s sd,
     validate_symbol symbol = Ok s -> validate_side side = Ok sd ->
     min_quantity <= base <= max_quantity ->
     min_price <= lower_price -> lower_price < upper_price ->
     upper_price <= max_price ->
     1 < mult -> (2 <= n)%Z ->
     exists ps,
       _calculate_grid_prices lower_price upper_price n grid_type = Ok ps /\
       place_martingale_grid W api symbol side base upper_price lower_price n
                             mult grid_type w
       = (Raise (TypeError BotLogger.unexpected_keyword),
          snd (send_all api
                 (grid_orders s (fun _ => sd) "GTC" ps
                              (martingale_quantities base mult n)) w))).
Proof.
  split; [| split].
  - intros Hm. rewrite place_martingale_grid_outcome.
    destruct (martingale_prepare _ _ _ _ _ _ _ _)
      as [[[[[[[s sd] bq] u] l] ps] qs] | e] eqn:Hprep.
    + apply martingale_prepare_inv in Hprep. lra.
    + apply martingale_prepare_raises in Hprep. destruct Hprep as (msg & ->).
      exists msg. reflexivity.
  - intros msg w' Hrun.
    apply place_martingale_grid_passed in Hrun.
    destruct Hrun as (s & sd & ps & qs & Hprep & _ & Hw).
    apply martingale_prepare_inv in Hprep.
    destruct Hprep as (Hs & Hsd & _ & _ & _ & _ & _ & _ & _ & Hm & Hn & Hps
                       & ->).
    split; [exact Hm |]. exists s, sd, ps.
    pose proof (calculate_grid_prices_length _ _ _ _ _ Hps) as Hlp.
    assert (Hlq : List.length (martingale_quantities base mult n) = Z.to_nat n).
    { now rewrite martingale_quantities_spec, length_map, length_seq. }
    assert (Hq : forall i, (0 <= i < n)%Z ->
                   at_index (martingale_quantities base mult n) i
                   = base * mult ^ Z.to_nat i).
    { intros i Hi. rewrite martingale_quantities_spec.
      apply at_index_map_seq; lia. }
    split; [exact Hs |]. split; [exact Hsd |]. split; [exact Hps |].
    cbv zeta.
    split; [exact Hlq |]. split; [exact Hq |]. split; [exact Hw |].
    split; [now apply grid_orders_length |].
    split; [apply grid_orders_side |].
    intros i Hi. rewrite (grid_orders_nth _ _ _ _ _ n) by assumption.
    now rewrite Hq.
  - intros s sd Hs Hsd Hb Hl Hlu Hu Hm Hn.
    now apply (place_martingale_grid_passes W api symbol side s sd).
Qed.

(** Base quantity 1, multiplier 2, three legs between 100 and 200: the
    exchange receives 1 at 100, 2 at 150 and 4 at 200, all three BUY, and
    the call raises.  With the multiplier 1 it receives nothing. *)
Lemma martingale_sizing_witness :
  place_martingale_grid (list request) (scripted (fun _ => false) (filled 0 0))
                        "BTCUSDT" "BUY" 1 200 100 3 2 "ARITHMETIC" []
  = (Raise (TypeError BotLogger.unexpected_keyword),
     [LimitOrder "BTCUSDT" "BUY" 1 (Some 100) "GTC";
      LimitOrder "BTCUSDT" "BUY" 2 (Some 150) "GTC";
      LimitOrder "BTCUSDT" "BUY" 4 (Some 200) "GTC"]) /\
  exists msg,
    place_martingale_grid (list request)
                          (scripted (fun _ => false) (filled 0 0))
                          "BTCUSDT" "BUY" 1 200 100 3 1 "ARITHMETIC" []
    = (Raise (ValidationError msg), []).
Proof.
  split.
  - destruct (martingale_sizing (list request)
                (scripted (fun _ => false) (filled 0 0))
                "BTCUSDT" "BUY" 1 200 100 3 2 "ARITHMETIC" [])
      as (_ & _ & Hpasses).
    destruct (Hpasses "BTCUSDT" "BUY") as (ps & Hps & Hrun);
      try reflexivity; try lia;
      try (unfold min_quantity, max_quantity, min_price, max_price; lra).
    rewrite arithmetic_prices_eq in Hps by lia. injection Hps as <-.
    rewrite Hrun. f_equal.
    change (martingale_quantities 1 2 3) with [1; 1 * 2; 1 * 2 * 2].
    cbn. unfold arithmetic_price. same_orders.
  - apply (martingale_sizing (list request)
             (scripted (fun _ => false) (filled 0 0))
             "BTCUSDT" "BUY" 1 200 100 3 1 "ARITHMETIC" []).
    lra.
Defined.

(** ** The DCA grid *)

Lemma place_dca_grid_passes (W : Type)
      (api : request -> W -> result response * W)
      symbol side s sd total upper_price lower_price n grid_type w :
  validate_symbol symbol = Ok s -> validate_side side = Ok sd ->
  0 < total ->
  min_price <= lower_price -> lower_price < upper_price ->
  upper_price <= max_price ->
  (2 <= n)%Z ->
  exists ps,
    _calculate_grid_prices lower_price upper_price n grid_type = Ok ps /\
    Forall (fun p => 0 < p) ps /\
    dca_prepare symbol side total upper_price lower_price n grid_type
    = Ok (s, sd, total / IZR n, upper_price, lower_price, ps,
          map (fun p => total / IZR n / p) ps) /\
    place_dca_grid W api symbol side total upper_price lower_price n
                   grid_type w
    = (Raise (TypeError BotLogger.unexpected_keyword),
       snd (send_all api
              (grid_orders s (fun _ => sd) "GTC" ps
                           (map (fun p => total / IZR n / p) ps)) w)).
Proof.
  intros Hs Hsd Ht Hl Hlu Hu Hn.
  assert (Hl0 : 0 < lower_price) by (unfold min_price in Hl; lra).
  destruct (calculate_grid_prices_ok lower_price upper_price n grid_type)
    as (ps & Hps); try assumption; try lra.
  pose proof (calculate_grid_prices_positive _ _ _ _ _ Hl0 Hlu Hn Hps) as Hpos.
  pose proof (IZR_nonzero_of_ge2 n Hn) as Hnz.
  pose proof (dca_prepare_ok symbol side s sd total upper_price lower_price n
                grid_type ps Hs Hsd Ht Hl Hlu Hu Hnz Hps Hpos) as Hprep.
  exists ps. repeat (split; [assumption |]).
  rewrite place_dca_grid_outcome. now rewrite Hprep.
Qed.

(** C8. DCA budget preservation: for a positive budget, valid price bounds
    and a leg count n >= 2 (the spec's invariant; what the missing check
    lets through below 2 is the subject of C2), place_dca_grid passes its
    validation, its n prices are positive, quantity[i] is
    (total_usdt / n) / price[i], so that quantity[i] * price[i] is the same
    for every leg, and the sum of quantity[i] * price[i] over the n legs is
    total_usdt.  The exchange receives the n legs in order, leg i for
    quantity[i] at price[i]; the call then raises the TypeError of the
    logger. *)
Theorem dca_budget_preserved (W : Type)
        (api : request -> W -> result response * W)
        symbol side s sd total upper_price lower_price n grid_type w :
  validate_symbol symbol = Ok s -> validate_side side = Ok sd ->
  0 < total ->
  min_price <= lower_price -> lower_price < upper_price ->
  upper_price <= max_price ->
  (2 <= n)%Z ->
  exists ps qs,
    dca_prepare symbol side total upper_price lower_price n grid_type
    = Ok (s, sd, total / IZR n, upper_price, lower_price, ps, qs) /\
    _calculate_grid_prices lower_price upper_price n grid_type = Ok ps /\
    qs = map (fun p => total / IZR n / p) ps /\
    List.length ps = Z.to_nat n /\ List.length qs = Z.to_nat n /\
    (forall i, (0 <= i < n)%Z ->
       0 < at_index ps i /\
       at_index qs i = (total / IZR n) / at_index ps i /\
       at_index qs i * at_index ps i = total / IZR n) /\
    spent qs ps = total /\
    let orders := grid_orders s (fun _ => sd) "GTC" ps qs in
    place_dca_grid W api symbol side total upper_price lower_price n
                   grid_type w
    = (Raise (TypeError BotLogger.unexpected_keyword),
       snd (send_all api orders w)) /\
    List.length orders = Z.to_nat n /\
    (forall i, (0 <= i < n)%Z ->
       nth_error orders (Z.to_nat i)
       = Some (LimitOrder s sd ((total / IZR n) / at_index ps i)
                          (Some (at_index ps i)) "GTC")).
Proof.
  intros Hs Hsd Ht Hl Hlu Hu Hn.
  destruct (place_dca_grid_passes W api symbol side s sd total upper_price
              lower_price n grid_type w Hs Hsd Ht Hl Hlu Hu Hn)
    as (ps & Hps & Hpos & Hprep & Hrun).
  pose proof (calculate_grid_prices_length _ _ _ _ _ Hps) as Hlen.
  pose proof (IZR_nonzero_of_ge2 n Hn) as Hnz.
  assert (Hlq : List.length (map (fun p => total / IZR n / p) ps) = Z.to_nat n)
    by now rewrite length_map.
  assert (Hq : forall i, (0 <= i < n)%Z ->
                 at_index (map (fun p => total / IZR n / p) ps) i
                 = total / IZR n / at_index ps i).
  { intros i Hi. apply at_index_map. lia. }
  exists ps, (map (fun p => total / IZR n / p) ps).
  split; [exact Hprep |]. split; [exact Hps |]. split; [reflexivity |].
  split; [exact Hlen |]. split; [exact Hlq |].
  split; [| split; [| split; [exact Hrun | split]]].
  - intros i Hi.
    assert (Hi' : (Z.to_nat i < List.length ps)%nat) by lia.
    pose proof (at_index_positive ps i Hpos Hi') as Hp.
    rewrite Hq by assumption.
    repeat split; [assumption |]. field. lra.
  - rewrite spent_dca by assumption. rewrite Hlen, INR_IZR_INZ, Z2Nat.id by lia.
    field. assumption.
  - now apply grid_orders_length.
  - intros i Hi. rewrite (grid_orders_nth _ _ _ _ _ n) by assumption.
    now rewrite Hq.
Qed.

(** 100 USDT on two legs between 100 and 200: the exchange receives half a
    unit at 100 and a quarter at 200, 50 USDT each; the call raises. *)
Lemma dca_budget_preserved_witness :
  exists ps qs,
    _calculate_grid_prices 100 200 2 "ARITHMETIC" = Ok ps /\
    spent qs ps = 100 /\
    place_dca_grid (list request) (scripted (fun _ => false) (filled 0 0))
                   "BTCUSDT" "BUY" 100 200 100 2 "ARITHMETIC" []
    = (Raise (TypeError BotLogger.unexpected_keyword),
       snd (send_all (scripted (fun _ => false) (filled 0 0))
                     (grid_orders "BTCUSDT" (fun _ => "BUY") "GTC" ps qs) [])) /\
    snd (send_all (scripted (fun _ => false) (filled 0 0))
                  (grid_orders "BTCUSDT" (fun _ => "BUY") "GTC" ps qs) [])
    = [LimitOrder "BTCUSDT" "BUY" (1 / 2) (Some 100) "GTC";
       LimitOrder "BTCUSDT" "BUY" (1 / 4) (Some 200) "GTC"].
Proof.
  destruct (dca_budget_preserved (list request)
              (scripted (fun _ => false) (filled 0 0))
              "BTCUSDT" "BUY" "BTCUSDT" "BUY" 100 200 100 2 "ARITHMETIC" [])
    as (ps & qs & _ & Hps & Hqs & _ & _ & _ & Hsum & Hrun & _);
    try reflexivity; try lia; try (unfold min_price, max_price; lra).
  exists ps, qs. split; [exact Hps |]. split; [exact Hsum |].
  split; [exact Hrun |].
  rewrite arithmetic_prices_eq in Hps by lia. injection Hps as <-.
  subst qs. cbn. unfold arithmetic_price. same_orders.
Defined.

(** ** The fallback of the grid type *)

(** C10. Implicit grid type fallback: the price calculator treats every
    grid type other than 'GEOMETRIC' as 'ARITHMETIC' (the same prices, and
    no error for n >= 2).  place_martingale_grid and place_dca_grid do not
    check the grid type: with such a grid type they do what they do with
    'ARITHMETIC', and with valid parameters they pass the validation and
    send the exchange one order per leg at the arithmetic prices, before the
    call of the logger raises its TypeError. *)
Theorem grid_type_fallback (W : Type) (api : request -> W -> result response * W)
        (grid_type : string) :
  String.eqb grid_type "GEOMETRIC" = false ->
  (forall lower upper_price n,
      _calculate_grid_prices lower upper_price n grid_type
      = _calculate_grid_prices lower upper_price n "ARITHMETIC") /\
  (forall lower upper_price n, (2 <= n)%Z ->
      _calculate_grid_prices lower upper_price n grid_type
      = Ok (map (arithmetic_price lower upper_price n) (range n))) /\
  (forall symbol side base upper_price lower n mult w,
      place_martingale_grid W api symbol side base upper_price lower n mult
                            grid_type w
      = place_martingale_grid W api symbol side base upper_price lower n mult
                              "ARITHMETIC" w) /\
  (forall symbol side total upper_price lower n w,
      place_dca_grid W api symbol side total upper_price lower n grid_type w
      = place_dca_grid W api symbol side total upper_price lower n
                       "ARITHMETIC" w) /\
  (forall symbol side s sd base upper_price lower n mult w,
      validate_symbol symbol = Ok s -> validate_side side = Ok sd ->
      min_quantity <= base <= max_quantity ->
      min_price <= lower -> lower < upper_price -> upper_price <= max_price ->
      1 < mult -> (2 <= n)%Z ->
      place_martingale_grid W api symbol side base upper_price lower n mult
                            grid_type w
      = (Raise (TypeError BotLogger.unexpected_keyword),
         snd (send_all api
                (grid_orders s (fun _ => sd) "GTC"
                             (map (arithmetic_price lower upper_price n)
                                  (range n))
                             (martingale_quantities base mult n)) w))) /\
  (forall symbol side s sd total upper_price lower n w,
      validate_symbol symbol = Ok s -> validate_side side = Ok sd ->
      0 < total ->
      min_price <= lower -> lower < upper_price -> upper_price <= max_price ->
      (2 <= n)%Z ->
      place_dca_grid W api symbol side total upper_price lower n grid_type w
      = (Raise (TypeError BotLogger.unexpected_keyword),
         snd (send_all api
                (grid_orders s (fun _ => sd) "GTC"
                             (map (arithmetic_price lower upper_price n)
                                  (range n))
                             (map (fun p => total / IZR n / p)
                                  (map (arithmetic_price lower upper_price n)
                                       (range n)))) w))).
Proof.
  intros Hg.
  assert (Hprices : forall lower upper_price n, (2 <= n)%Z ->
             _calculate_grid_prices lower upper_price n grid_type
             = Ok (map (arithmetic_price lower upper_price n) (range n))).
  { intros lower upper_price n Hn.
    rewrite fallback_is_arithmetic by assumption.
    now apply arithmetic_prices_eq. }
  split; [| split; [exact Hprices | split; [| split; [| split]]]].
  - intros. now apply fallback_is_arithmetic.
  - intros. rewrite !place_martingale_grid_outcome.
    now rewrite martingale_prepare_fallback.
  - intros. rewrite !place_dca_grid_outcome.
    now rewrite dca_prepare_fallback.
  - intros symbol side s sd base upper_price lower n mult w
           Hs Hsd Hb Hl Hlu Hu Hm Hn.
    destruct (place_martingale_grid_passes W api symbol side s sd base
                upper_price lower n mult grid_type w Hs Hsd Hb Hl Hlu Hu Hm Hn)
      as (ps & Hps & Hrun).
    rewrite Hprices in Hps by assumption. injection Hps as <-. exact Hrun.
  - intros symbol side s sd total upper_price lower n w
           Hs Hsd Ht Hl Hlu Hu Hn.
    destruct (place_dca_grid_passes W api symbol side s sd total
                upper_price lower n grid_type w Hs Hsd Ht Hl Hlu Hu Hn)
      as (ps & Hps & _ & _ & Hrun).
    rewrite Hprices in Hps by assumption. injection Hps as <-. exact Hrun.
Qed.

(** With the grid type 'FIBONACCI' both entry points send the orders of the
    arithmetic grid: three Martingale legs at 100, 150 and 200, and two DCA
    legs at 100 and 200. *)
Lemma grid_type_fallback_witness :
  _calculate_grid_prices 100 200 5 "FIBONACCI"
  = Ok (map (arithmetic_price 100 200 5) (range 5)) /\
  place_martingale_grid (list request) (scripted (fun _ => false) (filled 0 0))
                        "BTCUSDT" "BUY" 1 200 100 3 2 "FIBONACCI" []
  = (Raise (TypeError BotLogger.unexpected_keyword),
     [LimitOrder "BTCUSDT" "BUY" 1 (Some 100) "GTC";
      LimitOrder "BTCUSDT" "BUY" 2 (Some 150) "GTC";
      LimitOrder "BTCUSDT" "BUY" 4 (Some 200) "GTC"]) /\
  place_dca_grid (list request) (scripted (fun _ => false) (filled 0 0))
                 "BTCUSDT" "BUY" 100 200 100 2 "FIBONACCI" []
  = (Raise (TypeError BotLogger.unexpected_keyword),
     [LimitOrder "BTCUSDT" "BUY" (1 / 2) (Some 100) "GTC";
      LimitOrder "BTCUSDT" "BUY" (1 / 4) (Some 200) "GTC"]).
Proof.
  destruct (grid_type_fallback (list request)
              (scripted (fun _ => false) (filled 0 0)) "FIBONACCI" eq_refl)
    as (_ & Hprices & _ & _ & Hmart & Hdca).
  split; [apply Hprices; lia |]. split.
  - rewrite (Hmart "BTCUSDT" "BUY" "BTCUSDT" "BUY");
      try reflexivity; try lia;
      try (unfold min_quantity, max_quantity, min_price, max_price; lra).
    f_equal.
    change (martingale_quantities 1 2 3) with [1; 1 * 2; 1 * 2 * 2].
    change (range 3) with [0; 1; 2]%Z.
    cbn. unfold arithmetic_price. same_orders.
  - rewrite (Hdca "BTCUSDT" "BUY" "BTCUSDT" "BUY");
      try reflexivity; try lia;
      try (unfold min_price, max_price; lra).
    f_equal. change (range 2) with [0; 1]%Z.
    cbn. unfold arithmetic_price. same_orders.
Defined.

(** * Further properties of the strategies *)

(** ** The validators of the strategies' parameters and the strategies *)

Lemma validate_grid_parameters_ok (upper lower : R) (n : Z) (quantity : R) :
  min_price <= lower -> lower < upper -> upper <= max_price ->
  (2 <= n <= 100)%Z -> min_quantity <= quantity <= max_quantity ->
  validate_grid_parameters upper lower n quantity
  = Ok (upper, lower, n, quantity).
Proof.
  intros Hl Hlu Hu Hn Hq. unfold validate_grid_parameters.
  rewrite !validate_price_ok by lra. cbn [bind].
  destruct (Rle_dec upper lower); [lra |].
  rewrite ltb_2_false, gtb_false by lia. cbn [orb].
  now rewrite validate_quantity_ok.
Qed.

(** What an entry point raises when its validation has not passed is a
    [ValidationError], except for the [ZeroDivisionError] of the DCA grid. *)
Lemma place_grid_order_not_rejected (W : Type)
      (api : request -> W -> result response * W)
      symbol side total upper lower n grid_type tif w out w' :
  place_grid_order W api symbol side total upper lower n grid_type tif w
  = (out, w') ->
  (forall msg, out <> Raise (ValidationError msg)) ->
  exists s sd ps qs,
    grid_prepare symbol side total upper lower n grid_type
    = Ok (s, sd, total, upper, lower, ps, qs).
Proof.
  rewrite place_grid_order_outcome.
  destruct (grid_prepare _ _ _ _ _ _ _)
    as [[[[[[[s sd] tq] u] l] ps] qs] | e] eqn:Hprep.
  - intros _ _. apply grid_prepare_inv in Hprep as Hinv.
    destruct Hinv as (_ & _ & -> & -> & -> & _). eauto.
  - intros [= <- _] Hout. apply grid_prepare_raises in Hprep.
    destruct Hprep as (msg & ->). now elim (Hout msg).
Qed.

Lemma place_twap_order_not_rejected (W : Type)
      (api : request -> W -> result response * W)
      symbol side total duration n order_type price tif w out w' :
  place_twap_order W api symbol side total duration n order_type price tif w
  = (out, w') ->
  (forall msg, out <> Raise (ValidationError msg)) ->
  exists s sd,
    twap_prepare symbol side total duration n order_type price
    = Ok (s, sd, total, price, total / IZR n).
Proof.
  rewrite place_twap_order_outcome.
  destruct (twap_prepare _ _ _ _ _ _ _)
    as [[[[[s sd] tq] pr] cq] | e] eqn:Hprep.
  - intros _ _.
    pose proof (twap_prepare_order_type _ _ _ _ _ _ _ _ _ _ _ _ Hprep)
      as (-> & _).
    apply twap_prepare_inv in Hprep as Hinv.
    destruct Hinv as (_ & _ & -> & -> & _). eauto.
  - intros [= <- _] Hout. apply twap_prepare_raises in Hprep.
    destruct Hprep as (msg & ->). now elim (Hout msg).
Qed.

(** X7. validate_grid_parameters and place_grid_order do not agree on the
    largest grid: the validator allows 2 to 100 grids, place_grid_order 2 to
    50.  Whatever place_grid_order does not reject with a ValidationError
    passes validate_grid_parameters, but valid bounds and quantity with 51
    to 100 grids pass the validator and are rejected by place_grid_order
    with a ValidationError, before any order. *)
Theorem grid_parameters_bounds_differ (W : Type)
        (api : request -> W -> result response * W)
        symbol side total upper lower n grid_type tif w :
  (forall out w',
      place_grid_order W api symbol side total upper lower n grid_type tif w
      = (out, w') ->
      (forall msg, out <> Raise (ValidationError msg)) ->
      validate_grid_parameters upper lower n total
      = Ok (upper, lower, n, total)) /\
  (min_price <= lower -> lower < upper -> upper <= max_price ->
   min_quantity <= total <= max_quantity -> (50 < n <= 100)%Z ->
   validate_grid_parameters upper lower n total = Ok (upper, lower, n, total)
   /\ exists msg,
       place_grid_order W api symbol side total upper lower n grid_type tif w
       = (Raise (ValidationError msg), w)).
Proof.
  split.
  - intros out w' H Hout.
    destruct (place_grid_order_not_rejected W api _ _ _ _ _ _ _ _ _ _ _ H Hout)
      as (s & sd & ps & qs & Hprep).
    apply grid_prepare_inv in Hprep.
    destruct Hprep as (_ & _ & _ & _ & _ & Hq & Hl & Hlu & Hu & Hn & _).
    apply validate_grid_parameters_ok; try assumption. lia.
  - intros Hl Hlu Hu Hq Hn. split.
    + apply validate_grid_parameters_ok; try assumption. lia.
    + apply place_grid_order_leg_count. lia.
Qed.

(** 75 grids between 100 and 200 pass the validator and are rejected by
    place_grid_order; 50 grids pass both. *)
Lemma grid_parameters_bounds_differ_witness :
  (validate_grid_parameters 200 100 75 1 = Ok (200, 100, 75%Z, 1)
   /\ exists msg,
       place_grid_order (list request) (scripted (fun _ => false) (filled 0 0))
                        "BTCUSDT" "BUY" 1 200 100 75 "ARITHMETIC" "GTC" []
       = (Raise (ValidationError msg), [])) /\
  (exists w',
      place_grid_order (list request) (scripted (fun _ => false) (filled 0 0))
                       "BTCUSDT" "BUY" 1 200 100 50 "ARITHMETIC" "GTC" []
      = (Raise (TypeError BotLogger.unexpected_keyword), w') /\
      List.length w' = 50%nat /\
      validate_grid_parameters 200 100 50 1 = Ok (200, 100, 50%Z, 1)).
Proof.
  split.
  - apply (proj2 (grid_parameters_bounds_differ (list request)
                    (scripted (fun _ => false) (filled 0 0))
                    "BTCUSDT" "BUY" 1 200 100 75 "ARITHMETIC" "GTC" []));
      try lia; unfold min_quantity, max_quantity, min_price, max_price; lra.
  - assert (Hprep : grid_prepare "BTCUSDT" "BUY" 1 200 100 50 "ARITHMETIC"
                    = Ok ("BTCUSDT", "BUY", 1, 200, 100,
                          map (arithmetic_price 100 200 50) (range 50),
                          replicate (1 / IZR 50) 50)).
    { apply grid_prepare_ok; try reflexivity; try lia;
        try (unfold min_quantity, max_quantity, min_price, max_price; lra).
      apply arithmetic_prices_eq. lia. }
    pose proof (place_grid_order_outcome (list request)
                  (scripted (fun _ => false) (filled 0 0))
                  "BTCUSDT" "BUY" 1 200 100 50 "ARITHMETIC" "GTC" []) as Hrun.
    rewrite Hprep in Hrun.
    eexists. split; [exact Hrun |]. split; [reflexivity |].
    apply (proj1 (grid_parameters_bounds_differ (list request)
                    (scripted (fun _ => false) (filled 0 0))
                    "BTCUSDT" "BUY" 1 200 100 50 "ARITHMETIC" "GTC" [])
                 _ _ Hrun).
    intros msg. discriminate.
Defined.

(** X8. A place_twap_order call that is not rejected with a
    ValidationError has parameters that validate_twap_parameters accepts,
    unless its duration exceeds 1440 minutes: place_twap_order only checks
    that the duration is at least 1, the validator also bounds it by 24
    hours and raises a ValidationError above. *)
Theorem twap_parameters_duration (W : Type)
        (api : request -> W -> result response * W)
        symbol side total duration n order_type price tif w out w' :
  place_twap_order W api symbol side total duration n order_type price tif w
  = (out, w') ->
  (forall msg, out <> Raise (ValidationError msg)) ->
  ((duration <= 1440)%Z ->
   validate_twap_parameters total duration n = Ok (total, duration, n)) /\
  ((1440 < duration)%Z ->
   validate_twap_parameters total duration n
   = Raise (ValidationError "Duration must be between 1 and 1440 minutes")).
Proof.
  intros H Hout.
  destruct (place_twap_order_not_rejected W api _ _ _ _ _ _ _ _ _ _ _ H Hout)
    as (s & sd & Hprep).
  apply twap_prepare_inv in Hprep.
  destruct Hprep as (_ & _ & _ & _ & Hq & _ & Hd & Hn & _).
  unfold validate_twap_parameters.
  rewrite validate_quantity_ok by assumption. cbn [bind].
  replace (duration <? 1)%Z with false by (symmetry; apply Z.ltb_ge; lia).
  cbn [orb]. split; intros Hdur.
  - rewrite gtb_false by lia.
    rewrite ltb_2_false, gtb_false by lia. reflexivity.
  - replace (duration >? 1440)%Z with true; [reflexivity |].
    symmetry. rewrite Z.gtb_ltb. apply Z.ltb_lt. lia.
Qed.

(** Two chunks over 1441 minutes: both orders are sent by place_twap_order,
    and the validator rejects the duration. *)
Lemma twap_parameters_duration_witness :
  exists w',
    place_twap_order (list request) (scripted (fun _ => false) (filled 1 50))
                     "BTCUSDT" "BUY" 2 1441 2 "MARKET" None "GTC" []
    = (Raise (TypeError BotLogger.unexpected_keyword), w') /\
    List.length w' = 2%nat /\
    validate_twap_parameters 2 1441 2
    = Raise (ValidationError "Duration must be between 1 and 1440 minutes").
Proof.
  assert (Hprep : twap_prepare "BTCUSDT" "BUY" 2 1441 2 "MARKET" None
                  = Ok ("BTCUSDT", "BUY", 2, None, 2 / IZR 2)).
  { apply twap_prepare_market_ok; try reflexivity; try lia;
      unfold min_quantity, max_quantity; lra. }
  pose proof (place_twap_order_outcome (list request)
                (scripted (fun _ => false) (filled 1 50))
                "BTCUSDT" "BUY" 2 1441 2 "MARKET" None "GTC" []) as Hrun.
  rewrite Hprep in Hrun.
  eexists. split; [exact Hrun |]. split; [reflexivity |].
  assert (Hout : forall msg,
             @Raise twap_report (TypeError BotLogger.unexpected_keyword)
             <> Raise (ValidationError msg)) by (intros msg; discriminate).
  apply (proj2 (twap_parameters_duration _ _ _ _ _ _ _ _ _ _ _ _ _ Hrun Hout)).
  lia.
Defined.

(** ** How a strategy call ends *)

Lemma profile_timed_passed (W : Type)
      (api : request -> W -> result response * W)
      symbol side total duration profile order_type price w msg w' :
  place_twap_with_volume_profile_timed W api symbol side total duration
                                       profile order_type price w
  = (Raise (TypeError msg), w') ->
  (0 <= duration)%Z /\
  place_twap_with_volume_profile W api symbol side total duration profile
                                 order_type price w
  = (Raise (TypeError msg), w').
Proof.
  intros H. destruct (Z_lt_le_dec duration 0) as [Hd | Hd].
  - exfalso. revert H.
    rewrite <- (log_and_return_raise (W := W) (A := twap_report)
                  (TypeError msg) w').
    unfold place_twap_with_volume_profile_timed, volume_profile_result_timed
      at 1.
    destruct (profile_prepare symbol side total duration profile)
      as [[[[[s sd] tq] n] qs] | e] eqn:Hprep.
    + destruct (profile_timed_negative W api symbol side total duration
                  profile order_type price w s sd tq n qs Hprep Hd)
        as (q0 & rest & _ & Hrun).
      unfold place_twap_with_volume_profile_timed,
        volume_profile_result_timed in Hrun.
      rewrite Hprep in Hrun. rewrite Hrun. discriminate.
    + apply profile_prepare_raises in Hprep. destruct Hprep as (m & ->).
      discriminate.
  - split; [assumption |]. now rewrite <- profile_timed_quiet.
Qed.

(** X9. No strategy call returns a report: every call raises.  What it
    raises before an order is sent is a ValidationError, or for
    place_dca_grid the ZeroDivisionError of a leg count of 0 or 1: the
    exchange is then as it was before the call.  Otherwise it raises the
    TypeError of the logger, after it has passed the validation and
    attempted its legs; the volume-profile run with its pauses may instead
    raise the ValueError of time.sleep, which it does for a negative
    duration only. *)
Theorem strategy_calls_raise (W : Type)
        (api : request -> W -> result response * W) :
  (forall symbol side total upper lower n grid_type tif w out w',
      place_grid_order W api symbol side total upper lower n grid_type tif w
      = (out, w') ->
      (exists msg, out = Raise (ValidationError msg) /\ w' = w)
      \/ out = Raise (TypeError BotLogger.unexpected_keyword)) /\
  (forall symbol side base upper lower n mult grid_type w out w',
      place_martingale_grid W api symbol side base upper lower n mult grid_type w
      = (out, w') ->
      (exists msg, out = Raise (ValidationError msg) /\ w' = w)
      \/ out = Raise (TypeError BotLogger.unexpected_keyword)) /\
  (forall symbol side total upper lower n grid_type w out w',
      place_dca_grid W api symbol side total upper lower n grid_type w
      = (out, w') ->
      (exists msg, out = Raise (ValidationError msg) /\ w' = w)
      \/ (out = Raise ZeroDivisionError /\ w' = w /\ (n = 0 \/ n = 1)%Z)
      \/ out = Raise (TypeError BotLogger.unexpected_keyword)) /\
  (forall symbol side total duration n order_type price tif w out w',
      place_twap_order W api symbol side total duration n order_type price tif w
      = (out, w') ->
      (exists msg, out = Raise (ValidationError msg) /\ w' = w)
      \/ out = Raise (TypeError BotLogger.unexpected_keyword)) /\
  (forall symbol side total duration profile order_type price w out w',
      place_twap_with_volume_profile_timed W api symbol side total duration
                                           profile order_type price w
      = (out, w') ->
      (exists msg, out = Raise (ValidationError msg) /\ w' = w)
      \/ (out = Raise (TypeError BotLogger.unexpected_keyword)
          /\ (0 <= duration)%Z)
      \/ (out = Raise (ValueError "sleep length must be non-negative")
          /\ (duration < 0)%Z)).
Proof.
  split; [| split; [| split; [| split]]].
  - intros until w'. rewrite place_grid_order_outcome.
    destruct (grid_prepare _ _ _ _ _ _ _)
      as [[[[[[[s sd] tq] u] l] ps] qs] | e] eqn:Hprep.
    + intros [= <- _]. now right.
    + intros [= <- <-]. left. apply grid_prepare_raises in Hprep.
      destruct Hprep as (msg & ->). eauto.
  - intros until w'. rewrite place_martingale_grid_outcome.
    destruct (martingale_prepare _ _ _ _ _ _ _ _)
      as [[[[[[[s sd] bq] u] l] ps] qs] | e] eqn:Hprep.
    + intros [= <- _]. now right.
    + intros [= <- <-]. left. apply martingale_prepare_raises in Hprep.
      destruct Hprep as (msg & ->). eauto.
  - intros until w'. rewrite place_dca_grid_outcome.
    destruct (dca_prepare _ _ _ _ _ _ _)
      as [[[[[[[s sd] per] u] l] ps] qs] | e] eqn:Hprep.
    + intros [= <- _]. now right; right.
    + intros [= <- <-]. apply dca_prepare_raises in Hprep.
      destruct Hprep as [(msg & ->) | (-> & Hn)]; [left; eauto |].
      right; left. auto.
  - intros until w'. rewrite place_twap_order_outcome.
    destruct (twap_prepare _ _ _ _ _ _ _)
      as [[[[[s sd] tq] pr] cq] | e] eqn:Hprep.
    + intros [= <- _]. now right.
    + intros [= <- <-]. left. apply twap_prepare_raises in Hprep.
      destruct Hprep as (msg & ->). eauto.
  - intros until w'. destruct (Z_lt_le_dec duration 0) as [Hd | Hd].
    + unfold place_twap_with_volume_profile_timed,
        volume_profile_result_timed at 1.
      destruct (profile_prepare symbol side total duration profile)
        as [[[[[s sd] tq] n] qs] | e] eqn:Hprep.
      * destruct (profile_timed_negative W api symbol side total duration
                    profile order_type price w s sd tq n qs Hprep Hd)
          as (q0 & rest & _ & Hrun).
        unfold place_twap_with_volume_profile_timed,
          volume_profile_result_timed in Hrun.
        rewrite Hprep in Hrun. rewrite Hrun.
        intros [= <- _]. right; right. auto.
      * intros [= <- <-]. left. apply profile_prepare_raises in Hprep.
        destruct Hprep as (msg & ->). eauto.
    + rewrite profile_timed_quiet by assumption.
      rewrite place_twap_with_volume_profile_outcome.
      destruct (profile_prepare _ _ _ _ _)
        as [[[[[s sd] tq] n] qs] | e] eqn:Hprep.
      * intros [= <- _]. right; left. auto.
      * intros [= <- <-]. left. apply profile_prepare_raises in Hprep.
        destruct Hprep as (msg & ->). eauto.
Qed.

(** A grid of 51 levels is refused with a ValidationError and the log of
    the exchange stays empty; a grid of 5 levels is sent and the call raises
    the TypeError. *)
Lemma strategy_calls_raise_witness :
  (exists msg,
      place_grid_order (list request) (scripted (fun _ => false) (filled 0 0))
                       "BTCUSDT" "SELL" 1 200 100 51 "GEOMETRIC" "GTC" []
      = (Raise (ValidationError msg), [])) /\
  (exists w',
      place_grid_order (list request) (scripted (fun _ => false) (filled 0 0))
                       "BTCUSDT" "SELL" 1 200 100 5 "ARITHMETIC" "GTC" []
      = (Raise (TypeError BotLogger.unexpected_keyword), w') /\
      List.length w' = 5%nat).
Proof.
  destruct (strategy_calls_raise (list request)
              (scripted (fun _ => false) (filled 0 0))) as (Hgrid & _).
  split.
  - destruct (place_grid_order (list request)
                (scripted (fun _ => false) (filled 0 0))
                "BTCUSDT" "SELL" 1 200 100 51 "GEOMETRIC" "GTC" [])
      as [out w'] eqn:Hrun.
    destruct (Hgrid _ _ _ _ _ _ _ _ _ _ _ Hrun) as [(msg & -> & ->) | ->].
    + exists msg. reflexivity.
    + destruct (place_grid_order_leg_count (list request)
                  (scripted (fun _ => false) (filled 0 0))
                  "BTCUSDT" "SELL" 1 200 100 51 "GEOMETRIC" "GTC" [])
        as (msg & Hrej); [lia |].
      rewrite Hrej in Hrun. discriminate.
  - assert (Hprep : grid_prepare "BTCUSDT" "SELL" 1 200 100 5 "ARITHMETIC"
                    = Ok ("BTCUSDT", "SELL", 1, 200, 100,
                          map (arithmetic_price 100 200 5) (range 5),
                          replicate (1 / IZR 5) 5)).
    { apply grid_prepare_ok; try reflexivity; try lia;
        try (unfold min_quantity, max_quantity, min_price, max_price; lra).
      apply arithmetic_prices_eq. lia. }
    pose proof (place_grid_order_outcome (list request)
                  (scripted (fun _ => false) (filled 0 0))
                  "BTCUSDT" "SELL" 1 200 100 5 "ARITHMETIC" "GTC" []) as Hrun.
    rewrite Hprep in Hrun.
    destruct (Hgrid _ _ _ _ _ _ _ _ _ _ _ Hrun) as [(msg & H & _) | _];
      [discriminate |].
    eexists. split; [exact Hrun | reflexivity].
Defined.

(** ** Which calls pass the validation *)

Lemma grid_orders_ext symbol (side_of side_of' : Z -> string) tif
      (ps qs : list R) :
  (forall i, side_of i = side_of' i) ->
  grid_orders symbol side_of tif ps qs = grid_orders symbol side_of' tif ps qs.
Proof.
  intros Hext. unfold grid_orders. apply map_ext. intros l.
  unfold leg_request. now rewrite Hext.
Qed.

Lemma validate_symbol_normalised (symbol s : string) :
  validate_symbol symbol = Ok s -> s = strip (upper symbol).
Proof. intros H. apply validate_symbol_iff in H. now destruct H as (_ & <- & _). Qed.

Lemma validate_side_normalised (side sd : string) :
  validate_side side = Ok sd -> sd = strip (upper side).
Proof. intros H. apply validate_side_iff in H. now destruct H as (_ & <- & _). Qed.

(** X10. place_grid_order passes its validation exactly when the symbol and
    the side are supported (after normalisation), the total quantity is a
    valid quantity, the bounds are valid prices with lower < upper, the
    number of grids is between 2 and 50 and the grid type is 'ARITHMETIC' or
    'GEOMETRIC'; the time in force is not checked.  It then sends one limit
    order per grid, with the normalised symbol and side, the time in force
    as given and the quantity total / n, and raises the TypeError of the
    logger.  Otherwise it raises a ValidationError and sends nothing. *)
Theorem grid_order_validation (W : Type)
        (api : request -> W -> result response * W)
        symbol side total upper_price lower_price n grid_type tif w :
  let valid :=
    (symbol <> "" /\ In (strip (upper symbol)) supported_symbols) /\
    (side <> "" /\ In (strip (upper side)) supported_sides) /\
    min_quantity <= total <= max_quantity /\
    min_price <= lower_price /\ lower_price < upper_price /\
    upper_price <= max_price /\
    (2 <= n <= 50)%Z /\
    (grid_type = "ARITHMETIC" \/ grid_type = "GEOMETRIC") in
  ((exists w',
       place_grid_order W api symbol side total upper_price lower_price n
                        grid_type tif w
       = (Raise (TypeError BotLogger.unexpected_keyword), w'))
   <-> valid) /\
  (valid ->
   exists ps,
     _calculate_grid_prices lower_price upper_price n grid_type = Ok ps /\
     place_grid_order W api symbol side total upper_price lower_price n
                      grid_type tif w
     = (Raise (TypeError BotLogger.unexpected_keyword),
        snd (send_all api
               (grid_orders (strip (upper symbol))
                            (fun _ => strip (upper side)) tif ps
                            (replicate (total / IZR n) n)) w))) /\
  (~ valid ->
   exists msg,
     place_grid_order W api symbol side total upper_price lower_price n
                      grid_type tif w
     = (Raise (ValidationError msg), w)).
Proof.
  intros valid.
  assert (Hinv : forall s sd tq u l ps qs,
             grid_prepare symbol side total upper_price lower_price n grid_type
             = Ok (s, sd, tq, u, l, ps, qs) -> valid).
  { intros s sd tq u l ps qs Hprep. apply grid_prepare_inv in Hprep.
    destruct Hprep as (Hs & Hsd & _ & _ & _ & Hq & Hl & Hlu & Hu & Hn & Hgt & _).
    split; [apply (validated_iff_supported validate_symbol);
            [apply validate_symbol_iff | eauto] |].
    split; [apply (validated_iff_supported validate_side);
            [apply validate_side_iff | eauto] |].
    apply grid_type_checked in Hgt. auto 10. }
  assert (Hpasses : valid ->
            exists ps,
              _calculate_grid_prices lower_price upper_price n grid_type = Ok ps /\
              place_grid_order W api symbol side total upper_price lower_price n
                               grid_type tif w
              = (Raise (TypeError BotLogger.unexpected_keyword),
                 snd (send_all api
                        (grid_orders (strip (upper symbol))
                                     (fun _ => strip (upper side)) tif ps
                                     (replicate (total / IZR n) n)) w))).
  { intros (Hs & Hsd & Hq & Hl & Hlu & Hu & Hn & Hgt).
    apply (validated_iff_supported validate_symbol supported_symbols) in Hs;
      [| apply validate_symbol_iff].
    apply (validated_iff_supported validate_side supported_sides) in Hsd;
      [| apply validate_side_iff].
    destruct Hs as (s & Hs). destruct Hsd as (sd & Hsd).
    destruct (calculate_grid_prices_ok lower_price upper_price n grid_type)
      as (ps & Hps); try (unfold min_price in *; lra); try lia.
    exists ps. split; [exact Hps |].
    pose proof (grid_prepare_ok _ _ s sd _ _ _ _ _ ps Hs Hsd Hq Hl Hlu Hu Hn
                  (proj2 (grid_type_checked grid_type) Hgt) Hps) as Hprep.
    rewrite place_grid_order_outcome, Hprep.
    destruct (grid_side_never_alternates _ _ _ _ _ _ _ _ _ _ _ _ _ _ Hprep)
      as (_ & Hside).
    rewrite (grid_orders_ext s (grid_side_of sd) (fun _ => sd)) by exact Hside.
    now rewrite <- (validate_symbol_normalised _ _ Hs),
                <- (validate_side_normalised _ _ Hsd). }
  split; [split |split].
  - intros (w' & H). apply place_grid_order_passed in H.
    destruct H as (s & sd & ps & qs & Hprep & _). eapply Hinv. exact Hprep.
  - intros Hvalid. destruct (Hpasses Hvalid) as (ps & _ & Hrun). eauto.
  - exact Hpasses.
  - intros Hnot. rewrite place_grid_order_outcome.
    destruct (grid_prepare _ _ _ _ _ _ _)
      as [[[[[[[s sd] tq] u] l] ps] qs] | e] eqn:Hprep.
    + elim Hnot. exact (Hinv _ _ _ _ _ _ _ eq_refl).
    + apply grid_prepare_raises in Hprep. destruct Hprep as (msg & ->).
      exists msg. reflexivity.
Qed.

(** A grid of two levels on ' btcusdt ' and 'sell' with an arbitrary time
    in force: two SELL orders on BTCUSDT reach the exchange. *)
Lemma grid_order_validation_witness :
  place_grid_order (list request) (scripted (fun _ => false) (filled 0 0))
                   " btcusdt " "sell" 1 200 100 2 "ARITHMETIC" "whenever" []
  = (Raise (TypeError BotLogger.unexpected_keyword),
     [LimitOrder "BTCUSDT" "SELL" (1 / 2) (Some 100) "whenever";
      LimitOrder "BTCUSDT" "SELL" (1 / 2) (Some 200) "whenever"]) /\
  exists msg,
    place_grid_order (list request) (scripted (fun _ => false) (filled 0 0))
                     " btcusdt " "sell" 1 200 100 2 "FIBONACCI" "whenever" []
    = (Raise (ValidationError msg), []).
Proof.
  split.
  - destruct (grid_order_validation (list request)
                (scripted (fun _ => false) (filled 0 0))
                " btcusdt " "sell" 1 200 100 2 "ARITHMETIC" "whenever" [])
      as (_ & Hpasses & _).
    destruct Hpasses as (ps & Hps & Hrun).
    { unfold min_quantity, max_quantity, min_price, max_price.
      repeat split; try lra; try lia; try discriminate; simpl; auto. }
    rewrite arithmetic_prices_eq in Hps by lia. injection Hps as <-.
    rewrite Hrun. f_equal.
    change (strip (upper " btcusdt ")) with "BTCUSDT".
    change (strip (upper "sell")) with "SELL".
    change (replicate (1 / 2) 2) with [1 / 2; 1 / 2].
    cbn. unfold arithmetic_price. same_orders.
  - apply (grid_order_validation (list request)
             (scripted (fun _ => false) (filled 0 0))
             " btcusdt " "sell" 1 200 100 2 "FIBONACCI" "whenever" []).
    intros (_ & _ & _ & _ & _ & _ & _ & [H | H]); discriminate.
Defined.

(** X11. place_dca_grid passes its validation exactly when the symbol and
    the side are supported, the budget is positive, the bounds are valid
    prices with lower < upper, and the number of grids is negative or at
    least 2: the grid type is not checked and the number of grids has no
    bound.  It then raises the TypeError of the logger.  With a negative
    number of grids it has sent nothing when it does.  With 0 or 1 grids and
    otherwise valid parameters it raises a ZeroDivisionError. *)
Theorem dca_grid_validation (W : Type)
        (api : request -> W -> result response * W)
        symbol side total upper_price lower_price n grid_type w :
  let valid :=
    (symbol <> "" /\ In (strip (upper symbol)) supported_symbols) /\
    (side <> "" /\ In (strip (upper side)) supported_sides) /\
    0 < total /\
    min_price <= lower_price /\ lower_price < upper_price /\
    upper_price <= max_price in
  ((exists w',
       place_dca_grid W api symbol side total upper_price lower_price n
                      grid_type w
       = (Raise (TypeError BotLogger.unexpected_keyword), w'))
   <-> valid /\ (n < 0 \/ 2 <= n)%Z) /\
  (valid -> (n < 0)%Z ->
   place_dca_grid W api symbol side total upper_price lower_price n
                  grid_type w
   = (Raise (TypeError BotLogger.unexpected_keyword), w)) /\
  (valid -> (n = 0 \/ n = 1)%Z ->
   place_dca_grid W api symbol side total upper_price lower_price n
                  grid_type w
   = (Raise ZeroDivisionError, w)) /\
  (~ valid ->
   exists msg,
     place_dca_grid W api symbol side total upper_price lower_price n
                    grid_type w
     = (Raise (ValidationError msg), w)).
Proof.
  intros valid.
  assert (Hinv : forall s sd per u l ps qs,
             dca_prepare symbol side total upper_price lower_price n grid_type
             = Ok (s, sd, per, u, l, ps, qs) ->
             valid /\ (n < 0 \/ 2 <= n)%Z).
  { intros s sd per u l ps qs Hprep. apply dca_prepare_inv in Hprep.
    destruct Hprep as (Hs & Hsd & _ & _ & _ & Ht & Hl & Hlu & Hu & Hn & Hps & _).
    split.
    - split; [apply (validated_iff_supported validate_symbol);
              [apply validate_symbol_iff | eauto] |].
      split; [apply (validated_iff_supported validate_side);
              [apply validate_side_iff | eauto] |].
      auto.
    - destruct (Z.eq_dec n 0) as [-> | Hn0]; [now elim Hn |].
      destruct (Z.eq_dec n 1) as [-> | Hn1]; [| lia].
      rewrite calculate_grid_prices_one_leg in Hps
        by (unfold min_price in Hl; lra).
      discriminate. }
  assert (Hchecks : valid ->
            exists s sd,
              validate_symbol symbol = Ok s /\ validate_side side = Ok sd /\
              0 < lower_price).
  { intros (Hs & Hsd & Ht & Hl & Hlu & Hu).
    apply (validated_iff_supported validate_symbol supported_symbols) in Hs;
      [| apply validate_symbol_iff].
    apply (validated_iff_supported validate_side supported_sides) in Hsd;
      [| apply validate_side_iff].
    destruct Hs as (s & Hs). destruct Hsd as (sd & Hsd).
    exists s, sd. unfold min_price in Hl. repeat split; try assumption. lra. }
  assert (Hneg : valid -> (n < 0)%Z ->
            place_dca_grid W api symbol side total upper_price lower_price n
                           grid_type w
            = (Raise (TypeError BotLogger.unexpected_keyword), w)).
  { intros Hvalid Hn. destruct (Hchecks Hvalid) as (s & sd & Hs & Hsd & Hl0).
    destruct Hvalid as (_ & _ & Ht & Hl & Hlu & Hu).
    assert (Hps : _calculate_grid_prices lower_price upper_price n grid_type
                  = Ok []) by (apply calculate_grid_prices_no_leg; lra || lia).
    rewrite place_dca_grid_outcome.
    rewrite (dca_prepare_ok _ _ s sd _ _ _ _ _ [] Hs Hsd Ht Hl Hlu Hu)
      by (try assumption; try constructor; apply not_0_IZR; lia).
    reflexivity. }
  split; [split | split; [exact Hneg | split]].
  - intros (w' & H). apply place_dca_grid_passed in H.
    destruct H as (s & sd & ps & qs & Hprep & _). eapply Hinv. exact Hprep.
  - intros (Hvalid & [Hn | Hn]); [exists w; now apply Hneg |].
    destruct (Hchecks Hvalid) as (s & sd & Hs & Hsd & Hl0).
    destruct Hvalid as (_ & _ & Ht & Hl & Hlu & Hu).
    destruct (place_dca_grid_passes W api symbol side s sd total upper_price
                lower_price n grid_type w Hs Hsd Ht Hl Hlu Hu Hn)
      as (ps & _ & _ & _ & Hrun).
    eauto.
  - intros Hvalid Hn. destruct (Hchecks Hvalid) as (s & sd & Hs & Hsd & Hl0).
    destruct Hvalid as (_ & _ & Ht & Hl & Hlu & Hu).
    rewrite place_dca_grid_outcome. unfold dca_prepare.
    rewrite Hs, Hsd. cbn [bind].
    rewrite Rle_b_false by assumption. cbn [bind raise_if].
    rewrite !validate_price_ok by lra. cbn [bind].
    rewrite Rle_b_false by assumption. cbn [bind raise_if].
    destruct Hn as [-> | ->].
    + rewrite calculate_grid_prices_no_leg by (lra || lia). cbn [bind].
      now rewrite pydiv_zero.
    + now rewrite calculate_grid_prices_one_leg by assumption.
  - intros Hnot. rewrite place_dca_grid_outcome.
    destruct (dca_prepare _ _ _ _ _ _ _)
      as [[[[[[[s sd] per] u] l] ps] qs] | e] eqn:Hprep.
    + elim Hnot. exact (proj1 (Hinv _ _ _ _ _ _ _ eq_refl)).
    + enough (exists msg, e = ValidationError msg) as (msg & ->)
        by (exists msg; reflexivity).
      unfold dca_prepare in Hprep.
      apply bind_raise_inv in Hprep.
      destruct Hprep as [H | (s & Hs & Hprep)]; [validation_raises H |].
      apply bind_raise_inv in Hprep.
      destruct Hprep as [H | (sd & Hsd & Hprep)]; [validation_raises H |].
      apply bind_raise_inv in Hprep.
      destruct Hprep as [H | (? & Ht & Hprep)]; [validation_raises H |].
      apply bind_raise_inv in Hprep.
      destruct Hprep as [H | (u & Hu & Hprep)]; [validation_raises H |].
      apply bind_raise_inv in Hprep.
      destruct Hprep as [H | (l & Hl & Hprep)]; [validation_raises H |].
      apply bind_raise_inv in Hprep.
      destruct Hprep as [H | (? & Hb & Hprep)]; [validation_raises H |].
      exfalso. apply Hnot.
      apply validate_price_inv in Hu. destruct Hu as [-> Hu].
      apply validate_price_inv in Hl. destruct Hl as [-> Hl].
      apply raise_if_inv, Rle_b_inv in Ht. apply raise_if_inv, Rle_b_inv in Hb.
      split; [apply (validated_iff_supported validate_symbol);
              [apply validate_symbol_iff | eauto] |].
      split; [apply (validated_iff_supported validate_side);
              [apply validate_side_iff | eauto] |].
      repeat split; try assumption; lra.
Qed.

(** Minus three grids and a grid type that does not exist: nothing is sent
    and the call raises the TypeError.  No grid at all: the call raises a
    ZeroDivisionError. *)
Lemma dca_grid_validation_witness :
  place_dca_grid (list request) (scripted (fun _ => false) (filled 0 0))
                 "BTCUSDT" "BUY" 100 200 100 (-3) "FIBONACCI" []
  = (Raise (TypeError BotLogger.unexpected_keyword), []) /\
  place_dca_grid (list request) (scripted (fun _ => false) (filled 0 0))
                 "BTCUSDT" "BUY" 100 200 100 0 "FIBONACCI" []
  = (Raise ZeroDivisionError, []).
Proof.
  assert (Hvalid :
            ("BTCUSDT" <> "" /\ In (strip (upper "BTCUSDT")) supported_symbols) /\
            ("BUY" <> "" /\ In (strip (upper "BUY")) supported_sides) /\
            0 < 100 /\ min_price <= 100 /\ 100 < 200 /\ 200 <= max_price).
  { unfold min_price, max_price.
    repeat split; try lra; try discriminate; simpl; auto. }
  split.
  - destruct (dca_grid_validation (list request)
                (scripted (fun _ => false) (filled 0 0))
                "BTCUSDT" "BUY" 100 200 100 (-3)%Z "FIBONACCI" [])
      as (_ & Hneg & _).
    apply Hneg; [exact Hvalid | lia].
  - destruct (dca_grid_validation (list request)
                (scripted (fun _ => false) (filled 0 0))
                "BTCUSDT" "BUY" 100 200 100 0%Z "FIBONACCI" [])
      as (_ & _ & Hzero & _).
    apply Hzero; [exact Hvalid | lia].
Defined.

(** X12. place_twap_order passes its validation exactly when the symbol and
    the side are supported, the total quantity is a valid quantity, the
    order type is literally 'MARKET', or 'LIMIT' with a valid price, the
    duration is at least 1 minute, the number of chunks is between 2 and 100
    and one chunk, total / chunks in exact arithmetic, is at least the
    smallest quantity.  For 'MARKET' the price is not looked at; the time in
    force is never checked.  It then sends one order per chunk, each for
    total / chunks with the normalised symbol and side, and raises the
    TypeError of the logger.  Otherwise it raises a ValidationError and
    sends nothing. *)
Theorem twap_order_validation (W : Type)
        (api : request -> W -> result response * W)
        symbol side total duration n order_type price tif w :
  let valid :=
    (symbol <> "" /\ In (strip (upper symbol)) supported_symbols) /\
    (side <> "" /\ In (strip (upper side)) supported_sides) /\
    min_quantity <= total <= max_quantity /\
    (order_type = "MARKET"
     \/ (order_type = "LIMIT" /\
         exists p, price = Some p /\ min_price <= p <= max_price)) /\
    (1 <= duration)%Z /\ (2 <= n <= 100)%Z /\
    min_quantity <= total / IZR n in
  ((exists w',
       place_twap_order W api symbol side total duration n order_type price
                        tif w
       = (Raise (TypeError BotLogger.unexpected_keyword), w'))
   <-> valid) /\
  (valid ->
   place_twap_order W api symbol side total duration n order_type price tif w
   = (Raise (TypeError BotLogger.unexpected_keyword),
      snd (send_all api
             (map (fun _ => chunk_request (strip (upper symbol))
                                          (strip (upper side)) order_type
                                          price tif (total / IZR n))
                  (range n)) w))) /\
  (~ valid ->
   exists msg,
     place_twap_order W api symbol side total duration n order_type price
                      tif w
     = (Raise (ValidationError msg), w)).
Proof.
  intros valid.
  assert (Hinv : forall s sd tq pr cq,
             twap_prepare symbol side total duration n order_type price
             = Ok (s, sd, tq, pr, cq) -> valid).
  { intros s sd tq pr cq Hprep.
    pose proof (twap_prepare_order_type _ _ _ _ _ _ _ _ _ _ _ _ Hprep)
      as (_ & Hot).
    apply twap_prepare_inv in Hprep.
    destruct Hprep as (Hs & Hsd & _ & _ & Ht & Hq & Hd & Hn & _).
    split; [apply (validated_iff_supported validate_symbol);
            [apply validate_symbol_iff | eauto] |].
    split; [apply (validated_iff_supported validate_side);
            [apply validate_side_iff | eauto] |].
    auto 10. }
  assert (Hpasses : valid ->
            place_twap_order W api symbol side total duration n order_type
                             price tif w
            = (Raise (TypeError BotLogger.unexpected_keyword),
               snd (send_all api
                      (map (fun _ => chunk_request (strip (upper symbol))
                                                   (strip (upper side))
                                                   order_type price tif
                                                   (total / IZR n))
                           (range n)) w))).
  { intros (Hs & Hsd & Ht & Hot & Hd & Hn & Hq).
    apply (validated_iff_supported validate_symbol supported_symbols) in Hs;
      [| apply validate_symbol_iff].
    apply (validated_iff_supported validate_side supported_sides) in Hsd;
      [| apply validate_side_iff].
    destruct Hs as (s & Hs). destruct Hsd as (sd & Hsd).
    rewrite place_twap_order_outcome.
    rewrite (twap_prepare_ok _ _ s sd _ _ _ _ _ Hs Hsd Ht Hot Hd Hn Hq).
    now rewrite <- (validate_symbol_normalised _ _ Hs),
                <- (validate_side_normalised _ _ Hsd). }
  split; [split | split].
  - intros (w' & H). apply place_twap_order_passed in H.
    destruct H as (s & sd & Hprep & _). eapply Hinv. exact Hprep.
  - intros Hvalid. rewrite (Hpasses Hvalid). eauto.
  - exact Hpasses.
  - intros Hnot. rewrite place_twap_order_outcome.
    destruct (twap_prepare _ _ _ _ _ _ _)
      as [[[[[s sd] tq] pr] cq] | e] eqn:Hprep.
    + elim Hnot. exact (Hinv _ _ _ _ _ eq_refl).
    + apply twap_prepare_raises in Hprep. destruct Hprep as (msg & ->).
      exists msg. reflexivity.
Qed.

(** A market run whose price would not pass the price validator and whose
    time in force does not exist: two market orders are sent.  The same run
    as a limit run is rejected. *)
Lemma twap_order_validation_witness :
  place_twap_order (list request) (scripted (fun _ => false) (filled 0 0))
                   "ethusdt" " buy" 1 1 2 "MARKET" (Some (-5)) "never" []
  = (Raise (TypeError BotLogger.unexpected_keyword),
     [MarketOrder "ETHUSDT" "BUY" (1 / 2);
      MarketOrder "ETHUSDT" "BUY" (1 / 2)]) /\
  exists msg,
    place_twap_order (list request) (scripted (fun _ => false) (filled 0 0))
                     "ethusdt" " buy" 1 1 2 "LIMIT" (Some (-5)) "never" []
    = (Raise (ValidationError msg), []).
Proof.
  split.
  - destruct (twap_order_validation (list request)
                (scripted (fun _ => false) (filled 0 0))
                "ethusdt" " buy" 1 1%Z 2%Z "MARKET" (Some (-5)) "never" [])
      as (_ & Hpasses & _).
    rewrite Hpasses; [reflexivity |].
    unfold min_quantity, max_quantity.
    repeat split; try lra; try lia; try discriminate; simpl; auto.
  - apply (twap_order_validation (list request)
             (scripted (fun _ => false) (filled 0 0))
             "ethusdt" " buy" 1 1%Z 2%Z "LIMIT" (Some (-5)) "never" []).
    intros (_ & _ & _ & [H | (_ & p & [= <-] & Hp)] & _);
      [discriminate | unfold min_price in Hp; lra].
Defined.

(** X13. With its pauses place_twap_with_volume_profile passes its
    validation and reaches the end of its loop exactly when the symbol and
    the side are supported, the total quantity is a valid quantity, the
    profile is one of the four names and the duration is not negative.
    Neither the order type nor the price is checked, and the duration may
    be 0.  It then raises the TypeError of the logger, after it has
    attempted ten chunks with the quantities of the profile: a chunk whose
    quantity the quantity validator accepts is sent, an order type other
    than 'MARKET' giving a limit order at the price as given.  With an
    unsupported symbol or side, an invalid total or an unknown profile it
    raises a ValidationError and sends nothing. *)
Theorem volume_profile_validation (W : Type)
        (api : request -> W -> result response * W)
        symbol side total duration profile order_type price w :
  let valid :=
    (symbol <> "" /\ In (strip (upper symbol)) supported_symbols) /\
    (side <> "" /\ In (strip (upper side)) supported_sides) /\
    min_quantity <= total <= max_quantity /\
    In profile ["UNIFORM"; "FRONT_LOADED"; "BACK_LOADED"; "MIDDLE_LOADED"] in
  ((exists w',
       place_twap_with_volume_profile_timed W api symbol side total duration
                                            profile order_type price w
       = (Raise (TypeError BotLogger.unexpected_keyword), w'))
   <-> valid /\ (0 <= duration)%Z) /\
  (valid -> (0 <= duration)%Z ->
   exists qs,
     _calculate_volume_profile total 10 profile = Ok qs /\
     List.length qs = 10%nat /\
     place_twap_with_volume_profile_timed W api symbol side total duration
                                          profile order_type price w
     = (Raise (TypeError BotLogger.unexpected_keyword),
        snd (guarded_send_all api
               (chunk_request (strip (upper symbol)) (strip (upper side))
                              order_type price "GTC") qs w))) /\
  (~ valid ->
   exists msg,
     place_twap_with_volume_profile_timed W api symbol side total duration
                                          profile order_type price w
     = (Raise (ValidationError msg), w)).
Proof.
  intros valid.
  assert (Hinv : forall s sd tq n qs,
             profile_prepare symbol side total duration profile
             = Ok (s, sd, tq, n, qs) -> valid).
  { intros s sd tq n qs Hprep.
    pose proof (profile_prepare_checks _ _ _ _ _ _ _ _ _ _ Hprep) as (Ht & Hp).
    apply profile_prepare_inv in Hprep. destruct Hprep as (Hs & Hsd & _).
    split; [apply (validated_iff_supported validate_symbol);
            [apply validate_symbol_iff | eauto] |].
    split; [apply (validated_iff_supported validate_side);
            [apply validate_side_iff | eauto] |].
    auto. }
  assert (Hpasses : valid -> (0 <= duration)%Z ->
            exists qs,
              _calculate_volume_profile total 10 profile = Ok qs /\
              List.length qs = 10%nat /\
              place_twap_with_volume_profile_timed W api symbol side total
                duration profile order_type price w
              = (Raise (TypeError BotLogger.unexpected_keyword),
                 snd (guarded_send_all api
                        (chunk_request (strip (upper symbol))
                                       (strip (upper side))
                                       order_type price "GTC") qs w))).
  { intros (Hs & Hsd & Ht & Hp) Hd.
    apply (validated_iff_supported validate_symbol supported_symbols) in Hs;
      [| apply validate_symbol_iff].
    apply (validated_iff_supported validate_side supported_sides) in Hsd;
      [| apply validate_side_iff].
    destruct Hs as (s & Hs). destruct Hsd as (sd & Hsd).
    destruct (profile_prepare_ok symbol side s sd total duration profile)
      as (qs & Hprep); try assumption.
    exists qs.
    apply profile_prepare_inv in Hprep as Hinv'.
    destruct Hinv' as (_ & _ & _ & _ & Hqs).
    split; [exact Hqs |].
    split; [exact (volume_profile_length _ _ _ _ Hqs) |].
    rewrite profile_timed_quiet by assumption.
    rewrite place_twap_with_volume_profile_outcome, Hprep.
    now rewrite <- (validate_symbol_normalised _ _ Hs),
                <- (validate_side_normalised _ _ Hsd). }
  split; [split | split].
  - intros (w' & H). apply profile_timed_passed in H. destruct H as (Hd & H).
    apply place_twap_with_volume_profile_passed in H.
    destruct H as (s & sd & qs & Hprep & _).
    split; [eapply Hinv; exact Hprep | exact Hd].
  - intros (Hvalid & Hd). destruct (Hpasses Hvalid Hd) as (qs & _ & _ & Hrun).
    eauto.
  - exact Hpasses.
  - intros Hnot.
    unfold place_twap_with_volume_profile_timed, volume_profile_result_timed.
    destruct (profile_prepare _ _ _ _ _)
      as [[[[[s sd] tq] n] qs] | e] eqn:Hprep.
    + elim Hnot. exact (Hinv _ _ _ _ _ eq_refl).
    + apply profile_prepare_raises in Hprep. destruct Hprep as (msg & ->).
      exists msg. reflexivity.
Qed.

(** A uniform run of no duration, with an order type that does not exist
    and no price: ten limit orders without a price are sent. *)
Lemma volume_profile_validation_witness :
  exists w',
    place_twap_with_volume_profile_timed
      (list request) (scripted (fun _ => false) (filled 0 0))
      "bnbusdt" "sell" 5 0 "UNIFORM" "ICEBERG" None []
    = (Raise (TypeError BotLogger.unexpected_keyword), w') /\
    List.length w' = 10%nat /\
    Forall (fun req => req = LimitOrder "BNBUSDT" "SELL" (5 / 10) None "GTC") w'.
Proof.
  destruct (volume_profile_validation (list request)
              (scripted (fun _ => false) (filled 0 0))
              "bnbusdt" "sell" 5 0%Z "UNIFORM" "ICEBERG" None [])
    as (_ & Hpasses & _).
  destruct Hpasses as (qs & Hqs & _ & Hrun).
  { unfold min_quantity, max_quantity.
    repeat split; try lra; try discriminate; simpl; auto. }
  { lia. }
  unfold _calculate_volume_profile in Hqs. simpl String.eqb in Hqs.
  cbv iota in Hqs. rewrite pydiv_ok in Hqs by lra. cbn [bind] in Hqs.
  injection Hqs as <-.
  rewrite guarded_send_all_valid in Hrun.
  - eexists. split; [exact Hrun |]. split; [reflexivity |].
    change (strip (upper "bnbusdt")) with "BNBUSDT".
    change (strip (upper "sell")) with "SELL".
    cbn. repeat constructor.
  - apply Forall_forall. intros q Hq. apply repeat_spec in Hq. subst q.
    unfold min_quantity, max_quantity. lra.
Defined.

(** ** The exposure of a Martingale grid *)

Lemma pysum_geometric (base m : R) (N : nat) :
  m <> 1 ->
  pysum (map (fun k => base * m ^ k) (seq 0 N)) = base * (m ^ N - 1) / (m - 1).
Proof.
  intros Hm. induction N as [| N IH].
  - simpl. rewrite pysum_nil. field. lra.
  - rewrite seq_S, map_app, Nat.add_0_l. cbn [map].
    rewrite pysum_snoc, IH. simpl. field. lra.
Qed.

Lemma pow_increasing (m : R) (k : nat) : 1 < m -> m ^ k < m ^ S k.
Proof.
  intros Hm. assert (0 < m ^ k) by (apply pow_lt; lra). simpl. nra.
Qed.

Lemma pow_at_least_one (m : R) (k : nat) : 1 < m -> 1 <= m ^ k.
Proof. intros Hm. apply pow_R1_Rle. lra. Qed.

(** X15. Whenever place_martingale_grid passes its validation, the
    quantities of the n orders it sends sum, in exact arithmetic, to
    base * (multiplier^n - 1) / (multiplier - 1); they grow strictly from
    leg to leg and none is below the base quantity.  Only the base quantity
    passes the quantity validator: the later legs and the total are not
    bounded by the largest quantity. *)
Theorem martingale_exposure (W : Type)
        (api : request -> W -> result response * W)
        symbol side base upper_price lower_price n mult grid_type w msg w' :
  place_martingale_grid W api symbol side base upper_price lower_price n mult
                        grid_type w = (Raise (TypeError msg), w') ->
  let qs := martingale_quantities base mult n in
  (exists s sd ps,
      _calculate_grid_prices lower_price upper_price n grid_type = Ok ps /\
      w' = snd (send_all api (grid_orders s (fun _ => sd) "GTC" ps qs) w) /\
      forall i, (0 <= i < n)%Z ->
        nth_error (grid_orders s (fun _ => sd) "GTC" ps qs) (Z.to_nat i)
        = Some (LimitOrder s sd (at_index qs i) (Some (at_index ps i)) "GTC")) /\
  pysum qs = base * (mult ^ Z.to_nat n - 1) / (mult - 1) /\
  min_quantity <= at_index qs 0 <= max_quantity /\
  (forall i, (0 <= i < n - 1)%Z -> at_index qs i < at_index qs (i + 1)) /\
  (forall i, (0 <= i < n)%Z -> base <= at_index qs i) /\
  at_index qs (n - 1) = base * mult ^ Z.to_nat (n - 1).
Proof.
  intros H qs. apply place_martingale_grid_passed in H.
  destruct H as (s & sd & ps & qs' & Hprep & _ & Hw).
  apply martingale_prepare_inv in Hprep.
  destruct Hprep as (_ & _ & _ & _ & _ & Hb & _ & _ & _ & Hm & Hn & Hps & ->).
  fold qs in Hw.
  assert (Hb0 : 0 < base) by (unfold min_quantity in Hb; lra).
  split.
  { exists s, sd, ps. split; [exact Hps |]. split; [exact Hw |].
    intros i Hi.
    apply (grid_orders_nth s (fun _ => sd) "GTC" ps qs n i); try assumption.
    - now apply calculate_grid_prices_length in Hps.
    - unfold qs. now rewrite martingale_quantities_spec, length_map, length_seq. }
  unfold qs. rewrite martingale_quantities_spec.
  split; [| split; [| split; [| split]]].
  - rewrite pysum_geometric by lra. reflexivity.
  - rewrite at_index_map_seq by lia. simpl. lra.
  - intros i Hi. rewrite !at_index_map_seq by lia.
    replace (Z.to_nat (i + 1)) with (S (Z.to_nat i)) by lia.
    pose proof (pow_increasing mult (Z.to_nat i) Hm). nra.
  - intros i Hi. rewrite at_index_map_seq by lia.
    pose proof (pow_at_least_one mult (Z.to_nat i) Hm). nra.
  - rewrite at_index_map_seq by lia. reflexivity.
Qed.

(** Two legs from the largest valid base quantity: the second order is for
    twice the largest quantity and the two for three times. *)
Lemma martingale_exposure_witness :
  place_martingale_grid (list request)
                        (scripted (fun _ => false) (filled 0 0))
                        "BTCUSDT" "BUY" 1000000 200 100 2 2 "ARITHMETIC" []
  = (Raise (TypeError BotLogger.unexpected_keyword),
     [LimitOrder "BTCUSDT" "BUY" max_quantity (Some 100) "GTC";
      LimitOrder "BTCUSDT" "BUY" (2 * max_quantity) (Some 200) "GTC"]) /\
  pysum (martingale_quantities 1000000 2 2) = 3 * max_quantity.
Proof.
  destruct (place_martingale_grid_passes (list request)
              (scripted (fun _ => false) (filled 0 0))
              "BTCUSDT" "BUY" "BTCUSDT" "BUY" 1000000 200 100 2 2
              "ARITHMETIC" [])
    as (ps & Hps & Hrun);
    try reflexivity; try lia;
    try (unfold min_quantity, max_quantity, min_price, max_price; lra).
  destruct (martingale_exposure _ _ _ _ _ _ _ _ _ _ _ _ _ Hrun)
    as (_ & Hsum & _).
  split.
  - rewrite Hrun. f_equal.
    rewrite arithmetic_prices_eq in Hps by lia. injection Hps as <-.
    change (martingale_quantities 1000000 2 2) with [1000000; 1000000 * 2].
    cbn. unfold arithmetic_price, max_quantity. same_orders.
  - rewrite Hsum. unfold max_quantity. simpl. lra.
Defined.

(** ** The schedules the grid strategies submit *)

Lemma geometric_price_within (lower upper_price : R) (n i : Z) :
  0 < lower -> lower < upper_price -> (2 <= n)%Z -> (0 <= i < n)%Z ->
  lower <= geometric_price lower upper_price n i <= upper_price.
Proof.
  intros Hl Hlu Hn Hi. unfold geometric_price, geometric_ratio.
  rewrite Rpower_mult.
  assert (Hq : 1 <= upper_price / lower).
  { apply Rmult_le_reg_r with lower; [assumption |].
    unfold Rdiv. rewrite Rmult_assoc, Rinv_l by lra. lra. }
  assert (Hq0 : 0 < upper_price / lower) by lra.
  pose proof (ratio_le_one n i Hn Hi) as He.
  replace (1 / IZR (n - 1) * IZR i) with (IZR i / IZR (n - 1))
    by (unfold Rdiv; ring).
  pose proof (Rle_Rpower (upper_price / lower) 0 (IZR i / IZR (n - 1)) Hq
                (proj1 He)) as Hlow.
  pose proof (Rle_Rpower (upper_price / lower) (IZR i / IZR (n - 1)) 1 Hq
                (proj2 He)) as Hhigh.
  rewrite Rpower_O in Hlow by assumption.
  rewrite Rpower_1 in Hhigh by assumption.
  split.
  - replace lower with (lower * 1) at 1 by ring.
    apply Rmult_le_compat_l; lra.
  - replace upper_price with (lower * (upper_price / lower)) at 2
      by (field; lra).
    apply Rmult_le_compat_l; lra.
Qed.

Lemma arithmetic_price_within (lower upper_price : R) (n i : Z) :
  lower < upper_price -> (2 <= n)%Z -> (0 <= i < n)%Z ->
  lower <= arithmetic_price lower upper_price n i <= upper_price.
Proof.
  intros Hlu Hn Hi. unfold arithmetic_price.
  pose proof (ratio_le_one n i Hn Hi) as Hr.
  replace (IZR i * (upper_price - lower) / IZR (n - 1))
    with ((upper_price - lower) * (IZR i / IZR (n - 1)))
    by (unfold Rdiv; ring).
  split; nra.
Qed.

(** Whatever the grid type, the prices lie between the bounds. *)
Lemma calculate_grid_prices_within lower upper_price n grid_type prices :
  0 < lower -> lower < upper_price -> (2 <= n)%Z ->
  _calculate_grid_prices lower upper_price n grid_type = Ok prices ->
  Forall (fun p => lower <= p <= upper_price) prices.
Proof.
  intros Hl Hlu Hn Hps. apply Forall_forall. intros p Hp.
  destruct (String.eqb grid_type "GEOMETRIC") eqn:Hg.
  - apply String.eqb_eq in Hg. subst grid_type.
    rewrite geometric_prices_eq in Hps by (lra || assumption).
    inversion Hps; subst. apply in_map_iff in Hp. destruct Hp as (i & <- & Hi).
    apply in_range in Hi. now apply geometric_price_within.
  - rewrite fallback_is_arithmetic, arithmetic_prices_eq in Hps by assumption.
    inversion Hps; subst. apply in_map_iff in Hp. destruct Hp as (i & <- & Hi).
    apply in_range in Hi. now apply arithmetic_price_within.
Qed.

Lemma prices_within_valid (lower upper_price : R) (prices : list R) :
  min_price <= lower -> upper_price <= max_price ->
  Forall (fun p => lower <= p <= upper_price) prices ->
  Forall (fun p => lower <= p <= upper_price /\ validate_price p = Ok p) prices.
Proof.
  intros Hl Hu. apply Forall_impl. intros p Hp. split; [assumption |].
  apply validate_price_ok. lra.
Qed.

(** X16. No strategy validates the price of a leg, and none needs to:
    whenever place_grid_order, place_martingale_grid or place_dca_grid
    passes its validation, each price of the schedule whose orders it sends
    lies, in exact arithmetic, between the lower and the upper bound, both
    included, and passes the price validator unchanged, whatever the grid
    type. *)
Theorem leg_prices_valid (W : Type)
        (api : request -> W -> result response * W) :
  (forall symbol side total upper_price lower_price n grid_type tif w msg w',
      place_grid_order W api symbol side total upper_price lower_price n
                       grid_type tif w = (Raise (TypeError msg), w') ->
      exists s sd ps qs,
        _calculate_grid_prices lower_price upper_price n grid_type = Ok ps /\
        w' = snd (send_all api (grid_orders s (fun _ => sd) tif ps qs) w) /\
        List.length ps = Z.to_nat n /\
        Forall (fun p => lower_price <= p <= upper_price /\
                         validate_price p = Ok p) ps) /\
  (forall symbol side base upper_price lower_price n mult grid_type w msg w',
      place_martingale_grid W api symbol side base upper_price lower_price n
                            mult grid_type w = (Raise (TypeError msg), w') ->
      exists s sd ps qs,
        _calculate_grid_prices lower_price upper_price n grid_type = Ok ps /\
        w' = snd (send_all api (grid_orders s (fun _ => sd) "GTC" ps qs) w) /\
        List.length ps = Z.to_nat n /\
        Forall (fun p => lower_price <= p <= upper_price /\
                         validate_price p = Ok p) ps) /\
  (forall symbol side total upper_price lower_price n grid_type w msg w',
      place_dca_grid W api symbol side total upper_price lower_price n
                     grid_type w = (Raise (TypeError msg), w') ->
      exists s sd ps qs,
        _calculate_grid_prices lower_price upper_price n grid_type = Ok ps /\
        w' = snd (send_all api (grid_orders s (fun _ => sd) "GTC" ps qs) w) /\
        List.length ps = Z.to_nat n /\
        Forall (fun p => lower_price <= p <= upper_price /\
                         validate_price p = Ok p) ps).
Proof.
  split; [| split].
  - intros until w'. intros H. apply place_grid_order_passed in H.
    destruct H as (s & sd & ps & qs & Hprep & _ & Hw).
    destruct (grid_side_never_alternates _ _ _ _ _ _ _ _ _ _ _ _ _ _ Hprep)
      as (_ & Hside).
    rewrite (grid_orders_ext s (grid_side_of sd) (fun _ => sd)) in Hw
      by exact Hside.
    apply grid_prepare_inv in Hprep.
    destruct Hprep as (_ & _ & _ & _ & _ & _ & Hl & Hlu & Hu & Hn & _ & Hps & _).
    exists s, sd, ps, qs. split; [exact Hps |]. split; [exact Hw |].
    split; [exact (calculate_grid_prices_length _ _ _ _ _ Hps) |].
    apply prices_within_valid; try assumption.
    apply (calculate_grid_prices_within lower_price upper_price n grid_type);
      try assumption; try lia.
    unfold min_price in Hl. lra.
  - intros until w'. intros H. apply place_martingale_grid_passed in H.
    destruct H as (s & sd & ps & qs & Hprep & _ & Hw).
    apply martingale_prepare_inv in Hprep.
    destruct Hprep as (_ & _ & _ & _ & _ & _ & Hl & Hlu & Hu & _ & Hn & Hps & _).
    exists s, sd, ps, qs. split; [exact Hps |]. split; [exact Hw |].
    split; [exact (calculate_grid_prices_length _ _ _ _ _ Hps) |].
    apply prices_within_valid; try assumption.
    apply (calculate_grid_prices_within lower_price upper_price n grid_type);
      try assumption.
    unfold min_price in Hl. lra.
  - intros until w'. intros H. apply place_dca_grid_passed in H.
    destruct H as (s & sd & ps & qs & Hprep & _ & Hw).
    apply dca_prepare_inv in Hprep.
    destruct Hprep as (_ & _ & _ & _ & _ & _ & Hl & Hlu & Hu & Hnz & Hps & _).
    exists s, sd, ps, qs. split; [exact Hps |]. split; [exact Hw |].
    split; [exact (calculate_grid_prices_length _ _ _ _ _ Hps) |].
    assert (Hl0 : 0 < lower_price) by (unfold min_price in Hl; lra).
    destruct (Z.le_gt_cases n 0) as [Hn | Hn].
    + rewrite calculate_grid_prices_no_leg in Hps by (lra || lia).
      injection Hps as <-. constructor.
    + destruct (Z.eq_dec n 1) as [-> | Hn1].
      * rewrite calculate_grid_prices_one_leg in Hps by assumption.
        discriminate.
      * apply prices_within_valid; try assumption.
        apply (calculate_grid_prices_within lower_price upper_price n
                 grid_type); try assumption. lia.
Qed.

(** The three prices of a geometric grid between 100 and 400. *)
Lemma leg_prices_valid_witness :
  exists w' ps,
    place_grid_order (list request) (scripted (fun _ => false) (filled 0 0))
                     "BTCUSDT" "BUY" 3 400 100 3 "GEOMETRIC" "GTC" []
    = (Raise (TypeError BotLogger.unexpected_keyword), w') /\
    _calculate_grid_prices 100 400 3 "GEOMETRIC" = Ok ps /\
    List.length ps = 3%nat /\
    Forall (fun p => 100 <= p <= 400 /\ validate_price p = Ok p) ps.
Proof.
  destruct (calculate_grid_prices_ok 100 400 3 "GEOMETRIC") as (ps & Hps);
    try lra; try lia.
  pose proof (place_grid_order_outcome (list request)
                (scripted (fun _ => false) (filled 0 0))
                "BTCUSDT" "BUY" 3 400 100 3 "GEOMETRIC" "GTC" []) as Hrun.
  rewrite (grid_prepare_ok "BTCUSDT" "BUY" "BTCUSDT" "BUY" 3 400 100 3
             "GEOMETRIC" ps) in Hrun;
    try reflexivity; try assumption; try lia;
    try (unfold min_quantity, max_quantity, min_price, max_price; lra).
  destruct (leg_prices_valid (list request)
              (scripted (fun _ => false) (filled 0 0))) as (Hgrid & _).
  destruct (Hgrid _ _ _ _ _ _ _ _ _ _ _ Hrun)
    as (s & sd & ps' & qs & Hps' & _ & Hlen & Hall).
  eexists. exists ps'. split; [exact Hrun |].
  split; [exact Hps' |]. split; [exact Hlen | exact Hall].
Defined.

Lemma pysum_repeat (q : R) (N : nat) : pysum (repeat q N) = INR N * q.
Proof.
  induction N as [| N IH].
  - simpl. rewrite pysum_nil. ring.
  - cbn [repeat]. rewrite pysum_cons, IH, S_INR. ring.
Qed.

Lemma spent_even (q : R) (prices : list R) :
  spent (repeat q (List.length prices)) prices = q * pysum prices.
Proof.
  unfold spent, zip. induction prices as [| p rest IH].
  - simpl. rewrite pysum_nil. ring.
  - cbn [List.length repeat combine map fst snd].
    rewrite !pysum_cons, IH. ring.
Qed.

Lemma pysum_progression (a d : R) (N : nat) :
  pysum (map (fun k => a + INR k * d) (seq 0 N))
  = INR N * a + d * INR N * (INR N - 1) / 2.
Proof.
  induction N as [| N IH].
  - simpl. rewrite pysum_nil. unfold Rdiv. ring.
  - rewrite seq_S, map_app, Nat.add_0_l. cbn [map].
    rewrite pysum_snoc, IH, S_INR. field.
Qed.

Lemma pysum_arithmetic_prices (lower upper_price : R) (n : Z) :
  (2 <= n)%Z ->
  pysum (map (arithmetic_price lower upper_price n) (range n))
  = IZR n * (lower + upper_price) / 2.
Proof.
  intros Hn. pose proof (IZR_pred_nonzero n Hn) as Hnz.
  unfold range. rewrite map_map.
  rewrite (map_ext _ (fun k => lower
                               + INR k * ((upper_price - lower) / IZR (n - 1)))).
  - rewrite pysum_progression, INR_IZR_INZ, Z2Nat.id by lia.
    rewrite minus_IZR in *. field. assumption.
  - intros k. unfold arithmetic_price. rewrite <- INR_IZR_INZ.
    unfold Rdiv. ring.
Qed.

(** X17. Whenever place_grid_order passes its validation it splits the
    total quantity evenly: every order it sends carries total / n and, in
    exact arithmetic, the orders sum to the total.  The quantity of a leg is
    not validated; it is at least a fiftieth of the smallest valid quantity.
    On an arithmetic grid the quote amount of the whole schedule, the sum of
    quantity times price, is the total quantity at the midpoint of the
    bounds. *)
Theorem grid_even_split (W : Type)
        (api : request -> W -> result response * W)
        symbol side total upper_price lower_price n grid_type tif w msg w' :
  place_grid_order W api symbol side total upper_price lower_price n
                   grid_type tif w = (Raise (TypeError msg), w') ->
  let qs := replicate (total / IZR n) n in
  exists s sd ps,
    validate_symbol symbol = Ok s /\ validate_side side = Ok sd /\
    _calculate_grid_prices lower_price upper_price n grid_type = Ok ps /\
    w' = snd (send_all api (grid_orders s (fun _ => sd) tif ps qs) w) /\
    (forall i, (0 <= i < n)%Z ->
       nth_error (grid_orders s (fun _ => sd) tif ps qs) (Z.to_nat i)
       = Some (LimitOrder s sd (total / IZR n) (Some (at_index ps i)) tif)) /\
    List.length qs = Z.to_nat n /\
    pysum qs = total /\
    min_quantity / 50 <= total / IZR n /\
    (grid_type = "ARITHMETIC" ->
     spent qs ps = total * ((lower_price + upper_price) / 2)).
Proof.
  intros H qs. apply place_grid_order_passed in H.
  destruct H as (s & sd & ps & qs' & Hprep & _ & Hw).
  destruct (grid_side_never_alternates _ _ _ _ _ _ _ _ _ _ _ _ _ _ Hprep)
    as (_ & Hside).
  rewrite (grid_orders_ext s (grid_side_of sd) (fun _ => sd)) in Hw
    by exact Hside.
  apply grid_prepare_inv in Hprep.
  destruct Hprep as (Hs & Hsd & _ & _ & _ & Ht & _ & _ & _ & Hn & _ & Hps & ->).
  fold qs in Hw.
  assert (Hn0 : 0 < IZR n) by (apply (IZR_lt 0); lia).
  assert (Hn50 : IZR n <= 50) by (apply (IZR_le n 50); lia).
  assert (Hq : forall i, (0 <= i < n)%Z -> at_index qs i = total / IZR n).
  { intros i Hi. unfold at_index, qs, replicate. apply nth_repeat_lt. lia. }
  exists s, sd, ps. split; [exact Hs |]. split; [exact Hsd |].
  split; [exact Hps |]. split; [exact Hw |].
  split; [| split; [apply length_replicate | split; [| split]]].
  - intros i Hi.
    rewrite (grid_orders_nth s (fun _ => sd) tif ps qs n i); try assumption.
    + now rewrite Hq.
    + now apply calculate_grid_prices_length in Hps.
    + apply length_replicate.
  - unfold qs, replicate. rewrite pysum_repeat, INR_IZR_INZ, Z2Nat.id by lia.
    field. lra.
  - unfold min_quantity in *. unfold Rdiv.
    apply Rmult_le_reg_r with (IZR n); [assumption |].
    rewrite (Rmult_assoc total), Rinv_l by lra. nra.
  - intros ->. rewrite arithmetic_prices_eq in Hps by lia.
    injection Hps as <-.
    unfold qs, replicate.
    replace (Z.to_nat n)
      with (List.length (map (arithmetic_price lower_price upper_price n)
                             (range n)))
      by (now rewrite length_map, length_range).
    rewrite spent_even, pysum_arithmetic_prices by lia. field. lra.
Qed.

(** The smallest valid total over 50 legs: each order is for less than the
    smallest valid quantity. *)
Lemma grid_even_split_witness :
  exists w' ps,
    place_grid_order (list request) (scripted (fun _ => false) (filled 0 0))
                     "BTCUSDT" "BUY" (1 / 1000) 200 100 50 "ARITHMETIC" "GTC" []
    = (Raise (TypeError BotLogger.unexpected_keyword), w') /\
    _calculate_grid_prices 100 200 50 "ARITHMETIC" = Ok ps /\
    List.length w' = 50%nat /\
    nth_error w' 0
    = Some (LimitOrder "BTCUSDT" "BUY" (1 / 1000 / IZR 50)
                       (Some (at_index ps 0)) "GTC") /\
    1 / 1000 / IZR 50 < min_quantity /\
    spent (replicate (1 / 1000 / IZR 50) 50) ps = 150 / 1000.
Proof.
  pose proof (place_grid_order_outcome (list request)
                (scripted (fun _ => false) (filled 0 0))
                "BTCUSDT" "BUY" (1 / 1000) 200 100 50 "ARITHMETIC" "GTC" [])
    as Hrun.
  rewrite (grid_prepare_ok "BTCUSDT" "BUY" "BTCUSDT" "BUY" (1 / 1000) 200 100
             50 "ARITHMETIC" (map (arithmetic_price 100 200 50) (range 50)))
    in Hrun;
    try reflexivity; try lia;
    try (unfold min_quantity, max_quantity, min_price, max_price; lra);
    try (apply arithmetic_prices_eq; lia).
  destruct (grid_even_split _ _ _ _ _ _ _ _ _ _ _ _ _ Hrun)
    as (s & sd & ps & Hs & Hsd & Hps & Hw & Hnth & _ & _ & _ & Hspent).
  rewrite validate_symbol_btcusdt in Hs. injection Hs as <-.
  rewrite validate_side_buy in Hsd. injection Hsd as <-.
  eexists. exists ps. split; [exact Hrun |]. split; [exact Hps |].
  split; [reflexivity |].
  split.
  - rewrite Hw, send_all_scripted. cbn [app]. apply (Hnth 0%Z). lia.
  - split; [unfold min_quantity; change (IZR 50) with 50; lra |].
    rewrite Hspent by reflexivity. change (IZR 50) with 50. lra.
Defined.

(** ** The shapes of the volume profiles *)

Lemma at_index_profile (total : R) (n : Z) (profile : string) (i : Z) :
  (0 <= i < n)%Z ->
  at_index (map (fun i => total * profile_weight profile n i
                         / pysum (map (profile_weight profile n) (range n)))
                (range n)) i
  = total * profile_weight profile n i
    / pysum (map (profile_weight profile n) (range n)).
Proof.
  intros Hi. unfold at_index.
  now rewrite (nth_map_range
                 (fun i => total * profile_weight profile n i
                           / pysum (map (profile_weight profile n) (range n)))).
Qed.

Lemma ratio_increasing (n i : Z) :
  (2 <= n)%Z -> IZR i / IZR (n - 1) < IZR (i + 1) / IZR (n - 1).
Proof.
  intros Hn. pose proof (IZR_pred_pos n Hn) as Hpos.
  apply Rmult_lt_compat_r; [now apply Rinv_0_lt_compat |].
  apply IZR_lt. lia.
Qed.

Lemma scaled_lt (total s a b : R) :
  0 < total -> 0 < s -> a < b -> total * a / s < total * b / s.
Proof.
  intros Ht Hs Hab. apply Rmult_lt_compat_r; [now apply Rinv_0_lt_compat |].
  now apply Rmult_lt_compat_l.
Qed.

(** X18. The shapes of the volume profiles, for a positive total and at
    least 2 chunks: the FRONT_LOADED quantities fall strictly from chunk to
    chunk and the first is one and a half times the last; the BACK_LOADED
    quantities rise strictly and the last is twice the first; the
    MIDDLE_LOADED quantities are symmetric about the middle of the run. *)
Theorem volume_profile_shapes (total : R) (n : Z) :
  0 < total -> (2 <= n)%Z ->
  exists front back middle,
    _calculate_volume_profile total n "FRONT_LOADED" = Ok front /\
    _calculate_volume_profile total n "BACK_LOADED" = Ok back /\
    _calculate_volume_profile total n "MIDDLE_LOADED" = Ok middle /\
    (forall i, (0 <= i < n - 1)%Z ->
       at_index front (i + 1) < at_index front i) /\
    at_index front 0 = 3 / 2 * at_index front (n - 1) /\
    (forall i, (0 <= i < n - 1)%Z ->
       at_index back i < at_index back (i + 1)) /\
    at_index back (n - 1) = 2 * at_index back 0 /\
    (forall i, (0 <= i < n)%Z ->
       at_index middle i = at_index middle (n - 1 - i)).
Proof.
  intros Ht Hn.
  pose proof (IZR_pred_pos n Hn) as Hpos.
  pose proof (profile_weights_positive "FRONT_LOADED" n Hn) as Hf.
  pose proof (profile_weights_positive "BACK_LOADED" n Hn) as Hb.
  pose proof (profile_weights_positive "MIDDLE_LOADED" n Hn) as Hm.
  do 3 eexists.
  split; [apply volume_profile_eq; [assumption | simpl; auto] |].
  split; [apply volume_profile_eq; [assumption | simpl; auto] |].
  split; [apply volume_profile_eq; [assumption | simpl; auto 6] |].
  split; [| split; [| split; [| split]]].
  - intros i Hi. rewrite !at_index_profile by lia.
    apply scaled_lt; try assumption.
    pose proof (ratio_increasing n i Hn) as Hr.
    unfold profile_weight. simpl String.eqb. cbv iota.
    unfold Rdiv in *. rewrite !Rmult_assoc. lra.
  - rewrite !at_index_profile by lia.
    replace (profile_weight "FRONT_LOADED" n 0) with (3 / 2)
      by (unfold profile_weight; simpl String.eqb; cbv iota; field; lra).
    replace (profile_weight "FRONT_LOADED" n (n - 1)) with 1
      by (unfold profile_weight; simpl String.eqb; cbv iota; field; lra).
    field. lra.
  - intros i Hi. rewrite !at_index_profile by lia.
    apply scaled_lt; try assumption.
    pose proof (ratio_increasing n i Hn) as Hr.
    unfold profile_weight. simpl String.eqb. cbv iota.
    unfold Rdiv in *. rewrite !Rmult_assoc. lra.
  - rewrite !at_index_profile by lia.
    replace (profile_weight "BACK_LOADED" n 0) with (1 / 2)
      by (unfold profile_weight; simpl String.eqb; cbv iota; field; lra).
    replace (profile_weight "BACK_LOADED" n (n - 1)) with 1
      by (unfold profile_weight; simpl String.eqb; cbv iota; field; lra).
    field. lra.
  - intros i Hi. rewrite !at_index_profile by lia.
    f_equal. f_equal.
    unfold profile_weight. simpl String.eqb. cbv iota. cbv zeta.
    f_equal. f_equal. f_equal.
    rewrite !minus_IZR.
    replace (IZR n - 1 - IZR i - (IZR n - 1) / 2)
      with (- (IZR i - (IZR n - 1) / 2)) by field.
    now rewrite Rabs_Ropp.
Qed.

(** Ten units in ten chunks, the split of place_twap_with_volume_profile. *)
Lemma volume_profile_shapes_witness :
  exists front back,
    _calculate_volume_profile 10 10 "FRONT_LOADED" = Ok front /\
    _calculate_volume_profile 10 10 "BACK_LOADED" = Ok back /\
    at_index front 1 < at_index front 0 /\
    at_index front 0 = 3 / 2 * at_index front 9 /\
    at_index back 0 < at_index back 1 /\
    at_index back 9 = 2 * at_index back 0.
Proof.
  destruct (volume_profile_shapes 10 10)
    as (front & back & middle & Hfront & Hback & _ & Hf & Hf0 & Hb & Hb0 & _);
    [lra | lia |].
  exists front, back. split; [exact Hfront |]. split; [exact Hback |].
  split; [apply (Hf 0%Z); lia |]. split; [exact Hf0 |].
  split; [apply (Hb 0%Z); lia | exact Hb0].
Defined.

(** ** Chunks that the quantity validator refuses *)

(** A loop over chunks that all fail the quantity validator sends nothing
    and records every chunk as failed. *)
Lemma profile_loop_rejected (W : Type)
      (api : request -> W -> result response * W)
      (symbol side order_type : string) (price : option R) (msg : string)
      (legs : list (Z * R)) (fl : list failed_chunk) (w : W) :
  (forall i q, In (i, q) legs ->
               validate_quantity q = Raise (ValidationError msg)) ->
  for_try_except
    (profile_chunk W api symbol side order_type price)
    (fun '(i, chunk_qty) => record_failed_chunk i chunk_qty)
    legs ([], fl, 0, 0) w
  = (([], fl ++ map (fun l => {| fc_chunk_index := fst l + 1;
                                 fc_quantity := snd l;
                                 fc_error := msg |}) legs, 0, 0), w).
Proof.
  revert fl. induction legs as [| [i q] rest IH]; intros fl Hrej.
  - cbn [for_try_except map]. now rewrite app_nil_r.
  - cbn [for_try_except]. unfold profile_chunk at 1.
    rewrite (Hrej i q) by (left; reflexivity).
    cbn [record_failed_chunk str_exn].
    rewrite IH by (intros i' q' Hin; apply (Hrej i' q'); right; exact Hin).
    cbn [map fst snd]. now rewrite <- app_assoc.
Qed.

(** Chunks that the validator refuses do not reach the exchange. *)
Lemma in_enumerate_from {A} (k : Z) (xs : list A) (i : Z) (x : A) :
  In (i, x) (enumerate_from k xs) -> In x xs.
Proof.
  revert k. induction xs as [| y rest IH]; intros k; simpl; [tauto |].
  intros [[= _ ->] | Hin]; [now left | right; eapply IH; eassumption].
Qed.

Lemma validate_quantity_small (q : R) :
  0 < q < min_quantity ->
  validate_quantity q = Raise (ValidationError "Quantity must be at least 0.001").
Proof.
  intros Hq. unfold validate_quantity.
  destruct (Rle_dec q 0); [lra |].
  destruct (Rlt_dec q min_quantity); [reflexivity | lra].
Qed.

(** X19. A UNIFORM volume-profile run on a valid total below ten times the
    smallest quantity passes its validation and submits no order: every
    chunk, a tenth of the total, is refused by the quantity validator inside
    the loop.  The dictionary it builds has ten failed chunks with the
    message of the validator and nothing executed, a success rate and an
    average price of 0; the call then raises the TypeError of the logger.
    place_twap_order on the same total in ten chunks validates the chunk
    before its loop and raises a ValidationError. *)
Theorem small_total_rejected_chunkwise (W : Type)
        (api : request -> W -> result response * W)
        symbol side s sd total duration order_type price w :
  validate_symbol symbol = Ok s -> validate_side side = Ok sd ->
  min_quantity <= total -> total < 10 * min_quantity ->
  (0 <= duration)%Z ->
  place_twap_with_volume_profile_timed W api symbol side total duration
                                       "UNIFORM" order_type price w
  = (Raise (TypeError BotLogger.unexpected_keyword), w) /\
  (exists rep,
      volume_profile_result W api symbol side total duration "UNIFORM"
                            order_type price w = (Ok rep, w) /\
      tw_executed_chunks rep = [] /\
      tw_failed_chunks rep
      = map (fun i => {| fc_chunk_index := i + 1; fc_quantity := total / 10;
                         fc_error := "Quantity must be at least 0.001" |})
            (range 10) /\
      tw_total_executed rep = 0 /\ tw_average_price rep = 0 /\
      tw_success_rate rep = 0) /\
  (forall minutes kind limit tif,
      exists msg,
        place_twap_order W api symbol side total minutes 10 kind limit tif w
        = (Raise (ValidationError msg), w)).
Proof.
  intros Hs Hsd Hmin Hsmall Hd.
  assert (Ht : min_quantity <= total <= max_quantity)
    by (unfold min_quantity, max_quantity in *; lra).
  assert (Hqs : _calculate_volume_profile total 10 "UNIFORM"
                = Ok (replicate (total / 10) 10)).
  { unfold _calculate_volume_profile. simpl String.eqb. cbv iota.
    now rewrite pydiv_ok by lra. }
  assert (Hprep : profile_prepare symbol side total duration "UNIFORM"
                  = Ok (s, sd, total, 10%Z, replicate (total / 10) 10)).
  { destruct (profile_prepare_ok symbol side s sd total duration "UNIFORM")
      as (qs & Hprep); try assumption; [simpl; auto |].
    apply profile_prepare_inv in Hprep as Hinv.
    destruct Hinv as (_ & _ & _ & _ & Hqs').
    rewrite Hqs in Hqs'. injection Hqs' as <-. exact Hprep. }
  assert (Hchunk : 0 < total / 10 < min_quantity)
    by (unfold min_quantity in *; lra).
  assert (Hrej : forall i q, In (i, q) (enumerate (replicate (total / 10) 10)) ->
                   validate_quantity q
                   = Raise (ValidationError "Quantity must be at least 0.001")).
  { intros i q Hin. apply in_enumerate_from in Hin.
    apply repeat_spec in Hin. subst q. now apply validate_quantity_small. }
  assert (Hbuilt :
            volume_profile_result W api symbol side total duration "UNIFORM"
                                  order_type price w
            = (Ok {| tw_symbol := s; tw_side := sd; tw_total_quantity := total;
                     tw_duration_minutes := duration; tw_num_chunks := 10;
                     tw_volume_profile := Some "UNIFORM";
                     tw_order_type := order_type; tw_price := price;
                     tw_total_executed := 0; tw_total_cost := 0;
                     tw_average_price := 0;
                     tw_executed_chunks := [];
                     tw_failed_chunks :=
                       map (fun l => {| fc_chunk_index := fst l + 1;
                                        fc_quantity := snd l;
                                        fc_error :=
                                          "Quantity must be at least 0.001" |})
                           (enumerate (replicate (total / 10) 10));
                     tw_success_rate := INR 0 / IZR 10 * 100 |}, w)).
  { unfold volume_profile_result. rewrite Hprep. unfold initial_state.
    rewrite (profile_loop_rejected W api s sd order_type price
               "Quantity must be at least 0.001") by exact Hrej.
    unfold finish, average_price, Rlt_b.
    destruct (Rlt_dec 0 0) as [Hlt | _]; [lra |].
    rewrite chunk_success_rate_ok by (apply not_0_IZR; lia).
    reflexivity. }
  split; [| split].
  - rewrite profile_timed_quiet by assumption.
    unfold place_twap_with_volume_profile. now rewrite Hbuilt.
  - eexists. split; [exact Hbuilt |].
    cbn [tw_executed_chunks tw_failed_chunks tw_total_executed
         tw_average_price tw_success_rate].
    repeat split; try reflexivity.
    cbn [INR]. unfold Rdiv. ring.
  - intros minutes kind limit tif. rewrite place_twap_order_outcome.
    destruct (twap_prepare _ _ _ _ _ _ _)
      as [[[[[s2 sd2] tq2] pr2] cq2] | e] eqn:Hprep2.
    + apply twap_prepare_inv in Hprep2.
      destruct Hprep2 as (_ & _ & _ & _ & _ & Hq & _).
      change (IZR 10) with 10 in Hq. lra.
    + apply twap_prepare_raises in Hprep2. destruct Hprep2 as (msg & ->).
      exists msg. reflexivity.
Qed.

(** Five thousandths in ten chunks of half a thousandth. *)
Lemma small_total_rejected_chunkwise_witness :
  place_twap_with_volume_profile_timed
    (list request) (scripted (fun _ => false) (filled 0 0))
    "BTCUSDT" "BUY" (5 / 1000) 10 "UNIFORM" "MARKET" None []
  = (Raise (TypeError BotLogger.unexpected_keyword), []) /\
  exists msg,
    place_twap_order (list request) (scripted (fun _ => false) (filled 0 0))
                     "BTCUSDT" "BUY" (5 / 1000) 10 10 "MARKET" None "GTC" []
    = (Raise (ValidationError msg), []).
Proof.
  assert (Hmin : min_quantity <= 5 / 1000) by (unfold min_quantity; lra).
  assert (Hsmall : 5 / 1000 < 10 * min_quantity) by (unfold min_quantity; lra).
  assert (Hd : (0 <= 10)%Z) by lia.
  destruct (small_total_rejected_chunkwise (list request)
              (scripted (fun _ => false) (filled 0 0))
              "BTCUSDT" "BUY" "BTCUSDT" "BUY" (5 / 1000) 10 "MARKET" None []
              validate_symbol_btcusdt validate_side_buy Hmin Hsmall Hd)
    as (Hrun & _ & Htwap).
  split; [exact Hrun | apply Htwap].
Defined.

(** ** Acknowledged orders that are recorded as failed *)

Lemma send_all_answers {W} (api : request -> W -> result response * W)
      (P : result response -> Prop) (reqs : list request) (w : W) :
  (forall req w0, P (fst (api req w0))) ->
  Forall P (fst (send_all api reqs w)).
Proof.
  intros HP. revert w. induction reqs as [| req rest IH]; intros w.
  - constructor.
  - cbn [send_all]. pose proof (HP req w) as Hreq.
    destruct (api req w) as [out w1]. specialize (IH w1).
    destruct (send_all api rest w1) as [outs w2]. constructor; assumption.
Qed.

Lemma collect_nothing {A B} (f : A -> option B) (xs : list A) :
  Forall (fun a => f a = None) xs -> collect f xs = [].
Proof.
  induction 1 as [| a rest Ha _ IH]; [reflexivity |].
  cbn [collect]. now rewrite Ha.
Qed.

Lemma collect_all {A B} (f : A -> option B) (Q : B -> Prop) (xs : list A) :
  (forall a b, In a xs -> f a = Some b -> Q b) -> Forall Q (collect f xs).
Proof.
  induction xs as [| a rest IH]; intros HQ; [constructor |].
  cbn [collect]. destruct (f a) as [b |] eqn:Hfa.
  - constructor.
    + apply (HQ a b); [now left | assumption].
    + apply IH. intros a' b' Hin. apply HQ. now right.
  - apply IH. intros a' b' Hin. apply HQ. now right.
Qed.

Lemma forall_combine_right {A B} (P : B -> Prop) (xs : list A) (ys : list B) :
  Forall P ys -> Forall (fun a => P (snd a)) (combine xs ys).
Proof.
  intros HP. apply Forall_forall. intros [a b] Hin.
  apply in_combine_r in Hin. rewrite Forall_forall in HP. now apply HP.
Qed.

(** X20. The TWAP loop reads the executed amounts inside its try block,
    before it appends the chunk.  When the exchange acknowledges every order
    with an executedQty that float() rejects, place_twap_order, once past
    its validation, sends all its orders and records every chunk as failed,
    with the message of the conversion error, which quotes the value; no
    chunk counts as executed, and the success rate, the total executed and
    the average price of the dictionary are 0, although all the orders were
    acknowledged.  The call then raises the TypeError of the logger. *)
Theorem acknowledged_chunks_reported_failed (W : Type)
        (api : request -> W -> result response * W)
        symbol side total duration n order_type price tif w text
        s sd tq pr cq :
  (forall req w0, exists r, fst (api req w0) = Ok r /\
                            executedQty r = Unparsable text) ->
  twap_prepare symbol side total duration n order_type price
  = Ok (s, sd, tq, pr, cq) ->
  exists rep w',
    twap_order_result W api symbol side total duration n order_type price
                      tif w = (Ok rep, w') /\
    place_twap_order W api symbol side total duration n order_type price tif w
    = (Raise (TypeError BotLogger.unexpected_keyword), w') /\
    w' = snd (send_all api
                (map (fun _ => chunk_request s sd order_type pr tif cq)
                     (range n)) w) /\
    tw_executed_chunks rep = [] /\
    tw_failed_chunks rep
    = map (fun i => {| fc_chunk_index := i + 1; fc_quantity := cq;
                       fc_error := "could not convert string to float: "
                                     ++ text |})
          (range n) /\
    tw_success_rate rep = 0 /\
    tw_total_executed rep = 0 /\ tw_average_price rep = 0.
Proof.
  intros Hack Hprep.
  destruct (twap_order_result_built W api _ _ _ _ _ _ _ tif w _ _ _ _ _ Hprep)
    as (rep & w' & H).
  exists rep, w'. split; [exact H |].
  split; [eapply place_twap_order_raises; exact H |].
  destruct (twap_order_result_fields W api _ _ _ _ _ _ _ _ _ _ _ _ _ _ _ _
              Hprep H) as (Hs & Hsd & Ht & _ & Hn & _ & Hot & Hpr).
  pose proof (twap_order_result_guarded W api _ _ _ _ _ _ _ _ _ _ _ H) as Hg.
  apply twap_order_result_execution in H. destruct H as (_ & Hex).
  unfold twap_execution in Hex.
  rewrite Hs, Hsd, Ht, Hn, Hot, Hpr in Hex.
  apply twap_prepare_inv in Hprep.
  destruct Hprep as (_ & _ & _ & Hcq & _). rewrite <- Hcq in Hex.
  destruct Hex as (Hw & Hexec & Hfail & _ & _ & _ & Hrate).
  set (reqs := map (fun _ : Z => chunk_request s sd order_type pr tif cq)
                   (range n)) in *.
  set (err := ValueError ("could not convert string to float: " ++ text)).
  assert (Houts : Forall (fun out => chunk_parse out = Raise err)
                         (fst (send_all api reqs w))).
  { apply send_all_answers. intros req w0.
    destruct (Hack req w0) as (r & -> & Hr).
    unfold chunk_parse. cbn [bind]. now rewrite Hr. }
  assert (Hall : Forall (fun a : Z * result response =>
                           chunk_parse (snd a) = Raise err)
                        (combine (range n) (fst (send_all api reqs w))))
    by exact (forall_combine_right
                (fun out => chunk_parse out = Raise err) _ _ Houts).
  assert (Hnone : tw_executed_chunks rep = []).
  { rewrite Hexec. apply collect_nothing.
    apply (Forall_impl _ (P := fun a => chunk_parse (snd a) = Raise err));
      [| exact Hall].
    intros a Ha. unfold executed_of. now rewrite Ha. }
  rewrite Hnone in Hrate. cbn [List.length INR] in Hrate.
  unfold average_price_guarded in Hg. rewrite Hnone in Hg.
  destruct Hg as (Hte & _ & _ & _ & Havg).
  split; [exact Hw |]. split; [exact Hnone |].
  split; [| split; [| split]].
  - rewrite Hfail.
    assert (Hlen : List.length (fst (send_all api reqs w))
                   = List.length (range n)).
    { rewrite send_all_length. unfold reqs. apply length_map. }
    rewrite <- (map_fst_combine_same (range n) (fst (send_all api reqs w)) Hlen)
      at 2.
    rewrite map_map. apply map_ext_in. intros a Hin.
    rewrite Forall_forall in Hall. specialize (Hall a Hin). cbn beta in Hall.
    unfold chunk_failure_of. now rewrite Hall.
  - rewrite Hrate. unfold Rdiv. ring.
  - rewrite Hte. apply pysum_nil.
  - now apply Havg.
Qed.

(** Two market chunks, both acknowledged as FILLED with an amount that does
    not parse. *)
Lemma acknowledged_chunks_reported_failed_witness :
  exists rep w',
    twap_order_result
      (list request)
      (scripted (fun _ => false)
                {| orderId := Some 7%Z; status := Some "FILLED";
                   executedQty := Unparsable "'n/a'";
                   cummulativeQuoteQty := Num 0 |})
      "BTCUSDT" "BUY" 1 1 2 "MARKET" None "GTC" []
    = (Ok rep, w') /\
    place_twap_order
      (list request)
      (scripted (fun _ => false)
                {| orderId := Some 7%Z; status := Some "FILLED";
                   executedQty := Unparsable "'n/a'";
                   cummulativeQuoteQty := Num 0 |})
      "BTCUSDT" "BUY" 1 1 2 "MARKET" None "GTC" []
    = (Raise (TypeError BotLogger.unexpected_keyword), w') /\
    List.length w' = 2%nat /\
    tw_executed_chunks rep = [] /\
    map fc_error (tw_failed_chunks rep)
    = ["could not convert string to float: 'n/a'";
       "could not convert string to float: 'n/a'"] /\
    tw_success_rate rep = 0.
Proof.
  set (api := scripted (fun _ => false)
                {| orderId := Some 7%Z; status := Some "FILLED";
                   executedQty := Unparsable "'n/a'";
                   cummulativeQuoteQty := Num 0 |}).
  assert (Hprep : twap_prepare "BTCUSDT" "BUY" 1 1 2 "MARKET" None
                  = Ok ("BTCUSDT", "BUY", 1, None, 1 / IZR 2)).
  { apply twap_prepare_market_ok; try reflexivity; try lia;
      unfold min_quantity, max_quantity; lra. }
  assert (Hack : forall req w0, exists r, fst (api req w0) = Ok r /\
                                          executedQty r = Unparsable "'n/a'").
  { intros req w0. eexists. split; reflexivity. }
  destruct (acknowledged_chunks_reported_failed (list request) api
              "BTCUSDT" "BUY" 1 1%Z 2%Z "MARKET" None "GTC" [] "'n/a'"
              _ _ _ _ _ Hack Hprep)
    as (rep & w' & Hrun & Hplace & Hw & Hex & Hfl & Hrate & _).
  exists rep, w'. split; [exact Hrun |]. split; [exact Hplace |].
  split; [rewrite Hw; reflexivity |]. split; [exact Hex |].
  split; [rewrite Hfl; reflexivity | exact Hrate].
Defined.

(** * The order managers *)

Import OrderManagers.

Lemma and_then_ok {W A B} (m : action W A) (k : A -> action W B)
      (w w' : W) (b : B) :
  and_then m k w = (Ok b, w') ->
  exists a w1, m w = (Ok a, w1) /\ k a w1 = (Ok b, w').
Proof.
  unfold and_then. destruct (m w) as [[a | e] w1]; [eauto | discriminate].
Qed.

Lemma pure_ok {W A} (r : result A) (w w1 : W) (a : A) :
  pure r w = (Ok a, w1) -> r = Ok a /\ w1 = w.
Proof. unfold pure. intros [= -> ->]. auto. Qed.

Lemma and_then_pure {W A B} (r : result A) (k : A -> action W B) (w : W) :
  and_then (pure r) k w
  = match r with Ok a => k a w | Raise e => (Raise e, w) end.
Proof. unfold and_then, pure. now destruct r. Qed.

(** One step of an accepted run: a call to the exchange. *)
Ltac asked H a w1 Ha :=
  apply and_then_ok in H; destruct H as (a & w1 & Ha & H).

(** One step of an accepted run: a computation without the exchange. *)
Ltac computed H a Ha :=
  let w1 := fresh "w" in
  let Hw := fresh "Hw" in
  apply and_then_ok in H; destruct H as (a & w1 & Ha & H);
  apply pure_ok in Ha; destruct Ha as (Ha & Hw); subst w1.

Lemma validate_limit_order_params_inv symbol side quantity price tif p :
  validate_limit_order_params symbol side quantity price tif = Ok p ->
  validate_symbol symbol = Ok (lp_symbol p) /\
  validate_side side = Ok (lp_side p) /\
  lp_quantity p = quantity /\ min_quantity <= quantity <= max_quantity /\
  lp_price p = price /\ min_price <= price <= max_price /\
  validate_time_in_force tif = Ok (lp_time_in_force p).
Proof.
  intros H. unfold validate_limit_order_params in H.
  bind_inv H s Hs. bind_inv H sd Hsd. bind_inv H q Hq. bind_inv H pr Hpr.
  bind_inv H t Ht. inversion H; subst p; clear H. cbn.
  apply validate_quantity_inv in Hq. destruct Hq as [-> Hq].
  apply validate_price_inv in Hpr. destruct Hpr as [-> Hpr]. auto 10.
Qed.

Lemma validate_market_order_params_inv symbol side quantity p :
  validate_market_order_params symbol side quantity = Ok p ->
  validate_symbol symbol = Ok (mp_symbol p) /\
  validate_side side = Ok (mp_side p) /\
  mp_quantity p = quantity /\ min_quantity <= quantity <= max_quantity.
Proof.
  intros H. unfold validate_market_order_params in H.
  bind_inv H s Hs. bind_inv H sd Hsd. bind_inv H q Hq.
  inversion H; subst p; clear H. cbn.
  apply validate_quantity_inv in Hq. destruct Hq as [-> Hq]. auto.
Qed.

Lemma validate_side_values (side sd : string) :
  validate_side side = Ok sd ->
  sd = strip (upper side) /\ (sd = "BUY" \/ sd = "SELL").
Proof.
  intros H. apply validate_side_iff in H. destruct H as (_ & <- & Hin).
  split; [reflexivity |]. simpl in Hin. intuition.
Qed.

Lemma validate_symbol_value (symbol s : string) :
  validate_symbol symbol = Ok s -> s = strip (upper symbol).
Proof.
  intros H. apply validate_symbol_iff in H. now destruct H as (_ & <- & _).
Qed.

(** ** Market orders by quote amount *)

Lemma place_market_order_mapping (W : Type)
      (get_ticker_price : string -> action W R)
      (submit : order -> action W response)
      symbol side d reduce_only w :
  exists msg,
    place_market_order W get_ticker_price submit symbol side (Mapping d)
                       reduce_only w
    = (Raise (ValidationError msg), w) /\
    (forall s sd, validate_symbol symbol = Ok s -> validate_side side = Ok sd ->
                  msg = "Quantity must be a valid number").
Proof.
  unfold place_market_order. rewrite and_then_pure.
  unfold validate_market_order_params_arg.
  destruct (validate_symbol symbol) as [s | e] eqn:Hs.
  - cbn [bind]. destruct (validate_side side) as [sd | e] eqn:Hsd.
    + cbn [bind validate_quantity_arg]. eexists. split; [reflexivity |]. auto.
    + cbn [bind]. apply validate_side_raises in Hsd. destruct Hsd as (msg & ->).
      exists msg. split; [reflexivity |]. intros s' sd' _ Hsd'. discriminate.
  - cbn [bind]. apply validate_symbol_raises in Hs. destruct Hs as (msg & ->).
    exists msg. split; [reflexivity |]. intros s' sd' Hs'. discriminate.
Qed.

(** X21. place_market_order_with_usdt never places an order and never
    returns a response: it hands the dictionary of
    calculate_quantity_from_usdt to place_market_order as the quantity,
    which the quantity validator refuses.  The call raises whatever the
    arguments and the exchange; all the exchange sees is the one price
    query of the calculation.  When the calculation succeeds and the symbol
    and the side are supported, the error is the ValidationError 'Quantity
    must be a valid number'. *)
Theorem usdt_market_order_never_placed (W : Type)
        (get_ticker_price : string -> action W R)
        (submit : order -> action W response)
        symbol side usdt_amount reduce_only w :
  (exists e,
      place_market_order_with_usdt W get_ticker_price submit symbol side
                                   usdt_amount reduce_only w
      = (Raise e, snd (get_ticker_price symbol w))) /\
  (forall d w1 s sd,
      calculate_quantity_from_usdt W get_ticker_price symbol usdt_amount w
      = (Ok d, w1) ->
      validate_symbol symbol = Ok s -> validate_side side = Ok sd ->
      uq_quantity d * uq_price d = usdt_amount /\
      place_market_order_with_usdt W get_ticker_price submit symbol side
                                   usdt_amount reduce_only w
      = (Raise (ValidationError "Quantity must be a valid number"), w1)).
Proof.
  split.
  - unfold place_market_order_with_usdt, calculate_quantity_from_usdt.
    unfold and_then at 1 2.
    destruct (get_ticker_price symbol w) as [[p | e] w1]; cbn [snd];
      [| eauto].
    rewrite and_then_pure.
    destruct (pydiv usdt_amount p) as [q | e]; [| eauto].
    rewrite and_then_pure.
    destruct (validate_quantity q) as [q' | e]; [| eauto].
    unfold ret.
    destruct (place_market_order_mapping W get_ticker_price submit symbol side
                {| uq_quantity := q'; uq_price := p;
                   uq_usdt_amount := usdt_amount |} reduce_only w1)
      as (msg & -> & _).
    eauto.
  - intros d w1 s sd Hcalc Hs Hsd.
    unfold place_market_order_with_usdt. unfold and_then at 1.
    rewrite Hcalc.
    destruct (place_market_order_mapping W get_ticker_price submit symbol side
                d reduce_only w1) as (msg & Hrun & Hmsg).
    rewrite Hrun, (Hmsg s sd Hs Hsd). split; [| reflexivity].
    unfold calculate_quantity_from_usdt in Hcalc.
    asked Hcalc p w2 Hp. computed Hcalc q Hq. computed Hcalc q' Hq'.
    unfold ret in Hcalc. injection Hcalc as <- <-. cbn.
    apply validate_quantity_inv in Hq'. destruct Hq' as [-> _].
    unfold pydiv in Hq. destruct (Req_dec_T p 0); [discriminate |].
    injection Hq as <-. field. assumption.
Qed.

(** 100 USDT of BTCUSDT at 50000: the quantity 0.002 is valid, the price is
    asked once and no order is sent. *)
Lemma usdt_market_order_never_placed_witness :
  place_market_order_with_usdt (list call) (quoting 50000)
                               (accepting (filled 0 0))
                               "BTCUSDT" "BUY" 100 false []
  = (Raise (ValidationError "Quantity must be a valid number"),
     [AskPrice "BTCUSDT"]).
Proof.
  destruct (usdt_market_order_never_placed (list call) (quoting 50000)
              (accepting (filled 0 0)) "BTCUSDT" "BUY" 100 false [])
    as (_ & Hvalid).
  refine (proj2 (Hvalid {| uq_quantity := 100 / 50000; uq_price := 50000;
                           uq_usdt_amount := 100 |}
                        [AskPrice "BTCUSDT"] "BTCUSDT" "BUY" _
                        validate_symbol_btcusdt validate_side_buy)).
  unfold calculate_quantity_from_usdt, and_then, quoting. cbn [app].
  unfold pure. rewrite pydiv_ok by lra.
  rewrite validate_quantity_ok by (unfold min_quantity, max_quantity; lra).
  reflexivity.
Defined.

(** ** Limit orders by quote amount and by distance from the market *)

Lemma place_limit_order_ok (W : Type)
      (get_ticker_price : string -> action W R)
      (submit : order -> action W response)
      symbol side quantity price tif reduce_only w r w' :
  place_limit_order W get_ticker_price submit symbol side quantity price tif
                    reduce_only w = (Ok r, w') ->
  exists tif' current_price w1,
    validate_time_in_force tif = Ok tif' /\
    (strip (upper side) = "BUY" \/ strip (upper side) = "SELL") /\
    min_quantity <= quantity <= max_quantity /\
    min_price <= price <= max_price /\
    get_ticker_price (strip (upper symbol)) w = (Ok current_price, w1) /\
    submit (PlaceLimitOrder (strip (upper symbol)) (strip (upper side))
                            quantity price tif' reduce_only) w1
    = (Ok r, w').
Proof.
  intros H. unfold place_limit_order in H.
  computed H params Hparams. asked H p w1 Hp.
  apply validate_limit_order_params_inv in Hparams.
  destruct Hparams as (Hs & Hsd & Hq & Hqr & Hpr & Hprr & Htif).
  apply validate_symbol_value in Hs. apply validate_side_values in Hsd.
  destruct Hsd as (Hsd & Hside).
  rewrite Hs, Hsd, Hq, Hpr in *.
  exists (lp_time_in_force params), p, w1. auto 10.
Qed.

(** X22. place_limit_order_with_usdt divides before it validates: a price
    of 0 raises a ZeroDivisionError whatever the other arguments, and
    nothing reaches the exchange.  When the call returns a response, the
    order that was submitted is a limit order on the normalised symbol and
    side at the given price, its quantity is usdt_amount / price, a valid
    quantity, so that quantity times price is the amount asked for. *)
Theorem limit_order_with_usdt_amount (W : Type)
        (get_ticker_price : string -> action W R)
        (submit : order -> action W response)
        symbol side usdt_amount price tif reduce_only w :
  (price = 0 ->
   place_limit_order_with_usdt W get_ticker_price submit symbol side
                               usdt_amount price tif reduce_only w
   = (Raise ZeroDivisionError, w)) /\
  (forall r w',
      place_limit_order_with_usdt W get_ticker_price submit symbol side
                                  usdt_amount price tif reduce_only w
      = (Ok r, w') ->
      exists tif' current_price w1,
        validate_time_in_force tif = Ok tif' /\
        get_ticker_price (strip (upper symbol)) w = (Ok current_price, w1) /\
        submit (PlaceLimitOrder (strip (upper symbol)) (strip (upper side))
                                (usdt_amount / price) price tif' reduce_only)
               w1 = (Ok r, w') /\
        usdt_amount / price * price = usdt_amount /\
        min_quantity <= usdt_amount / price <= max_quantity /\
        min_price <= price <= max_price /\
        min_quantity * min_price <= usdt_amount).
Proof.
  split.
  - intros ->. unfold place_limit_order_with_usdt.
    rewrite and_then_pure, pydiv_zero. reflexivity.
  - intros r w' H. unfold place_limit_order_with_usdt in H.
    computed H q Hq. computed H q' Hq'.
    apply validate_quantity_inv in Hq'. destruct Hq' as [-> _].
    unfold pydiv in Hq. destruct (Req_dec_T price 0) as [| Hp]; [discriminate |].
    injection Hq as <-.
    apply place_limit_order_ok in H.
    destruct H as (tif' & p & w1 & Htif & _ & Hqr & Hpr & Hask & Hsub).
    exists tif', p, w1.
    assert (Heq : usdt_amount / price * price = usdt_amount) by (field; exact Hp).
    repeat (split; try assumption); try tauto.
    rewrite <- Heq. unfold min_quantity, min_price in *. nra.
Qed.

(** 100 USDT of BTCUSDT at 50000: a limit order for 0.002. *)
Lemma limit_order_with_usdt_amount_witness :
  exists log,
    place_limit_order_with_usdt (list call) (quoting 50500)
                                (accepting (filled 0 0))
                                " btcusdt" "buy" 100 50000 "" false []
    = (Ok (filled 0 0), log) /\
    orders_of log
    = [PlaceLimitOrder "BTCUSDT" "BUY" (100 / 50000) 50000 "GTC" false].
Proof.
  destruct (place_limit_order_with_usdt (list call) (quoting 50500)
              (accepting (filled 0 0)) " btcusdt" "buy" 100 50000 "" false [])
    as [[r | e] log] eqn:Hrun.
  - destruct (limit_order_with_usdt_amount (list call) (quoting 50500)
                (accepting (filled 0 0)) " btcusdt" "buy" 100 50000 "" false [])
      as (_ & Hok).
    destruct (Hok r log Hrun) as (tif' & p & w1 & Htif & Hask & Hsub & _).
    injection Htif as <-. unfold quoting in Hask. injection Hask as _ <-.
    unfold accepting in Hsub. injection Hsub as <- <-.
    eexists. split; [reflexivity |]. reflexivity.
  - exfalso. revert Hrun.
    unfold place_limit_order_with_usdt. rewrite and_then_pure.
    rewrite pydiv_ok by lra. rewrite and_then_pure.
    rewrite validate_quantity_ok by (unfold min_quantity, max_quantity; lra).
    unfold place_limit_order. rewrite and_then_pure.
    unfold validate_limit_order_params.
    replace (validate_symbol " btcusdt") with (Ok "BTCUSDT") by reflexivity.
    replace (validate_side "buy") with (Ok "BUY") by reflexivity.
    cbn [bind].
    rewrite validate_quantity_ok by (unfold min_quantity, max_quantity; lra).
    cbn [bind].
    rewrite validate_price_ok by (unfold min_price, max_price; lra).
    cbn [bind]. discriminate.
Defined.

(** X23. place_buy_below_market and place_sell_above_market ask the price
    twice: first with the symbol as given, then, inside place_limit_order,
    with the normalised symbol.  The order they submit is priced from the
    first answer, current * (1 - offset / 100) for the buy and
    current * (1 + offset / 100) for the sell, is good till cancelled and
    not reduce-only; the second answer is not used.  For a positive first
    answer the buy is below it exactly when the offset is positive, and is
    only submitted for an offset below 100; the sell is above it exactly
    when the offset is positive. *)
Theorem orders_beside_the_market (W : Type)
        (get_ticker_price : string -> action W R)
        (submit : order -> action W response)
        symbol quantity offset w r w' :
  (place_buy_below_market W get_ticker_price submit symbol quantity offset w
   = (Ok r, w') ->
   exists current w1 second w2,
     get_ticker_price symbol w = (Ok current, w1) /\
     get_ticker_price (strip (upper symbol)) w1 = (Ok second, w2) /\
     submit (PlaceLimitOrder (strip (upper symbol)) "BUY" quantity
                             (current * (1 - offset / 100)) "GTC" false) w2
     = (Ok r, w') /\
     (0 < current ->
      offset < 100 /\
      (0 < offset <-> current * (1 - offset / 100) < current))) /\
  (place_sell_above_market W get_ticker_price submit symbol quantity offset w
   = (Ok r, w') ->
   exists current w1 second w2,
     get_ticker_price symbol w = (Ok current, w1) /\
     get_ticker_price (strip (upper symbol)) w1 = (Ok second, w2) /\
     submit (PlaceLimitOrder (strip (upper symbol)) "SELL" quantity
                             (current * (1 + offset / 100)) "GTC" false) w2
     = (Ok r, w') /\
     (0 < current ->
      -100 < offset /\
      (0 < offset <-> current < current * (1 + offset / 100)))).
Proof.
  split; intros H.
  - unfold place_buy_below_market in H. asked H current w1 Hask.
    cbv zeta in H. unfold place_limit_buy in H.
    apply place_limit_order_ok in H.
    destruct H as (tif' & second & w2 & Htif & _ & _ & Hpr & Hask2 & Hsub).
    injection Htif as <-.
    replace (strip (upper "BUY")) with "BUY" in Hsub by reflexivity.
    exists current, w1, second, w2. repeat (split; [assumption |]).
    intros Hpos. unfold min_price in Hpr.
    assert (Hfactor : 0 < 1 - offset / 100) by nra.
    split; [lra |]. split; intros; nra.
  - unfold place_sell_above_market in H. asked H current w1 Hask.
    cbv zeta in H. unfold place_limit_sell in H.
    apply place_limit_order_ok in H.
    destruct H as (tif' & second & w2 & Htif & _ & _ & Hpr & Hask2 & Hsub).
    injection Htif as <-.
    replace (strip (upper "SELL")) with "SELL" in Hsub by reflexivity.
    exists current, w1, second, w2. repeat (split; [assumption |]).
    intros Hpos. unfold min_price in Hpr.
    assert (Hfactor : 0 < 1 + offset / 100) by nra.
    split; [lra |]. split; intros; nra.
Qed.

Lemma place_limit_order_returns (W : Type)
      (get_ticker_price : string -> action W R)
      (submit : order -> action W response)
      symbol side quantity price tif reduce_only w p :
  validate_limit_order_params symbol side quantity price tif = Ok p ->
  place_limit_order W get_ticker_price submit symbol side quantity price tif
                    reduce_only w
  = (_ <~ get_ticker_price (lp_symbol p) ;;
     submit (PlaceLimitOrder (lp_symbol p) (lp_side p) (lp_quantity p)
                             (lp_price p) (lp_time_in_force p) reduce_only)) w.
Proof.
  intros Hp. unfold place_limit_order. now rewrite and_then_pure, Hp.
Qed.

(** A buy one percent below 50000. *)
Lemma orders_beside_the_market_witness :
  exists log,
    place_buy_below_market (list call) (quoting 50000) (accepting (filled 0 0))
                           "btcusdt" 1 1 []
    = (Ok (filled 0 0), log) /\
    log = [AskPrice "btcusdt"; AskPrice "BTCUSDT";
           Send (PlaceLimitOrder "BTCUSDT" "BUY" 1 (50000 * (1 - 1 / 100))
                                 "GTC" false)].
Proof.
  destruct (place_buy_below_market (list call) (quoting 50000)
              (accepting (filled 0 0)) "btcusdt" 1 1 [])
    as [[r | e] log] eqn:Hrun.
  - destruct (orders_beside_the_market (list call) (quoting 50000)
                (accepting (filled 0 0)) "btcusdt" 1 1 [] r log) as (Hbuy & _).
    destruct (Hbuy Hrun) as (current & w1 & second & w2 & Hask & Hask2 & Hsub & _).
    unfold quoting in Hask, Hask2. injection Hask as <- <-.
    injection Hask2 as _ <-. unfold accepting in Hsub. injection Hsub as <- <-.
    eexists. split; reflexivity.
  - exfalso. revert Hrun.
    unfold place_buy_below_market, place_limit_buy.
    unfold and_then at 1. unfold quoting at 1.
    rewrite (place_limit_order_returns _ _ _ _ _ _ _ _ _ _
               {| lp_symbol := "BTCUSDT"; lp_side := "BUY"; lp_quantity := 1;
                  lp_price := 50000 * (1 - 1 / 100);
                  lp_time_in_force := "GTC" |}).
    + discriminate.
    + unfold validate_limit_order_params.
      replace (validate_symbol "btcusdt") with (Ok "BTCUSDT") by reflexivity.
      replace (validate_side "BUY") with (Ok "BUY") by reflexivity.
      cbn [bind].
      rewrite validate_quantity_ok by (unfold min_quantity, max_quantity; lra).
      cbn [bind].
      rewrite validate_price_ok by (unfold min_price, max_price; lra).
      reflexivity.
Defined.

(** ** Stop and take-profit orders *)

Lemma validate_stop_price_side (stop_price : R) (side : string)
      (current_price p : R) :
  side = "BUY" \/ side = "SELL" ->
  validate_stop_price stop_price side current_price = Ok p ->
  p = stop_price /\ min_price <= stop_price <= max_price /\
  ((side = "BUY" /\ current_price < stop_price)
   \/ (side = "SELL" /\ stop_price < current_price)).
Proof.
  intros Hside H. unfold validate_stop_price in H.
  bind_inv H p' Hp. apply validate_price_inv in Hp. destruct Hp as [-> Hp].
  destruct Hside as [-> | ->];
    cbn [String.eqb Ascii.eqb Bool.eqb andb] in H.
  - destruct (Rle_dec stop_price current_price); [discriminate |].
    injection H as <-. split; [reflexivity |]. split; [assumption |].
    left. split; [reflexivity | lra].
  - destruct (Rge_dec stop_price current_price); [discriminate |].
    injection H as <-. split; [reflexivity |]. split; [assumption |].
    right. split; [reflexivity | lra].
Qed.

(** X24. Every stop or take-profit order the StopLimitOrderManager submits
    is on the right side of the price the exchange has just quoted: a BUY
    has its stop price strictly above it, a SELL strictly below it, for the
    take-profit orders as for the stop orders.  The order carries the
    normalised symbol and side, which is BUY or SELL.  place_stop_loss_limit
    and place_take_profit_limit are one and the same call of
    place_stop_limit_order: both submit a stop-limit order. *)
Theorem stop_orders_direction (W : Type)
        (get_ticker_price : string -> action W R)
        (submit : order -> action W response)
        symbol side quantity price stop_price tif reduce_only w r w' :
  let s := strip (upper symbol) in
  let sd := strip (upper side) in
  let right_side current :=
    (sd = "BUY" /\ current < stop_price)
    \/ (sd = "SELL" /\ stop_price < current) in
  (place_stop_limit_order W get_ticker_price submit symbol side quantity price
                          stop_price tif reduce_only w = (Ok r, w') ->
   exists tif' current w1,
     get_ticker_price s w = (Ok current, w1) /\ right_side current /\
     submit (PlaceStopLimitOrder s sd quantity price stop_price tif'
                                 reduce_only) w1 = (Ok r, w')) /\
  (place_take_profit_limit_order W get_ticker_price submit symbol side
                                 quantity price stop_price tif reduce_only w
   = (Ok r, w') ->
   exists tif' current w1,
     get_ticker_price s w = (Ok current, w1) /\ right_side current /\
     submit (PlaceTakeProfitLimitOrder s sd quantity price stop_price tif'
                                       reduce_only) w1 = (Ok r, w')) /\
  (place_stop_market_order W get_ticker_price submit symbol side quantity
                           stop_price reduce_only w = (Ok r, w') ->
   exists current w1,
     get_ticker_price s w = (Ok current, w1) /\ right_side current /\
     submit (PlaceStopMarketOrder s sd quantity stop_price reduce_only) w1
     = (Ok r, w')) /\
  (place_take_profit_market_order W get_ticker_price submit symbol side
                                  quantity stop_price reduce_only w
   = (Ok r, w') ->
   exists current w1,
     get_ticker_price s w = (Ok current, w1) /\ right_side current /\
     submit (PlaceTakeProfitMarketOrder s sd quantity stop_price reduce_only)
            w1 = (Ok r, w')) /\
  (place_take_profit_limit W get_ticker_price submit symbol side quantity
                           stop_price price reduce_only w
   = place_stop_loss_limit W get_ticker_price submit symbol side quantity
                           stop_price price reduce_only w /\
   (place_take_profit_limit W get_ticker_price submit symbol side quantity
                            stop_price price reduce_only w = (Ok r, w') ->
    exists current w1,
      get_ticker_price s w = (Ok current, w1) /\ right_side current /\
      submit (PlaceStopLimitOrder s sd quantity price stop_price "GTC"
                                  reduce_only) w1 = (Ok r, w'))).
Proof.
  intros s sd right_side. subst s sd right_side. cbv beta.
  assert (Hlimit : forall tif0 (make : limit_params -> R -> order),
             (validated_params <~
                pure (validate_limit_order_params symbol side quantity price
                                                  tif0) ;;
              current_price <~ get_ticker_price (lp_symbol validated_params) ;;
              validated_stop_price <~
                pure (validate_stop_price stop_price (lp_side validated_params)
                                          current_price) ;;
              submit (make validated_params validated_stop_price)) w
             = (Ok r, w') ->
             exists params current w1,
               validate_limit_order_params symbol side quantity price tif0
               = Ok params /\
               lp_symbol params = strip (upper symbol) /\
               lp_side params = strip (upper side) /\
               lp_quantity params = quantity /\ lp_price params = price /\
               get_ticker_price (strip (upper symbol)) w = (Ok current, w1) /\
               ((strip (upper side) = "BUY" /\ current < stop_price)
                \/ (strip (upper side) = "SELL" /\ stop_price < current)) /\
               submit (make params stop_price) w1 = (Ok r, w')).
  { intros tif0 make H. computed H params Hparams. asked H current w1 Hask.
    computed H sp Hsp. exists params, current, w1.
    pose proof (validate_limit_order_params_inv _ _ _ _ _ _ Hparams)
      as (Hs & Hsd & Hq & _ & Hpr & _ & _).
    apply validate_symbol_value in Hs. apply validate_side_values in Hsd.
    destruct Hsd as (Hsd & Hside).
    apply validate_stop_price_side in Hsp; [| assumption].
    destruct Hsp as (-> & _ & Hdir).
    rewrite Hs, Hsd in *. auto 10. }
  assert (Hmarket : forall (make : market_params -> R -> order),
             (validated_params <~
                pure (validate_market_order_params symbol side quantity) ;;
              current_price <~ get_ticker_price (mp_symbol validated_params) ;;
              validated_stop_price <~
                pure (validate_stop_price stop_price (mp_side validated_params)
                                          current_price) ;;
              submit (make validated_params validated_stop_price)) w
             = (Ok r, w') ->
             exists params current w1,
               mp_symbol params = strip (upper symbol) /\
               mp_side params = strip (upper side) /\
               mp_quantity params = quantity /\
               get_ticker_price (strip (upper symbol)) w = (Ok current, w1) /\
               ((strip (upper side) = "BUY" /\ current < stop_price)
                \/ (strip (upper side) = "SELL" /\ stop_price < current)) /\
               submit (make params stop_price) w1 = (Ok r, w')).
  { intros make H. computed H params Hparams. asked H current w1 Hask.
    computed H sp Hsp. exists params, current, w1.
    pose proof (validate_market_order_params_inv _ _ _ _ Hparams)
      as (Hs & Hsd & Hq & _).
    apply validate_symbol_value in Hs. apply validate_side_values in Hsd.
    destruct Hsd as (Hsd & Hside).
    apply validate_stop_price_side in Hsp; [| assumption].
    destruct Hsp as (-> & _ & Hdir).
    rewrite Hs, Hsd in *. auto 10. }
  split; [| split; [| split; [| split; [| split]]]].
  - intros H.
    apply (Hlimit tif
             (fun p sp => PlaceStopLimitOrder (lp_symbol p) (lp_side p)
                            (lp_quantity p) (lp_price p) sp
                            (lp_time_in_force p) reduce_only)) in H.
    destruct H as (params & current & w1 & _ & Hs & Hsd & Hq & Hpr & Hask
                   & Hdir & Hsub).
    rewrite Hs, Hsd, Hq, Hpr in Hsub. eauto 10.
  - intros H.
    apply (Hlimit tif
             (fun p sp => PlaceTakeProfitLimitOrder (lp_symbol p) (lp_side p)
                            (lp_quantity p) (lp_price p) sp
                            (lp_time_in_force p) reduce_only)) in H.
    destruct H as (params & current & w1 & _ & Hs & Hsd & Hq & Hpr & Hask
                   & Hdir & Hsub).
    rewrite Hs, Hsd, Hq, Hpr in Hsub. eauto 10.
  - intros H.
    apply (Hmarket
             (fun p sp => PlaceStopMarketOrder (mp_symbol p) (mp_side p)
                            (mp_quantity p) sp reduce_only)) in H.
    destruct H as (params & current & w1 & Hs & Hsd & Hq & Hask & Hdir & Hsub).
    rewrite Hs, Hsd, Hq in Hsub. eauto 10.
  - intros H.
    apply (Hmarket
             (fun p sp => PlaceTakeProfitMarketOrder (mp_symbol p) (mp_side p)
                            (mp_quantity p) sp reduce_only)) in H.
    destruct H as (params & current & w1 & Hs & Hsd & Hq & Hask & Hdir & Hsub).
    rewrite Hs, Hsd, Hq in Hsub. eauto 10.
  - reflexivity.
  - intros H. unfold place_take_profit_limit in H.
    apply (Hlimit "GTC"
             (fun p sp => PlaceStopLimitOrder (lp_symbol p) (lp_side p)
                            (lp_quantity p) (lp_price p) sp
                            (lp_time_in_force p) reduce_only)) in H.
    destruct H as (params & current & w1 & Hparams & Hs & Hsd & Hq & Hpr & Hask
                   & Hdir & Hsub).
    apply validate_limit_order_params_inv in Hparams.
    destruct Hparams as (_ & _ & _ & _ & _ & _ & Htif).
    injection Htif as Htif.
    rewrite Hs, Hsd, Hq, Hpr, <- Htif in Hsub. eauto 10.
Qed.

(** A take-profit SELL is accepted with its trigger below the market, at
    49000 when the exchange quotes 50000. *)
Lemma stop_orders_direction_witness :
  exists log,
    place_take_profit_market_order (list call) (quoting 50000)
                                   (accepting (filled 0 0))
                                   "BTCUSDT" "sell" 1 49000 true []
    = (Ok (filled 0 0), log) /\
    log = [AskPrice "BTCUSDT";
           Send (PlaceTakeProfitMarketOrder "BTCUSDT" "SELL" 1 49000 true)].
Proof.
  destruct (place_take_profit_market_order (list call) (quoting 50000)
              (accepting (filled 0 0)) "BTCUSDT" "sell" 1 49000 true [])
    as [[r | e] log] eqn:Hrun.
  - destruct (stop_orders_direction (list call) (quoting 50000)
                (accepting (filled 0 0)) "BTCUSDT" "sell" 1 0 49000 "" true []
                r log) as (_ & _ & _ & Htp & _).
    destruct (Htp Hrun) as (current & w1 & Hask & _ & Hsub).
    unfold quoting in Hask. injection Hask as _ <-.
    unfold accepting in Hsub. injection Hsub as <- <-.
    eexists. split; reflexivity.
  - exfalso. revert Hrun.
    unfold place_take_profit_market_order. rewrite and_then_pure.
    unfold validate_market_order_params.
    replace (validate_symbol "BTCUSDT") with (Ok "BTCUSDT") by reflexivity.
    replace (validate_side "sell") with (Ok "SELL") by reflexivity.
    cbn [bind].
    rewrite validate_quantity_ok by (unfold min_quantity, max_quantity; lra).
    cbn [bind mp_symbol mp_side mp_quantity].
    unfold and_then at 1. unfold quoting at 1.
    rewrite and_then_pure. unfold validate_stop_price.
    rewrite validate_price_ok by (unfold min_price, max_price; lra).
    cbn [bind String.eqb Ascii.eqb Bool.eqb andb].
    destruct (Rge_dec 49000 50000); [lra | discriminate].
Defined.

(** ** OCO orders *)

Lemma place_oco_order_ok (W : Type)
      (get_ticker_price : string -> action W R)
      (submit : order -> action W response)
      symbol side quantity price stop_price stop_limit_price tif w r w' :
  place_oco_order W get_ticker_price submit symbol side quantity price
                  stop_price stop_limit_price tif w = (Ok r, w')
  <-> exists tif' current w1,
        (symbol <> "" /\ In (strip (upper symbol)) supported_symbols) /\
        (side <> "" /\ In (strip (upper side)) supported_sides) /\
        min_quantity <= quantity <= max_quantity /\
        min_price <= price <= max_price /\
        min_price <= stop_price <= max_price /\
        min_price <= stop_limit_price <= max_price /\
        validate_time_in_force tif = Ok tif' /\
        get_ticker_price (strip (upper symbol)) w = (Ok current, w1) /\
        submit (PlaceOcoOrder (strip (upper symbol)) (strip (upper side))
                              quantity price stop_price stop_limit_price tif')
               w1 = (Ok r, w').
Proof.
  split.
  - intros H. unfold place_oco_order in H.
    computed H params Hparams. asked H current w1 Hask.
    computed H sp Hsp. computed H slp Hslp. computed H tif' Htif.
    apply validate_limit_order_params_inv in Hparams.
    destruct Hparams as (Hs & Hsd & Hq & Hqr & Hpr & Hprr & _).
    apply validate_price_inv in Hsp. destruct Hsp as [-> Hsp].
    apply validate_price_inv in Hslp. destruct Hslp as [-> Hslp].
    pose proof (proj1 (validate_symbol_iff _ _) Hs) as (Hne & Hnorm & Hin).
    pose proof (proj1 (validate_side_iff _ _) Hsd) as (Hne' & Hnorm' & Hin').
    rewrite <- Hnorm, <- Hnorm', Hq, Hpr in *.
    exists tif', current, w1. auto 12.
  - intros (tif' & current & w1 & (Hne & Hin) & (Hne' & Hin') & Hq & Hpr & Hsp
            & Hslp & Htif & Hask & Hsub).
    unfold place_oco_order. rewrite and_then_pure.
    unfold validate_limit_order_params.
    rewrite (proj2 (validate_symbol_iff symbol (strip (upper symbol)))) by auto.
    rewrite (proj2 (validate_side_iff side (strip (upper side)))) by auto.
    cbn [bind]. rewrite validate_quantity_ok by assumption. cbn [bind].
    rewrite validate_price_ok by assumption. cbn [bind].
    replace (validate_time_in_force "GTC") with (Ok "GTC") by reflexivity.
    cbn [bind lp_symbol lp_side lp_quantity lp_price].
    unfold and_then at 1. rewrite Hask.
    rewrite and_then_pure, validate_price_ok by assumption.
    rewrite and_then_pure, validate_price_ok by assumption.
    rewrite and_then_pure, Htif. exact Hsub.
Qed.

(** X25. place_oco_order submits its order whenever its six parameters are
    valid one by one and the exchange quotes a price: it is accepted exactly
    when the symbol and the side are supported, the quantity is a valid
    quantity, the take-profit, stop and stop-limit prices are valid prices,
    the time in force is valid, the price query and the order succeed.  No
    relation between the three prices and the quoted price is required; a
    take profit on the wrong side of the market is submitted as it is. *)
Theorem oco_prices_unchecked (W : Type)
        (get_ticker_price : string -> action W R)
        (submit : order -> action W response)
        symbol side quantity price stop_price stop_limit_price tif w r w' :
  (place_oco_order W get_ticker_price submit symbol side quantity price
                   stop_price stop_limit_price tif w = (Ok r, w')
   <-> exists tif' current w1,
         (symbol <> "" /\ In (strip (upper symbol)) supported_symbols) /\
         (side <> "" /\ In (strip (upper side)) supported_sides) /\
         min_quantity <= quantity <= max_quantity /\
         min_price <= price <= max_price /\
         min_price <= stop_price <= max_price /\
         min_price <= stop_limit_price <= max_price /\
         validate_time_in_force tif = Ok tif' /\
         get_ticker_price (strip (upper symbol)) w = (Ok current, w1) /\
         submit (PlaceOcoOrder (strip (upper symbol)) (strip (upper side))
                               quantity price stop_price stop_limit_price tif')
                w1 = (Ok r, w')) /\
  place_oco_buy W get_ticker_price submit symbol quantity price stop_price
                stop_limit_price tif w
  = place_oco_order W get_ticker_price submit symbol "BUY" quantity price
                    stop_price stop_limit_price tif w /\
  place_oco_sell W get_ticker_price submit symbol quantity price stop_price
                 stop_limit_price tif w
  = place_oco_order W get_ticker_price submit symbol "SELL" quantity price
                    stop_price stop_limit_price tif w.
Proof.
  split; [apply place_oco_order_ok | split; reflexivity].
Qed.

(** A BUY whose take profit, 40000, is below the quoted 50000 and whose stop
    loss, 60000, is above it. *)
Lemma oco_prices_unchecked_witness :
  place_oco_order (list call) (quoting 50000) (accepting (filled 0 0))
                  "BTCUSDT" "BUY" 1 40000 60000 61000 "GTC" []
  = (Ok (filled 0 0),
     [AskPrice "BTCUSDT";
      Send (PlaceOcoOrder "BTCUSDT" "BUY" 1 40000 60000 61000 "GTC")]).
Proof.
  apply (proj1 (oco_prices_unchecked (list call) (quoting 50000)
                  (accepting (filled 0 0)) "BTCUSDT" "BUY" 1 40000 60000 61000
                  "GTC" [] (filled 0 0) _)).
  exists "GTC", 50000, [AskPrice "BTCUSDT"].
  unfold min_quantity, max_quantity, min_price, max_price.
  repeat split; try lra; try discriminate; simpl; auto.
Defined.

(** X26. place_oco_with_percentages chooses its formulas by the side as it
    is given, before any normalisation: the BUY formulas for 'BUY' and the
    SELL formulas for every other string.  When it returns a response it has
    quoted the price twice, first for the symbol as given, and the order it
    submitted carries the normalised symbol and side and the three prices
    computed from the first quote.  For positive percentages and a positive
    quote the BUY formulas give stop limit < stop loss < quote < take profit
    and the SELL formulas take profit < quote < stop loss < stop limit: a
    side given as 'buy' yields a BUY order with the prices of a SELL. *)
Theorem oco_percentage_order (W : Type)
        (get_ticker_price : string -> action W R)
        (submit : order -> action W response)
        symbol side quantity take_profit_percent stop_loss_percent
        stop_limit_offset_percent w r w' :
  place_oco_with_percentages W get_ticker_price submit symbol side quantity
                             take_profit_percent stop_loss_percent
                             stop_limit_offset_percent w = (Ok r, w') ->
  exists current w1 second w2 take_profit stop_loss stop_limit,
    get_ticker_price symbol w = (Ok current, w1) /\
    percentage_prices side current take_profit_percent stop_loss_percent
                      stop_limit_offset_percent
    = (take_profit, stop_loss, stop_limit) /\
    get_ticker_price (strip (upper symbol)) w1 = (Ok second, w2) /\
    submit (PlaceOcoOrder (strip (upper symbol)) (strip (upper side)) quantity
                          take_profit stop_loss stop_limit "GTC") w2
    = (Ok r, w') /\
    (strip (upper side) = "BUY" \/ strip (upper side) = "SELL") /\
    (0 < current -> 0 < take_profit_percent -> 0 < stop_loss_percent ->
     0 < stop_limit_offset_percent ->
     (side = "BUY" ->
      stop_limit < stop_loss /\ stop_loss < current /\ current < take_profit) /\
     (side <> "BUY" ->
      take_profit < current /\ current < stop_loss /\ stop_loss < stop_limit)).
Proof.
  intros H. unfold place_oco_with_percentages in H.
  asked H current w1 Hask.
  destruct (percentage_prices side current take_profit_percent
              stop_loss_percent stop_limit_offset_percent)
    as [[take_profit stop_loss] stop_limit] eqn:Hprices.
  computed H tp Htp. computed H sl Hsl. computed H slim Hslim.
  apply validate_price_inv in Htp. destruct Htp as [-> Htp].
  apply validate_price_inv in Hsl. destruct Hsl as [-> Hsl].
  apply validate_price_inv in Hslim. destruct Hslim as [-> Hslim].
  apply place_oco_order_ok in H.
  destruct H as (tif' & second & w2 & _ & (_ & Hside) & _ & _ & _ & _ & Htif
                 & Hask2 & Hsub).
  injection Htif as <-.
  exists current, w1, second, w2, take_profit, stop_loss, stop_limit.
  repeat (split; [assumption || reflexivity |]).
  split; [simpl in Hside; intuition |].
  intros Hc Htpp Hslp Hoff. unfold min_price in *.
  unfold percentage_prices in Hprices.
  split.
  - intros ->. cbn [String.eqb Ascii.eqb Bool.eqb] in Hprices.
    cbv zeta in Hprices. injection Hprices as <- <- <-.
    assert (0 < current * (1 - stop_loss_percent / 100)) by lra.
    repeat split; nra.
  - intros Hside'. apply String.eqb_neq in Hside'. rewrite Hside' in Hprices.
    cbv zeta in Hprices. injection Hprices as <- <- <-.
    assert (0 < current * (1 + stop_loss_percent / 100)) by lra.
    repeat split; nra.
Qed.

(** The side given as 'buy' at a quote of 50000: a BUY order whose take
    profit is below the quote and whose stop loss is above it. *)
Lemma oco_percentage_order_witness :
  exists log take_profit stop_loss stop_limit,
    place_oco_with_percentages (list call) (quoting 50000)
                               (accepting (filled 0 0))
                               "BTCUSDT" "buy" 1 2 1 (1 / 10) []
    = (Ok (filled 0 0), log) /\
    orders_of log
    = [PlaceOcoOrder "BTCUSDT" "BUY" 1 take_profit stop_loss stop_limit "GTC"] /\
    take_profit < 50000 /\ 50000 < stop_loss /\ stop_loss < stop_limit.
Proof.
  destruct (place_oco_with_percentages (list call) (quoting 50000)
              (accepting (filled 0 0)) "BTCUSDT" "buy" 1 2 1 (1 / 10) [])
    as [[r | e] log] eqn:Hrun.
  - destruct (oco_percentage_order (list call) (quoting 50000)
                (accepting (filled 0 0)) "BTCUSDT" "buy" 1 2 1 (1 / 10) [] r log
                Hrun)
      as (current & w1 & second & w2 & tp & sl & slim & Hask & _ & Hask2
          & Hsub & _ & Horder).
    unfold quoting in Hask, Hask2. injection Hask as <- <-.
    injection Hask2 as _ <-. unfold accepting in Hsub. injection Hsub as <- <-.
    destruct Horder as (_ & Hsell); try lra.
    destruct Hsell as (Htp & Hsl & Hslim); [discriminate |].
    exists ([AskPrice "BTCUSDT"] ++ [AskPrice "BTCUSDT"]
            ++ [Send (PlaceOcoOrder "BTCUSDT" "BUY" 1 tp sl slim "GTC")]),
      tp, sl, slim.
    split; [reflexivity |]. split; [reflexivity |]. auto.
  - exfalso. revert Hrun.
    unfold place_oco_with_percentages.
    unfold and_then at 1. unfold quoting at 1.
    cbn [percentage_prices String.eqb Ascii.eqb Bool.eqb].
    cbv zeta.
    rewrite and_then_pure, validate_price_ok
      by (unfold min_price, max_price; lra).
    rewrite and_then_pure, validate_price_ok
      by (unfold min_price, max_price; lra).
    rewrite and_then_pure, validate_price_ok
      by (unfold min_price, max_price; lra).
    match goal with
    | |- place_oco_order ?W ?t ?s ?sym ?sd ?q ?p ?sp ?slp ?tif ?w = _ -> _ =>
        assert (Hok : place_oco_order W t s sym sd q p sp slp tif w
                      = (Ok (filled 0 0),
                         w ++ [AskPrice "BTCUSDT"]
                           ++ [Send (PlaceOcoOrder "BTCUSDT" "BUY" q p sp slp
                                                   "GTC")]))
    end.
    { apply place_oco_order_ok.
      exists "GTC", 50000, ([] ++ [AskPrice "BTCUSDT"] ++ [AskPrice "BTCUSDT"]).
      unfold min_quantity, max_quantity, min_price, max_price.
      repeat split; try lra; try discriminate; simpl; auto. }
    rewrite Hok. discriminate.
Defined.

(** ** Market and limit orders *)

Lemma validate_market_order_params_arg_number symbol side quantity :
  validate_market_order_params_arg symbol side (Number quantity)
  = validate_market_order_params symbol side quantity.
Proof. reflexivity. Qed.

Lemma validate_market_order_params_ok symbol side quantity :
  (symbol <> "" /\ In (strip (upper symbol)) supported_symbols) ->
  (side <> "" /\ In (strip (upper side)) supported_sides) ->
  min_quantity <= quantity <= max_quantity ->
  validate_market_order_params symbol side quantity
  = Ok {| mp_symbol := strip (upper symbol); mp_side := strip (upper side);
          mp_quantity := quantity |}.
Proof.
  intros (Hne & Hin) (Hne' & Hin') Hq. unfold validate_market_order_params.
  rewrite (proj2 (validate_symbol_iff symbol (strip (upper symbol)))) by auto.
  rewrite (proj2 (validate_side_iff side (strip (upper side)))) by auto.
  cbn [bind]. now rewrite validate_quantity_ok.
Qed.

(** X27. MarketOrderManager.place_market_order returns a response exactly
    when the symbol and the side are supported, the quantity is a valid
    quantity, the exchange quotes a price for the normalised symbol and
    accepts the market order on the normalised symbol and side.  The quoted
    price only goes to the log, yet a failed price query ends the call
    before any order is submitted.  place_market_buy and place_market_sell
    are the call with side BUY and SELL, close_position_market is the call
    with reduce_only set. *)
Theorem market_order_submission (W : Type)
        (get_ticker_price : string -> action W R)
        (submit : order -> action W response)
        symbol side quantity reduce_only w :
  (forall r w',
      place_market_order W get_ticker_price submit symbol side
                         (Number quantity) reduce_only w = (Ok r, w')
      <-> exists current w1,
            (symbol <> "" /\ In (strip (upper symbol)) supported_symbols) /\
            (side <> "" /\ In (strip (upper side)) supported_sides) /\
            min_quantity <= quantity <= max_quantity /\
            get_ticker_price (strip (upper symbol)) w = (Ok current, w1) /\
            submit (PlaceMarketOrder (strip (upper symbol))
                                     (strip (upper side)) quantity reduce_only)
                   w1 = (Ok r, w')) /\
  (forall e w1,
      (symbol <> "" /\ In (strip (upper symbol)) supported_symbols) ->
      (side <> "" /\ In (strip (upper side)) supported_sides) ->
      min_quantity <= quantity <= max_quantity ->
      get_ticker_price (strip (upper symbol)) w = (Raise e, w1) ->
      place_market_order W get_ticker_price submit symbol side
                         (Number quantity) reduce_only w = (Raise e, w1)) /\
  place_market_buy W get_ticker_price submit symbol quantity reduce_only w
  = place_market_order W get_ticker_price submit symbol "BUY"
                       (Number quantity) reduce_only w /\
  place_market_sell W get_ticker_price submit symbol quantity reduce_only w
  = place_market_order W get_ticker_price submit symbol "SELL"
                       (Number quantity) reduce_only w /\
  close_position_market W get_ticker_price submit symbol side quantity w
  = place_market_order W get_ticker_price submit symbol side
                       (Number quantity) true w.
Proof.
  split; [| split; [| repeat split]].
  - intros r w'. split.
    + intros H. unfold place_market_order in H.
      computed H params Hparams. asked H current w1 Hask.
      rewrite validate_market_order_params_arg_number in Hparams.
      apply validate_market_order_params_inv in Hparams.
      destruct Hparams as (Hs & Hsd & Hq & Hqr).
      pose proof (proj1 (validate_symbol_iff _ _) Hs) as (Hne & Hnorm & Hin).
      pose proof (proj1 (validate_side_iff _ _) Hsd) as (Hne' & Hnorm' & Hin').
      rewrite <- Hnorm, <- Hnorm', Hq in *.
      exists current, w1. auto 10.
    + intros (current & w1 & Hs & Hsd & Hq & Hask & Hsub).
      unfold place_market_order. rewrite and_then_pure.
      rewrite validate_market_order_params_arg_number.
      rewrite validate_market_order_params_ok by assumption.
      cbn [mp_symbol mp_side mp_quantity].
      unfold and_then. rewrite Hask. exact Hsub.
  - intros e w1 Hs Hsd Hq Hask.
    unfold place_market_order. rewrite and_then_pure.
    rewrite validate_market_order_params_arg_number.
    rewrite validate_market_order_params_ok by assumption.
    cbn [mp_symbol mp_side mp_quantity].
    unfold and_then. now rewrite Hask.
Qed.

(** Closing a position of 2 ETHUSDT: one price query, one reduce-only market
    order. *)
Lemma market_order_submission_witness :
  close_position_market (list call) (quoting 3000) (accepting (filled 2 6000))
                        "ethusdt" "sell" 2 []
  = (Ok (filled 2 6000),
     [AskPrice "ETHUSDT"; Send (PlaceMarketOrder "ETHUSDT" "SELL" 2 true)]).
Proof.
  destruct (market_order_submission (list call) (quoting 3000)
              (accepting (filled 2 6000)) "ethusdt" "sell" 2 true [])
    as (Hiff & _ & _ & _ & Hclose).
  unfold close_position_market.
  apply (proj2 (Hiff (filled 2 6000) _)).
  exists 3000, [AskPrice "ETHUSDT"].
  unfold min_quantity, max_quantity.
  repeat split; try lra; try discriminate; simpl; auto.
Defined.

(** * The shape of a DCA schedule *)

Lemma geometric_ratio_above_one (lower upper_price : R) (n : Z) :
  0 < lower -> lower < upper_price -> (2 <= n)%Z ->
  1 < geometric_ratio lower upper_price n.
Proof.
  intros Hl Hlu Hn. unfold geometric_ratio.
  assert (Hq : 1 < upper_price / lower).
  { apply Rmult_lt_reg_r with lower; [assumption |].
    unfold Rdiv. rewrite Rmult_assoc, Rinv_l by lra. lra. }
  rewrite <- (Rpower_O (upper_price / lower)) at 1 by lra.
  apply Rpower_lt; [assumption |].
  pose proof (IZR_pred_pos n Hn) as Hpos.
  apply Rdiv_lt_0_compat; lra.
Qed.

Lemma grid_price_increasing (lower upper_price : R) (n : Z)
      (grid_type : string) (prices : list R) (i : Z) :
  0 < lower -> lower < upper_price -> (2 <= n)%Z ->
  _calculate_grid_prices lower upper_price n grid_type = Ok prices ->
  (0 <= i < n - 1)%Z ->
  at_index prices i < at_index prices (i + 1).
Proof.
  intros Hl Hlu Hn Hps Hi. unfold at_index.
  destruct (String.eqb grid_type "GEOMETRIC") eqn:Hg.
  - apply String.eqb_eq in Hg. subst grid_type.
    rewrite geometric_prices_eq in Hps by (lra || assumption).
    injection Hps as <-. rewrite !nth_map_range by lia.
    unfold geometric_price. apply Rmult_lt_compat_l; [assumption |].
    apply Rpower_lt; [now apply geometric_ratio_above_one |].
    apply IZR_lt. lia.
  - rewrite fallback_is_arithmetic, arithmetic_prices_eq in Hps by assumption.
    injection Hps as <-. rewrite !nth_map_range by lia.
    unfold arithmetic_price. pose proof (IZR_pred_pos n Hn) as Hpos.
    rewrite plus_IZR. unfold Rdiv.
    assert (0 < (upper_price - lower) * / IZR (n - 1)).
    { apply Rmult_lt_0_compat; [lra | now apply Rinv_0_lt_compat]. }
    nra.
Qed.

Lemma pysum_upper_bound {A} (b : R) (f : A -> R) (xs : list A) :
  (forall x, In x xs -> f x <= b) ->
  pysum (map f xs) <= INR (List.length xs) * b.
Proof.
  induction xs as [| x rest IH]; intros Hb.
  - simpl. rewrite pysum_nil. lra.
  - cbn [map List.length]. rewrite pysum_cons, S_INR.
    assert (f x <= b) by (apply Hb; now left).
    assert (pysum (map f rest) <= INR (List.length rest) * b)
      by (apply IH; intros y Hy; apply Hb; now right).
    lra.
Qed.

(** X28. The orders of a DCA grid of n >= 2 legs that has passed its
    validation, in exact arithmetic: the prices rise strictly from leg to
    leg, whatever the grid type, so that the quantities fall strictly; each
    quantity is (total_usdt / n) / price; the quantities sum to an amount
    between total_usdt / upper_price and total_usdt / lower_price. *)
Theorem dca_schedule_shape (W : Type)
        (api : request -> W -> result response * W)
        symbol side total upper_price lower_price n grid_type w msg w' :
  (0 < n)%Z ->
  place_dca_grid W api symbol side total upper_price lower_price n grid_type w
  = (Raise (TypeError msg), w') ->
  exists s sd ps qs,
    validate_symbol symbol = Ok s /\ validate_side side = Ok sd /\
    _calculate_grid_prices lower_price upper_price n grid_type = Ok ps /\
    qs = map (fun p => total / IZR n / p) ps /\
    w' = snd (send_all api (grid_orders s (fun _ => sd) "GTC" ps qs) w) /\
    (forall i, (0 <= i < n)%Z ->
       nth_error (grid_orders s (fun _ => sd) "GTC" ps qs) (Z.to_nat i)
       = Some (LimitOrder s sd (at_index qs i) (Some (at_index ps i)) "GTC")) /\
    (forall i, (0 <= i < n - 1)%Z ->
       at_index ps i < at_index ps (i + 1) /\
       at_index qs (i + 1) < at_index qs i) /\
    total / upper_price <= pysum qs <= total / lower_price.
Proof.
  intros Hn0 H. apply place_dca_grid_passed in H.
  destruct H as (s & sd & ps & qs & Hprep & _ & Hw).
  apply dca_prepare_inv in Hprep.
  destruct Hprep as (Hs & Hsd & _ & _ & _ & Ht & Hl & Hlu & Hu & Hnz & Hps & Hqs).
  assert (Hl0 : 0 < lower_price) by (unfold min_price in Hl; lra).
  assert (Hn : (2 <= n)%Z).
  { destruct (Z.eq_dec n 1) as [-> | Hn1]; [| lia].
    rewrite calculate_grid_prices_one_leg in Hps by assumption. discriminate. }
  pose proof (calculate_grid_prices_positive _ _ _ _ _ Hl0 Hlu Hn Hps) as Hpos.
  pose proof (calculate_grid_prices_within _ _ _ _ _ Hl0 Hlu Hn Hps) as Hin.
  pose proof (calculate_grid_prices_length _ _ _ _ _ Hps) as Hlen.
  rewrite dca_quantities_ok in Hqs by assumption. injection Hqs as <-.
  assert (Hn' : 0 < IZR n) by (apply (IZR_lt 0); lia).
  assert (Hper : 0 < total / IZR n) by (apply Rdiv_lt_0_compat; lra).
  assert (Hcount : INR (List.length ps) = IZR n)
    by (rewrite Hlen, INR_IZR_INZ, Z2Nat.id by lia; reflexivity).
  exists s, sd, ps, (map (fun p => total / IZR n / p) ps).
  split; [exact Hs |]. split; [exact Hsd |]. split; [exact Hps |].
  split; [reflexivity |]. split; [exact Hw |].
  split; [| split].
  - intros i Hi.
    apply (grid_orders_nth s (fun _ => sd) "GTC" ps _ n i); try assumption.
    now rewrite length_map.
  - intros i Hi.
    pose proof (grid_price_increasing _ _ _ _ _ i Hl0 Hlu Hn Hps Hi) as Hinc.
    split; [exact Hinc |].
    rewrite !at_index_map by lia.
    assert (Hp : 0 < at_index ps i) by (apply at_index_positive; [assumption | lia]).
    unfold Rdiv. apply Rmult_lt_compat_l; [exact Hper |].
    apply Rinv_lt_contravar; [| exact Hinc].
    apply Rmult_lt_0_compat; lra.
  - rewrite Forall_forall in Hin. split.
    + replace (total / upper_price)
        with (INR (List.length ps) * (total / IZR n / upper_price))
        by (rewrite Hcount; field; lra).
      apply pysum_lower_bound. intros p Hp. specialize (Hin p Hp).
      unfold Rdiv. apply Rmult_le_compat_l; [lra |].
      apply Rinv_le_contravar; lra.
    + replace (total / lower_price)
        with (INR (List.length ps) * (total / IZR n / lower_price))
        by (rewrite Hcount; field; lra).
      apply pysum_upper_bound. intros p Hp. specialize (Hin p Hp).
      unfold Rdiv. apply Rmult_le_compat_l; [lra |].
      apply Rinv_le_contravar; lra.
Qed.

(** 100 USDT over four legs of a geometric grid between 100 and 200:
    between half a unit and one unit is ordered, and the fourth order is
    smaller than the third. *)
Lemma dca_schedule_shape_witness :
  exists w' ps qs,
    place_dca_grid (list request) (scripted (fun _ => false) (filled 0 0))
                   "BTCUSDT" "BUY" 100 200 100 4 "GEOMETRIC" []
    = (Raise (TypeError BotLogger.unexpected_keyword), w') /\
    w' = grid_orders "BTCUSDT" (fun _ => "BUY") "GTC" ps qs /\
    List.length w' = 4%nat /\
    1 / 2 <= pysum qs <= 1 /\
    at_index qs 3 < at_index qs 2.
Proof.
  destruct (place_dca_grid_passes (list request)
              (scripted (fun _ => false) (filled 0 0))
              "BTCUSDT" "BUY" "BTCUSDT" "BUY" 100 200 100 4 "GEOMETRIC" [])
    as (ps0 & Hps0 & _ & _ & Hrun);
    try reflexivity; try lia; try (unfold min_price, max_price; lra).
  assert (Hn : (0 < 4)%Z) by lia.
  destruct (dca_schedule_shape _ _ _ _ _ _ _ _ _ _ _ _ Hn Hrun)
    as (s & sd & ps & qs & Hs & Hsd & Hps & Hqs & Hw & _ & Hmono & Hsum).
  rewrite validate_symbol_btcusdt in Hs. injection Hs as <-.
  rewrite validate_side_buy in Hsd. injection Hsd as <-.
  rewrite Hps0 in Hps. injection Hps as <-. subst qs.
  eexists. exists ps0, (map (fun p => 100 / IZR 4 / p) ps0).
  split; [exact Hrun |].
  split; [now rewrite send_all_scripted |].
  split.
  - rewrite send_all_scripted. cbn [app].
    apply (grid_orders_length _ _ _ _ _ 4).
    + now apply calculate_grid_prices_length in Hps0.
    + rewrite length_map. now apply calculate_grid_prices_length in Hps0.
  - split; [lra |]. apply (Hmono 2%Z). lia.
Defined.

(** * The success rate of a dictionary *)

Lemma rate_reflects_counts (succeeded : nat) (n : Z) (rate : R) :
  (0 < n)%Z -> (succeeded <= Z.to_nat n)%nat ->
  rate = INR succeeded / IZR n * 100 ->
  rate_reflects rate succeeded (Z.to_nat n).
Proof.
  intros Hn Hle ->.
  assert (Hcount : INR (Z.to_nat n) = IZR n)
    by (rewrite INR_IZR_INZ, Z2Nat.id by lia; reflexivity).
  assert (Hn' : 0 < IZR n) by (apply (IZR_lt 0); lia).
  pose proof (pos_INR succeeded) as Hs.
  assert (Hle' : INR succeeded <= IZR n)
    by (rewrite <- Hcount; now apply le_INR).
  assert (Hratio : 0 <= INR succeeded / IZR n <= 1).
  { split.
    - apply Rmult_le_pos; [assumption |]. left. now apply Rinv_0_lt_compat.
    - apply Rmult_le_reg_r with (IZR n); [assumption |].
      unfold Rdiv. rewrite Rmult_assoc, Rinv_l by lra. lra. }
  assert (Hback : INR succeeded / IZR n * IZR n = INR succeeded)
    by (field; lra).
  unfold rate_reflects. rewrite Hcount.
  split; [reflexivity |]. split; [lra |]. split; split.
  - intros H100. apply INR_eq. rewrite Hcount. nra.
  - intros ->. rewrite Hcount. field. lra.
  - intros H0. apply INR_eq. simpl. nra.
  - intros ->. simpl. unfold Rdiv. ring.
Qed.

Lemma collect_combine_length_le {A B C} (f : A * B -> option C)
      (xs : list A) (ys : list B) :
  (List.length (collect f (combine xs ys)) <= List.length xs)%nat.
Proof.
  etransitivity; [apply collect_length_le |].
  rewrite length_combine. apply Nat.le_min_l.
Qed.

(** X29. The success rate of the dictionary that a strategy builds is the
    percentage of its legs (or chunks) that the exchange acknowledged: it
    lies between 0 and 100, it is 100 exactly when every leg is in the
    placed list and 0 exactly when none is.  It says nothing of the failed
    list, which in the three grid strategies and in place_twap_order counts
    every leg; in the volume-profile run the two lists count ten chunks
    together.  For the DCA grid the number of grids is taken positive.  The
    dictionary is not returned: the call raises the TypeError of the
    logger. *)
Theorem success_rate_reflects (W : Type)
        (api : request -> W -> result response * W) :
  (forall symbol side total upper_price lower_price n grid_type tif w rep w',
      grid_order_result W api symbol side total upper_price lower_price n
                        grid_type tif w = (Ok rep, w') ->
      rate_reflects (rep_success_rate rep)
                    (List.length (rep_placed_orders rep)) (Z.to_nat n) /\
      List.length (rep_failed_orders rep) = Z.to_nat n /\
      place_grid_order W api symbol side total upper_price lower_price n
                       grid_type tif w
      = (Raise (TypeError BotLogger.unexpected_keyword), w')) /\
  (forall symbol side base upper_price lower_price n mult grid_type w rep w',
      martingale_grid_result W api symbol side base upper_price lower_price n
                             mult grid_type w = (Ok rep, w') ->
      rate_reflects (rep_success_rate rep)
                    (List.length (rep_placed_orders rep)) (Z.to_nat n) /\
      List.length (rep_failed_orders rep) = Z.to_nat n /\
      place_martingale_grid W api symbol side base upper_price lower_price n
                            mult grid_type w
      = (Raise (TypeError BotLogger.unexpected_keyword), w')) /\
  (forall symbol side total upper_price lower_price n grid_type w rep w',
      (0 < n)%Z ->
      dca_grid_result W api symbol side total upper_price lower_price n
                      grid_type w = (Ok rep, w') ->
      rate_reflects (rep_success_rate rep)
                    (List.length (rep_placed_orders rep)) (Z.to_nat n) /\
      List.length (rep_failed_orders rep) = Z.to_nat n /\
      place_dca_grid W api symbol side total upper_price lower_price n
                     grid_type w
      = (Raise (TypeError BotLogger.unexpected_keyword), w')) /\
  (forall symbol side total duration n order_type price tif w rep w',
      twap_order_result W api symbol side total duration n order_type price
                        tif w = (Ok rep, w') ->
      rate_reflects (tw_success_rate rep)
                    (List.length (tw_executed_chunks rep)) (Z.to_nat n) /\
      List.length (tw_failed_chunks rep) = Z.to_nat n /\
      place_twap_order W api symbol side total duration n order_type price
                       tif w
      = (Raise (TypeError BotLogger.unexpected_keyword), w')) /\
  (forall symbol side total duration profile order_type price w rep w',
      volume_profile_result W api symbol side total duration profile
                            order_type price w = (Ok rep, w') ->
      rate_reflects (tw_success_rate rep)
                    (List.length (tw_executed_chunks rep)) 10 /\
      (List.length (tw_executed_chunks rep)
       + List.length (tw_failed_chunks rep))%nat = 10%nat /\
      place_twap_with_volume_profile W api symbol side total duration profile
                                     order_type price w
      = (Raise (TypeError BotLogger.unexpected_keyword), w')).
Proof.
  assert (Hgrid : forall side_of tif n rep w w',
             (0 < n)%Z -> grid_execution api side_of tif n rep w w' ->
             rate_reflects (rep_success_rate rep)
                           (List.length (rep_placed_orders rep)) (Z.to_nat n) /\
             List.length (rep_failed_orders rep) = Z.to_nat n).
  { intros side_of tif n rep w w' Hn Hex. unfold grid_execution in Hex.
    destruct Hex as (Hidx & _ & Hplaced & _ & Hfailed & _ & _ & Hrate).
    split.
    - apply rate_reflects_counts; try assumption.
      rewrite Hplaced. etransitivity; [apply collect_combine_length_le |].
      match goal with
      | |- (List.length ?l <= _)%nat =>
          replace (List.length l) with (List.length (map fst l))
            by apply length_map
      end.
      rewrite Hidx, length_range. lia.
    - rewrite <- (length_map fo_grid_index), Hfailed.
      unfold leg_numbers. now rewrite length_map, length_seq. }
  split; [| split; [| split; [| split]]].
  - intros until w'. intros H.
    pose proof (grid_order_result_execution W api _ _ _ _ _ _ _ _ _ _ _ H)
      as Hex.
    pose proof (place_grid_order_raises W api _ _ _ _ _ _ _ _ _ _ _ H) as Hr.
    unfold grid_order_result in H.
    destruct (grid_prepare _ _ _ _ _ _ _)
      as [[[[[[[s sd] tq] u] l] ps] qs] | e] eqn:Hprep; [| discriminate].
    apply grid_prepare_inv in Hprep.
    destruct Hprep as (_ & _ & _ & _ & _ & _ & _ & _ & _ & Hn & _).
    destruct (Hgrid _ _ n rep w w' ltac:(lia) Hex). auto.
  - intros until w'. intros H.
    pose proof (martingale_grid_result_execution W api _ _ _ _ _ _ _ _ _ _ _ H)
      as Hex.
    pose proof (place_martingale_grid_raises W api _ _ _ _ _ _ _ _ _ _ _ H)
      as Hr.
    unfold martingale_grid_result in H.
    destruct (martingale_prepare _ _ _ _ _ _ _ _)
      as [[[[[[[s sd] bq] u] l] ps] qs] | e] eqn:Hprep; [| discriminate].
    apply martingale_prepare_inv in Hprep.
    destruct Hprep as (_ & _ & _ & _ & _ & _ & _ & _ & _ & _ & Hn & _).
    destruct (Hgrid _ _ n rep w w' ltac:(lia) Hex). auto.
  - intros until w'. intros Hn H.
    pose proof (dca_grid_result_execution W api _ _ _ _ _ _ _ _ _ _ H) as Hex.
    pose proof (place_dca_grid_raises W api _ _ _ _ _ _ _ _ _ _ H) as Hr.
    destruct (Hgrid _ _ n rep w w' Hn Hex). auto.
  - intros until w'. intros H.
    pose proof (twap_order_result_execution W api _ _ _ _ _ _ _ _ _ _ _ H)
      as (Hnum & Hex).
    pose proof (place_twap_order_raises W api _ _ _ _ _ _ _ _ _ _ _ H) as Hr.
    unfold twap_execution in Hex. rewrite Hnum in Hex.
    destruct Hex as (_ & Hexec & _ & Hfailed & _ & _ & Hrate).
    unfold twap_order_result in H.
    destruct (twap_prepare _ _ _ _ _ _ _)
      as [[[[[s sd] tq] pr] cq] | e] eqn:Hprep; [| discriminate].
    apply twap_prepare_inv in Hprep.
    destruct Hprep as (_ & _ & _ & _ & _ & _ & _ & Hn & _).
    split; [| split; [| exact Hr]].
    + apply rate_reflects_counts; try assumption; [lia |].
      rewrite Hexec. etransitivity; [apply collect_combine_length_le |].
      rewrite length_range. lia.
    + rewrite <- (length_map fc_chunk_index), Hfailed.
      unfold leg_numbers. now rewrite length_map, length_seq.
  - intros until w'. intros H.
    pose proof (place_twap_with_volume_profile_raises W api _ _ _ _ _ _ _ _ _ _
                  H) as Hr.
    apply volume_profile_result_execution in H.
    unfold profile_execution in H.
    destruct H as (pf & qs & _ & _ & _ & _ & _ & _ & _ & _ & Hlen & Hrate).
    split; [| split; [exact Hlen | exact Hr]].
    apply (rate_reflects_counts _ 10); [lia | | exact Hrate].
    change (Z.to_nat 10) with 10%nat. lia.
Qed.

(** Five chunks of which the second is rejected: 80 percent, four chunks
    executed and five recorded as failed. *)
Lemma success_rate_reflects_witness :
  exists rep w',
    twap_order_result (list request) (scripted fails_second (filled 1 100))
                      "BTCUSDT" "BUY" 5 1 5 "MARKET" None "GTC" []
    = (Ok rep, w') /\
    place_twap_order (list request) (scripted fails_second (filled 1 100))
                     "BTCUSDT" "BUY" 5 1 5 "MARKET" None "GTC" []
    = (Raise (TypeError BotLogger.unexpected_keyword), w') /\
    0 <= tw_success_rate rep <= 100 /\
    (tw_success_rate rep = 100
     <-> List.length (tw_executed_chunks rep) = 5%nat) /\
    List.length (tw_failed_chunks rep) = 5%nat.
Proof.
  destruct (twap_order_result_built (list request)
              (scripted fails_second (filled 1 100))
              "BTCUSDT" "BUY" 5 1 5 "MARKET" None "GTC" []
              "BTCUSDT" "BUY" 5 None (5 / IZR 5)) as (rep & w' & Hrun).
  { apply twap_prepare_market_ok; try reflexivity; try lia;
      unfold min_quantity, max_quantity; lra. }
  exists rep, w'. split; [exact Hrun |].
  destruct (success_rate_reflects (list request)
              (scripted fails_second (filled 1 100)))
    as (_ & _ & _ & Htwap & _).
  destruct (Htwap _ _ _ _ _ _ _ _ _ _ _ Hrun)
    as ((_ & Hb & H100 & _) & Hfl & Hr).
  split; [exact Hr |]. split; [exact Hb |].
  split; [exact H100 | exact Hfl].
Defined.

(** * Leverage and market order parameters *)

(** X30. validate_leverage returns an integer leverage unchanged exactly
    when it lies between 1 and 125, both included, and raises the
    ValidationError 'Leverage must be between 1 and 125' otherwise.  The
    parameters validate_market_order_params returns are in normal form: the
    symbol and the side are supported, the quantity is the valid quantity
    given, and validating them again returns them unchanged. *)
Theorem leverage_and_market_params (leverage : Z) (symbol side : string)
        (quantity : R) :
  (forall l, validate_leverage leverage = Ok l
             <-> l = leverage /\ (1 <= leverage <= 125)%Z) /\
  (forall e, validate_leverage leverage = Raise e
             <-> e = ValidationError "Leverage must be between 1 and 125" /\
                 (leverage < 1 \/ 125 < leverage)%Z) /\
  (forall p, validate_market_order_params symbol side quantity = Ok p ->
             In (mp_symbol p) supported_symbols /\
             In (mp_side p) supported_sides /\
             mp_quantity p = quantity /\
             min_quantity <= quantity <= max_quantity /\
             validate_market_order_params (mp_symbol p) (mp_side p)
                                          (mp_quantity p) = Ok p).
Proof.
  split; [| split].
  - intros l. unfold validate_leverage.
    destruct (leverage <? 1)%Z eqn:Hlow; cbn [orb].
    + apply Z.ltb_lt in Hlow. split; [discriminate | lia].
    + apply Z.ltb_ge in Hlow. destruct (leverage >? 125)%Z eqn:Hhigh.
      * apply Z.gtb_lt in Hhigh. split; [discriminate | lia].
      * split; [intros [= <-] | intros (-> & _); reflexivity].
        split; [reflexivity |].
        pose proof (Zgt_cases leverage 125) as Hc. rewrite Hhigh in Hc. lia.
  - intros e. unfold validate_leverage.
    destruct (leverage <? 1)%Z eqn:Hlow; cbn [orb].
    + apply Z.ltb_lt in Hlow.
      split; [intros [= <-]; auto | intros (-> & _); reflexivity].
    + apply Z.ltb_ge in Hlow. destruct (leverage >? 125)%Z eqn:Hhigh.
      * apply Z.gtb_lt in Hhigh.
        split; [intros [= <-]; auto | intros (-> & _); reflexivity].
      * pose proof (Zgt_cases leverage 125) as Hc. rewrite Hhigh in Hc.
        split; [discriminate | lia].
  - intros p Hp.
    pose proof (validate_market_order_params_inv _ _ _ _ Hp)
      as (Hs & Hsd & Hq & Hqr).
    apply validate_symbol_normal in Hs. apply validate_side_normal in Hsd.
    destruct Hs as (Hin & Hs). destruct Hsd as (Hin' & Hsd).
    repeat (split; [assumption |]).
    unfold validate_market_order_params. rewrite Hs, Hsd. cbn [bind].
    rewrite Hq, validate_quantity_ok by assumption. cbn [bind].
    destruct p. cbn in *. now subst.
Qed.

(** The largest leverage, and a market order given in lower case. *)
Lemma leverage_and_market_params_witness :
  validate_leverage 125 = Ok 125%Z /\
  (exists msg, validate_leverage 126 = Raise (ValidationError msg)) /\
  validate_market_order_params "solusdt" "sell " 3
  = Ok {| mp_symbol := "SOLUSDT"; mp_side := "SELL"; mp_quantity := 3 |}.
Proof.
  destruct (leverage_and_market_params 125 "solusdt" "sell " 3) as (Hok & _ & _).
  destruct (leverage_and_market_params 126 "solusdt" "sell " 3) as (_ & Hbad & _).
  split; [apply Hok; split; [reflexivity | lia] |].
  split; [eexists; apply Hbad; split; [reflexivity | lia] |].
  apply validate_market_order_params_ok;
    [split; [discriminate | simpl; auto 20] .. |].
  unfold min_quantity, max_quantity. lra.
Defined.

